(* ===== verification/_CoqProject ===== *)
-Q . S2P
Prelude.v
Types.v
JsArray.v
JsString.v
JsTime.v
BookingList.v
ProfilePage.v
TherapistViews.v
IntakeWizard.v
DirectoryPages.v
TherapistRegistration.v
BookingModal.v
PaymentModal.v
OrderFunction.v
OrderCall.v
AppState.v
AuthForms.v
Widgets.v
AppHandlers.v
AppView.v
AppEvents.v
AppPages.v
AuthFlow.v
AppLayers.v
AppFlow.v
BookingSpec.v
AppRefinement.v
Scenarios.v
PageScenarios.v
