(* ===== verification/Prelude.v ===== *)
(** * Book-my-physiotherapy: a verification development

    The program is a React single-page application (TypeScript) for
    booking physiotherapy appointments.  [App] ([src/App.tsx]) holds the
    whole state in [useState] cells and passes values and callbacks to its
    children; a patient picks a therapist, fills the booking form
    ([BookingModal]), and either books at once or, when the clinic takes
    online payment, pays through the payment modal
    ([PaymentProcessingModal]) whose verified success finalizes the
    booking.  Bookings can be rescheduled, cancelled and given an intake
    form from the profile page.  Visitors sign in through [AuthModal],
    which calls the auth service of Supabase; therapists enter the
    directory through [TherapistRegistrationPage], and the admin page
    lists, edits and deletes them.  The order of a payment is created
    by the edge function [create-razorpay-order], which the payment
    modal invokes.  All logic lives in event handlers that read the
    state of the render that created them and enqueue updates.

    ** How the code is modelled

    A handler is a function of the state [c] it closes over returning an
    [Action]: a transformer of the current state, the composition ([;;])
    of the updates it enqueues, in order.  A functional update
    ([setBookings(prev => ...)]) reads the current state, a plain one
    writes a value computed from [c].  For a click, [c] is the current
    state; [onSuccess] of a payment runs [handlePaymentSuccess] from the
    render in which the payment was started, which may be stale.  What a
    handler does besides updating the state (the request to the sheet,
    timers, the sign-out call, console output) is recorded in the ghost
    list [effects] of the state.  The network, the clock, the checkout
    and the session service are inputs of the events that need them.

    A component with state of its own is a record of its [useState]
    cells with a setter per cell, one definition per handler, [offered]
    (the control of an event is shown and enabled) and [step] or
    [update] (the handler bound to it).  A handler that awaits is split
    at the [await]: the part before it returns the call it makes and
    what waits for the answer, with the values it has closed over; the
    part after it is a function of the answer.  A [World] is the state
    together with what waits, [reachable] the worlds that the offered
    events lead to from the mount.

    ** The files, in order of dependency

    - [Prelude.v] (this file): JavaScript truthiness, [result], [Action]
      and its notations (scope [js_scope]), actions up to the states
      they lead to ([sameAction], with composition as a morphism) and
      [commute], the runs of a step function ([runs], with the sets of
      worlds that are [stable] under it: the runs of [AppFlow.v],
      [BookingSpec.v], [AppRefinement.v], [AuthForms.v] and
      [AuthFlow.v] are instances), the hint database [bmp], the
      rewrite database [js_rw], the tactics [js_case], and lemmas on
      [List.filter] and [Forall2] shared by the components.
    - [Types.v]: [src/types.ts].  One module per interface ([Review],
      [Clinic], [Therapist], [User], [IntakeForm], [Booking]) with the
      source's field names; optional fields are options; a [Date] is
      [JsDate], its time value or [None] for an invalid date.
    - [JsArray.v]: [Array.prototype.sort] as the class [JsSort] (on a
      comparator consistent on the array the result is the sorted stable
      permutation), its instance [insertion_sort], and
      [stable_sort_unique]: every instance returns the same list, so
      nothing depends on the engine's algorithm; [setOf], the elements
      of [new Set(l)] in order.
    - [JsString.v]: [toLowerCase], [includes], [split], [join],
      [substring], [trim], [Number] and [parseInt] on digit strings,
      with the round trips of [split] and [join] and of printing and
      parsing a number.
    - [JsTime.v]: the civil calendar ([daysFromCivil], [civilFromDays],
      both round trips), [new Date(y, m, d)] in local time against the
      class [LocalTime] (the offsets of the time zone), [toISOString] and
      [toDateString].
    - [BookingList.v]: the updates [App] makes to the bookings array
      ([addBooking], [rescheduleBookings], [cancelBookings],
      [attachIntakeForm], [newBooking]) and the invariant [wf_bookings]
      (valid dates, ascending order).
    - [ProfilePage.v]: [src/components/ProfilePage.tsx] and
      [BookingCard.tsx]: upcoming bookings and history, badges, buttons.
    - [TherapistViews.v]: [StarRating.tsx], [TherapistCard.tsx],
      [FeaturedTherapists.tsx] and [TherapistDashboard.tsx]; a rating
      is the rational value of the number.
    - [IntakeWizard.v]: [PatientIntakeForm.tsx] and
      [IntakeFormModal.tsx]: the four-step wizard, its checks, and the
      states it reaches.
    - [DirectoryPages.v]: [AdminPage.tsx] (the rows and their
      callbacks), [HeroSection.tsx] (the search form, the rotating
      placeholder, the popular searches and the queries sent),
      [TherapistProfile.tsx] (the description and its short form, the
      experience, the clinic, the photo viewer) and
      [ViewIntakeFormModal.tsx] ([DetailRow] and the rows shown).
    - [TherapistRegistration.v] (module [TherapistRegistrationPage]):
      the form, the effect of the edit mode ([mount]), every handler,
      [handleSubmit] around its [await] ([validate], then [settle] with
      [therapistData]), the completeness panel, and the worlds of the
      page with the callbacks called.
    - [BookingModal.v]: [src/components/BookingModal.tsx]: the form
      state, [handleConfirmClick], [handleDateChange], [isOnlinePayment].
    - [PaymentModal.v]: [src/components/PaymentProcessingModal.tsx]:
      [initiatePayment] and [verifyPayment] as the machine [react] over
      the outcomes a session waits for, [run] over a sequence of them.
    - [OrderFunction.v]: the handler of
      [src/supabase/functions/create-razorpay-order/index.ts] as the
      function [serve] of the request, the secrets and the answer of
      the gateway.
    - [OrderCall.v]: the call of the payment modal composed with the
      function: [createOrder] is what the modal gets, [asked] what the
      gateway is asked.
    - [AppState.v]: the [useState] cells of [App] as the record
      [AppState], one setter per cell, the effects.
    - [AuthForms.v] (module [AuthModal]): [src/components/AuthModal.tsx]:
      the thirteen cells, [handleEmailSubmit], [handlePhoneSubmit] and
      [handlePasswordReset] around their awaits ([submit], [resume]),
      [switchMode], the safety timer, what the modal shows, and the
      worlds it reaches with the calls it has made.
    - [Widgets.v]: [Header.tsx], [MobileFooterNav.tsx] and the three
      confirmation dialogs, as functions from props to controls.
    - [AppHandlers.v] (module [App]): every handler of [src/App.tsx],
      the listener of session changes included.
    - [AppView.v]: the [return] of [App]: which pages and modals are
      mounted and with which props; [render] is [None] when evaluating
      the JSX throws ([toISOString] of an invalid pending date).
    - [AppEvents.v] (module [Events]): the callbacks [App] hands down
      ([Event]), the handler bound to each ([dispatch]), whether a
      control that raises it is on the page ([offered]), and the
      invariants [Inv] and [AInv] of the state with their preservation
      by every event.
    - [AppPages.v] (modules [Footer] and [Pages]): [Footer.tsx], and
      the props [App] passes to the admin page, the hero form, the
      profile page, the registration page, the auth modal and the view
      of an intake form, as events of [AppEvents.v]; the theorems on
      what these pages and the handlers of [App] do together.
    - [AuthFlow.v]: [App], the auth modals it mounts and the
      authentication service as one transition system.  The class
      [AuthService] is the interface between the modal and [App]: what
      the service answers to a call and whether it notifies the
      listener of [App]; the theorems hold for every instance, and
      [tableService], a table of accounts, is one.
    - [AppLayers.v] (module [Layers]): the eight modals of [App] with
      their guards, their order in the JSX and their z-index; [front] is
      the modal painted in front, [onTop] says that the control of an
      event is not covered.
    - [AppFlow.v] (module [Flow]): the transition system.  A [World] is
      the state of [App], of the mounted booking form and payment modal,
      and the payment sessions in flight, each with the props and the
      closure it started from; [step] runs one [Label] (a click, a form
      event, Retry, a payment outcome, a timer, a session change) to
      completion, [settle] mounts and unmounts what the new state
      renders; [reachable] is closure under [step] from the mount.
    - [BookingSpec.v] (module [Spec]): the booking state machine of the
      specification: the stages, the actions between them and the count
      of the bookings made.
    - [AppRefinement.v] (module [Refinement]): [stage] reads the stage
      off a world, [acts] the actions off a label; [calm] says that one
      thing happens at a time; [CInv] is the invariant of the calm runs;
      [escape] is a way back to the stage where nothing is under way.
    - [Scenarios.v]: the scenarios A to D, the runs on and off the
      state machine, the scenarios that show defects, and the instances
      of the theorems at concrete inputs, all evaluated by the kernel.
    - [PageScenarios.v]: a registration, an edit, a code sent by
      telephone and an order created, run on concrete inputs, and the
      instances of the theorems of the pages.

    ** What the theorems show

    - Lists: [addBooking] and [rescheduleBookings] keep [wf_bookings]
      and are permutations of what they should contain; cancelling and
      attaching a form change one field of the bookings with the id and
      nothing else.
    - Form: [handleConfirmClick] calls [onConfirm] exactly on a complete
      form with a valid date, with the values of the form, and otherwise
      only sets one of two messages; the date typed is the local date
      selected; the payment gate is closed when rescheduling and open
      exactly on a clinic flag that is [true].
    - Payment: a session calls [onSuccess] at most once and only after
      script, order, payment and a verification that did not fail, in
      this order; every failure leaves the modal with a message and the
      retry and close buttons; a session ends after four outcomes at
      most, failed payments apart ([rank] is the measure).
    - Order: the function answers 200 exactly on an [ok] answer of the
      gateway to a request with both secrets, asks for a hundred times
      the amount, and answers 400 with a message otherwise; through the
      client library every failure reaches the user as one fixed text.
    - Handlers: the functional behaviour of [finalizeBooking],
      [handleBookingConfirm] on its three branches,
      [handlePaymentSuccess], the cancel, intake, search, directory and
      session handlers, including their guards.
    - View: the form mounted by [App] and [handleBookingConfirm] agree on
      the payment gate; the profile page and the dashboard list exactly
      the bookings of their user.
    - System: in every reachable world the bookings are well formed,
      every booking was logged once, payment sessions hold what they
      need and [App] evaluates its JSX without throwing; a step adds a
      booking only on a direct confirmation or a verified payment; a
      verified payment always books.
    - Refinement: on the calm runs every step of the application is a
      run of the state machine on the actions of its label, so the
      handlers implement the machine; the bookings made are the intents
      finalized and the payments verified; from every world of these runs
      three steps at most lead back to where nothing is under way.  Each
      condition of [calm] is needed: for each, a run that leaves it out
      and goes off the machine is evaluated.
    - Layers: the modal in front is the mounted one of greatest z-index,
      the last of the JSX among equals; the payment modal whenever it is
      mounted.
    - Views: a rating on the scale is drawn with five stars, one off
      the scale makes [StarRating] throw; the dashboard counts and lists
      the bookings from today on, cancelled ones included.
    - Intake form: whatever way the patient goes through the steps, the
      form submitted has passed every check; the symptoms are never
      asked; the form submitted for a booking is the form shown for it
      afterwards, row by row, a pain level of 0 left out.
    - Registration: [Inv] holds in every world of the page; a submit
      that fails a check sets the message of the first one and calls
      nothing; every therapist handed over is [Submitted] (the type of
      what [App] receives); checking a specialty and unchecking it
      again restores the selection; the percentage of the panel is ten per completed
      check; an edit submitted unchanged hands back the therapist
      ([saved]), the qualifications and the years surviving the round
      trip through the form.
    - Authentication: [Inv] holds in every world of the modal; no run
      calls [verifyOtp] or [updateUser]; only the checks of the
      telephone form can reject what the browser lets through; the
      timer ends a loading state; the modal closes itself only on a
      sign-in or a sign-up with a session; an unmounted modal changes
      nothing.
    - Sign-in: with any service of the class, the first modal of a
      world is mounted exactly when [App] shows the modal and the calls
      in flight are those the handlers wait for; a user appears in
      [App] only when the service accepts a sign-in with a password or
      a sign-up; a filled login form that the service accepts ends
      with the user in [App], on the page of the role, and no modal
      mounted; [onClose] and the listener commute.
    - Pages: the callbacks of the admin, profile and registration pages
      and of the footer are events [App] offers while it shows them; a
      registration appends a therapist who is booked without payment
      and whose profile renders; an edit replaces the therapist by id; a
      popular search lists the therapists of the specialty; the
      placeholder of the hero form cycles with period six.
    - Identifiers: the id of a booking determines its time of creation
      and the id of its therapist, and nothing more.
    - Defects shown by evaluation: a payment verified after sign-out
      books for the signed-out user; pending details survive sign-out
      and are booked by the next user; a payment closed during its
      verification still books; a retry beside an open checkout books
      twice; a click in the 300 ms before the payment modal opens
      changes the therapist who is paid; the confirmation stays open
      after "View My Bookings"; the dashboard of a therapist without a
      profile in the directory throws; a code sent by telephone cannot
      be submitted; a therapist is created after the user has gone back
      from the form; a therapist with no years of experience has a
      stray 0 on the profile page.

    ** Bounds and assumptions

    Numbers are [Z]: the sources compare, subtract and print them, and
    no claim depends on floating point.  The date lemmas assume years
    from 100 (below, [new Date] adds 1900) to 270000 (within the range
    of time values).  [Number] is given on strings of ASCII digits
    with an optional minus sign; [parseInt] skips leading blanks, takes
    a sign and the longest prefix of digits and ignores the rest; white
    space is that of ASCII.  No definition uses fuel: every recursion is
    structural on a list, a string or a number of digits.  [offered]
    takes every control of a mounted component as usable, covered by a
    modal or not, as it is with the keyboard, and [step] goes on after a
    child has thrown while rendering, so the reachable worlds include
    all those of the browser.  [front] assumes the painting order of
    CSS: the greater z-index in front and, at equal z-index, the later
    element of the document.  The calm runs are those in which the user
    acts on the control in front and not while the timer of the payment
    modal runs, a payment session answers only while its modal is
    mounted, Retry is used only once the session before has ended, and
    the session of the auth provider changes only while no details are
    pending; the state machine is proved for these runs and fails
    outside them.  The transition
    system takes any intake form as submitted; what the wizard can
    submit is shown for the wizard alone.  A rating is a rational, the
    exact value of the number; [toFixed] is given below 1e21.  In
    the forms, an input with [required] blocks the submit while it is
    empty and a [disabled] button raises no event, as in the browser;
    the format check of an input of type [email] or [number] is not
    modelled, so the worlds reached include those of the browser.
    [OrderCall.invoke] states what the client library makes of a
    response: the data for a status from 200 to 299, an error with a
    fixed message otherwise.  [AuthService] states what is assumed
    of the authentication service: a call that fails notifies nobody,
    sending a code or a reset link changes no session, an accepted
    sign-in with a password and a sign-up that answers with a session
    notify the listener of [SIGNED_IN].  In [AuthFlow.v] the listener
    runs with the answer of the call; the session changes that come
    from elsewhere (the session found at the mount, a sign-out, a
    refreshed token) are labels of [AppFlow.v].  [SPECIALTIES] and
    [MOCK_THERAPISTS] come from a module outside [src] and are
    parameters of the sections that use them.

    ** Not modelled

    Markup and styling.  [AboutPage.tsx]: static text without props,
    state or handlers.  [lib/supabaseClient.ts]: the address and the
    key of the project and the options of [createClient]; the client is
    a library the sources only call, and its answers are inputs.  The
    sidebar of the registration page: static text.  The argument of
    [encodeURIComponent] in the address of the map is modelled, the
    encoding is not.  The request to the sheet beyond its body.  The
    verification function of the payment is not in the sources; its
    answer is an input of the payment modal. *)

From Stdlib Require Import ZArith Lia.
From stdpp Require Import base tactics option list strings.

Declare Scope js_scope.
Delimit Scope js_scope with js.

(** ** JavaScript truthiness of strings and optional values *)

(** [!!s] for a string: only the empty string is falsy. *)
Definition truthy (s : string) : bool := negb (String.eqb s "").

(** [!!o] for a value that is [undefined]/[null] or a string. *)
Definition opt_truthy (o : option string) : bool :=
  match o with Some s => truthy s | None => false end.

(** [a || b] on strings. *)
Definition str_or (a b : string) : string := if truthy a then a else b.

(** [a || b] where [a] may be missing. *)
Definition opt_str_or (a : option string) (b : string) : string :=
  match a with Some s => str_or s b | None => b end.

(** [!!o] for an object reference that may be [null]. *)
Definition is_some {A} (o : option A) : bool :=
  match o with Some _ => true | None => false end.

(** ** Results of fallible operations *)

Inductive result (A E : Type) : Type :=
| Ok (a : A)
| Err (e : E).
Arguments Ok {A E} a.
Arguments Err {A E} e.

Definition is_ok {A E} (r : result A E) : bool :=
  match r with Ok _ => true | Err _ => false end.

(** ** Actions: the update queue of a handler

    A React handler enqueues state updates; React applies them in order to
    the current state.  An [Action] is that composed transformer. *)

Definition Action (S : Type) : Type := S → S.

Definition skip {S} : Action S := λ s, s.

Definition andThen {S} (a b : Action S) : Action S := λ s, b (a s).

Definition when {S} (c : bool) (a : Action S) : Action S :=
  if c then a else skip.

Notation "a ;; b" := (andThen a b)
  (at level 100, b at level 200, right associativity) : js_scope.

(** Two actions are the same when they take every state to the same
    state; two actions commute when their order does not matter. *)
Definition sameAction {S} : relation (Action S) := pointwise_relation S eq.

Definition commute {S} (a b : Action S) : Prop := sameAction (andThen a b) (andThen b a).

(** ** Runs of a step function

    A component with events is a partial step function: [step w l] is
    the world after the event [l], and [None] when [l] cannot happen in
    [w].  [runs step w ls] is the world after the events [ls] in order,
    [None] as soon as one of them cannot happen. *)
Fixpoint runs {W L} (step : W → L → option W) (w : W) (ls : list L) : option W :=
  match ls with
  | [] => Some w
  | l :: rest => w' ← step w l; runs step w' rest
  end.

(** A set of worlds that no step leaves. *)
Definition stable {W L} (step : W → L → option W) (R : W → Prop) : Prop :=
  ∀ w l w', R w → step w l = Some w' → R w'.

(** ** Tactics of the development *)

Create HintDb bmp discriminated.
Create Rewrite HintDb js_rw.

(** Case analysis on the first [if] or [match] scrutinee of the goal. *)
Ltac js_case :=
  match goal with
  | |- context [if ?c then _ else _] => destruct c eqn:?
  | |- context [match ?c with _ => _ end] => destruct c eqn:?
  end.

(** Same, in a hypothesis. *)
Ltac js_case_in H :=
  match type of H with
  | context [if ?c then _ else _] => destruct c eqn:?
  | context [match ?c with _ => _ end] => destruct c eqn:?
  end.

(** ** Lemmas *)
Lemma truthy_true (s : string) : truthy s = true ↔ s ≠ "".
Proof.
  unfold truthy. rewrite negb_true_iff. split.
  - intros H ->. by rewrite String.eqb_refl in H.
  - intros H. by apply String.eqb_neq.
Qed.

Lemma truthy_false (s : string) : truthy s = false ↔ s = "".
Proof. unfold truthy. rewrite negb_false_iff. apply String.eqb_eq. Qed.

Lemma truthy_case (s : string) : truthy s = true ∧ s ≠ "" ∨ truthy s = false ∧ s = "".
Proof.
  destruct (truthy s) eqn:E; [left | right]; split; try done.
  - by apply truthy_true.
  - by apply truthy_false.
Qed.

Lemma str_or_truthy (a b : string) : truthy b = true → truthy (str_or a b) = true.
Proof. unfold str_or. by destruct (truthy a) eqn:E. Qed.

Lemma opt_str_or_truthy (a : option string) (b : string) :
  truthy b = true → truthy (opt_str_or a b) = true.
Proof. destruct a; simpl; auto using str_or_truthy. Qed.

Lemma is_some_true {A} (o : option A) : is_some o = true ↔ is_Some o.
Proof. destruct o; simpl; split; eauto; try done; by intros [? ?]. Qed.

Lemma is_some_false {A} (o : option A) : is_some o = false ↔ o = None.
Proof. by destruct o. Qed.

Lemma andThen_assoc {S} (a b c : Action S) :
  andThen (andThen a b) c = andThen a (andThen b c).
Proof. reflexivity. Qed.

Lemma andThen_skip_l {S} (a : Action S) (s : S) : andThen skip a s = a s.
Proof. reflexivity. Qed.

Lemma andThen_skip_r {S} (a : Action S) (s : S) : andThen a skip s = a s.
Proof. reflexivity. Qed.

Lemma when_true {S} (a : Action S) : when true a = a.
Proof. reflexivity. Qed.

Lemma when_false {S} (a : Action S) : when false a = skip.
Proof. reflexivity. Qed.

(** Actions up to the states they lead to: composition and guards
    respect the relation, so an action can be replaced by one that
    does the same inside a handler. *)
#[export] Instance sameAction_equivalence {S} : Equivalence (@sameAction S).
Proof. unfold sameAction. apply _. Qed.

#[export] Instance andThen_proper {S} :
  Proper (sameAction ==> sameAction ==> sameAction) (@andThen S).
Proof. intros a a' Ha b b' Hb s. unfold andThen. by rewrite (Ha s), (Hb (a' s)). Qed.

#[export] Instance when_proper {S} (c : bool) : Proper (sameAction ==> sameAction) (@when S c).
Proof. intros a a' Ha. by destruct c. Qed.

Lemma commute_sym {S} (a b : Action S) : commute a b → commute b a.
Proof. unfold commute. by intros ->. Qed.

Lemma commute_skip {S} (a : Action S) : commute a skip.
Proof. by intros s. Qed.

(** An action that commutes with two actions commutes with the one
    after the other. *)
Lemma commute_andThen {S} (a b c : Action S) :
  commute a b → commute a c → commute a (andThen b c).
Proof.
  unfold commute. intros Hb Hc.
  rewrite <- andThen_assoc, Hb, andThen_assoc, Hc. by rewrite andThen_assoc.
Qed.

Lemma commute_when {S} (c : bool) (a b : Action S) : commute a b → commute a (when c b).
Proof. destruct c; [done|]. intros _. apply commute_skip. Qed.

Section Runs.
Context {W L : Type} (step : W → L → option W).

Lemma runs_app (w : W) (ls1 ls2 : list L) :
  runs step w (ls1 ++ ls2) = w' ← runs step w ls1; runs step w' ls2.
Proof.
  revert w. induction ls1 as [|l ls1 IH]; intros w; cbn; [done|].
  destruct (step w l); cbn; [apply IH | done].
Qed.

(** A run stays in a set that no step leaves. *)
Lemma runs_stable (R : W → Prop) (w w' : W) (ls : list L) :
  stable step R → R w → runs step w ls = Some w' → R w'.
Proof.
  intros HR. revert w. induction ls as [|l ls IH]; intros w Hw; cbn; [by intros [= <-]|].
  destruct (step w l) as [w1|] eqn:E; [|done]. cbn. by apply IH, (HR w l).
Qed.

(** A run of a step function is a run of every step function that has
    its steps. *)
Lemma runs_mono (step' : W → L → option W) (w w' : W) (ls : list L) :
  (∀ w l w', step w l = Some w' → step' w l = Some w') →
  runs step w ls = Some w' → runs step' w ls = Some w'.
Proof.
  intros Hs. revert w. induction ls as [|l ls IH]; intros w; cbn; [done|].
  destruct (step w l) as [w1|] eqn:E; [|done]. rewrite (Hs _ _ _ E). cbn. apply IH.
Qed.

End Runs.

Lemma Forall2_reflexive {A} (R : A → A → Prop) (l : list A) :
  (∀ x, R x x) → Forall2 R l l.
Proof. intros HR. induction l; constructor; auto. Qed.

(** [Array.prototype.filter] is [List.filter]. *)
Lemma elem_of_List_filter {A} (f : A → bool) (l : list A) (x : A) :
  x ∈ List.filter f l ↔ x ∈ l ∧ f x = true.
Proof. rewrite !list_elem_of_In. apply filter_In. Qed.

Lemma List_filter_sublist {A} (f : A → bool) (l : list A) : sublist (List.filter f l) l.
Proof.
  induction l as [|x l IH]; simpl; [constructor|].
  destruct (f x); by constructor.
Qed.

Lemma List_filter_length {A} (f : A → bool) (l : list A) :
  (length (List.filter f l) ≤ length l)%nat.
Proof. apply sublist_length, List_filter_sublist. Qed.

(** A filter that keeps every element keeps the list. *)
Lemma List_filter_all {A} (f : A → bool) (l : list A) :
  length (List.filter f l) = length l → List.filter f l = l.
Proof.
  induction l as [|x l IH]; simpl; [done|].
  destruct (f x); simpl.
  - intros [= H]. by rewrite IH.
  - pose proof (List_filter_length f l). lia.
Qed.

#[export] Hint Rewrite truthy_true truthy_false @is_some_false : js_rw.
#[export] Hint Resolve str_or_truthy opt_str_or_truthy : bmp.

Lemma List_filter_replicate {A} (f : A → bool) (n : nat) (x : A) :
  List.filter f (replicate n x) = if f x then replicate n x else [].
Proof.
  induction n as [|n IH]; simpl; [by destruct (f x)|].
  rewrite IH. by destruct (f x).
Qed.

Lemma remove_dups_length {A} `{EqDecision A} (l : list A) :
  (length (remove_dups l) ≤ length l)%nat.
Proof.
  induction l as [|x l IH]; simpl; [done|].
  case_decide; simpl; lia.
Qed.

(** A slice taken from or left of a list that is long enough is not
    empty. *)
Lemma take_nonempty {A} (n : nat) (l : list A) :
  (0 < n)%nat → l ≠ [] → take n l ≠ [].
Proof. intros Hn Hl. destruct n; [lia|]. by destruct l. Qed.

Lemma drop_nonempty {A} (n : nat) (l : list A) : (n < length l)%nat → drop n l ≠ [].
Proof.
  intros Hn E%(f_equal length). rewrite length_drop in E.
  change (length (@nil A)) with 0%nat in E. lia.
Qed.

(** The elements a filter keeps and those it drops make up the list. *)
Lemma List_filter_split_length {A} (f : A → bool) (l : list A) :
  (length (List.filter f l) + length (List.filter (λ x, negb (f x)) l) = length l)%nat.
Proof. induction l as [|x l IH]; [done|]. cbn. destruct (f x); cbn; lia. Qed.
