(* ===== verification/Types.v ===== *)
(** * Types: the data model of [src/types.ts]

    One module per TypeScript interface, a record [t] with the source's
    field names.  An optional field ([email?]) is an [option]; a field the
    sources test defensively although its type is not optional
    ([therapist.clinic?.isOnlinePaymentAvailable === true]) is an [option]
    too, [None] standing for [undefined] or [null].  Numbers that the
    sources only compare, add or print are [Z]; ratings, which have a
    fractional part, are [Q].  A [Date] is a [JsDate.t]. *)

From Stdlib Require Import ZArith QArith.
From stdpp Require Import base tactics option list strings.
From S2P Require Import Prelude.

#[local] Set Primitive Projections.

#[global] Instance Q_eq_dec : EqDecision Q.
Proof. solve_decision. Defined.

(** ** JavaScript [Date]: its time value in milliseconds, [None] when the
    date is invalid ([getTime()] is NaN). *)
Module JsDate.

Record t := mk { getTime : option Z }.

(** [isNaN(d.getTime())] *)
Definition isInvalid (d : t) : bool := negb (is_some (getTime d)).

Definition valid (d : t) : Prop := is_Some (getTime d).

(** A valid date at a given time value. *)
Definition at_ms (ms : Z) : t := mk (Some ms).

(** The invalid date. *)
Definition invalid : t := mk None.

#[global] Instance eq_dec : EqDecision t.
Proof. solve_decision. Defined.

#[global] Instance valid_dec (d : t) : Decision (valid d).
Proof. unfold valid. apply _. Defined.

End JsDate.

Abbreviation JsDate := JsDate.t.

(** ** [interface Review] *)
Module Review.

Record t := mk {
  id : Z;
  patientName : string;
  rating : Q;
  comment : string;
  date : string;
}.

#[global] Instance eq_dec : EqDecision t.
Proof. solve_decision. Defined.

End Review.

Abbreviation Review := Review.t.

(** ** The [clinic] object of a therapist *)
Module Clinic.

Record Timings := mkTimings {
  days : string;
  hours : list string;
}.

Record t := mk {
  name : string;
  address : string;
  rating : Q;
  timings : Timings;
  isOnlinePaymentAvailable : option bool;
  isPrime : bool;
  maxWaitTime : Z;
  isVerified : bool;
  phone : option string;
}.

#[global] Instance Timings_eq_dec : EqDecision Timings.
Proof. solve_decision. Defined.

#[global] Instance eq_dec : EqDecision t.
Proof. solve_decision. Defined.

End Clinic.

Abbreviation Clinic := Clinic.t.

(** ** [interface Therapist] *)
Module Therapist.

Record t := mk {
  id : Z;
  name : string;
  email : option string;
  title : string;
  location : string;
  rating : Q;
  reviewCount : Z;
  specialties : list string;
  description : string;
  qualifications : list string;
  clinicPhotos : list string;
  reviews : list Review;
  fee : Z;
  isProfileClaimed : bool;
  experience : Z;
  specialistExperience : Z;
  patientSatisfaction : Z;
  clinic : option Clinic;
}.

#[global] Instance eq_dec : EqDecision t.
Proof. solve_decision. Defined.

End Therapist.

Abbreviation Therapist := Therapist.t.

(** ** [User['role']] *)
Module Role.

Inductive t := patient | therapist | admin.

#[global] Instance eq_dec : EqDecision t.
Proof. solve_decision. Defined.

End Role.

Abbreviation Role := Role.t.

(** ** [interface User] *)
Module User.

Record t := mk {
  id : string;
  name : string;
  email : option string;
  role : Role;
  therapistId : option Z;
}.

#[global] Instance eq_dec : EqDecision t.
Proof. solve_decision. Defined.

End User.

Abbreviation User := User.t.

(** ** [interface IntakeForm] *)
Module IntakeForm.

Inductive Gender := Male | Female | Other | PreferNotToSay.

Record PersonalInfo := mkPersonalInfo {
  fullName : string;
  dob : string;
  gender : Gender;
}.

Record MedicalHistory := mkMedicalHistory {
  allergies : string;
  medications : string;
  pastSurgeries : string;
  chronicConditions : string;
}.

Record CurrentCondition := mkCurrentCondition {
  primaryComplaint : string;
  symptoms : string;
  painLevel : Z;
  onset : string;
  betterWith : string;
  worseWith : string;
}.

Record Goals := mkGoals {
  patientGoals : string;
}.

Record t := mk {
  personalInfo : PersonalInfo;
  medicalHistory : MedicalHistory;
  currentCondition : CurrentCondition;
  goals : Goals;
}.

#[global] Instance Gender_eq_dec : EqDecision Gender.
Proof. solve_decision. Defined.
#[global] Instance PersonalInfo_eq_dec : EqDecision PersonalInfo.
Proof. solve_decision. Defined.
#[global] Instance MedicalHistory_eq_dec : EqDecision MedicalHistory.
Proof. solve_decision. Defined.
#[global] Instance CurrentCondition_eq_dec : EqDecision CurrentCondition.
Proof. solve_decision. Defined.
#[global] Instance Goals_eq_dec : EqDecision Goals.
Proof. solve_decision. Defined.
#[global] Instance eq_dec : EqDecision t.
Proof. solve_decision. Defined.

End IntakeForm.

Abbreviation IntakeForm := IntakeForm.t.

(** ** [Booking['status']] *)
Module Status.

Inductive t := confirmed | checked_in | completed | cancelled.

#[global] Instance eq_dec : EqDecision t.
Proof. solve_decision. Defined.

End Status.

Abbreviation Status := Status.t.

(** ** [interface Booking] *)
Module Booking.

Record t := mk {
  id : string;
  userId : string;
  patientName : string;
  therapist : Therapist;
  date : JsDate;
  time : string;
  status : option Status;
  intakeForm : option IntakeForm;
  patientEmail : option string;
  phoneNo : option string;
  service : option string;
  isPaid : option bool;
}.

#[global] Instance eq_dec : EqDecision t.
Proof. solve_decision. Defined.

(** [b.status === 'cancelled'] *)
Definition isCancelled (b : t) : bool :=
  bool_decide (status b = Some Status.cancelled).

(** The time value of the appointment date. *)
Definition time_ms (b : t) : option Z := JsDate.getTime (date b).

End Booking.

Abbreviation Booking := Booking.t.

(** ** The details a booking form hands to the application
    ([pendingBookingDetails] in [src/App.tsx], the argument of
    [onConfirm] in [src/components/BookingModal.tsx]) *)
Module BookingDetails.

Record t := mk {
  date : JsDate;
  time : string;
  patientName : string;
  phoneNo : string;
  service : string;
}.

#[global] Instance eq_dec : EqDecision t.
Proof. solve_decision. Defined.

End BookingDetails.

Abbreviation BookingDetails := BookingDetails.t.

(** ** Lemmas *)
Lemma JsDate_isInvalid_false (d : JsDate) :
  JsDate.isInvalid d = false ↔ JsDate.valid d.
Proof.
  unfold JsDate.isInvalid, JsDate.valid.
  rewrite negb_false_iff. apply is_some_true.
Qed.

Lemma JsDate_at_ms_valid (ms : Z) : JsDate.valid (JsDate.at_ms ms).
Proof. by eexists. Qed.

Lemma JsDate_invalid_not_valid : ¬ JsDate.valid JsDate.invalid.
Proof. by intros [? ?]. Qed.

Lemma Booking_isCancelled_true (b : Booking) :
  Booking.isCancelled b = true ↔ Booking.status b = Some Status.cancelled.
Proof. unfold Booking.isCancelled. apply bool_decide_eq_true. Qed.

#[export] Hint Resolve JsDate_at_ms_valid : bmp.
