(* ===== verification/JsArray.v ===== *)
(** * JsArray: the array methods the handlers call

    [Array.prototype.filter], [map], [find] and [some] are the list
    functions of the same name.  [Array.prototype.sort(comparefn)] is
    specified the way ECMAScript does: the comparator returns a number, a
    NaN result counts as [+0] ([SortCompare]); when the comparator is
    consistent on the elements of the array the result is sorted, and the
    sort is stable.  The class [JsSort] states that contract,
    [insertion_sort] implements it, and [stable_sort_unique] shows that the
    contract determines the result, so that a theorem proved for one
    conforming engine holds for all. *)

From Stdlib Require Import ZArith Lia Sorted Permutation.
From stdpp Require Import base tactics option list.
From S2P Require Import Prelude.

#[local] Open Scope Z_scope.

(** ** Definitions *)

Section Sort.
Context {A : Type}.
Implicit Types (cmp : A → A → option Z) (l : list A) (x y z : A).

(** The comparator's result as the sort reads it: NaN is [+0]. *)
Definition SortCompare cmp x y : Z := default 0 (cmp x y).

(** [x] may stay in front of [y]. *)
Definition before_eq cmp x y : bool := SortCompare cmp x y <=? 0.

(** The comparator does not tell [x] from [y]. *)
Definition same_key cmp x y : bool := SortCompare cmp x y =? 0.

(** Insert [x] in front of the first element it may stay in front of. *)
Fixpoint insert cmp x l : list A :=
  match l with
  | [] => [x]
  | y :: l' => if before_eq cmp x y then x :: y :: l' else y :: insert cmp x l'
  end.

(** A stable sort: each element is inserted in front of the elements that
    followed it and compare equal or greater. *)
Fixpoint insertion_sort cmp l : list A :=
  match l with
  | [] => []
  | x :: l' => insert cmp x (insertion_sort cmp l')
  end.

(** Every element may stay in front of all the elements after it. *)
Definition sorted cmp l : Prop :=
  StronglySorted (λ x y, SortCompare cmp x y ≤ 0) l.

Fixpoint sortedb cmp l : bool :=
  match l with
  | [] => true
  | x :: l' => forallb (before_eq cmp x) l' && sortedb cmp l'
  end.

(** A consistent comparison function on the elements that satisfy [P]
    (ECMAScript, Array.prototype.sort): the sign flips with the arguments
    and "may stay in front of" is transitive. *)
Record Consistent cmp (P : A → Prop) : Prop := {
  cmp_flip : ∀ x y, P x → P y → SortCompare cmp x y < 0 ↔ 0 < SortCompare cmp y x;
  cmp_trans : ∀ x y z, P x → P y → P z →
    SortCompare cmp x y ≤ 0 → SortCompare cmp y z ≤ 0 → SortCompare cmp x z ≤ 0;
}.

(** [l'] keeps the elements of [l] that compare equal in their order. *)
Definition stable cmp l l' : Prop :=
  ∀ x, x ∈ l → List.filter (same_key cmp x) l' = List.filter (same_key cmp x) l.

(** [l'] is [l] sorted by a stable sort. *)
Definition stable_sort_of cmp l l' : Prop :=
  l' ≡ₚ l ∧ sorted cmp l' ∧ stable cmp l l'.

End Sort.

(** What the sources rely on when they call [sort]: always a permutation,
    and the stable sorted one when the comparator is consistent. *)
Class JsSort := {
  js_sort : ∀ {A}, (A → A → option Z) → list A → list A;
  js_sort_perm : ∀ A (cmp : A → A → option Z) l, js_sort cmp l ≡ₚ l;
  js_sort_spec : ∀ A (cmp : A → A → option Z) P l,
    Consistent cmp P → Forall P l → stable_sort_of cmp l (js_sort cmp l);
}.

(** The comparator [(a, b) => key(a) - key(b)] on keys that may be NaN. *)
Definition by_key {A} (key : A → option Z) (a b : A) : option Z :=
  match key a, key b with
  | Some x, Some y => Some (x - y)
  | _, _ => None
  end.

(** [[...new Set(l)]]: the elements of [l], each once, in the order of
    their first occurrence. *)
Fixpoint setOf {A} `{EqDecision A} (l : list A) : list A :=
  match l with
  | [] => []
  | x :: rest => x :: List.filter (λ y, bool_decide (y ≠ x)) (setOf rest)
  end.

(** ** Lemmas: the comparator *)

Section SortLemmas.
Context {A : Type}.
Implicit Types (cmp : A → A → option Z) (l : list A) (x y z : A).

Lemma before_eq_true cmp x y : before_eq cmp x y = true ↔ SortCompare cmp x y ≤ 0.
Proof. apply Z.leb_le. Qed.

Lemma before_eq_false cmp x y : before_eq cmp x y = false ↔ 0 < SortCompare cmp x y.
Proof. unfold before_eq. rewrite Z.leb_gt. reflexivity. Qed.

Lemma same_key_true cmp x y : same_key cmp x y = true ↔ SortCompare cmp x y = 0.
Proof. apply Z.eqb_eq. Qed.

Lemma sortedb_spec cmp l : sortedb cmp l = true ↔ sorted cmp l.
Proof.
  induction l as [|x l IH]; simpl.
  - split; [constructor | done].
  - rewrite andb_true_iff, IH, forallb_forall. split.
    + intros [Hx Hl]. constructor; [done|].
      apply List.Forall_forall. intros y Hy. by apply before_eq_true, Hx.
    + intros [Hl Hx]%StronglySorted_inv. split; [|done].
      intros y Hy. apply before_eq_true.
      by eapply (proj1 (List.Forall_forall _ _) Hx).
Qed.

#[global] Instance sorted_dec cmp l : Decision (sorted cmp l).
Proof.
  refine (cast_if (decide (sortedb cmp l = true))); by rewrite <- sortedb_spec.
Defined.

Lemma sorted_nil cmp : sorted cmp [].
Proof. constructor. Qed.

Lemma sorted_cons cmp x l :
  sorted cmp (x :: l) ↔ Forall (λ y, SortCompare cmp x y ≤ 0) l ∧ sorted cmp l.
Proof.
  split.
  - intros [? ?]%StronglySorted_inv. done.
  - intros [? ?]. by constructor.
Qed.

Section WithConsistent.
Context (cmp : A → A → option Z) (P : A → Prop) (HC : Consistent cmp P).

Lemma cmp_refl x : P x → SortCompare cmp x x = 0.
Proof.
  intros Hx. pose proof (cmp_flip _ _ HC x x Hx Hx). lia.
Qed.

Lemma cmp_total x y : P x → P y → 0 < SortCompare cmp x y → SortCompare cmp y x ≤ 0.
Proof.
  intros Hx Hy H. pose proof (cmp_flip _ _ HC y x Hy Hx). lia.
Qed.

Lemma cmp_sym0 x y : P x → P y → SortCompare cmp x y = 0 → SortCompare cmp y x = 0.
Proof.
  intros Hx Hy H.
  pose proof (cmp_flip _ _ HC y x Hy Hx). pose proof (cmp_flip _ _ HC x y Hx Hy). lia.
Qed.

Lemma cmp_le_antisym x y :
  P x → P y → SortCompare cmp x y ≤ 0 → SortCompare cmp y x ≤ 0 → SortCompare cmp x y = 0.
Proof.
  intros Hx Hy H1 H2. pose proof (cmp_flip _ _ HC x y Hx Hy). lia.
Qed.

End WithConsistent.

(** ** Lemmas: insertion sort *)
Lemma insert_perm cmp x l : insert cmp x l ≡ₚ x :: l.
Proof.
  induction l as [|y l IH]; simpl; [done|].
  destruct (before_eq cmp x y); [done|].
  rewrite IH. apply perm_swap.
Qed.

Lemma insertion_sort_perm cmp l : insertion_sort cmp l ≡ₚ l.
Proof.
  induction l as [|x l IH]; simpl; [done|].
  by rewrite insert_perm, IH.
Qed.

Lemma insertion_sort_length cmp l : length (insertion_sort cmp l) = length l.
Proof. apply Permutation_length, insertion_sort_perm. Qed.

Lemma insertion_sort_elem_of cmp l x : x ∈ insertion_sort cmp l ↔ x ∈ l.
Proof. by rewrite insertion_sort_perm. Qed.

Lemma insertion_sort_Forall cmp (Q : A → Prop) l :
  Forall Q (insertion_sort cmp l) ↔ Forall Q l.
Proof. by rewrite insertion_sort_perm. Qed.

Lemma insert_head cmp x l :
  Forall (λ y, SortCompare cmp x y ≤ 0) l → insert cmp x l = x :: l.
Proof.
  destruct l as [|y l]; simpl; [done|].
  intros [Hy _]%Forall_cons. by rewrite (proj2 (before_eq_true _ _ _) Hy).
Qed.

(** A sorted array is left as it is. *)
Lemma insertion_sort_sorted_id cmp l : sorted cmp l → insertion_sort cmp l = l.
Proof.
  induction l as [|x l IH]; simpl; [done|].
  intros [Hx Hl]%sorted_cons. rewrite IH by done. by apply insert_head.
Qed.

Section InsertionSortSpec.
Context (cmp : A → A → option Z) (P : A → Prop) (HC : Consistent cmp P).

Lemma insert_sorted x l :
  P x → Forall P l → sorted cmp l → sorted cmp (insert cmp x l).
Proof.
  intros Hx. induction l as [|y l IH]; simpl; intros HP Hs.
  - apply sorted_cons. split; [constructor | apply sorted_nil].
  - apply Forall_cons in HP as [Hy HP]. apply sorted_cons in Hs as [Hyl Hs].
    destruct (before_eq cmp x y) eqn:E.
    + apply before_eq_true in E. apply sorted_cons. split.
      * constructor; [done|].
        rewrite Forall_forall in Hyl, HP. apply Forall_forall. intros z Hz.
        apply (cmp_trans _ _ HC x y z); auto.
      * by apply sorted_cons.
    + apply before_eq_false in E. apply sorted_cons. split; [|by apply IH].
      rewrite insert_perm. constructor; [|done].
      by apply (cmp_total cmp P HC).
Qed.

Lemma insertion_sort_sorted l : Forall P l → sorted cmp (insertion_sort cmp l).
Proof.
  induction l as [|x l IH]; simpl; intros HP; [apply sorted_nil|].
  apply Forall_cons in HP as [Hx HP].
  apply insert_sorted; [done| by apply insertion_sort_Forall | by apply IH].
Qed.

Lemma insert_filter_same z x l :
  P z → P x → Forall P l →
  List.filter (same_key cmp z) (insert cmp x l) = List.filter (same_key cmp z) (x :: l).
Proof.
  intros Hz Hx. induction l as [|y l IH]; intros HP; [done|].
  apply Forall_cons in HP as [Hy HP]. specialize (IH HP).
  cbn [insert]. destruct (before_eq cmp x y) eqn:E; [done|].
  apply before_eq_false in E.
  cbn [List.filter] in *. rewrite IH.
  destruct (same_key cmp z x) eqn:Ex, (same_key cmp z y) eqn:Ey; try done.
  apply same_key_true in Ex, Ey.
  pose proof (cmp_sym0 cmp P HC z x Hz Hx Ex).
  pose proof (cmp_trans _ _ HC x z y Hx Hz Hy). lia.
Qed.

Lemma insertion_sort_stable l : Forall P l → stable cmp l (insertion_sort cmp l).
Proof.
  intros HP z Hz.
  assert (P z) as HPz by (rewrite Forall_forall in HP; auto). clear Hz.
  induction l as [|x l IH]; [done|].
  apply Forall_cons in HP as [Hx HP]. cbn [insertion_sort].
  rewrite insert_filter_same by (auto; by apply insertion_sort_Forall).
  cbn [List.filter]. by rewrite IH.
Qed.

Lemma insertion_sort_spec l : Forall P l → stable_sort_of cmp l (insertion_sort cmp l).
Proof.
  intros HP. split_and!;
    [apply insertion_sort_perm | by apply insertion_sort_sorted | by apply insertion_sort_stable].
Qed.

(** Two sorted lists with the same elements, in which elements that
    compare equal come in the same order, are equal. *)
Lemma sorted_stable_eq l1 l2 :
  Forall P l1 → l1 ≡ₚ l2 → sorted cmp l1 → sorted cmp l2 →
  (∀ x, x ∈ l1 → List.filter (same_key cmp x) l1 = List.filter (same_key cmp x) l2) →
  l1 = l2.
Proof.
  revert l2. induction l1 as [|a l1 IH]; intros l2 HP Hperm Hs1 Hs2 Hst.
  { by apply Permutation_nil in Hperm. }
  destruct l2 as [|b l2]; [by apply Permutation_sym, Permutation_nil in Hperm|].
  assert (Forall P (b :: l2)) as HP2 by by rewrite <- Hperm.
  apply Forall_cons in HP as [Ha HP]. apply Forall_cons in HP2 as [Hb HP2].
  apply sorted_cons in Hs1 as [Ha1 Hs1]. apply sorted_cons in Hs2 as [Hb2 Hs2].
  assert (SortCompare cmp a b ≤ 0) as Hab.
  { assert (b ∈ a :: l1) as [->|Hin]%elem_of_cons by (rewrite Hperm; left).
    - by rewrite (cmp_refl cmp P HC).
    - rewrite Forall_forall in Ha1. auto. }
  assert (SortCompare cmp b a ≤ 0) as Hba.
  { assert (a ∈ b :: l2) as [->|Hin]%elem_of_cons by (rewrite <- Hperm; left).
    - by rewrite (cmp_refl cmp P HC).
    - rewrite Forall_forall in Hb2. auto. }
  pose proof (cmp_le_antisym cmp P HC a b Ha Hb Hab Hba) as H0.
  assert (a = b) as <-.
  { specialize (Hst a ltac:(left)). cbn [List.filter] in Hst.
    rewrite (proj2 (same_key_true _ _ _) H0) in Hst.
    rewrite (proj2 (same_key_true _ _ _) (cmp_refl cmp P HC a Ha)) in Hst.
    by injection Hst. }
  f_equal. apply IH; try done.
  - by apply Permutation_cons_inv in Hperm.
  - intros x Hx. specialize (Hst x ltac:(by right)). cbn [List.filter] in Hst.
    destruct (same_key cmp x a); [by injection Hst | done].
Qed.

(** The contract of a stable sort determines its result. *)
Lemma stable_sort_unique l l1 l2 :
  Forall P l → stable_sort_of cmp l l1 → stable_sort_of cmp l l2 → l1 = l2.
Proof.
  intros HP (Hp1 & Hs1 & Hst1) (Hp2 & Hs2 & Hst2).
  apply sorted_stable_eq; try done.
  - by rewrite Hp1.
  - by rewrite Hp1, Hp2.
  - intros x Hx. rewrite Hp1 in Hx. by rewrite Hst1, Hst2.
Qed.

End InsertionSortSpec.

End SortLemmas.

(** [insertion_sort] is a conforming sort. *)
#[export] Instance insertion_JsSort : JsSort := {|
  js_sort := @insertion_sort;
  js_sort_perm := @insertion_sort_perm;
  js_sort_spec := λ A cmp P l HC, insertion_sort_spec cmp P HC l;
|}.

(** ** Lemmas: any conforming sort *)

Section AnySort.
Context `{JS : JsSort} {A : Type}.
Implicit Types (cmp : A → A → option Z) (l : list A).

Lemma js_sort_length cmp l : length (js_sort cmp l) = length l.
Proof. apply Permutation_length, js_sort_perm. Qed.

Lemma js_sort_elem_of cmp l x : x ∈ js_sort cmp l ↔ x ∈ l.
Proof. by rewrite js_sort_perm. Qed.

Lemma js_sort_Forall cmp (Q : A → Prop) l : Forall Q (js_sort cmp l) ↔ Forall Q l.
Proof. by rewrite js_sort_perm. Qed.

(** On a consistent comparator every engine computes [insertion_sort]. *)
Lemma js_sort_insertion cmp P l :
  Consistent cmp P → Forall P l → js_sort cmp l = insertion_sort cmp l.
Proof.
  intros HC HP. eapply stable_sort_unique; eauto.
  - by apply js_sort_spec with (P := P).
  - by apply insertion_sort_spec with (P := P).
Qed.

Lemma js_sort_sorted cmp P l : Consistent cmp P → Forall P l → sorted cmp (js_sort cmp l).
Proof. intros HC HP. by apply (js_sort_spec _ cmp P l HC HP). Qed.

Lemma js_sort_sorted_id cmp P l :
  Consistent cmp P → Forall P l → sorted cmp l → js_sort cmp l = l.
Proof.
  intros HC HP Hs. rewrite (js_sort_insertion cmp P) by done.
  by apply insertion_sort_sorted_id.
Qed.

End AnySort.

(** ** Lemmas: comparators by key *)

Section ByKey.
Context {A : Type} (key : A → option Z).

Lemma SortCompare_by_key (a b : A) (x y : Z) :
  key a = Some x → key b = Some y → SortCompare (by_key key) a b = x - y.
Proof. unfold SortCompare, by_key. by intros -> ->. Qed.

(** Subtracting keys is consistent on the elements whose key is a number. *)
Lemma by_key_Consistent : Consistent (by_key key) (λ a, is_Some (key a)).
Proof.
  split.
  - intros a b [x Hx] [y Hy].
    rewrite (SortCompare_by_key a b x y), (SortCompare_by_key b a y x) by done. lia.
  - intros a b c [x Hx] [y Hy] [z Hz].
    rewrite (SortCompare_by_key a b x y), (SortCompare_by_key b c y z),
      (SortCompare_by_key a c x z) by done. lia.
Qed.

(** A map that keeps every key keeps the list sorted. *)
Lemma sorted_map_key (f : A → A) (l : list A) :
  (∀ a, key (f a) = key a) → sorted (by_key key) l → sorted (by_key key) (map f l).
Proof.
  intros Hf. induction l as [|a l IH]; [done|].
  intros [Ha Hl]%sorted_cons. cbn [map]. apply sorted_cons. split; [|auto].
  apply Forall_map. eapply Forall_impl; [exact Ha|].
  intros b. unfold SortCompare, by_key. by rewrite !Hf.
Qed.

End ByKey.

(** ** Lemmas: descending order and filters *)

Section Derived.
Context {A : Type} (cmp : A → A → option Z) (P : A → Prop).

(** The comparator with its arguments swapped ([(a, b) => cmp(b, a)]) is
    consistent when the comparator is. *)
Lemma Consistent_flip : Consistent cmp P → Consistent (flip cmp) P.
Proof.
  intros [Hf Ht]. split; unfold SortCompare, flip in *.
  - intros x y Hx Hy. apply (Hf y x Hy Hx).
  - intros x y z Hx Hy Hz Hxy Hyz. apply (Ht z y x); auto.
Qed.

Lemma sorted_filter (f : A → bool) (l : list A) :
  sorted cmp l → sorted cmp (List.filter f l).
Proof.
  unfold sorted. induction 1 as [|x l Hs IH Hx]; simpl; [constructor|].
  destruct (f x); [|done]. constructor; [done|].
  apply Forall_forall. intros y [Hy _]%elem_of_List_filter.
  by apply (proj1 (Forall_forall _ _) Hx).
Qed.

End Derived.

#[export] Hint Resolve sorted_nil insertion_sort_perm by_key_Consistent : bmp.
#[export] Hint Rewrite @insertion_sort_length @js_sort_length : js_rw.

(** ** Lemmas: the elements of a [Set] *)

Section SetOf.
Context {A : Type} `{EqDecision A}.
Implicit Types (l : list A) (x : A).

Lemma setOf_elem_of l x : x ∈ setOf l ↔ x ∈ l.
Proof.
  induction l as [|y l IH]; [done|]. cbn [setOf].
  rewrite !elem_of_cons, elem_of_List_filter, IH, bool_decide_eq_true.
  destruct (decide (x = y)); tauto.
Qed.

Lemma NoDup_List_filter (f : A → bool) l : NoDup l → NoDup (List.filter f l).
Proof.
  induction 1 as [|x l Hx Hl IH]; cbn; [constructor|].
  destruct (f x); [|done]. constructor; [|done]. rewrite elem_of_List_filter. tauto.
Qed.

Lemma setOf_NoDup l : NoDup (setOf l).
Proof.
  induction l as [|y l IH]; cbn [setOf]; constructor.
  - rewrite elem_of_List_filter, bool_decide_eq_true. tauto.
  - by apply NoDup_List_filter.
Qed.

(** The elements keep the order they have in [l]. *)
Lemma setOf_sublist l : setOf l `sublist_of` l.
Proof.
  induction l as [|y l IH]; cbn [setOf]; [done|]. apply sublist_skip.
  etrans; [apply List_filter_sublist | done].
Qed.

(** A list without repetitions is its own [Set]. *)
Lemma setOf_NoDup_id l : NoDup l → setOf l = l.
Proof.
  induction 1 as [|x l Hx Hl IH]; [done|]. cbn [setOf]. rewrite IH. f_equal.
  clear IH Hl. induction l as [|y l IH]; [done|]. cbn.
  apply not_elem_of_cons in Hx as [Hxy Hx].
  rewrite bool_decide_true by done. by rewrite IH.
Qed.

Lemma setOf_nonempty l : l ≠ [] → setOf l ≠ [].
Proof. by destruct l. Qed.

Lemma setOf_idem l : setOf (setOf l) = setOf l.
Proof. apply setOf_NoDup_id, setOf_NoDup. Qed.

End SetOf.
