(* ===== verification/JsString.v ===== *)
(** * JsString: the string methods the sources call

    [toLowerCase], [includes], [split] and [join] with a one-character
    separator, [join] with a string separator ([joinWith]),
    [replace(/\s/g, '')] ([removeSpaces]), [trim], [substring(0, n)],
    [Number(s)] and [parseInt(s, 10)], with the round trips the
    components rely on: [split] after [join], and parsing what
    [String(n)] prints.  White space is that of ASCII.  Characters are
    bytes: [toLowerCase] maps the letters A to Z and leaves every other
    character, which is
    what JavaScript does on ASCII text.  [Number] is defined on what an
    [<input type="date">] or a template of integers produces: an optional
    minus sign followed by decimal digits, and the empty string (which
    JavaScript converts to 0); on any other string it answers NaN
    ([None]), where JavaScript also accepts fractions, exponents and
    surrounding blanks. *)

From Stdlib Require Import ZArith Lia Ascii String.
From stdpp Require Import base tactics option list strings pretty.
From S2P Require Import Prelude.

#[local] Open Scope Z_scope.

(** ** Definitions *)

(** The lower-case form of a character. *)
Definition toLowerChar (c : ascii) : ascii :=
  let n := nat_of_ascii c in
  if ((65 <=? n) && (n <=? 90))%nat then ascii_of_nat (n + 32) else c.

(** [s.toLowerCase()] *)
Fixpoint toLowerCase (s : string) : string :=
  match s with
  | EmptyString => EmptyString
  | String c s' => String (toLowerChar c) (toLowerCase s')
  end.

(** [s.startsWith(p)] *)
Fixpoint startsWith (p s : string) : bool :=
  match p, s with
  | EmptyString, _ => true
  | String _ _, EmptyString => false
  | String a p', String b s' => Ascii.eqb a b && startsWith p' s'
  end.

(** [s.includes(needle)] *)
Fixpoint includes (needle s : string) : bool :=
  startsWith needle s ||
  match s with
  | EmptyString => false
  | String _ s' => includes needle s'
  end.

(** [s.split(sep)] for a one-character separator: the pieces between the
    separators, the last one included even when it is empty. *)
Fixpoint split (sep : ascii) (s : string) : list string :=
  match s with
  | EmptyString => [EmptyString]
  | String c s' =>
      if Ascii.eqb c sep then EmptyString :: split sep s'
      else match split sep s' with
           | [] => [String c EmptyString]
           | piece :: rest => String c piece :: rest
           end
  end.

(** [pieces.join(sep)] *)
Fixpoint join (sep : ascii) (pieces : list string) : string :=
  match pieces with
  | [] => EmptyString
  | [p] => p
  | p :: rest => p +:+ String sep (join sep rest)
  end.

(** [s.split(sep)[0]] *)
Definition beforeFirst (sep : ascii) (s : string) : string :=
  default EmptyString (head (split sep s)).

(** [s.substring(0, n)] *)
Fixpoint substring0 (n : nat) (s : string) : string :=
  match n, s with
  | O, _ => EmptyString
  | S _, EmptyString => EmptyString
  | S n', String c s' => String c (substring0 n' s')
  end.

(** The value of a decimal digit. *)
Definition digitValue (c : ascii) : option Z :=
  let n := nat_of_ascii c in
  if ((48 <=? n) && (n <=? 57))%nat then Some (Z.of_nat n - 48) else None.

(** The number written by a string of digits, most significant first. *)
Fixpoint digitsValue (acc : Z) (s : string) : option Z :=
  match s with
  | EmptyString => Some acc
  | String c s' =>
      match digitValue c with
      | Some d => digitsValue (10 * acc + d) s'
      | None => None
      end
  end.

(** [/^\d+$/.test(s)] *)
Definition allDigits (s : string) : bool :=
  negb (String.eqb s EmptyString) && is_some (digitsValue 0 s).

(** [/^\d{n}$/.test(s)] *)
Definition isDigits (n : nat) (s : string) : bool :=
  Nat.eqb (String.length s) n && is_some (digitsValue 0 s).

(** [Number(s)] on signed decimal integers and the empty string. *)
Definition Number (s : string) : option Z :=
  match s with
  | EmptyString => Some 0
  | String "-"%char s' =>
      if String.eqb s' EmptyString then None else Z.opp <$> digitsValue 0 s'
  | _ => digitsValue 0 s
  end.

(** No character of [s] is [c]. *)
Fixpoint lacks (c : ascii) (s : string) : bool :=
  match s with
  | EmptyString => true
  | String x s' => negb (Ascii.eqb x c) && lacks c s'
  end.

(** [pieces.join(sep)] for a separator of any length. *)
Fixpoint joinWith (sep : string) (pieces : list string) : string :=
  match pieces with
  | [] => EmptyString
  | [p] => p
  | p :: rest => p +:+ sep +:+ joinWith sep rest
  end.

(** The characters [\s] matches among the first 128: the blank, the tab,
    the line feed, the vertical tab, the form feed and the carriage
    return. *)
Definition isSpace (c : ascii) : bool := Ascii.is_space c.

(** [s.replace(/\s/g, '')] *)
Fixpoint removeSpaces (s : string) : string :=
  match s with
  | EmptyString => EmptyString
  | String c s' => if isSpace c then removeSpaces s' else String c (removeSpaces s')
  end.

(** No character of [s] is matched by [\s]. *)
Fixpoint spaceless (s : string) : bool :=
  match s with
  | EmptyString => true
  | String c s' => negb (isSpace c) && spaceless s'
  end.

(** [s.trimStart()], [s.trimEnd()] and [s.trim()], on the blanks of
    [isSpace]. *)
Fixpoint trimStart (s : string) : string :=
  match s with
  | EmptyString => EmptyString
  | String c s' => if isSpace c then trimStart s' else s
  end.

Fixpoint trimEnd (s : string) : string :=
  match s with
  | EmptyString => EmptyString
  | String c s' =>
      let r := trimEnd s' in
      if isSpace c && String.eqb r EmptyString then EmptyString else String c r
  end.

Definition trim (s : string) : string := trimEnd (trimStart s).

(** The number written by the longest prefix of digits; [acc] when the
    string starts with no digit. *)
Fixpoint parseDigits (acc : option Z) (s : string) : option Z :=
  match s with
  | EmptyString => acc
  | String c s' =>
      match digitValue c with
      | Some d => parseDigits (Some (10 * default 0 acc + d)) s'
      | None => acc
      end
  end.

(** [parseInt(s, 10)]: blanks, a sign, then digits; what follows the
    digits is ignored, and [None] is NaN. *)
Definition parseInt10 (s : string) : option Z :=
  match trimStart s with
  | String "-"%char r => Z.opp <$> parseDigits None r
  | String "+"%char r => parseDigits None r
  | r => parseDigits None r
  end.

(** ** Lemmas *)
Lemma toLowerChar_idem (c : ascii) : toLowerChar (toLowerChar c) = toLowerChar c.
Proof.
  unfold toLowerChar.
  destruct ((65 <=? nat_of_ascii c)%nat && (nat_of_ascii c <=? 90)%nat) eqn:E;
    [|by rewrite E].
  apply andb_true_iff in E as [H1%Nat.leb_le H2%Nat.leb_le].
  rewrite nat_ascii_embedding by lia.
  replace ((65 <=? nat_of_ascii c + 32)%nat && (nat_of_ascii c + 32 <=? 90)%nat)
    with false; [done|].
  symmetry. apply andb_false_iff. right. apply Nat.leb_gt. lia.
Qed.

Lemma toLowerCase_idem (s : string) : toLowerCase (toLowerCase s) = toLowerCase s.
Proof. induction s as [|c s IH]; simpl; [done|]. by rewrite toLowerChar_idem, IH. Qed.

Lemma toLowerCase_length (s : string) :
  String.length (toLowerCase s) = String.length s.
Proof. induction s as [|c s IH]; simpl; [done|]. by rewrite IH. Qed.

Lemma toLowerCase_app (a b : string) :
  toLowerCase (a +:+ b) = toLowerCase a +:+ toLowerCase b.
Proof.
  induction a as [|c a IH]; [done|].
  change (String (toLowerChar c) (toLowerCase (a +:+ b)) =
          String (toLowerChar c) (toLowerCase a +:+ toLowerCase b)).
  by rewrite IH.
Qed.

Lemma toLowerCase_empty (s : string) : toLowerCase s = EmptyString ↔ s = EmptyString.
Proof. by destruct s. Qed.

Lemma startsWith_refl (s : string) : startsWith s s = true.
Proof. induction s as [|c s IH]; simpl; [done|]. by rewrite Ascii.eqb_refl. Qed.

Lemma startsWith_empty (s : string) : startsWith EmptyString s = true.
Proof. by destruct s. Qed.

(** Every string includes the empty string, as in JavaScript. *)
Lemma includes_empty (s : string) : includes EmptyString s = true.
Proof. destruct s; reflexivity. Qed.

Lemma includes_refl (s : string) : includes s s = true.
Proof. destruct s as [|c s]; [done|]. cbn [includes]. by rewrite startsWith_refl. Qed.

Lemma startsWith_app (p s : string) : startsWith p (p +:+ s) = true.
Proof. induction p as [|c p IH]; simpl; [done|]. by rewrite Ascii.eqb_refl. Qed.

Lemma includes_startsWith (needle s : string) :
  startsWith needle s = true → includes needle s = true.
Proof. destruct s; cbn [includes]; by intros ->. Qed.

(** [includes] finds a needle wherever it occurs. *)
Lemma includes_app (needle pre post : string) :
  includes needle (pre +:+ needle +:+ post) = true.
Proof.
  induction pre as [|c pre IH].
  - change (includes needle (needle +:+ post) = true).
    apply includes_startsWith, startsWith_app.
  - change (String c pre +:+ needle +:+ post) with (String c (pre +:+ needle +:+ post)).
    cbn [includes]. rewrite IH. apply orb_true_r.
Qed.

Lemma append_nil_r (s : string) : s +:+ "" = s.
Proof.
  induction s as [|c s IH]; [done|].
  change (String c (s +:+ "") = String c s). by rewrite IH.
Qed.

Lemma append_assoc (a b c : string) : (a +:+ b) +:+ c = a +:+ (b +:+ c).
Proof.
  induction a as [|x a IH]; [done|].
  change (String x ((a +:+ b) +:+ c) = String x (a +:+ (b +:+ c))). by rewrite IH.
Qed.

Lemma append_nonempty_l (a b : string) : a ≠ "" → a +:+ b ≠ "".
Proof. by destruct a. Qed.

(** [includes] finds a needle at the end. *)
Lemma includes_suffix (needle pre : string) : includes needle (pre +:+ needle) = true.
Proof.
  pose proof (includes_app needle pre "") as H. by rewrite append_nil_r in H.
Qed.

Lemma includes_occurs (needle s : string) :
  includes needle s = true → ∃ pre post, s = pre +:+ needle +:+ post.
Proof.
  assert (∀ p t, startsWith p t = true → ∃ post, t = p +:+ post) as Hsw.
  { induction p as [|a p IH]; intros t; [by exists t|].
    destruct t as [|b t]; [done|]. simpl.
    intros [->%Ascii.eqb_eq (post & ->)%IH]%andb_true_iff. by exists post. }
  induction s as [|c s IH]; cbn [includes].
  - rewrite orb_false_r. intros (post & ->)%Hsw. by exists EmptyString, post.
  - intros [(post & ->)%Hsw | (pre & post & ->)%IH]%orb_true_iff.
    + by exists EmptyString, post.
    + by exists (String c pre), post.
Qed.

Lemma split_nonempty (sep : ascii) (s : string) : split sep s ≠ [].
Proof.
  induction s as [|c s IH]; simpl; [done|].
  destruct (Ascii.eqb c sep); [done|]. by destruct (split sep s).
Qed.

(** Joining the pieces with the separator gives the string back. *)
Lemma join_split (sep : ascii) (s : string) : join sep (split sep s) = s.
Proof.
  induction s as [|c s IH]; [done|]. cbn [split].
  destruct (Ascii.eqb c sep) eqn:E.
  - apply Ascii.eqb_eq in E as ->.
    pose proof (split_nonempty sep s). destruct (split sep s) as [|p rest]; [done|].
    cbn [join] in *. by rewrite IH.
  - pose proof (split_nonempty sep s). destruct (split sep s) as [|p rest]; [done|].
    destruct rest as [|q rest]; cbn [join] in *; by rewrite <- IH.
Qed.

Lemma substring0_length (n : nat) (s : string) :
  String.length (substring0 n s) = Nat.min n (String.length s).
Proof.
  revert s. induction n as [|n IH]; intros [|c s]; simpl; try done. by rewrite IH.
Qed.

Lemma isDigits_length (n : nat) (s : string) : isDigits n s = true → String.length s = n.
Proof. unfold isDigits. by intros [?%Nat.eqb_eq _]%andb_true_iff. Qed.

Lemma Number_empty : Number EmptyString = Some 0.
Proof. reflexivity. Qed.

#[export] Hint Rewrite toLowerCase_idem includes_empty includes_refl startsWith_refl : js_rw.

(** ** Lemmas: the first occurrence of a character *)
Lemma lacks_app (c : ascii) (a b : string) : lacks c (a +:+ b) = lacks c a && lacks c b.
Proof.
  induction a as [|x a IH]; [done|].
  change (negb (Ascii.eqb x c) && lacks c (a +:+ b) = negb (Ascii.eqb x c) && lacks c a && lacks c b).
  by rewrite IH, andb_assoc.
Qed.

(** A string is cut at the first occurrence of a character in one way
    only. *)
Lemma split_at_first (c : ascii) (p1 p2 r1 r2 : string) :
  lacks c p1 = true → lacks c p2 = true →
  p1 +:+ String c r1 = p2 +:+ String c r2 → p1 = p2 ∧ r1 = r2.
Proof.
  revert p2. induction p1 as [|x p1 IH]; intros [|y p2]; cbn; intros H1 H2 [=]; subst.
  - done.
  - by rewrite Ascii.eqb_refl in H2.
  - by rewrite Ascii.eqb_refl in H1.
  - apply andb_true_iff in H1 as [_ H1], H2 as [_ H2].
    by destruct (IH p2 H1 H2) as [-> ->].
Qed.

(** ** Lemmas: joining and removing blanks *)
Lemma joinWith_char (sep : ascii) (pieces : list string) :
  joinWith (String sep EmptyString) pieces = join sep pieces.
Proof.
  induction pieces as [|p rest IH]; [done|]. destruct rest as [|q rest]; [done|].
  change (p +:+ String sep EmptyString +:+ joinWith (String sep EmptyString) (q :: rest) =
          p +:+ String sep (join sep (q :: rest))).
  by rewrite IH.
Qed.

Lemma append_length (a b : string) :
  String.length (a +:+ b) = (String.length a + String.length b)%nat.
Proof.
  induction a as [|c a IH]; [done|].
  change (S (String.length (a +:+ b)) = S (String.length a + String.length b)).
  by rewrite IH.
Qed.

Lemma joinWith_length (sep : string) (pieces : list string) :
  String.length (joinWith sep pieces) =
  (list_sum (String.length <$> pieces) + String.length sep * pred (length pieces))%nat.
Proof.
  induction pieces as [|p rest IH]; [cbn; lia|]. destruct rest as [|q rest]; [cbn; lia|].
  change (joinWith sep (p :: q :: rest)) with (p +:+ sep +:+ joinWith sep (q :: rest)).
  rewrite !append_length, IH. cbn. lia.
Qed.

Lemma removeSpaces_spaceless (s : string) : spaceless (removeSpaces s) = true.
Proof.
  induction s as [|c s IH]; [done|]. cbn. destruct (isSpace c) eqn:E; [done|].
  cbn. by rewrite E.
Qed.

Lemma removeSpaces_id (s : string) : spaceless s = true → removeSpaces s = s.
Proof.
  induction s as [|c s IH]; [done|]. cbn. destruct (isSpace c); [done|].
  cbn. by intros ->%IH.
Qed.

Lemma removeSpaces_idem (s : string) : removeSpaces (removeSpaces s) = removeSpaces s.
Proof. apply removeSpaces_id, removeSpaces_spaceless. Qed.

Lemma removeSpaces_app (a b : string) :
  removeSpaces (a +:+ b) = removeSpaces a +:+ removeSpaces b.
Proof.
  induction a as [|c a IH]; [done|].
  change (String c a +:+ b) with (String c (a +:+ b)). cbn [removeSpaces].
  rewrite IH. by destruct (isSpace c).
Qed.

(** ** Lemmas: pieces without the separator *)
Lemma split_lacks (sep : ascii) (s : string) :
  Forall (λ p, lacks sep p = true) (split sep s).
Proof.
  induction s as [|c s IH]; cbn [split]; [by constructor|].
  destruct (Ascii.eqb c sep) eqn:E; [by constructor|].
  destruct (split sep s) as [|p rest]; [by constructor; [cbn; rewrite E|]|].
  apply Forall_cons in IH as [Hp Hrest]. constructor; [|done]. cbn. by rewrite E.
Qed.

Lemma split_piece (sep : ascii) (p : string) : lacks sep p = true → split sep p = [p].
Proof.
  induction p as [|c p IH]; [done|]. cbn. intros [Hc Hp]%andb_true_iff.
  apply negb_true_iff in Hc. by rewrite Hc, (IH Hp).
Qed.

Lemma split_app_sep (sep : ascii) (p r : string) :
  lacks sep p = true → split sep (p +:+ String sep r) = p :: split sep r.
Proof.
  induction p as [|c p IH].
  - intros _. change ("" +:+ String sep r) with (String sep r). cbn [split].
    by rewrite Ascii.eqb_refl.
  - cbn [lacks]. intros [Hc Hp]%andb_true_iff. apply negb_true_iff in Hc.
    change (String c p +:+ String sep r) with (String c (p +:+ String sep r)).
    cbn [split]. by rewrite Hc, (IH Hp).
Qed.

(** Splitting what was joined gives the pieces back, when no piece holds
    the separator. *)
Lemma split_join (sep : ascii) (pieces : list string) :
  pieces ≠ [] → Forall (λ p, lacks sep p = true) pieces →
  split sep (join sep pieces) = pieces.
Proof.
  induction pieces as [|p rest IH]; [done|]. intros _ [Hp Hrest]%Forall_cons.
  destruct rest as [|q rest]; [by apply split_piece|].
  change (join sep (p :: q :: rest)) with (p +:+ String sep (join sep (q :: rest))).
  rewrite split_app_sep by done. by rewrite IH.
Qed.

Lemma join_app (sep : ascii) (xs ys : list string) :
  xs ≠ [] → ys ≠ [] → join sep (xs ++ ys) = join sep xs +:+ String sep (join sep ys).
Proof.
  induction xs as [|x xs IH]; [done|]. intros _ Hys. destruct xs as [|x' xs].
  - by destruct ys.
  - change (join sep ((x :: x' :: xs) ++ ys)) with
      (x +:+ String sep (join sep ((x' :: xs) ++ ys))).
    rewrite IH by done.
    change (join sep (x :: x' :: xs)) with (x +:+ String sep (join sep (x' :: xs))).
    rewrite append_assoc. done.
Qed.

(** ** Lemmas: the digits of a number *)
Lemma pretty_N_go_length (x : N) (s : string) :
  (String.length s + (if decide (0 < x)%N then 1 else 0) ≤ String.length (pretty_N_go x s))%nat.
Proof.
  revert s. induction (N.lt_wf_0 x) as [x _ IH]. intros s.
  destruct (decide (0 < x)%N) as [Hx|Hx].
  - rewrite pretty_N_go_step by done.
    specialize (IH (x `div` 10)%N (N.div_lt x 10 Hx eq_refl)
                  (String (pretty_N_char (x `mod` 10)) s)).
    cbn [String.length] in IH. lia.
  - assert (x = 0%N) as -> by lia. rewrite pretty_N_go_0. lia.
Qed.

(** The text of a number is not empty. *)
Lemma pretty_Z_nonempty (z : Z) : pretty z ≠ "".
Proof.
  destruct z as [|x|x]; [done| |done].
  unfold pretty, pretty_Z, pretty, pretty_positive, pretty, pretty_N.
  rewrite decide_False by done. intros E.
  pose proof (pretty_N_go_length (N.pos x) "") as H. rewrite E in H.
  rewrite decide_True in H by lia. cbn in H. lia.
Qed.

(** ** Lemmas: trimming *)
(** Only blanks are trimmed to nothing. *)
Lemma trimEnd_empty (s : string) : trimEnd s = "" ↔ removeSpaces s = "".
Proof.
  induction s as [|c s IH]; [done|]. cbn. destruct (isSpace c) eqn:E; cbn; [|done].
  destruct (String.eqb_spec (trimEnd s) ""); [tauto|]. split; [done|]. tauto.
Qed.

(** A string that neither starts nor ends with a blank is not changed. *)
Lemma trimStart_id (c : ascii) (s : string) :
  isSpace c = false → trimStart (String c s) = String c s.
Proof. cbn. by intros ->. Qed.

Lemma trimEnd_idem (s : string) : trimEnd (trimEnd s) = trimEnd s.
Proof.
  induction s as [|c s IH]; [done|]. cbn [trimEnd].
  destruct (isSpace c && String.eqb (trimEnd s) "") eqn:E; [done|].
  cbn [trimEnd]. by rewrite IH, E.
Qed.

Lemma trimStart_idem (s : string) : trimStart (trimStart s) = trimStart s.
Proof.
  induction s as [|c s IH]; [done|]. cbn [trimStart].
  destruct (isSpace c) eqn:E; [done|]. cbn. by rewrite E.
Qed.

(** Trimming the end leaves the start as it is. *)
Lemma trimStart_trimEnd (s : string) : trimStart (trimEnd s) = trimEnd (trimStart s).
Proof.
  induction s as [|c s IH]; [done|]. cbn [trimStart trimEnd].
  destruct (isSpace c) eqn:E; cbn [andb].
  - destruct (String.eqb_spec (trimEnd s) "") as [E'|E'].
    + cbn. rewrite <- IH, E'. done.
    + cbn [trimStart]. by rewrite E.
  - cbn [trimStart trimEnd]. by rewrite E.
Qed.

Lemma trim_idem (s : string) : trim (trim s) = trim s.
Proof.
  unfold trim. by rewrite trimStart_trimEnd, trimStart_idem, trimEnd_idem.
Qed.

(** A blank before a trimmed string is trimmed away. *)
Lemma trim_blank (s : string) : trim (String " " s) = trim s.
Proof. done. Qed.

(** ** Lemmas: reading the digits of a number back *)
Lemma digitValue_pretty_N_char (d : N) :
  (d < 10)%N → digitValue (pretty_N_char d) = Some (Z.of_N d).
Proof.
  intros H. destruct d as [|p]; [done|].
  repeat (destruct p as [p|p|]; try lia); reflexivity.
Qed.

Lemma digitValue_not_space (c : ascii) (d : Z) : digitValue c = Some d → isSpace c = false.
Proof. by destruct c as [[] [] [] [] [] [] [] []]. Qed.

(** The digits of [x] in front of a string are read as [x] after what
    was read before them. *)
Lemma pretty_N_go_digits (x : N) :
  ∃ p, (∀ s, pretty_N_go x s = p +:+ s) ∧
       ∀ acc r, digitsValue acc (p +:+ r) =
                digitsValue (acc * 10 ^ Z.of_nat (String.length p) + Z.of_N x) r.
Proof.
  induction (N.lt_wf_0 x) as [x _ IH].
  destruct (decide (0 < x)%N) as [Hx|Hx].
  - destruct (IH (x `div` 10)%N (N.div_lt x 10 Hx eq_refl)) as (p & Hp & Hd).
    exists (p +:+ String (pretty_N_char (x `mod` 10)) ""). split.
    + intros s. by rewrite pretty_N_go_step, Hp, append_assoc.
    + intros acc r. rewrite append_assoc, Hd.
      change (String ?c "" +:+ r) with (String c r). cbn [digitsValue].
      rewrite digitValue_pretty_N_char by (by apply N.mod_lt).
      f_equal. rewrite append_length, Nat2Z.inj_add, Z.pow_add_r by lia.
      rewrite N2Z.inj_div, N2Z.inj_mod. cbn [String.length].
      pose proof (Z.div_mod (Z.of_N x) 10). lia.
  - assert (x = 0%N) as -> by lia. exists "". split; [done|]. intros acc r.
    cbn. f_equal. lia.
Qed.

(** Reading the text of a number gives the number. *)
Lemma digitsValue_pretty (n : Z) : 0 ≤ n → digitsValue 0 (pretty n) = Some n.
Proof.
  destruct n as [|x|x]; [done| |lia]. intros _.
  destruct (pretty_N_go_digits (N.pos x)) as (p & Hp & Hd).
  unfold pretty, pretty_Z, pretty, pretty_positive, pretty, pretty_N.
  rewrite decide_False by done. rewrite Hp, Hd. done.
Qed.

Theorem Number_pretty (z : Z) : Number (pretty z) = Some z.
Proof.
  destruct z as [|x|x]; [done| |].
  - pose proof (digitsValue_pretty (Z.pos x) ltac:(lia)) as H.
    pose proof (pretty_Z_nonempty (Z.pos x)) as Hne.
    destruct (pretty (Z.pos x)) as [|c s] eqn:E; [done|]. unfold Number.
    cbn [digitsValue] in H. destruct (digitValue c) eqn:Ec; [|done].
    rewrite <- H. cbn [digitsValue]. rewrite Ec.
    by destruct c as [[] [] [] [] [] [] [] []].
  - change (pretty (Z.neg x)) with (String "-" (pretty (Z.pos x))). cbn [Number].
    rewrite (proj2 (String.eqb_neq _ _) (pretty_Z_nonempty (Z.pos x))).
    by rewrite digitsValue_pretty.
Qed.

Lemma parseDigits_digitsValue (acc n : Z) (s : string) :
  digitsValue acc s = Some n → parseDigits (Some acc) s = Some n.
Proof.
  revert acc. induction s as [|c s IH]; intros acc; cbn; [done|].
  destruct (digitValue c); [apply IH | done].
Qed.

(** [parseInt] reads a string of digits as [Number] does. *)
Lemma parseInt10_digits (s : string) (n : Z) :
  s ≠ "" → digitsValue 0 s = Some n → parseInt10 s = Some n.
Proof.
  destruct s as [|c s]; [done|]. intros _. cbn [digitsValue].
  destruct (digitValue c) as [d|] eqn:Ec; [|done]. intros H%parseDigits_digitsValue.
  unfold parseInt10. rewrite trimStart_id by (by eapply digitValue_not_space).
  assert (parseDigits None (String c s) = Some n) as <- by (cbn; by rewrite Ec).
  by destruct c as [[] [] [] [] [] [] [] []].
Qed.

(** [parseInt(String(z), 10)] is [z]. *)
Theorem parseInt10_pretty (z : Z) : parseInt10 (pretty z) = Some z.
Proof.
  destruct z as [|x|x]; [done| |].
  - apply parseInt10_digits; [apply pretty_Z_nonempty | by apply digitsValue_pretty].
  - change (pretty (Z.neg x)) with (String "-" (pretty (Z.pos x))).
    unfold parseInt10. cbn [trimStart]. change (isSpace "-") with false. cbn match.
    pose proof (pretty_Z_nonempty (Z.pos x)) as Hne.
    pose proof (digitsValue_pretty (Z.pos x) (Pos2Z.is_nonneg x)) as Hd.
    destruct (pretty (Z.pos x)) as [|c s] eqn:E; [done|].
    cbn [digitsValue] in Hd. destruct (digitValue c) as [d|] eqn:Ec; [|done].
    apply parseDigits_digitsValue in Hd. cbn [parseDigits]. rewrite Ec.
    change (10 * default 0 None + d) with (10 * 0 + d). by rewrite Hd.
Qed.

(** ** Lemmas: a separator followed by more *)

(** Pieces joined with a separator that starts with [c] are split at
    [c] into the first piece and the others after the rest of the
    separator. *)
Lemma split_joinWith (c : ascii) (tail pre q : string) (rest : list string) :
  lacks c tail = true → lacks c pre = true → Forall (λ p, lacks c p = true) (q :: rest) →
  split c (pre +:+ joinWith (String c tail) (q :: rest)) =
  (pre +:+ q) :: ((λ p, tail +:+ p) <$> rest).
Proof.
  intros Ht. revert pre q. induction rest as [|q' rest IH]; intros pre q Hpre Hq.
  - apply Forall_cons in Hq as [Hq _]. apply split_piece. by rewrite lacks_app, Hpre, Hq.
  - apply Forall_cons in Hq as [Hq Hrest].
    change (joinWith (String c tail) (q :: q' :: rest)) with
      (q +:+ String c (tail +:+ joinWith (String c tail) (q' :: rest))).
    rewrite <- append_assoc, split_app_sep by (by rewrite lacks_app, Hpre, Hq).
    by rewrite IH.
Qed.
