(* ===== verification/JsTime.v ===== *)
(** * JsTime: constructing a [Date] from calendar components

    [new Date(year, monthIndex, day)] follows ECMAScript: [MakeDay] counts
    the days from the epoch to the given day (months and days out of range
    carry over), the result is a local time, converted to a time value by
    subtracting the offset of the local time zone, and [TimeClip] rejects
    what lies more than 8.64e15 ms from the epoch.  The local time zone is
    the interface [LocalTime]; [utcTime] is the instance with offset 0.
    [civilFromDays] inverts [daysFromCivil]; [toISOString] and
    [toDateString] print a date with it. *)

From Stdlib Require Import ZArith Lia.
From stdpp Require Import base tactics option numbers strings pretty.
From S2P Require Import Prelude Types.

#[local] Open Scope Z_scope.

(** ** Definitions *)

Definition msPerDay : Z := 86400000.

(** Days from 1970-01-01 to day [d] of month [m] (1 to 12) of year [y] in
    the proleptic Gregorian calendar. *)
Definition daysFromCivil (y m d : Z) : Z :=
  let y' := if m <=? 2 then y - 1 else y in
  let era := y' / 400 in
  let yoe := y' - era * 400 in
  let mp := if 2 <? m then m - 3 else m + 9 in
  let doy := (153 * mp + 2) / 5 + d - 1 in
  let doe := yoe * 365 + yoe / 4 - yoe / 100 + doy in
  era * 146097 + doe - 719468.

(** The year, month (1 to 12) and day of the month of a day counted from
    1970-01-01: ECMAScript [YearFromTime], [MonthFromTime] + 1 and
    [DateFromTime]. *)
Definition civilFromDays (z : Z) : Z * Z * Z :=
  let z := z + 719468 in
  let era := z / 146097 in
  let doe := z - era * 146097 in
  let yoe := (doe - doe / 1460 + doe / 36524 - doe / 146096) / 365 in
  let y := yoe + era * 400 in
  let doy := doe - (365 * yoe + yoe / 4 - yoe / 100) in
  let mp := (5 * doy + 2) / 153 in
  let d := doy - (153 * mp + 2) / 5 + 1 in
  let m := if mp <? 10 then mp + 3 else mp - 9 in
  (if m <=? 2 then y + 1 else y, m, d).

Definition isLeap (y : Z) : bool :=
  (y mod 4 =? 0) && (negb (y mod 100 =? 0) || (y mod 400 =? 0)).

Definition daysInMonth (y m : Z) : Z :=
  if m =? 2 then (if isLeap y then 29 else 28)
  else if (m =? 4) || (m =? 6) || (m =? 9) || (m =? 11) then 30 else 31.

(** A date of the calendar. *)
Definition validCivil (y m d : Z) : Prop := 1 ≤ m ≤ 12 ∧ 1 ≤ d ≤ daysInMonth y m.

(** ECMAScript [MakeDay(year, month, date)], [month] counted from 0. *)
Definition MakeDay (year month date : Z) : Z :=
  let ym := year + month / 12 in
  let mn := month mod 12 in
  daysFromCivil ym (mn + 1) 1 + date - 1.

(** ECMAScript [TimeClip]. *)
Definition TimeClip (t : Z) : JsDate :=
  if Z.abs t <=? 8640000000000000 then JsDate.at_ms t else JsDate.invalid.

(** The local time zone: the offset, in ms, of local time from UTC at a
    local time value ([localOffset]) and at a time value ([utcOffset]);
    less than a day in absolute value. *)
Class LocalTime := {
  localOffset : Z → Z;
  localOffset_bound : ∀ t, Z.abs (localOffset t) < msPerDay;
  utcOffset : Z → Z;
  utcOffset_bound : ∀ t, Z.abs (utcOffset t) < msPerDay;
}.

(** [new Date(year, monthIndex, day)]; an argument that is NaN gives the
    invalid date; a year from 0 to 99 counts from 1900. *)
Definition newDate `{LocalTime} (year monthIndex day : option Z) : JsDate :=
  match year, monthIndex, day with
  | Some y, Some m, Some d =>
      let yr := if (0 <=? y) && (y <=? 99) then 1900 + y else y in
      let t := MakeDay yr m d * msPerDay in
      TimeClip (t - localOffset t)
  | _, _, _ => JsDate.invalid
  end.

(** The time zone UTC. *)
#[export] Instance utcTime : LocalTime :=
  {| localOffset := λ _, 0; localOffset_bound := λ _, eq_refl;
     utcOffset := λ _, 0; utcOffset_bound := λ _, eq_refl |}.

(** The local day of a time value. *)
Definition localDay `{LocalTime} (ms : Z) : Z := (ms + utcOffset ms) / msPerDay.

(** ** Definitions: printing *)

Fixpoint zeros (n : nat) : string :=
  match n with
  | O => ""
  | S n' => "0" +:+ zeros n' 
  end.

(** [String(n).padStart(width, '0')] *)
Definition pad (width : nat) (n : Z) : string :=
  zeros (width - String.length (pretty n)) +:+ pretty n.

(** The year of [toISOString]: four digits from 0 to 9999, else a sign
    and six digits. *)
Definition isoYear (y : Z) : string :=
  if (0 <=? y) && (y <=? 9999) then pad 4 y
  else (if y <? 0 then "-" else "+") +:+ pad 6 (Z.abs y).

(** [d.toISOString()]; [None] is the [RangeError] of an invalid date. *)
Definition toISOString (d : JsDate) : option string :=
  t ← JsDate.getTime d;
  let '(y, m, dd) := civilFromDays (t / msPerDay) in
  let ms := t mod msPerDay in
  Some (isoYear y +:+ "-" +:+ pad 2 m +:+ "-" +:+ pad 2 dd +:+ "T" +:+
        pad 2 (ms / 3600000) +:+ ":" +:+ pad 2 (ms / 60000 mod 60) +:+ ":" +:+
        pad 2 (ms / 1000 mod 60) +:+ "." +:+ pad 3 (ms mod 1000) +:+ "Z").

Definition dayNames : list string := ["Sun"; "Mon"; "Tue"; "Wed"; "Thu"; "Fri"; "Sat"].

Definition monthNames : list string :=
  ["Jan"; "Feb"; "Mar"; "Apr"; "May"; "Jun"; "Jul"; "Aug"; "Sep"; "Oct"; "Nov"; "Dec"].

(** ECMAScript [WeekDay] of a day counted from the epoch, a Thursday. *)
Definition weekDay (day : Z) : Z := (day + 4) mod 7.

(** [d.toDateString()], in local time. *)
Definition toDateString `{LocalTime} (d : JsDate) : string :=
  match JsDate.getTime d with
  | None => "Invalid Date"
  | Some t =>
      let day := localDay t in
      let '(y, m, dd) := civilFromDays day in
      default "" (dayNames !! Z.to_nat (weekDay day)) +:+ " " +:+
      default "" (monthNames !! Z.to_nat (m - 1)) +:+ " " +:+ pad 2 dd +:+ " " +:+
      (if y <? 0 then "-" else "") +:+ pad 4 (Z.abs y)
  end.

(** ** Lemmas *)
Lemma TimeClip_valid (t : Z) :
  JsDate.valid (TimeClip t) ↔ Z.abs t ≤ 8640000000000000.
Proof.
  unfold TimeClip. destruct (Z.leb_spec (Z.abs t) 8640000000000000).
  - split; [done|]. intros _. apply JsDate_at_ms_valid.
  - split; [|lia]. by intros ?%JsDate_invalid_not_valid.
Qed.

Lemma TimeClip_getTime (t ms : Z) : JsDate.getTime (TimeClip t) = Some ms → ms = t.
Proof. unfold TimeClip. destruct (_ <=? _); [by intros [= <-] | done]. Qed.

Lemma newDate_NaN `{LocalTime} (year monthIndex day : option Z) :
  year = None ∨ monthIndex = None ∨ day = None →
  newDate year monthIndex day = JsDate.invalid.
Proof. intros [-> | [-> | ->]]; unfold newDate; repeat case_match; done. Qed.

(** One day later in the calendar is one day later in [MakeDay]. *)
Lemma MakeDay_succ (year month date : Z) :
  MakeDay year month (date + 1) = MakeDay year month date + 1.
Proof. unfold MakeDay. lia. Qed.

(** Month 12 of a year is month 0 of the next. *)
Lemma MakeDay_month_carry (year month date : Z) :
  MakeDay year (month + 12) date = MakeDay (year + 1) month date.
Proof.
  unfold MakeDay.
  replace ((month + 12) / 12) with (month / 12 + 1)
    by (rewrite <- (Z.div_add month 1 12) by lia; f_equal; lia).
  replace ((month + 12) mod 12) with (month mod 12)
    by (rewrite <- (Z.mod_add month 1 12) by lia; f_equal; lia).
  f_equal. f_equal. f_equal. lia.
Qed.

(** ** Lemmas: the calendar *)
Lemma isLeap_true (y : Z) :
  isLeap y = true ↔ y mod 4 = 0 ∧ (y mod 100 ≠ 0 ∨ y mod 400 = 0).
Proof.
  unfold isLeap. rewrite andb_true_iff, orb_true_iff, negb_true_iff, Z.eqb_neq, !Z.eqb_eq.
  done.
Qed.

(** The year of the era of a day of the era, and the day of that year. *)
Lemma yoe_bounds (doe : Z) :
  0 ≤ doe ≤ 146096 →
  let yoe := (doe - doe / 1460 + doe / 36524 - doe / 146096) / 365 in
  0 ≤ yoe ≤ 399 ∧ 0 ≤ doe - (365 * yoe + yoe / 4 - yoe / 100) ≤ 365.
Proof. intros H yoe. subst yoe. Z.div_mod_to_equations; lia. Qed.

Lemma yoe_of_doe (yoe doy : Z) :
  0 ≤ yoe ≤ 399 → 0 ≤ doy ≤ 365 → (doy = 365 → isLeap (yoe + 1) = true) →
  let doe := yoe * 365 + yoe / 4 - yoe / 100 + doy in
  0 ≤ doe ≤ 146096 ∧ (doe - doe / 1460 + doe / 36524 - doe / 146096) / 365 = yoe.
Proof.
  intros Hy Hd Hl doe. subst doe.
  assert (doy ≤ 364 ∨ (yoe + 1) mod 4 = 0 ∧
          ((yoe + 1) mod 100 ≠ 0 ∨ (yoe + 1) mod 400 = 0)) as H.
  { destruct (Z.eq_dec doy 365) as [->|]; [|lia]. right. by apply isLeap_true, Hl. }
  clear Hl. Z.div_mod_to_equations; lia.
Qed.

(** [daysFromCivil] is a left inverse of [civilFromDays]: every day is
    the day of the date computed for it. *)
Lemma daysFromCivil_civilFromDays (z : Z) :
  let '(y, m, d) := civilFromDays z in daysFromCivil y m d = z.
Proof.
  unfold civilFromDays, daysFromCivil.
  set (z' := z + 719468). set (era := z' / 146097). set (doe := z' - era * 146097).
  assert (0 ≤ doe ≤ 146096) as Hdoe by (subst doe era; Z.div_mod_to_equations; lia).
  pose proof (yoe_bounds doe Hdoe) as [Hyoe Hdoy]. cbv zeta in *.
  set (yoe := (doe - doe / 1460 + doe / 36524 - doe / 146096) / 365) in *.
  set (doy := doe - (365 * yoe + yoe / 4 - yoe / 100)) in *.
  set (mp := (5 * doy + 2) / 153).
  assert (0 ≤ mp ≤ 11) as Hmp by (subst mp; Z.div_mod_to_equations; lia).
  assert ((yoe + era * 400) / 400 = era) as Hera by (Z.div_mod_to_equations; lia).
  destruct (Z.ltb_spec mp 10).
  - destruct (Z.leb_spec (mp + 3) 2); [lia|]. destruct (Z.ltb_spec 2 (mp + 3)); [|lia].
    rewrite Hera. replace (mp + 3 - 3) with mp by lia.
    replace (yoe + era * 400 - era * 400) with yoe by lia. subst doy doe z'. lia.
  - destruct (Z.leb_spec (mp - 9) 2); [|lia]. destruct (Z.ltb_spec 2 (mp - 9)); [lia|].
    replace (yoe + era * 400 + 1 - 1) with (yoe + era * 400) by lia.
    rewrite Hera. replace (mp - 9 + 9) with mp by lia.
    replace (yoe + era * 400 - era * 400) with yoe by lia. subst doy doe z'. lia.
Qed.

Lemma mp_of_doy (mp d : Z) :
  0 ≤ mp ≤ 11 → 1 ≤ d ≤ (153 * (mp + 1) + 2) / 5 - (153 * mp + 2) / 5 →
  (5 * ((153 * mp + 2) / 5 + d - 1) + 2) / 153 = mp.
Proof. intros H1 H2. Z.div_mod_to_equations; lia. Qed.

Lemma daysInMonth_shifted (y m : Z) :
  1 ≤ m ≤ 12 →
  let mp := if 2 <? m then m - 3 else m + 9 in
  0 ≤ mp ≤ 11 ∧
  daysInMonth y m ≤ (153 * (mp + 1) + 2) / 5 - (153 * mp + 2) / 5 ∧
  (153 * mp + 2) / 5 + daysInMonth y m - 1 ≤ 365 ∧
  ((153 * mp + 2) / 5 + daysInMonth y m - 1 = 365 → m = 2 ∧ isLeap y = true).
Proof.
  intros Hm. assert (m = 1 ∨ m = 2 ∨ m = 3 ∨ m = 4 ∨ m = 5 ∨ m = 6 ∨ m = 7 ∨ m = 8 ∨
    m = 9 ∨ m = 10 ∨ m = 11 ∨ m = 12) as Hc by lia.
  unfold daysInMonth.
  repeat (destruct Hc as [Hc|Hc]; [subst m; cbn; try (split_and!; (lia || done))|]);
    try subst m; cbn; try (split_and!; (lia || done)).
  destruct (isLeap y); cbn; split_and!; (lia || done).
Qed.

Lemma isLeap_mod (y : Z) : isLeap (y mod 400) = isLeap y.
Proof.
  unfold isLeap.
  replace (y mod 400 mod 4) with (y mod 4) by (Z.div_mod_to_equations; lia).
  replace (y mod 400 mod 100) with (y mod 100) by (Z.div_mod_to_equations; lia).
  by replace (y mod 400 mod 400) with (y mod 400) by (Z.div_mod_to_equations; lia).
Qed.

Lemma isLeap_yoe (y : Z) : isLeap (y - y / 400 * 400 + 1) = isLeap (y + 1).
Proof.
  unfold isLeap.
  replace ((y - y / 400 * 400 + 1) mod 4) with ((y + 1) mod 4)
    by (Z.div_mod_to_equations; lia).
  replace ((y - y / 400 * 400 + 1) mod 100) with ((y + 1) mod 100)
    by (Z.div_mod_to_equations; lia).
  by replace ((y - y / 400 * 400 + 1) mod 400) with ((y + 1) mod 400)
    by (Z.div_mod_to_equations; lia).
Qed.

Lemma civilFromDays_daysFromCivil (y m d : Z) :
  validCivil y m d → civilFromDays (daysFromCivil y m d) = (y, m, d).
Proof.
  intros [Hm Hd]. pose proof (daysInMonth_shifted y m Hm) as (Hmp & Hdim & Hdoy & Hleap).
  cbv zeta in *. unfold daysFromCivil, civilFromDays.
  set (y' := if m <=? 2 then y - 1 else y).
  set (mp := if 2 <? m then m - 3 else m + 9) in *.
  set (era := y' / 400). set (yoe := y' - era * 400).
  set (doy := (153 * mp + 2) / 5 + d - 1).
  assert (0 ≤ yoe ≤ 399) as Hyoe by (subst yoe era; Z.div_mod_to_equations; lia).
  assert (doy = 365 → isLeap (yoe + 1) = true) as Hl.
  { intros E. assert (m = 2 ∧ isLeap y = true) as [-> Hleap']. { apply Hleap. subst doy. lia. }
    subst yoe era y'. cbn [Z.leb Z.compare Pos.compare Pos.compare_cont]. rewrite isLeap_yoe.
    rewrite <- Hleap'. f_equal. lia. }
  assert (0 ≤ doy ≤ 365) as Hdoy' by (subst doy; Z.div_mod_to_equations; lia).
  destruct (yoe_of_doe yoe doy Hyoe Hdoy' Hl) as [Hdoe Hy].
  cbv zeta in *. set (doe := yoe * 365 + yoe / 4 - yoe / 100 + doy) in *.
  replace (era * 146097 + doe - 719468 + 719468) with (doe + era * 146097) by lia.
  rewrite Z.div_add, (Z.div_small doe), Z.add_0_l by lia.
  replace (doe + era * 146097 - era * 146097) with doe by lia. rewrite Hy.
  replace (doe - (365 * yoe + yoe / 4 - yoe / 100)) with doy by (subst doe; lia).
  pose proof (mp_of_doy mp d Hmp ltac:(lia)) as Hmp'. fold doy in Hmp'. rewrite Hmp'.
  replace (doy - (153 * mp + 2) / 5 + 1) with d by (subst doy; lia).
  subst mp yoe era y'. 
  repeat match goal with
         | |- context [?a <? ?b] => destruct (Z.ltb_spec a b)
         | |- context [?a <=? ?b] => destruct (Z.leb_spec a b)
         end; try lia; repeat f_equal; lia.
Qed.

Lemma daysFromCivil_day (y m d : Z) : daysFromCivil y m d = daysFromCivil y m 1 + d - 1.
Proof. unfold daysFromCivil. lia. Qed.

(** In range, [MakeDay] is the day of the calendar date. *)
Lemma MakeDay_civil (y m d : Z) : 1 ≤ m ≤ 12 → MakeDay y (m - 1) d = daysFromCivil y m d.
Proof.
  intros Hm. unfold MakeDay. rewrite (daysFromCivil_day y m d).
  rewrite (Z.div_small (m - 1)), (Z.mod_small (m - 1)) by lia.
  do 3 f_equal; lia.
Qed.

Lemma daysFromCivil_bound (y m d : Z) :
  1 ≤ m ≤ 12 → 1 ≤ d ≤ 31 → 0 ≤ y ≤ 270000 →
  -720000 ≤ daysFromCivil y m d < 99000000.
Proof.
  intros Hm Hd Hy. unfold daysFromCivil.
  destruct (Z.leb_spec m 2), (Z.ltb_spec 2 m); try lia; Z.div_mod_to_equations; lia.
Qed.

Lemma daysInMonth_le (y m : Z) : daysInMonth y m ≤ 31.
Proof. unfold daysInMonth. by repeat case_match. Qed.

(** A date built from a year from 100 on, a month and a day of the
    calendar is the start of that day in local time: read back in local
    time it has that year, month and day, provided that local time
    exists (it is not skipped by a change of offset). *)
Theorem newDate_local_date `{LocalTime} (y m d : Z) :
  validCivil y m d → 100 ≤ y ≤ 270000 →
  let t := daysFromCivil y m d * msPerDay in
  utcOffset (t - localOffset t) = localOffset t →
  ∃ ms, JsDate.getTime (newDate (Some y) (Some (m - 1)) (Some d)) = Some ms ∧
        ms = t - localOffset t ∧ civilFromDays (localDay ms) = (y, m, d).
Proof.
  intros Hv Hy t Hoff. pose proof Hv as [Hm Hd]. pose proof (daysInMonth_le y m).
  unfold newDate. destruct (Z.leb_spec 0 y), (Z.leb_spec y 99); try lia. cbn [andb].
  rewrite MakeDay_civil by done. fold t.
  pose proof (daysFromCivil_bound y m d Hm ltac:(lia) ltac:(lia)).
  pose proof (localOffset_bound t). unfold TimeClip, msPerDay in *.
  destruct (Z.leb_spec (Z.abs (t - localOffset t)) 8640000000000000); [|lia].
  exists (t - localOffset t). split_and!; [done..|].
  unfold localDay. rewrite Hoff. replace (t - localOffset t + localOffset t) with t by lia.
  subst t. rewrite Z.div_mul by done. by apply civilFromDays_daysFromCivil.
Qed.

(** [toISOString] answers on every valid date. *)
Lemma toISOString_valid (d : JsDate) : JsDate.valid d → is_Some (toISOString d).
Proof.
  unfold toISOString. intros [t Ht]. rewrite Ht. cbn.
  destruct (civilFromDays (t / msPerDay)) as [[? ?] ?]. eauto.
Qed.
