(* ===== verification/BookingList.v ===== *)
(** * BookingList: the operations of [src/App.tsx] on the booking list

    Each definition is the expression a handler passes to [setBookings]:
    [newBooking] and [addBooking] (finalizeBooking), [rescheduleBookings]
    (the reschedule branch of handleBookingConfirm), [cancelBookings]
    (handleConfirmCancelBooking), [attachIntakeForm]
    (handleIntakeFormSubmit) and [findBooking] (the [bookings.find] of the
    handlers that open a modal).  The invariant [wf_bookings] says that
    every appointment date is valid and the list is sorted by date; the
    lemmas show which operations keep it and under which condition. *)

From Stdlib Require Import ZArith Lia Sorted Permutation Ascii.
From stdpp Require Import base tactics option list strings pretty.
From S2P Require Import Prelude Types JsArray JsString.

#[local] Open Scope Z_scope.

(** ** Definitions *)

(** [b.id === bookingId] *)
Definition hasId (bookingId : string) (b : Booking) : bool :=
  String.eqb (Booking.id b) bookingId.

(** [bookings.find(b => b.id === bookingId)] *)
Definition findBooking (bookingId : string) (bookings : list Booking) : option Booking :=
  List.find (hasId bookingId) bookings.

(** The comparator [(a, b) => a.date.getTime() - b.date.getTime()]. *)
Definition byDate : Booking → Booking → option Z := by_key Booking.time_ms.

(** The booking list is well formed: every date is valid and the list is
    sorted by ascending date. *)
Definition wf_bookings (l : list Booking) : Prop :=
  Forall (λ b, JsDate.valid (Booking.date b)) l ∧ sorted byDate l.

(** The [id] template [`${Date.now()}-${therapistToBook.id}`]. *)
Definition bookingId (now : Z) (t : Therapist) : string :=
  pretty now +:+ "-" +:+ pretty (Therapist.id t).

(** The record [newBooking] of [finalizeBooking]. *)
Definition newBooking (now : Z) (therapistToBook : Therapist) (currentUser : User)
    (details : BookingDetails) (isPaid : bool) : Booking :=
  {| Booking.id := bookingId now therapistToBook;
     Booking.userId := User.id currentUser;
     Booking.patientName := BookingDetails.patientName details;
     Booking.therapist := therapistToBook;
     Booking.date := BookingDetails.date details;
     Booking.time := BookingDetails.time details;
     Booking.status := Some Status.confirmed;
     Booking.intakeForm := None;
     Booking.patientEmail := None;
     Booking.phoneNo := Some (BookingDetails.phoneNo details);
     Booking.service := Some (BookingDetails.service details);
     Booking.isPaid := Some isPaid |}.

(** [{ ...b, date, time, status: 'confirmed', phoneNo, service }] *)
Definition rescheduled (details : BookingDetails) (b : Booking) : Booking :=
  {| Booking.id := Booking.id b;
     Booking.userId := Booking.userId b;
     Booking.patientName := Booking.patientName b;
     Booking.therapist := Booking.therapist b;
     Booking.date := BookingDetails.date details;
     Booking.time := BookingDetails.time details;
     Booking.status := Some Status.confirmed;
     Booking.intakeForm := Booking.intakeForm b;
     Booking.patientEmail := Booking.patientEmail b;
     Booking.phoneNo := Some (BookingDetails.phoneNo details);
     Booking.service := Some (BookingDetails.service details);
     Booking.isPaid := Booking.isPaid b |}.

(** [{ ...b, status: 'cancelled' }] *)
Definition cancelled (b : Booking) : Booking :=
  {| Booking.id := Booking.id b;
     Booking.userId := Booking.userId b;
     Booking.patientName := Booking.patientName b;
     Booking.therapist := Booking.therapist b;
     Booking.date := Booking.date b;
     Booking.time := Booking.time b;
     Booking.status := Some Status.cancelled;
     Booking.intakeForm := Booking.intakeForm b;
     Booking.patientEmail := Booking.patientEmail b;
     Booking.phoneNo := Booking.phoneNo b;
     Booking.service := Booking.service b;
     Booking.isPaid := Booking.isPaid b |}.

(** [{ ...b, intakeForm: formData }] *)
Definition withIntakeForm (formData : IntakeForm) (b : Booking) : Booking :=
  {| Booking.id := Booking.id b;
     Booking.userId := Booking.userId b;
     Booking.patientName := Booking.patientName b;
     Booking.therapist := Booking.therapist b;
     Booking.date := Booking.date b;
     Booking.time := Booking.time b;
     Booking.status := Booking.status b;
     Booking.intakeForm := Some formData;
     Booking.patientEmail := Booking.patientEmail b;
     Booking.phoneNo := Booking.phoneNo b;
     Booking.service := Booking.service b;
     Booking.isPaid := Booking.isPaid b |}.

(** [prev.map(b => b.id === bookingId ? f(b) : b)] *)
Definition mapWhereId (bookingId : string) (f : Booking → Booking)
    (prev : list Booking) : list Booking :=
  map (λ b, if hasId bookingId b then f b else b) prev.

(** [prev => prev.map(b => b.id === bookingId ? { ...b, status: 'cancelled' } : b)] *)
Definition cancelBookings (bookingId : string) (prev : list Booking) : list Booking :=
  mapWhereId bookingId cancelled prev.

(** [prev => prev.map(b => b.id === bookingId ? { ...b, intakeForm: formData } : b)] *)
Definition attachIntakeForm (bookingId : string) (formData : IntakeForm)
    (prev : list Booking) : list Booking :=
  mapWhereId bookingId (withIntakeForm formData) prev.

Section WithSort.
Context `{JS : JsSort}.

(** [prevBookings => [...prevBookings, newBooking].sort(byDate)] *)
Definition addBooking (b : Booking) (prevBookings : list Booking) : list Booking :=
  js_sort byDate (prevBookings ++ [b]).

(** [bookings.map(b => b.id === id ? {...} : b)] followed by [sort(byDate)] *)
Definition rescheduleBookings (bookingId : string) (details : BookingDetails)
    (bookings : list Booking) : list Booking :=
  js_sort byDate (mapWhereId bookingId (rescheduled details) bookings).

End WithSort.

(** Where a stable sort puts a booking appended to a sorted list: after
    the bookings that are not later than it. *)
Definition notLater (b a : Booking) : bool := before_eq byDate a b.

Definition placeBooking (b : Booking) (prev : list Booking) : list Booking :=
  List.filter (notLater b) prev ++ b :: List.filter (λ a, negb (notLater b a)) prev.

Fixpoint placeAfter (b : Booking) (prev : list Booking) : list Booking :=
  match prev with
  | [] => [b]
  | a :: prev' => if notLater b a then a :: placeAfter b prev' else b :: a :: prev'
  end.

(** [b'] is [b] up to its [status]. *)
Definition sameButStatus (b b' : Booking) : Prop :=
  Booking.id b' = Booking.id b ∧ Booking.userId b' = Booking.userId b ∧
  Booking.patientName b' = Booking.patientName b ∧
  Booking.therapist b' = Booking.therapist b ∧ Booking.date b' = Booking.date b ∧
  Booking.time b' = Booking.time b ∧ Booking.intakeForm b' = Booking.intakeForm b ∧
  Booking.patientEmail b' = Booking.patientEmail b ∧
  Booking.phoneNo b' = Booking.phoneNo b ∧ Booking.service b' = Booking.service b ∧
  Booking.isPaid b' = Booking.isPaid b.

(** [b'] is [b] up to its [intakeForm]. *)
Definition sameButIntakeForm (b b' : Booking) : Prop :=
  Booking.id b' = Booking.id b ∧ Booking.userId b' = Booking.userId b ∧
  Booking.patientName b' = Booking.patientName b ∧
  Booking.therapist b' = Booking.therapist b ∧ Booking.date b' = Booking.date b ∧
  Booking.time b' = Booking.time b ∧ Booking.status b' = Booking.status b ∧
  Booking.patientEmail b' = Booking.patientEmail b ∧
  Booking.phoneNo b' = Booking.phoneNo b ∧ Booking.service b' = Booking.service b ∧
  Booking.isPaid b' = Booking.isPaid b.

(** What rescheduling leaves of a booking: identity, owner, patient,
    therapist, intake form, e-mail and payment flag. *)
Definition sameButSchedule (b b' : Booking) : Prop :=
  Booking.id b' = Booking.id b ∧ Booking.userId b' = Booking.userId b ∧
  Booking.patientName b' = Booking.patientName b ∧
  Booking.therapist b' = Booking.therapist b ∧
  Booking.intakeForm b' = Booking.intakeForm b ∧
  Booking.patientEmail b' = Booking.patientEmail b ∧
  Booking.isPaid b' = Booking.isPaid b.

(** The schedule of [b] is the one of [details], confirmed. *)
Definition scheduledAs (details : BookingDetails) (b : Booking) : Prop :=
  Booking.date b = BookingDetails.date details ∧
  Booking.time b = BookingDetails.time details ∧
  Booking.status b = Some Status.confirmed ∧
  Booking.phoneNo b = Some (BookingDetails.phoneNo details) ∧
  Booking.service b = Some (BookingDetails.service details).

(** ** Lemmas: identifiers and lookup *)
Lemma hasId_true (i : string) (b : Booking) : hasId i b = true ↔ Booking.id b = i.
Proof. apply String.eqb_eq. Qed.

Lemma hasId_false (i : string) (b : Booking) : hasId i b = false ↔ Booking.id b ≠ i.
Proof. apply String.eqb_neq. Qed.

Lemma findBooking_Some (i : string) (l : list Booking) (b : Booking) :
  findBooking i l = Some b → b ∈ l ∧ Booking.id b = i.
Proof.
  intros [Hin Hid]%find_some. split; [by apply list_elem_of_In | by apply hasId_true].
Qed.

Lemma findBooking_None (i : string) (l : list Booking) :
  findBooking i l = None ↔ Forall (λ b, Booking.id b ≠ i) l.
Proof.
  unfold findBooking. induction l as [|a l IH]; simpl; [by split|].
  destruct (hasId i a) eqn:E.
  - apply hasId_true in E. split; [done|]. by intros [? _]%Forall_cons.
  - apply hasId_false in E. rewrite IH, Forall_cons. tauto.
Qed.

(** [find] returns the first booking with the identifier. *)
Lemma findBooking_first (i : string) (l : list Booking) (b : Booking) :
  findBooking i l = Some b →
  ∃ l1 l2, l = l1 ++ b :: l2 ∧ Forall (λ a, Booking.id a ≠ i) l1.
Proof.
  unfold findBooking. induction l as [|a l IH]; simpl; [done|].
  destruct (hasId i a) eqn:E.
  - intros [= ->]. by exists [], l.
  - intros (l1 & l2 & -> & Hl1)%IH. exists (a :: l1), l2. split; [done|].
    constructor; [by apply hasId_false | done].
Qed.

(** ** Lemmas: the identifier of a new booking *)

(** The digits of a number have no dash. *)
Lemma pretty_N_go_lacks_dash (x : N) (s : string) :
  ∃ p, pretty_N_go x s = p +:+ s ∧ lacks "-"%char p = true.
Proof.
  revert s. induction (N.lt_wf_0 x) as [x _ IH]. intros s.
  destruct (decide (0 < x)%N) as [Hx|Hx].
  - rewrite pretty_N_go_step by done.
    destruct (IH (x `div` 10)%N (N.div_lt x 10 Hx eq_refl)
                (String (pretty_N_char (x `mod` 10)) s)) as (p & -> & Hp).
    exists (p +:+ String (pretty_N_char (x `mod` 10)) ""). split.
    + by rewrite JsString.append_assoc.
    + rewrite lacks_app, Hp. unfold pretty_N_char. by repeat case_match.
  - assert (x = 0%N) as -> by lia. by exists "".
Qed.

Lemma pretty_lacks_dash (z : Z) : 0 ≤ z → lacks "-"%char (pretty z) = true.
Proof.
  destruct z as [|x|x]; [done| |lia]. intros _.
  destruct (pretty_N_go_lacks_dash (N.pos x) "") as (p & Hp & Hl).
  unfold pretty, pretty_Z, pretty, pretty_positive, pretty, pretty_N.
  rewrite decide_False by done. by rewrite Hp, append_nil_r.
Qed.

(** C37: two bookings get the same identifier only when they are made in the
    same millisecond with therapists of the same id: the identifier
    determines the time of creation and the therapist's id. *)
Theorem bookingId_inj (now now' : Z) (t t' : Therapist) :
  0 ≤ now → 0 ≤ now' → bookingId now t = bookingId now' t' →
  now = now' ∧ Therapist.id t = Therapist.id t'.
Proof.
  intros Hn Hn' H. unfold bookingId in H.
  apply (split_at_first "-"%char) in H as [H1 H2]; [|by apply pretty_lacks_dash..].
  by apply (inj pretty) in H1, H2.
Qed.

(** The identifier does not tell two bookings of one millisecond with the
    same therapist apart, whoever books. *)
Lemma newBooking_id (now : Z) (t : Therapist) (u u' : User) (d d' : BookingDetails)
    (p p' : bool) :
  Booking.id (newBooking now t u d p) = Booking.id (newBooking now t u' d' p').
Proof. reflexivity. Qed.

(** ** Lemmas: updating the bookings with an identifier *)

Section MapWhereId.
Context (i : string) (f : Booking → Booking).

Lemma mapWhereId_length l : length (mapWhereId i f l) = length l.
Proof. apply length_map. Qed.

Lemma mapWhereId_lookup l (k : nat) :
  mapWhereId i f l !! k = (λ b, if hasId i b then f b else b) <$> l !! k.
Proof. apply list_lookup_fmap. Qed.

Lemma mapWhereId_absent l : findBooking i l = None → mapWhereId i f l = l.
Proof.
  rewrite findBooking_None. induction 1 as [|a l Ha _ IH]; [done|].
  unfold mapWhereId in *. cbn [map]. rewrite IH.
  by rewrite (proj2 (hasId_false i a) Ha).
Qed.

(** An update that relates each booking to its image relates the lists. *)
Lemma mapWhereId_Forall2 (R : Booking → Booking → Prop) l :
  (∀ b, R b b) → (∀ b, R b (f b)) → Forall2 R l (mapWhereId i f l).
Proof.
  intros Hrefl Hf. induction l as [|a l IH]; [constructor|].
  cbn. constructor; [|done]. by destruct (hasId i a).
Qed.

Lemma mapWhereId_proj {B} (p : Booking → B) l :
  (∀ b, p (f b) = p b) → map p (mapWhereId i f l) = map p l.
Proof.
  intros Hp. unfold mapWhereId. rewrite map_map. apply map_ext.
  intros b. by destruct (hasId i b).
Qed.

Lemma mapWhereId_elem_of l b :
  b ∈ l → (if hasId i b then f b else b) ∈ mapWhereId i f l.
Proof. intros Hb. by apply (list_elem_of_fmap_2 (λ b, if hasId i b then f b else b)). Qed.

Lemma mapWhereId_elem_of_inv l b' :
  b' ∈ mapWhereId i f l → ∃ b, b ∈ l ∧ b' = if hasId i b then f b else b.
Proof. intros (b & -> & Hb)%list_elem_of_fmap. eauto. Qed.

End MapWhereId.

(** ** Lemmas: the invariant *)
Lemma wf_bookings_nil : wf_bookings [].
Proof. split; [constructor | apply sorted_nil]. Qed.

Lemma byDate_Consistent : Consistent byDate (λ b, JsDate.valid (Booking.date b)).
Proof. apply (by_key_Consistent Booking.time_ms). Qed.

#[global] Instance wf_bookings_dec l : Decision (wf_bookings l).
Proof. unfold wf_bookings. apply _. Defined.

(** An update that keeps every date keeps the invariant. *)
Lemma mapWhereId_wf i f l :
  (∀ b, Booking.date (f b) = Booking.date b) → wf_bookings l → wf_bookings (mapWhereId i f l).
Proof.
  intros Hf [Hv Hs]. split.
  - apply Forall_map. eapply Forall_impl; [exact Hv|].
    intros b Hb. simpl. destruct (hasId i b); by rewrite ?Hf.
  - apply sorted_map_key; [|done].
    intros b. unfold Booking.time_ms. destruct (hasId i b); by rewrite ?Hf.
Qed.

(** ** Lemmas: cancelling *)
Lemma sameButStatus_refl b : sameButStatus b b.
Proof. by repeat split. Qed.

Lemma cancelled_sameButStatus b : sameButStatus b (cancelled b).
Proof. by repeat split. Qed.

Lemma hasId_cancelled i b : hasId i (cancelled b) = hasId i b.
Proof. reflexivity. Qed.

(** Cancelling never removes a booking and never changes a field other
    than [status]: the new list is the old one, booking by booking, up to
    [status]. *)
Theorem cancelBookings_only_status (bookingId : string) (prev : list Booking) :
  Forall2 sameButStatus prev (cancelBookings bookingId prev).
Proof.
  apply mapWhereId_Forall2; auto using sameButStatus_refl, cancelled_sameButStatus.
Qed.

Lemma cancelBookings_length i prev : length (cancelBookings i prev) = length prev.
Proof. apply mapWhereId_length. Qed.

(** After cancelling, every booking with the identifier is cancelled
    and the bookings with another identifier are the ones of the old list,
    in the same order. *)
Theorem cancelBookings_status (i : string) (prev : list Booking) :
  Forall (λ b, Booking.id b = i → Booking.status b = Some Status.cancelled)
    (cancelBookings i prev) ∧
  List.filter (λ b, negb (hasId i b)) (cancelBookings i prev) =
  List.filter (λ b, negb (hasId i b)) prev.
Proof.
  split.
  - apply Forall_forall. intros b' (b & Hb & ->)%mapWhereId_elem_of_inv.
    destruct (hasId i b) eqn:E; [done|]. by apply hasId_false in E.
  - unfold cancelBookings, mapWhereId. induction prev as [|a l IH]; [done|].
    cbn [map List.filter]. rewrite IH.
    destruct (hasId i a) eqn:E; [|by rewrite E].
    by rewrite (hasId_cancelled i a), E.
Qed.

Lemma cancelBookings_wf i prev : wf_bookings prev → wf_bookings (cancelBookings i prev).
Proof. by apply mapWhereId_wf. Qed.

Lemma cancelBookings_idem i prev :
  cancelBookings i (cancelBookings i prev) = cancelBookings i prev.
Proof.
  unfold cancelBookings, mapWhereId. rewrite map_map. apply map_ext.
  intros b. destruct (hasId i b) eqn:E; [|by rewrite E].
  by rewrite (hasId_cancelled i b), E.
Qed.

Lemma cancelBookings_absent i prev : findBooking i prev = None → cancelBookings i prev = prev.
Proof. apply mapWhereId_absent. Qed.

(** ** Lemmas: attaching an intake form *)
Lemma attachIntakeForm_only_form i formData prev :
  Forall2 sameButIntakeForm prev (attachIntakeForm i formData prev).
Proof. apply mapWhereId_Forall2; intros b; by repeat split. Qed.

Lemma attachIntakeForm_wf i formData prev :
  wf_bookings prev → wf_bookings (attachIntakeForm i formData prev).
Proof. by apply mapWhereId_wf. Qed.

Lemma attachIntakeForm_form i formData prev :
  Forall (λ b, Booking.id b = i → Booking.intakeForm b = Some formData)
    (attachIntakeForm i formData prev).
Proof.
  apply Forall_forall. intros b' (b & Hb & ->)%mapWhereId_elem_of_inv.
  destruct (hasId i b) eqn:E; [done|]. by apply hasId_false in E.
Qed.

(** The form attached to the bookings with an identifier is the one
    found with it afterwards; the bookings found with another identifier
    are as before. *)
Lemma attachIntakeForm_find i formData prev :
  is_Some (findBooking i prev) →
  findBooking i (attachIntakeForm i formData prev) ≫= Booking.intakeForm = Some formData.
Proof.
  unfold findBooking, attachIntakeForm, mapWhereId, hasId.
  induction prev as [|b prev IH]; cbn; [by intros [? [=]]|].
  destruct (String.eqb (Booking.id b) i) eqn:E; cbn; rewrite E; [done | apply IH].
Qed.

Lemma attachIntakeForm_find_other i j formData prev :
  i ≠ j → findBooking j (attachIntakeForm i formData prev) = findBooking j prev.
Proof.
  intros Hij. unfold findBooking, attachIntakeForm, mapWhereId, hasId.
  induction prev as [|b prev IH]; cbn; [done|].
  destruct (String.eqb (Booking.id b) i) eqn:E; cbn; [|by rewrite IH].
  apply String.eqb_eq in E. rewrite (proj2 (String.eqb_neq _ _)) by congruence. apply IH.
Qed.

(** ** Lemmas: adding and rescheduling, for any conforming sort *)

Section WithSortLemmas.
Context `{JS : JsSort}.

Lemma addBooking_perm b prev : addBooking b prev ≡ₚ b :: prev.
Proof. unfold addBooking. rewrite js_sort_perm. by rewrite Permutation_app_comm. Qed.

Lemma addBooking_length b prev : length (addBooking b prev) = S (length prev).
Proof. by rewrite addBooking_perm. Qed.

Lemma addBooking_elem_of b prev b' : b' ∈ addBooking b prev ↔ b' = b ∨ b' ∈ prev.
Proof. rewrite addBooking_perm. apply elem_of_cons. Qed.

Lemma addBooking_valid b prev :
  JsDate.valid (Booking.date b) → Forall (λ a, JsDate.valid (Booking.date a)) prev →
  Forall (λ a, JsDate.valid (Booking.date a)) (prev ++ [b]).
Proof. intros Hb Hv. apply Forall_app. split; [done | by constructor]. Qed.

(** Adding a booking with a valid date keeps the invariant; the old list
    need not be sorted. *)
Lemma addBooking_wf b prev :
  JsDate.valid (Booking.date b) → Forall (λ a, JsDate.valid (Booking.date a)) prev →
  wf_bookings (addBooking b prev).
Proof.
  intros Hb Hv. pose proof (addBooking_valid b prev Hb Hv) as Hall. split.
  - by apply js_sort_Forall.
  - by apply (js_sort_sorted byDate _ _ byDate_Consistent).
Qed.

Lemma rescheduleBookings_perm i details bookings :
  rescheduleBookings i details bookings ≡ₚ mapWhereId i (rescheduled details) bookings.
Proof. apply js_sort_perm. Qed.

Lemma rescheduleBookings_length i details bookings :
  length (rescheduleBookings i details bookings) = length bookings.
Proof. by rewrite rescheduleBookings_perm, mapWhereId_length. Qed.

Lemma rescheduled_valid i details bookings :
  JsDate.valid (BookingDetails.date details) →
  Forall (λ a, JsDate.valid (Booking.date a)) bookings →
  Forall (λ a, JsDate.valid (Booking.date a)) (mapWhereId i (rescheduled details) bookings).
Proof.
  intros Hd Hv. apply Forall_map. eapply Forall_impl; [exact Hv|].
  intros b Hb. simpl. by destruct (hasId i b).
Qed.

Lemma rescheduleBookings_wf i details bookings :
  JsDate.valid (BookingDetails.date details) →
  Forall (λ a, JsDate.valid (Booking.date a)) bookings →
  wf_bookings (rescheduleBookings i details bookings).
Proof.
  intros Hd Hv. pose proof (rescheduled_valid i details bookings Hd Hv) as Hall. split.
  - by apply js_sort_Forall.
  - by apply (js_sort_sorted byDate _ _ byDate_Consistent).
Qed.

End WithSortLemmas.

(** ** Lemmas: where a new booking lands *)
Lemma notLater_true b a : notLater b a = true ↔ SortCompare byDate a b ≤ 0.
Proof. unfold notLater. apply before_eq_true. Qed.

Lemma notLater_false b a : notLater b a = false ↔ 0 < SortCompare byDate a b.
Proof. unfold notLater. apply before_eq_false. Qed.

Lemma placeAfter_perm b prev : placeAfter b prev ≡ₚ b :: prev.
Proof.
  induction prev as [|a l IH]; simpl; [done|].
  destruct (notLater b a); [|done]. rewrite IH. apply perm_swap.
Qed.

Lemma placeAfter_sublist b prev : sublist prev (placeAfter b prev).
Proof.
  induction prev as [|a l IH]; simpl; [apply sublist_nil_l|].
  destruct (notLater b a); [by apply sublist_skip | by apply sublist_cons].
Qed.

Lemma placeAfter_head b prev :
  Forall (λ a, notLater b a = false) prev → placeAfter b prev = b :: prev.
Proof. destruct prev as [|a l]; simpl; [done|]. by intros [-> _]%Forall_cons. Qed.

(** [insertion_sort] on a sorted list with one booking appended. *)
Lemma insertion_sort_snoc b prev :
  JsDate.valid (Booking.date b) → wf_bookings prev →
  insertion_sort byDate (prev ++ [b]) = placeAfter b prev.
Proof.
  intros Hb [Hv Hs]. induction prev as [|a l IH]; [done|].
  apply Forall_cons in Hv as [Ha Hv]. apply sorted_cons in Hs as [Hal Hs].
  cbn [app insertion_sort placeAfter]. rewrite IH by done.
  destruct (notLater b a) eqn:E.
  - apply notLater_true in E. apply insert_head.
    rewrite placeAfter_perm. by constructor.
  - apply notLater_false in E. rewrite placeAfter_head.
    + cbn [insert]. rewrite (proj2 (before_eq_false byDate a b) E).
      by rewrite insert_head.
    + rewrite Forall_forall in Hal, Hv. apply Forall_forall. intros x Hx.
      apply notLater_false.
      pose proof (cmp_trans _ _ byDate_Consistent a x b Ha (Hv x Hx) Hb (Hal x Hx)). lia.
Qed.

Section Placement.
Context `{JS : JsSort}.

(** The sorted list with a booking added is the old list with the booking
    placed after the bookings that are not later than it. *)
Lemma addBooking_placeAfter b prev :
  JsDate.valid (Booking.date b) → wf_bookings prev → addBooking b prev = placeAfter b prev.
Proof.
  intros Hb Hwf. unfold addBooking.
  rewrite (js_sort_insertion byDate _ _ byDate_Consistent).
  - by apply insertion_sort_snoc.
  - apply addBooking_valid; [done | apply Hwf].
Qed.

(** Adding a booking to a well-formed list keeps the bookings that
    were there in the order they had. *)
Theorem addBooking_keeps_order (b : Booking) (prev : list Booking) :
  JsDate.valid (Booking.date b) → wf_bookings prev → sublist prev (addBooking b prev).
Proof.
  intros Hb Hwf. rewrite addBooking_placeAfter by done. apply placeAfter_sublist.
Qed.

(** C4: rescheduling keeps the number of bookings; up to the order, each
    booking with the identifier keeps its [id], [userId], patient,
    therapist, intake form and payment flag and takes the new date, time,
    phone and service with [status] confirmed, and every other booking
    is unchanged; when the new date and the dates of the list are valid
    the result is well formed (sorted by date). *)
Theorem rescheduleBookings_correct (i : string) (details : BookingDetails)
    (bookings : list Booking) :
  JsDate.valid (BookingDetails.date details) →
  Forall (λ a, JsDate.valid (Booking.date a)) bookings →
  wf_bookings (rescheduleBookings i details bookings) ∧
  ∃ l', rescheduleBookings i details bookings ≡ₚ l' ∧
    Forall2 (λ b b', if hasId i b
                     then sameButSchedule b b' ∧ scheduledAs details b'
                     else b' = b) bookings l'.
Proof.
  intros Hd Hv. split; [by apply rescheduleBookings_wf|].
  exists (mapWhereId i (rescheduled details) bookings).
  split; [apply rescheduleBookings_perm|].
  clear Hd Hv. induction bookings as [|a l IH]; [constructor|].
  cbn. constructor; [|done].
  destruct (hasId i a); [|done]. by repeat split.
Qed.

End Placement.

#[export] Hint Resolve wf_bookings_nil cancelBookings_wf attachIntakeForm_wf : bmp.
