(* ===== verification/ProfilePage.v ===== *)
(** * ProfilePage: the patient's appointments
    ([src/components/ProfilePage.tsx], [src/components/BookingCard.tsx])

    [ProfilePage] splits the bookings it receives into the upcoming ones
    (from today on and not cancelled, by ascending date) and the history
    (before today or cancelled, by descending date) and shows a card for
    each.  [BookingCard] shows the booking, a status badge, and, on an
    upcoming booking that is not cancelled, the buttons that view or fill
    the intake form, reschedule and cancel.  [today] is local midnight of
    the current day, as a time value. *)

From Stdlib Require Import ZArith Lia.
From stdpp Require Import base tactics option list strings pretty.
From S2P Require Import Prelude Types JsArray JsTime BookingList.

#[local] Open Scope Z_scope.

Module BookingCard.

#[local] Set Primitive Projections.

(** ** Definitions: the card *)

Inductive Badge := Completed | CheckedIn | Cancelled | Confirmed.

(** The buttons of a card; each calls the callback of its name with the
    id of the booking. *)
Inductive Button := ViewForm | FillIntakeForm | Reschedule | Cancel.

#[global] Instance Badge_eq_dec : EqDecision Badge.
Proof. solve_decision. Defined.
#[global] Instance Button_eq_dec : EqDecision Button.
Proof. solve_decision. Defined.

Definition longDayNames : list string :=
  ["Sunday"; "Monday"; "Tuesday"; "Wednesday"; "Thursday"; "Friday"; "Saturday"].

Definition longMonthNames : list string :=
  ["January"; "February"; "March"; "April"; "May"; "June"; "July"; "August";
   "September"; "October"; "November"; "December"].

(** [date.toLocaleDateString('en-US', { weekday: 'long', year: 'numeric',
    month: 'long', day: 'numeric' })] *)
Definition formattedDate `{LocalTime} (date : JsDate) : string :=
  match JsDate.getTime date with
  | None => "Invalid Date"
  | Some t =>
      let day := localDay t in
      let '(y, m, d) := civilFromDays day in
      default "" (longDayNames !! Z.to_nat (weekDay day)) +:+ ", " +:+
      default "" (longMonthNames !! Z.to_nat (m - 1)) +:+ " " +:+ pretty d +:+ ", " +:+
      pretty y
  end.

(** [['cancelled', 'completed'].includes(booking.status || '')] *)
Definition isClosed (b : Booking) : bool :=
  match Booking.status b with
  | Some Status.cancelled | Some Status.completed => true
  | _ => false
  end.

Definition getStatusBadge (isPast : bool) (b : Booking) : option Badge :=
  if isPast && negb (isClosed b) then Some Completed
  else
    match Booking.status b with
    | Some Status.checked_in => Some CheckedIn
    | Some Status.cancelled => Some Cancelled
    | Some Status.confirmed => Some Confirmed
    | _ => None
    end.

(** The buttons shown: none on a past or cancelled booking. *)
Definition buttons (isPast : bool) (b : Booking) : list Button :=
  if negb isPast && negb (Booking.isCancelled b)
  then [if is_some (Booking.intakeForm b) then ViewForm else FillIntakeForm;
        Reschedule; Cancel]
  else [].

(** What the card shows. *)
Record View := mkView {
  therapistName : string;
  therapistTitle : string;
  patient : string;
  serviceLine : option string;
  location : string;
  dateLine : string;
  timeLine : string;
  struckThrough : bool;
  badge : option Badge;
  shownButtons : list Button;
}.

Definition render `{LocalTime} (isPast : bool) (b : Booking) : View :=
  {| therapistName := Therapist.name (Booking.therapist b);
     therapistTitle := Therapist.title (Booking.therapist b);
     patient := Booking.patientName b;
     serviceLine := if opt_truthy (Booking.service b) then Booking.service b else None;
     location := Therapist.location (Booking.therapist b);
     dateLine := formattedDate (Booking.date b);
     timeLine := Booking.time b;
     struckThrough := Booking.isCancelled b;
     badge := getStatusBadge isPast b;
     shownButtons := buttons isPast b |}.

(** ** Lemmas: the card *)
Lemma buttons_elem_of (isPast : bool) (b : Booking) (x : Button) :
  x ∈ buttons isPast b →
  isPast = false ∧ Booking.status b ≠ Some Status.cancelled ∧
  (x = ViewForm → is_Some (Booking.intakeForm b)) ∧
  (x = FillIntakeForm → Booking.intakeForm b = None).
Proof.
  unfold buttons, Booking.isCancelled. destruct isPast; cbn; [by intros ?%elem_of_nil|].
  case_bool_decide; cbn; [by intros ?%elem_of_nil|].
  destruct (Booking.intakeForm b); cbn; intros Hx; split_and!; try done;
    intros ->; repeat (apply elem_of_cons in Hx as [Hx|Hx]; try done);
    by apply elem_of_nil in Hx.
Qed.

(** A card offers to cancel and to reschedule exactly on an upcoming
    booking that is not cancelled; a cancelled booking has no button. *)
Theorem buttons_spec (isPast : bool) (b : Booking) :
  (Cancel ∈ buttons isPast b ↔ isPast = false ∧ Booking.status b ≠ Some Status.cancelled) ∧
  (Reschedule ∈ buttons isPast b ↔ Cancel ∈ buttons isPast b) ∧
  (Booking.status b = Some Status.cancelled → buttons isPast b = []).
Proof.
  unfold buttons, Booking.isCancelled.
  destruct isPast; cbn; [|case_bool_decide; cbn].
  - split_and!; try done; split; try (by intros ?%elem_of_nil); by intros [? _].
  - split_and!; try done; split; try (by intros ?%elem_of_nil); by intros [_ ?].
  - rewrite !elem_of_cons. split_and!; [split; auto | split; auto | done].
Qed.

(** A past booking that is neither cancelled nor completed is shown as
    completed, whatever its stored status; one stored as completed has no
    badge. *)
Lemma getStatusBadge_past (b : Booking) :
  getStatusBadge true b =
    match Booking.status b with
    | Some Status.cancelled => Some Cancelled
    | Some Status.completed => None
    | _ => Some Completed
    end.
Proof. unfold getStatusBadge, isClosed. by destruct (Booking.status b) as [[]|]. Qed.

End BookingCard.

Module ProfilePage.

(** ** Definitions: the page *)

(** [b.date >= today]; false on an invalid date. *)
Definition fromToday (today : Z) (b : Booking) : bool :=
  match Booking.time_ms b with
  | Some t => today <=? t
  | None => false
  end.

(** [b.date < today]; false on an invalid date. *)
Definition beforeToday (today : Z) (b : Booking) : bool :=
  match Booking.time_ms b with
  | Some t => t <? today
  | None => false
  end.

Definition isUpcoming (today : Z) (b : Booking) : bool :=
  fromToday today b && negb (Booking.isCancelled b).

Definition isHistory (today : Z) (b : Booking) : bool :=
  beforeToday today b || Booking.isCancelled b.

(** [(a, b) => b.date.getTime() - a.date.getTime()] *)
Definition byDateDesc : Booking → Booking → option Z := flip byDate.

Section WithSort.
Context `{JS : JsSort}.

Definition upcomingBookings (today : Z) (bookings : list Booking) : list Booking :=
  js_sort byDate (List.filter (isUpcoming today) bookings).

Definition pastBookings (today : Z) (bookings : list Booking) : list Booking :=
  js_sort byDateDesc (List.filter (isHistory today) bookings).

(** The cards of the page with their buttons: the upcoming bookings,
    then the history. *)
Definition cards (today : Z) (bookings : list Booking)
    : list (Booking * list BookingCard.Button) :=
  map (λ b, (b, BookingCard.buttons false b)) (upcomingBookings today bookings) ++
  map (λ b, (b, BookingCard.buttons true b)) (pastBookings today bookings).

(** The button [x] is shown for a booking with the id [i]. *)
Definition offers (today : Z) (bookings : list Booking) (x : BookingCard.Button)
    (i : string) : bool :=
  existsb (λ c, String.eqb (Booking.id c.1) i && bool_decide (x ∈ c.2))
          (cards today bookings).

End WithSort.

(** ** Lemmas: the page *)
Lemma isUpcoming_true (today : Z) (b : Booking) :
  isUpcoming today b = true ↔
  (∃ t, Booking.time_ms b = Some t ∧ today ≤ t) ∧
  Booking.status b ≠ Some Status.cancelled.
Proof.
  unfold isUpcoming, fromToday, Booking.isCancelled.
  rewrite andb_true_iff, negb_true_iff, bool_decide_eq_false.
  destruct (Booking.time_ms b) as [t|].
  - rewrite Z.leb_le. split; [intros [? ?]; eauto | by intros [(? & [= <-] & ?) ?]].
  - split; [by intros [? _] | by intros [(? & ? & _) _]].
Qed.

(** A booking with a valid date is upcoming or history, never both. *)
Lemma isHistory_isUpcoming (today : Z) (b : Booking) :
  JsDate.valid (Booking.date b) → isHistory today b = negb (isUpcoming today b).
Proof.
  intros [t Ht]. unfold isHistory, isUpcoming, beforeToday, fromToday, Booking.time_ms.
  rewrite Ht. destruct (Booking.isCancelled b); cbn.
  - by rewrite orb_true_r, andb_false_r.
  - rewrite orb_false_r, andb_true_r. by rewrite Z.leb_antisym, negb_involutive.
Qed.

(** A list is a permutation of what a test keeps and what it rejects. *)
Lemma filter_partition_perm {A} (f g : A → bool) (l : list A) :
  Forall (λ x, g x = negb (f x)) l → List.filter f l ++ List.filter g l ≡ₚ l.
Proof.
  induction 1 as [|x l Hx _ IH]; cbn; [done|]. rewrite Hx.
  destruct (f x); cbn; [by rewrite IH|].
  by rewrite <- Permutation_middle, IH.
Qed.

Section WithSortLemmas.
Context `{JS : JsSort}.

Lemma upcomingBookings_elem_of (today : Z) (bookings : list Booking) (b : Booking) :
  b ∈ upcomingBookings today bookings ↔ b ∈ bookings ∧ isUpcoming today b = true.
Proof. unfold upcomingBookings. by rewrite js_sort_elem_of, elem_of_List_filter. Qed.

Lemma pastBookings_elem_of (today : Z) (bookings : list Booking) (b : Booking) :
  b ∈ pastBookings today bookings ↔ b ∈ bookings ∧ isHistory today b = true.
Proof. unfold pastBookings. by rewrite js_sort_elem_of, elem_of_List_filter. Qed.

(** Every booking with a valid date is on the page exactly once, among
    the upcoming ones or in the history. *)
Theorem page_partition (today : Z) (bookings : list Booking) :
  Forall (λ b, JsDate.valid (Booking.date b)) bookings →
  upcomingBookings today bookings ++ pastBookings today bookings ≡ₚ bookings.
Proof.
  intros Hv. unfold upcomingBookings, pastBookings. rewrite !js_sort_perm.
  apply filter_partition_perm. eapply Forall_impl; [done|].
  intros b. apply isHistory_isUpcoming.
Qed.

(** On a list kept in order the upcoming bookings appear as they are
    in the list: ascending by date, ties in the order of booking. *)
Theorem upcomingBookings_sorted (today : Z) (bookings : list Booking) :
  wf_bookings bookings →
  upcomingBookings today bookings = List.filter (isUpcoming today) bookings ∧
  sorted byDate (upcomingBookings today bookings).
Proof.
  intros [Hv Hs]. unfold upcomingBookings.
  assert (sorted byDate (List.filter (isUpcoming today) bookings)) as Hsf
    by by apply sorted_filter.
  rewrite (js_sort_sorted_id byDate _ _ byDate_Consistent); [done| |done].
  apply Forall_forall. intros b [Hb _]%elem_of_List_filter.
  by apply (proj1 (Forall_forall _ _) Hv).
Qed.

(** The history is in descending order of date. *)
Lemma pastBookings_sorted (today : Z) (bookings : list Booking) :
  Forall (λ b, JsDate.valid (Booking.date b)) bookings →
  sorted byDateDesc (pastBookings today bookings).
Proof.
  intros Hv. unfold pastBookings.
  apply (js_sort_sorted byDateDesc (λ b, JsDate.valid (Booking.date b))).
  - apply Consistent_flip, byDate_Consistent.
  - apply Forall_forall. intros b [Hb _]%elem_of_List_filter.
    by apply (proj1 (Forall_forall _ _) Hv).
Qed.

Lemma offers_true (today : Z) (bookings : list Booking) (x : BookingCard.Button) (i : string) :
  offers today bookings x i = true ↔
  ∃ b, b ∈ bookings ∧ Booking.id b = i ∧
       (isUpcoming today b = true ∧ x ∈ BookingCard.buttons false b ∨
        isHistory today b = true ∧ x ∈ BookingCard.buttons true b).
Proof.
  unfold offers, cards. rewrite existsb_exists. split.
  - intros ([b bs] & Hin%list_elem_of_In & [Hi%String.eqb_eq Hx%bool_decide_eq_true]%andb_true_iff).
    cbn in *.
    apply elem_of_app in Hin as [Hin|Hin];
      apply list_elem_of_fmap in Hin as (b' & [= -> ->] & Hb'); exists b'.
    + apply upcomingBookings_elem_of in Hb' as [? ?]. auto.
    + apply pastBookings_elem_of in Hb' as [? ?]. auto.
  - intros (b & Hb & Hi & [[Hu Hx]|[Hh Hx]]);
      [|by apply BookingCard.buttons_elem_of in Hx as [? _]].
    exists (b, BookingCard.buttons false b). split.
    + apply list_elem_of_In, elem_of_app. left. apply list_elem_of_fmap.
      exists b. split; [done|]. by apply upcomingBookings_elem_of.
    + cbn. apply andb_true_iff. split; [by apply String.eqb_eq|].
      by apply bool_decide_eq_true.
Qed.

(** The page offers a button for an id only when a booking of the list
    with that id is upcoming and not cancelled; nothing is offered on the
    history. *)
Theorem offers_only_upcoming (today : Z) (bookings : list Booking)
    (x : BookingCard.Button) (i : string) :
  offers today bookings x i = true →
  ∃ b t, b ∈ bookings ∧ Booking.id b = i ∧ Booking.time_ms b = Some t ∧ today ≤ t ∧
         Booking.status b ≠ Some Status.cancelled.
Proof.
  intros (b & Hb & Hi & [[Hu Hx] | [_ Hx]])%offers_true.
  - apply isUpcoming_true in Hu as [(t & Ht & Hle) Hc]. by exists b, t.
  - by apply BookingCard.buttons_elem_of in Hx as [? _].
Qed.

End WithSortLemmas.

End ProfilePage.
