(* ===== verification/TherapistViews.v ===== *)
(** * TherapistViews: the stars, the therapist card and the dashboard
    ([src/components/StarRating.tsx], [src/components/TherapistCard.tsx],
    [src/components/FeaturedTherapists.tsx],
    [src/components/TherapistDashboard.tsx])

    A rating is the rational value of the JavaScript number.
    [StarRating] builds its stars with [[...Array(n)]], which throws a
    RangeError unless [n] is an integer from 0 to 2^32 - 1; [render] is
    [None] when it throws.  The dashboard lists the bookings of its
    therapist from today on, cancelled or not, and counts the patients by
    their ids; [today] is local midnight of the current day. *)

From Stdlib Require Import ZArith Lia QArith Qround Qabs.
From stdpp Require Import base tactics option list strings pretty.
From S2P Require Import Prelude Types JsArray JsString JsTime BookingList ProfilePage.

#[local] Open Scope Z_scope.

Module StarRating.

(** ** Definitions: the stars *)

Inductive Star := Full | Half | Empty.

#[global] Instance Star_eq_dec : EqDecision Star.
Proof. solve_decision. Defined.

(** [Math.floor(rating)] *)
Definition fullStars (rating : Q) : Z := Qfloor rating.

(** [rating % 1 !== 0] *)
Definition halfStar (rating : Q) : bool :=
  negb (Qeq_bool rating (inject_Z (Qfloor rating))).

(** [maxRating - fullStars - (halfStar ? 1 : 0)] *)
Definition emptyStars (rating : Q) (maxRating : Z) : Z :=
  maxRating - fullStars rating - (if halfStar rating then 1 else 0).

(** [[...Array(n)]]: the length of the array, or [None] for the
    RangeError. *)
Definition arrayOf (n : Z) : option nat :=
  if (0 <=? n) && (n <? 2 ^ 32) then Some (Z.to_nat n) else None.

Definition render (rating : Q) (maxRating : Z) : option (list Star) :=
  full ← arrayOf (fullStars rating);
  empty ← arrayOf (emptyStars rating maxRating);
  Some (replicate full Full ++ (if halfStar rating then [Half] else []) ++
        replicate empty Empty).

(** ** Lemmas *)
Lemma arrayOf_Some (n : Z) (k : nat) :
  arrayOf n = Some k ↔ 0 ≤ n < 2 ^ 32 ∧ k = Z.to_nat n.
Proof.
  unfold arrayOf. destruct (Z.leb_spec 0 n), (Z.ltb_spec n (2 ^ 32)); cbn;
    (split; [intros [= <-] | intros [Hn ->]]); try done; lia.
Qed.

Lemma arrayOf_nonneg (n : Z) : 0 ≤ n < 2 ^ 32 → arrayOf n = Some (Z.to_nat n).
Proof. intros Hn. by apply arrayOf_Some. Qed.

Lemma halfStar_false (rating : Q) :
  halfStar rating = false ↔ (rating == inject_Z (Qfloor rating))%Q.
Proof. unfold halfStar. rewrite negb_false_iff. apply Qeq_bool_iff. Qed.

(** A rating within the scale has at most [maxRating] full stars, and
    fewer when it has a fractional part. *)
Lemma fullStars_bounds (rating : Q) (maxRating : Z) :
  (0 <= rating)%Q → (rating <= inject_Z maxRating)%Q →
  0 ≤ fullStars rating ∧
  fullStars rating + (if halfStar rating then 1 else 0) ≤ maxRating.
Proof.
  intros H0 Hm. unfold fullStars.
  pose proof (Qfloor_resp_le 0 rating H0) as Hf0. change (Qfloor 0) with 0 in Hf0.
  pose proof (Qfloor_resp_le _ _ Hm) as Hfm. rewrite Qfloor_Z in Hfm.
  split; [done|]. destruct (halfStar rating) eqn:Eh; [|lia].
  destruct (decide (Qfloor rating = maxRating)) as [E|]; [|lia].
  apply not_false_iff_true in Eh. destruct Eh. apply halfStar_false.
  rewrite E. apply Qle_antisym; [done|]. rewrite <- E. apply Qfloor_le.
Qed.

Lemma emptyStars_negative (rating : Q) (maxRating : Z) :
  (inject_Z maxRating < rating)%Q → emptyStars rating maxRating < 0.
Proof.
  intros Hm. unfold emptyStars, fullStars.
  assert (maxRating ≤ Qfloor rating) as Hf.
  { rewrite <- (Qfloor_Z maxRating). by apply Qfloor_resp_le, Qlt_le_weak. }
  destruct (halfStar rating) eqn:Eh; [lia|].
  apply halfStar_false in Eh. rewrite Eh in Hm. rewrite <- Zlt_Qlt in Hm. lia.
Qed.

(** On its scale a rating is drawn with exactly [maxRating] stars: the
    full ones, at most one half star, then the empty ones. *)
Theorem render_scale (rating : Q) (maxRating : Z) :
  (0 <= rating)%Q → (rating <= inject_Z maxRating)%Q → maxRating < 2 ^ 32 →
  ∃ stars, render rating maxRating = Some stars ∧
    Z.of_nat (length stars) = maxRating ∧
    Z.of_nat (length (List.filter (λ s, bool_decide (s = Full)) stars)) = fullStars rating.
Proof.
  intros H0 Hm Hmax. destruct (fullStars_bounds rating maxRating H0 Hm) as [Hf Hh].
  unfold render, emptyStars in *.
  destruct (halfStar rating);
    repeat (match goal with |- context [arrayOf ?n] => rewrite (arrayOf_nonneg n) by lia end;
            cbn [mbind option_bind]);
    (eexists; split; [done|]);
    rewrite !List.filter_app, !length_app, !length_replicate, !List_filter_replicate;
    cbn; repeat case_bool_decide; try done; cbn; rewrite ?length_replicate; lia.
Qed.

(** Off its scale a rating cannot be drawn: the component throws. *)
Theorem render_off_scale (rating : Q) (maxRating : Z) :
  (rating < 0)%Q ∨ (inject_Z maxRating < rating)%Q → render rating maxRating = None.
Proof.
  intros [Hn|Hm]; unfold render.
  - assert (fullStars rating < 0) as Hf.
    { unfold fullStars. pose proof (Qfloor_le rating) as Hle.
      assert (inject_Z (Qfloor rating) < inject_Z 0)%Q as Hlt
        by (eapply Qle_lt_trans; [exact Hle | exact Hn]).
      by rewrite <- Zlt_Qlt in Hlt. }
    destruct (arrayOf (fullStars rating)) as [k|] eqn:E; [|done].
    apply arrayOf_Some in E. lia.
  - pose proof (emptyStars_negative rating maxRating Hm) as He.
    destruct (arrayOf (fullStars rating)) as [k|]; [|done]. cbn.
    destruct (arrayOf (emptyStars rating maxRating)) as [k'|] eqn:E; [|done].
    apply arrayOf_Some in E. lia.
Qed.

End StarRating.

Module TherapistCard.

#[local] Set Primitive Projections.

(** ** Definitions: the card of a therapist *)

(** The digits of [x.toFixed(1)] for [0 <= x]: the nearest tenth, the
    larger one on a tie. *)
Definition tenths (x : Q) : Z := Qfloor (x * 10 + (1 # 2))%Q.

(** [x.toFixed(1)], below 1e21 *)
Definition toFixed1 (x : Q) : string :=
  let n := tenths (Qabs x) in
  (if Qle_bool 0%Q x then "" else "-") +:+ pretty (n / 10) +:+ "." +:+ pretty (n mod 10).

Inductive Button := ViewProfile | BookNow.

Record View := mkView {
  name : string;
  title : string;
  location : string;
  stars : list StarRating.Star;
  ratingText : string;
  specialties : list string;
  buttons : list Button;
}.

(** [None] when [StarRating] throws. *)
Definition render (therapist : Therapist) : option View :=
  stars ← StarRating.render (Therapist.rating therapist) 5;
  Some {| name := Therapist.name therapist;
          title := Therapist.title therapist;
          location := Therapist.location therapist;
          stars := stars;
          ratingText := toFixed1 (Therapist.rating therapist) +:+ " (" +:+
                        pretty (Therapist.reviewCount therapist) +:+ " reviews)";
          specialties := take 3 (Therapist.specialties therapist);
          buttons := [ViewProfile; BookNow] |}.

(** ** Lemmas *)

(** C40: A therapist rated from 0 to 5 has a card, with five stars and at
    most three specialties. *)
Theorem render_rated (therapist : Therapist) :
  (0 <= Therapist.rating therapist)%Q → (Therapist.rating therapist <= 5)%Q →
  ∃ v, render therapist = Some v ∧ length (stars v) = 5%nat ∧
       (length (specialties v) ≤ 3)%nat ∧ specialties v `prefix_of` Therapist.specialties therapist.
Proof.
  intros H0 H5.
  destruct (StarRating.render_scale (Therapist.rating therapist) 5 H0 H5 eq_refl)
    as (s & Hs & Hl & _).
  unfold render. rewrite Hs. eexists. split; [done|]. cbn.
  split_and!; [lia | rewrite length_take; lia | apply prefix_take].
Qed.

End TherapistCard.

Module FeaturedTherapists.

(** ** Definitions: the featured therapists *)

(** [null] on an empty list; otherwise a card for each therapist, whose
    buttons call [onViewProfile(therapist)] and [onBookNow(therapist)]. *)
Definition render (therapists : list Therapist) : option (list Therapist) :=
  if bool_decide (therapists = []) then None else Some therapists.

(** ** Lemmas *)
Lemma featured_render_Some (therapists shown : list Therapist) :
  render therapists = Some shown ↔ therapists ≠ [] ∧ shown = therapists.
Proof.
  unfold render. case_bool_decide; split; try done; try by intros [= ->].
  - by intros [? _].
  - by intros [_ ->].
Qed.

End FeaturedTherapists.

Module TherapistDashboard.

#[local] Set Primitive Projections.

(** ** Definitions: the dashboard of a therapist *)

(** A row of the list of appointments. *)
Record Row := mkRow {
  patientName : string;
  when : string;
  checkedIn : bool;
  viewIntakeForm : option string;
}.

Record View := mkView {
  heading : string;
  upcomingAppointments : nat;
  totalPatients : nat;
  totalBookings : nat;
  rows : list Row;
}.

(** [new Set(bookings.map(b => b.userId))] *)
Definition uniquePatientIds (bookings : list Booking) : list string :=
  remove_dups (Booking.userId <$> bookings).

(** [date.toLocaleDateString('en-GB', { day: 'numeric', month: 'long',
    year: 'numeric' })] *)
Definition formatDate `{LocalTime} (date : JsDate) : string :=
  match JsDate.getTime date with
  | None => "Invalid Date"
  | Some t =>
      let '(y, m, d) := civilFromDays (localDay t) in
      pretty d +:+ " " +:+ default "" (BookingCard.longMonthNames !! Z.to_nat (m - 1)) +:+
      " " +:+ pretty y
  end.

Section WithSort.
Context `{JS : JsSort} `{LT : LocalTime}.

(** The bookings from today on, by ascending date. *)
Definition upcomingBookings (today : Z) (bookings : list Booking) : list Booking :=
  js_sort byDate (List.filter (ProfilePage.fromToday today) bookings).

Definition row (booking : Booking) : Row :=
  {| patientName := Booking.patientName booking;
     when := formatDate (Booking.date booking) +:+ " at " +:+ Booking.time booking;
     checkedIn := bool_decide (Booking.status booking = Some Status.checked_in);
     viewIntakeForm := if is_some (Booking.intakeForm booking)
                       then Some (Booking.id booking) else None |}.

Definition render (today : Z) (therapist : Therapist) (bookings : list Booking) : View :=
  {| heading := "Welcome, " +:+ Therapist.name therapist;
     upcomingAppointments := length (upcomingBookings today bookings);
     totalPatients := length (uniquePatientIds bookings);
     totalBookings := length bookings;
     rows := row <$> upcomingBookings today bookings |}.

(** The dashboard as [App] mounts it, with the result of
    [therapists.find(...)!]: reading [therapist.name] of [undefined]
    throws. *)
Definition mount (today : Z) (therapist : option Therapist) (bookings : list Booking)
    : option View :=
  t ← therapist; Some (render today t bookings).

(** The button that views the intake form of the booking [i] is
    shown. *)
Definition offers (today : Z) (bookings : list Booking) (i : string) : bool :=
  bool_decide (Some i ∈ viewIntakeForm <$> (row <$> upcomingBookings today bookings)).

End WithSort.

(** ** Lemmas *)

Section WithSortLemmas.
Context `{JS : JsSort} `{LT : LocalTime}.

Lemma dashboard_upcoming_elem_of (today : Z) (bookings : list Booking) (b : Booking) :
  b ∈ upcomingBookings today bookings ↔ b ∈ bookings ∧ ProfilePage.fromToday today b = true.
Proof. unfold upcomingBookings. by rewrite js_sort_elem_of, elem_of_List_filter. Qed.

(** The therapist still sees a cancelled appointment among the upcoming
    ones; the patient does not. *)
Theorem upcomingBookings_keeps_cancelled (today : Z) (bookings : list Booking) (b : Booking) :
  b ∈ bookings → ProfilePage.fromToday today b = true →
  Booking.status b = Some Status.cancelled →
  b ∈ upcomingBookings today bookings ∧ b ∉ ProfilePage.upcomingBookings today bookings.
Proof.
  intros Hb Hf Hs. split; [by apply dashboard_upcoming_elem_of|].
  rewrite ProfilePage.upcomingBookings_elem_of. intros [_ Hu].
  unfold ProfilePage.isUpcoming, Booking.isCancelled in Hu. rewrite Hf, Hs in Hu.
  by rewrite bool_decide_eq_true_2 in Hu.
Qed.

(** The three counts: no more upcoming appointments and no more patients
    than bookings, and a patient as soon as there is a booking. *)
Theorem render_counts (today : Z) (therapist : Therapist) (bookings : list Booking) :
  let v := render today therapist bookings in
  (upcomingAppointments v ≤ totalBookings v)%nat ∧
  (totalPatients v ≤ totalBookings v)%nat ∧
  (totalPatients v = 0%nat ↔ bookings = []) ∧
  length (rows v) = upcomingAppointments v.
Proof.
  cbn. unfold upcomingBookings, uniquePatientIds. rewrite js_sort_length, length_fmap, js_sort_length.
  split_and!; [apply List_filter_length | | | done].
  - etrans; [apply remove_dups_length|]. by rewrite length_fmap.
  - destruct bookings as [|b l]; [done|]. split; [|done]. intros H%length_zero_iff_nil.
    assert (Booking.userId b ∈ remove_dups (Booking.userId <$> b :: l)) as Hin
      by (apply elem_of_remove_dups; left).
    rewrite H in Hin. by apply elem_of_nil in Hin.
Qed.

(** The dashboard renders exactly when the therapist was found. *)
Lemma mount_Some (today : Z) (therapist : option Therapist) (bookings : list Booking) :
  is_Some (mount today therapist bookings) ↔ is_Some therapist.
Proof. destruct therapist; cbn; split; intros [? ?]; by eauto. Qed.

(** The intake form is offered for a booking of the list that is from
    today on and has a form. *)
Theorem dashboard_offers_spec (today : Z) (bookings : list Booking) (i : string) :
  offers today bookings i = true ↔
  ∃ b, b ∈ bookings ∧ Booking.id b = i ∧ ProfilePage.fromToday today b = true ∧
       is_Some (Booking.intakeForm b).
Proof.
  unfold offers. rewrite bool_decide_eq_true, <- list_fmap_compose, list_elem_of_fmap.
  split.
  - intros (b & Hi & [Hb Hf]%dashboard_upcoming_elem_of). exists b. cbn in Hi.
    destruct (Booking.intakeForm b); [|done]. by injection Hi as ->.
  - intros (b & Hb & <- & Hf & [f Hform]). exists b.
    split; [cbn; by rewrite Hform | by apply dashboard_upcoming_elem_of].
Qed.

End WithSortLemmas.

End TherapistDashboard.
