(* ===== verification/IntakeWizard.v ===== *)
(** * IntakeWizard: the patient intake form
    ([src/components/PatientIntakeForm.tsx],
    [src/components/IntakeFormModal.tsx])

    The form is a wizard of four steps over one [IntakeForm] value.
    [handleNext] checks the name and the date of birth on step 1 and the
    primary complaint on step 3, [handleSubmit] checks the goals on step
    4, and each field can be edited only on the step that shows it.  The
    theorems follow the form through every sequence of events: what is
    submitted has passed every check, whatever way the user went back
    and forth. *)

From Stdlib Require Import ZArith Lia.
From stdpp Require Import base tactics option list strings.
From S2P Require Import Prelude Types.

#[local] Open Scope Z_scope.

Module PatientIntakeForm.

#[local] Set Primitive Projections.

(** ** Definitions *)

Definition initialFormData : IntakeForm :=
  {| IntakeForm.personalInfo :=
       {| IntakeForm.fullName := ""; IntakeForm.dob := "";
          IntakeForm.gender := IntakeForm.PreferNotToSay |};
     IntakeForm.medicalHistory :=
       {| IntakeForm.allergies := ""; IntakeForm.medications := "";
          IntakeForm.pastSurgeries := ""; IntakeForm.chronicConditions := "" |};
     IntakeForm.currentCondition :=
       {| IntakeForm.primaryComplaint := ""; IntakeForm.symptoms := "";
          IntakeForm.painLevel := 5; IntakeForm.onset := "";
          IntakeForm.betterWith := ""; IntakeForm.worseWith := "" |};
     IntakeForm.goals := {| IntakeForm.patientGoals := "" |} |}.

(** The three [useState] of the form. *)
Record State := mkState {
  step : Z;
  formData : IntakeForm;
  error : string;
}.

Definition setStep (v : Z) : Action State :=
  λ st, let 'mkState _ b c := st in mkState v b c.
Definition setFormData (v : IntakeForm) : Action State :=
  λ st, let 'mkState a _ c := st in mkState a v c.
Definition setError (v : string) : Action State :=
  λ st, let 'mkState a b _ := st in mkState a b v.

(** A call [handleChange(section, field, value)] of the form: the field
    and the value the input gives. *)
Inductive Change :=
| FullName (v : string) | Dob (v : string) | Gender (v : IntakeForm.Gender)
| Allergies (v : string) | Medications (v : string) | PastSurgeries (v : string)
| ChronicConditions (v : string)
| PrimaryComplaint (v : string) | PainLevel (v : Z) | Onset (v : string)
| BetterWith (v : string) | WorseWith (v : string)
| PatientGoals (v : string).

(** [{ ...prev, [section]: { ...prev[section], [field]: value } }] *)
Definition changed (c : Change) (prev : IntakeForm) : IntakeForm :=
  let 'IntakeForm.mk (IntakeForm.mkPersonalInfo n d g as p)
         (IntakeForm.mkMedicalHistory a m s h as mh)
         (IntakeForm.mkCurrentCondition pc sy pl o bw ww as cc)
         (IntakeForm.mkGoals pg as gl) := prev in
  match c with
  | FullName v => IntakeForm.mk (IntakeForm.mkPersonalInfo v d g) mh cc gl
  | Dob v => IntakeForm.mk (IntakeForm.mkPersonalInfo n v g) mh cc gl
  | Gender v => IntakeForm.mk (IntakeForm.mkPersonalInfo n d v) mh cc gl
  | Allergies v => IntakeForm.mk p (IntakeForm.mkMedicalHistory v m s h) cc gl
  | Medications v => IntakeForm.mk p (IntakeForm.mkMedicalHistory a v s h) cc gl
  | PastSurgeries v => IntakeForm.mk p (IntakeForm.mkMedicalHistory a m v h) cc gl
  | ChronicConditions v => IntakeForm.mk p (IntakeForm.mkMedicalHistory a m s v) cc gl
  | PrimaryComplaint v => IntakeForm.mk p mh (IntakeForm.mkCurrentCondition v sy pl o bw ww) gl
  | PainLevel v => IntakeForm.mk p mh (IntakeForm.mkCurrentCondition pc sy v o bw ww) gl
  | Onset v => IntakeForm.mk p mh (IntakeForm.mkCurrentCondition pc sy pl v bw ww) gl
  | BetterWith v => IntakeForm.mk p mh (IntakeForm.mkCurrentCondition pc sy pl o v ww) gl
  | WorseWith v => IntakeForm.mk p mh (IntakeForm.mkCurrentCondition pc sy pl o bw v) gl
  | PatientGoals v => IntakeForm.mk p mh cc (IntakeForm.mkGoals v)
  end.

Definition handleChange (c : Change) : Action State :=
  λ st, setFormData (changed c (formData st)) st.

(** The values of the [useState] calls. *)
Definition initial : State := {| step := 1; formData := initialFormData; error := "" |}.

(** The effect that pre-fills the name. *)
Definition prefill (userName : string) : Action State := handleChange (FullName userName).

(** The form once mounted. *)
Definition init (userName : string) : State := prefill userName initial.

Definition msgStep1 : string := "Please fill in your Full Name and Date of Birth.".
Definition msgStep3 : string := "Please describe your primary complaint.".
Definition msgStep4 : string := "Please describe your goals for physiotherapy.".

Definition fullName (st : State) : string :=
  IntakeForm.fullName (IntakeForm.personalInfo (formData st)).
Definition dob (st : State) : string :=
  IntakeForm.dob (IntakeForm.personalInfo (formData st)).
Definition primaryComplaint (st : State) : string :=
  IntakeForm.primaryComplaint (IntakeForm.currentCondition (formData st)).
Definition patientGoals (st : State) : string :=
  IntakeForm.patientGoals (IntakeForm.goals (formData st)).

Definition handleNext (st : State) : State :=
  if (step st =? 1) && (negb (truthy (fullName st)) || negb (truthy (dob st)))
  then setError msgStep1 st
  else if (step st =? 3) && negb (truthy (primaryComplaint st))
  then setError msgStep3 st
  else setStep (step st + 1) (setError "" st).

Definition handleBack (st : State) : State := setStep (step st - 1) (setError "" st).

(** [handleSubmit]: the new state and the form handed to [onSubmit], if
    any. *)
Definition handleSubmit (st : State) : State * option IntakeForm :=
  if (step st =? 4) && negb (truthy (patientGoals st))
  then (setError msgStep4 st, None)
  else (setError "" st, Some (formData st)).

(** The step whose section shows the input of a field. *)
Definition stepOf (c : Change) : Z :=
  match c with
  | FullName _ | Dob _ | Gender _ => 1
  | Allergies _ | Medications _ | PastSurgeries _ | ChronicConditions _ => 2
  | PrimaryComplaint _ | PainLevel _ | Onset _ | BetterWith _ | WorseWith _ => 3
  | PatientGoals _ => 4
  end.

Inductive Event := Edit (c : Change) | Next | Back | Submit.

(** The control is on the page and enabled: the inputs of the current
    step (the range input gives 1 to 10), Back unless on step 1, Next
    below step 4 and the submit button from there. *)
Definition offered (st : State) (e : Event) : bool :=
  match e with
  | Edit c =>
      (step st =? stepOf c) &&
      match c with PainLevel v => (1 <=? v) && (v <=? 10) | _ => true end
  | Next => step st <? 4
  | Back => negb (step st =? 1)
  | Submit => negb (step st <? 4)
  end.

Definition update (e : Event) (st : State) : State * option IntakeForm :=
  match e with
  | Edit c => (handleChange c st, None)
  | Next => (handleNext st, None)
  | Back => (handleBack st, None)
  | Submit => handleSubmit st
  end.

(** The states the form reaches, and the forms it has submitted. *)
Inductive reachable (userName : string) : State → Prop :=
| reachable_init : reachable userName (init userName)
| reachable_update st e :
    reachable userName st → offered st e = true → reachable userName (update e st).1.

(** The form after a sequence of events; [None] when one of them is not
    offered. *)
Fixpoint runFrom (st : State) (es : list Event) : option State :=
  match es with
  | [] => Some st
  | e :: rest => if offered st e then runFrom (update e st).1 rest else None
  end.

Definition run (userName : string) (es : list Event) : option State :=
  runFrom (init userName) es.

(** What the checks have established on each step. *)
Record Inv (st : State) : Prop := {
  inv_step : 1 ≤ step st ≤ 4;
  inv_personal : 2 ≤ step st → fullName st ≠ "" ∧ dob st ≠ "";
  inv_complaint : 4 ≤ step st → primaryComplaint st ≠ "";
  inv_pain : 1 ≤ IntakeForm.painLevel (IntakeForm.currentCondition (formData st)) ≤ 10;
  inv_symptoms : IntakeForm.symptoms (IntakeForm.currentCondition (formData st)) = "";
}.

(** A form that has passed every check. *)
Definition complete (f : IntakeForm) : Prop :=
  IntakeForm.fullName (IntakeForm.personalInfo f) ≠ "" ∧
  IntakeForm.dob (IntakeForm.personalInfo f) ≠ "" ∧
  IntakeForm.primaryComplaint (IntakeForm.currentCondition f) ≠ "" ∧
  IntakeForm.patientGoals (IntakeForm.goals f) ≠ "" ∧
  1 ≤ IntakeForm.painLevel (IntakeForm.currentCondition f) ≤ 10.

(** ** Lemmas *)
Lemma Inv_init (userName : string) : Inv (init userName).
Proof. split; cbn; (done || lia). Qed.

(** An edit touches only fields of its own step. *)
Lemma changed_other_step (c : Change) (f : IntakeForm) :
  (stepOf c ≠ 1 → IntakeForm.personalInfo (changed c f) = IntakeForm.personalInfo f) ∧
  (stepOf c ≠ 3 → IntakeForm.currentCondition (changed c f) = IntakeForm.currentCondition f) ∧
  (stepOf c ≠ 4 → IntakeForm.goals (changed c f) = IntakeForm.goals f) ∧
  IntakeForm.symptoms (IntakeForm.currentCondition (changed c f)) =
    IntakeForm.symptoms (IntakeForm.currentCondition f) ∧
  IntakeForm.painLevel (IntakeForm.currentCondition (changed c f)) =
    match c with PainLevel v => v | _ => IntakeForm.painLevel (IntakeForm.currentCondition f) end.
Proof. destruct f as [[] [] [] []], c; cbn; split_and!; done. Qed.

#[local] Arguments changed : simpl never.

Lemma Inv_handleChange (c : Change) (st : State) :
  Inv st → offered st (Edit c) = true → Inv (handleChange c st).
Proof.
  intros [Hs Hp Hc Hl Hy] [Hstep Hv]%andb_true_iff. apply Z.eqb_eq in Hstep.
  destruct (changed_other_step c (formData st)) as (H1 & H3 & H4 & Hsy & Hpl).
  destruct st as [s f e]. unfold fullName, dob, primaryComplaint in *. cbn in *.
  split; unfold fullName, dob, primaryComplaint, handleChange; cbn.
  - done.
  - intros H2. rewrite H1 by lia. by apply Hp.
  - intros H2. rewrite H3 by lia. by apply Hc.
  - rewrite Hpl. destruct c; try done. lia.
  - by rewrite Hsy.
Qed.

(** The goals that are left once a handler has been run on a state given
    by its fields. *)
#[local] Ltac inv_fields :=
  split; unfold fullName, dob, primaryComplaint; cbn;
  intros; first [done | by split | by auto with lia | lia].

Lemma Inv_handleNext (st : State) : Inv st → offered st Next = true → Inv (handleNext st).
Proof.
  intros [Hs Hp Hc Hl Hy] Hlt%Z.ltb_lt. unfold handleNext.
  destruct (Z.eqb_spec (step st) 1) as [E1|E1], (Z.eqb_spec (step st) 3) as [E3|E3];
    destruct (truthy_case (fullName st)) as [[-> Hn]|[-> Hn]],
             (truthy_case (dob st)) as [[-> Hd]|[-> Hd]],
             (truthy_case (primaryComplaint st)) as [[-> Hpc]|[-> Hpc]];
    cbn [andb orb negb]; try lia;
    destruct st as [s f e]; unfold fullName, dob, primaryComplaint in *; cbn in *;
    inv_fields.
Qed.

Lemma Inv_handleBack (st : State) : Inv st → offered st Back = true → Inv (handleBack st).
Proof.
  intros [Hs Hp Hc Hl Hy] Hne%negb_true_iff%Z.eqb_neq.
  destruct st as [s f e]; unfold fullName, dob, primaryComplaint in *; cbn in *; inv_fields.
Qed.

Lemma Inv_handleSubmit (st : State) : Inv st → Inv (handleSubmit st).1.
Proof.
  intros [Hs Hp Hc Hl Hy]. unfold handleSubmit.
  destruct (_ && _); destruct st; by split.
Qed.

Lemma Inv_update (e : Event) (st : State) : Inv st → offered st e = true → Inv (update e st).1.
Proof.
  destruct e; cbn [update fst]; intros HI Ho.
  - by apply Inv_handleChange.
  - by apply Inv_handleNext.
  - by apply Inv_handleBack.
  - by apply Inv_handleSubmit.
Qed.

Lemma reachable_Inv (userName : string) (st : State) : reachable userName st → Inv st.
Proof. induction 1; [apply Inv_init | by apply Inv_update]. Qed.

Lemma runFrom_reachable (userName : string) (es : list Event) (st st' : State) :
  reachable userName st → runFrom st es = Some st' → reachable userName st'.
Proof.
  revert st. induction es as [|e es IH]; intros st Hr; cbn; [by intros [= <-]|].
  destruct (offered st e) eqn:Ho; [|done]. apply IH. by constructor.
Qed.

Lemma run_reachable (userName : string) (es : list Event) (st : State) :
  run userName es = Some st → reachable userName st.
Proof. apply runFrom_reachable. constructor. Qed.

(** C34: Whatever way the user went through the steps, the form that is
    submitted has a name, a date of birth, a primary complaint and goals,
    and a pain level from 1 to 10. *)
Theorem submitted_complete (userName : string) (st st' : State) (f : IntakeForm) :
  reachable userName st → offered st Submit = true → update Submit st = (st', Some f) →
  complete f ∧ f = formData st ∧ error st' = "".
Proof.
  intros [Hs Hp Hc Hl Hy]%reachable_Inv Ho%negb_true_iff%Z.ltb_ge. cbn. unfold handleSubmit.
  assert (step st = 4) as E by lia. rewrite E. cbn [Z.eqb Pos.eqb andb].
  destruct (truthy_case (patientGoals st)) as [[-> Hg]|[-> Hg]]; cbn; intros [= <- <-].
  split; [|by destruct st]. unfold complete.
  destruct (Hp ltac:(lia)) as [Hn Hd]. split_and!; first [done | lia | apply Hc; lia].
Qed.

(** The form never asks for the symptoms: they are submitted empty. *)
Theorem symptoms_never_asked (userName : string) (st : State) :
  reachable userName st →
  IntakeForm.symptoms (IntakeForm.currentCondition (formData st)) = "".
Proof. by intros []%reachable_Inv. Qed.

(** A rejected step shows a message and stays; an accepted one clears
    it and moves on by one. *)
Lemma handleNext_spec (st : State) :
  (handleNext st = setError msgStep1 st ∧ step st = 1 ∧ (fullName st = "" ∨ dob st = "")) ∨
  (handleNext st = setError msgStep3 st ∧ step st = 3 ∧ primaryComplaint st = "") ∨
  (handleNext st = setStep (step st + 1) (setError "" st)).
Proof.
  unfold handleNext.
  destruct (Z.eqb_spec (step st) 1), (truthy_case (fullName st)) as [[-> ?]|[-> ?]],
    (truthy_case (dob st)) as [[-> ?]|[-> ?]]; cbn; auto;
  destruct (Z.eqb_spec (step st) 3), (truthy_case (primaryComplaint st)) as [[-> ?]|[-> ?]];
    cbn; auto.
Qed.

End PatientIntakeForm.

Module IntakeFormModal.

(** ** Definitions: the modal around the form *)

Record View := mkView {
  subtitle : string;
  userName : string;
}.

Definition render (booking : Booking) (userName : string) : View :=
  {| subtitle := "For your appointment with " +:+ Therapist.name (Booking.therapist booking);
     userName := userName |}.

(** [(formData) => onSubmit(booking.id, formData)] *)
Definition onSubmit (booking : Booking) (formData : IntakeForm) : string * IntakeForm :=
  (Booking.id booking, formData).

End IntakeFormModal.
