(* ===== verification/DirectoryPages.v ===== *)
(** * DirectoryPages: the pages and the modal that only show data
    ([src/components/AdminPage.tsx], [src/components/HeroSection.tsx],
    [src/components/TherapistProfile.tsx],
    [src/components/ViewIntakeFormModal.tsx])

    Each component is a function from its props and its own state to a
    view: the texts it shows and the controls it offers, each control
    with the callback of the props it calls.  [AdminPage] lists the
    therapists with an edit and a delete button each.  [HeroSection]
    holds the search form: two inputs, a placeholder that a timer
    rotates, and the popular searches.  [TherapistProfile] shows one
    therapist, shortens a long description and opens a photo viewer.
    [ViewIntakeFormModal] shows a submitted intake form row by row.
    The constants [SPECIALTIES] and [MOCK_THERAPISTS] come from a module
    outside the sources and are parameters. *)

From Stdlib Require Import ZArith QArith Lia Ascii String.
From stdpp Require Import base tactics option list strings pretty.
From S2P Require Import Prelude Types JsArray JsString TherapistViews IntakeWizard.

#[local] Open Scope Z_scope.

Module AdminPage.

#[local] Set Primitive Projections.

(** ** Definitions: the admin panel *)

(** The callbacks of the props. *)
Inductive Callback :=
| onAddTherapist
| onEditTherapist (therapist : Therapist)
| onDeleteTherapist (therapist : Therapist).

#[global] Instance Callback_eq_dec : EqDecision Callback.
Proof. solve_decision. Defined.

(** A therapist in the table and in the list of cards. *)
Record Row := mkRow {
  key : Z;
  name : string;
  title : string;
  location : string;
  specialties : string;      (* the cell of the table *)
  cardSpecialties : string;  (* the line of the card *)
  buttons : list Callback;
}.

Record View := mkView {
  addButton : Callback;
  rows : list Row;
  emptyNote : bool;          (* No therapists found. Add one to get started. *)
}.

(** [specialties.slice(0, 2).join(', ')] and the dots after it *)
Definition specialtiesCell (specialties : list string) : string :=
  joinWith ", " (take 2 specialties) +:+
  (if (2 <? length specialties)%nat then "..." else "").

Definition row (therapist : Therapist) : Row :=
  {| key := Therapist.id therapist;
     name := Therapist.name therapist;
     title := Therapist.title therapist;
     location := Therapist.location therapist;
     specialties := specialtiesCell (Therapist.specialties therapist);
     cardSpecialties := joinWith ", " (take 3 (Therapist.specialties therapist));
     buttons := [onEditTherapist therapist; onDeleteTherapist therapist] |}.

Definition render (therapists : list Therapist) : View :=
  {| addButton := onAddTherapist;
     rows := row <$> therapists;
     emptyNote := (length therapists =? 0)%nat |}.

(** The callbacks the page can call. *)
Definition callbacks (v : View) : list Callback :=
  addButton v :: (rows v ≫= buttons).

(** ** Lemmas *)

(** The page offers to add a therapist, and to edit and to delete each
    therapist of the list and no other. *)
Theorem render_callbacks (therapists : list Therapist) (cb : Callback) :
  cb ∈ callbacks (render therapists) ↔
  match cb with
  | onAddTherapist => True
  | onEditTherapist t | onDeleteTherapist t => t ∈ therapists
  end.
Proof.
  unfold callbacks. rewrite elem_of_cons, list_elem_of_bind. cbn. split.
  - intros [->|(r & Hcb & (t & -> & Ht)%list_elem_of_fmap)]; [done|].
    cbn in Hcb. by apply elem_of_cons in Hcb as [->| ->%list_elem_of_singleton].
  - destruct cb as [|t|t]; [by left|..]; intros Ht; right; exists (row t);
      (split; [cbn; rewrite !elem_of_cons; tauto | by apply list_elem_of_fmap_2]).
Qed.

(** The note of the empty list is shown exactly when no row is. *)
Lemma render_emptyNote (therapists : list Therapist) :
  emptyNote (render therapists) = true ↔ rows (render therapists) = [].
Proof. destruct therapists; cbn; split; done. Qed.

(** The cell shows every specialty of a therapist with at most two, and
    the first two followed by dots of one with more. *)
Lemma specialtiesCell_spec (specialties : list string) :
  specialtiesCell specialties =
  match specialties with
  | a :: b :: _ :: _ => a +:+ ", " +:+ b +:+ "..."
  | _ => joinWith ", " specialties
  end.
Proof.
  unfold specialtiesCell. destruct specialties as [|a [|b [|c rest]]]; cbn;
    rewrite ?append_nil_r; try done.
  by rewrite !append_assoc.
Qed.

End AdminPage.

Module HeroSection.

#[local] Set Primitive Projections.

(** ** Definitions: the search form *)

Definition searchSuggestions : list string :=
  ["e.g., Sports Injury"; "e.g., Vashi, Navi Mumbai"; "e.g., Post-Op Recovery";
   "e.g., Kharghar, Navi Mumbai"; "e.g., Orthopedic"; "e.g., Kamothe, Navi Mumbai"].

Definition popularSearches : list string :=
  ["Back Pain"; "Sports Injury"; "Neck Pain"; "Post-Op"].

(** The state of the component; [index] is the variable of the effect
    that the callback of the interval updates. *)
Record State := mkState {
  searchTerm : string;
  specialty : string;
  placeholder : string;
  index : nat;
}.

#[global] Instance State_eq_dec : EqDecision State.
Proof. solve_decision. Defined.

Definition setSearchTerm (v : string) : Action State :=
  λ st, {| searchTerm := v; specialty := specialty st;
           placeholder := placeholder st; index := index st |}.
Definition setSpecialty (v : string) : Action State :=
  λ st, {| searchTerm := searchTerm st; specialty := v;
           placeholder := placeholder st; index := index st |}.

(** [searchSuggestions[i]]; the default stands for [undefined]. *)
Definition suggestion (i : nat) : string := nth i searchSuggestions "".

Definition init : State :=
  {| searchTerm := ""; specialty := ""; placeholder := suggestion 0; index := 0 |}.

(** The callback of [setInterval], every 3000 ms. *)
Definition tick (st : State) : State :=
  let index' := ((index st + 1) mod length searchSuggestions)%nat in
  {| searchTerm := searchTerm st; specialty := specialty st;
     placeholder := suggestion index'; index := index' |}.

(** A call of [onSearch]. *)
Definition Query : Type := string * string.

(** [handleSubmit] *)
Definition handleSubmit (st : State) : State * option Query :=
  (st, Some (searchTerm st, specialty st)).

Section WithConstants.
Context (SPECIALTIES : list string) (MOCK_THERAPISTS : list Therapist).

(** The options of the datalist of the first input. *)
Definition uniqueLocations : list string := setOf (Therapist.location <$> MOCK_THERAPISTS).

(** The values of the options of the select. *)
Definition specialtyOptions : list string := "" :: SPECIALTIES.

(** The click on a popular search. *)
Definition popularClick (term : string) (st : State) : State * option Query :=
  if bool_decide (term ∈ SPECIALTIES)
  then (setSpecialty term st, Some ("", term))
  else (setSearchTerm term st, Some (term, "")).

Inductive Event :=
| TypeSearchTerm (v : string)
| SelectSpecialty (v : string)
| Submit
| Popular (term : string)
| Tick.

(** The control of the event is in the form with the value it carries:
    the select offers its options only and the buttons the popular
    searches only. *)
Definition offered (e : Event) : bool :=
  match e with
  | SelectSpecialty v => bool_decide (v ∈ specialtyOptions)
  | Popular term => bool_decide (term ∈ popularSearches)
  | _ => true
  end.

Definition update (e : Event) (st : State) : State * option Query :=
  match e with
  | TypeSearchTerm v => (setSearchTerm v st, None)
  | SelectSpecialty v => (setSpecialty v st, None)
  | Submit => handleSubmit st
  | Popular term => popularClick term st
  | Tick => (tick st, None)
  end.

(** The states the offered events lead to, with the queries sent on the
    way, the last one first. *)
Inductive reachable : State → list Query → Prop :=
| reachable_init : reachable init []
| reachable_step st qs e :
    reachable st qs → offered e = true →
    reachable (update e st).1 (from_option (λ q, [q]) [] (update e st).2 ++ qs).

(** The specialty of the form is one the select can show. *)
Definition Inv (st : State) : Prop :=
  specialty st ∈ specialtyOptions ∧
  (index st < length searchSuggestions)%nat ∧ placeholder st = suggestion (index st).

End WithConstants.

(** ** Lemmas *)
Lemma tick_index (st : State) : index (tick st) = ((index st + 1) mod 6)%nat.
Proof. done. Qed.

Lemma tick_placeholder (st : State) : placeholder (tick st) = suggestion (index (tick st)).
Proof. done. Qed.

(** The placeholder after [n] ticks: the suggestions in turn, the first
    one again after the last. *)
Theorem tick_cycle (st : State) (n : nat) :
  (index st < 6)%nat →
  index (Nat.iter n tick st) = ((index st + n) mod 6)%nat ∧
  (0 < n → placeholder (Nat.iter n tick st) = suggestion ((index st + n) mod 6))%nat.
Proof.
  intros Hi. induction n as [|n [IH _]].
  - change (Nat.iter 0 tick st) with st.
    rewrite Nat.add_0_r, Nat.mod_small by done. split; [done | lia].
  - change (Nat.iter (S n) tick st) with (tick (Nat.iter n tick st)).
    rewrite tick_placeholder, tick_index, IH.
    replace (index st + S n)%nat with ((index st + n) + 1)%nat by lia.
    by rewrite (Nat.Div0.add_mod (index st + n) 1 6), (Nat.mod_small 1 6) by lia.
Qed.

(** The fields the user has typed are not touched by the timer. *)
Lemma tick_fields (st : State) :
  searchTerm (tick st) = searchTerm st ∧ specialty (tick st) = specialty st.
Proof. done. Qed.

Section WithConstantsLemmas.
Context (SPECIALTIES : list string) (MOCK_THERAPISTS : list Therapist).

(** The datalist offers each location of the directory once, in the
    order of the directory. *)
Theorem uniqueLocations_spec :
  NoDup (uniqueLocations MOCK_THERAPISTS) ∧
  (∀ l, l ∈ uniqueLocations MOCK_THERAPISTS ↔ ∃ t, t ∈ MOCK_THERAPISTS ∧ Therapist.location t = l) ∧
  uniqueLocations MOCK_THERAPISTS `sublist_of` (Therapist.location <$> MOCK_THERAPISTS).
Proof.
  unfold uniqueLocations. split_and!; [apply setOf_NoDup | | apply setOf_sublist].
  intros l. rewrite setOf_elem_of, list_elem_of_fmap.
  split; [intros (t & -> & Ht) | intros (t & Ht & <-)]; eauto.
Qed.

Lemma form_Inv_init : Inv SPECIALTIES init.
Proof. split_and!; [by left | cbn; lia | done]. Qed.

Lemma form_Inv_update (e : Event) (st : State) :
  Inv SPECIALTIES st → offered SPECIALTIES e = true → Inv SPECIALTIES (update SPECIALTIES e st).1.
Proof.
  intros (Hs & Hi & Hp) Ho. destruct e; cbn [update fst handleSubmit]; try done.
  - split_and!; try done. by apply bool_decide_eq_true in Ho.
  - unfold popularClick. case_bool_decide; split_and!; try done. by right.
  - split_and!; [done | apply Nat.mod_upper_bound; cbn; lia | done].
Qed.

(** In every state of the form the specialty is one the select shows
    and the placeholder is one of the suggestions. *)
Theorem form_reachable_Inv (st : State) (qs : list Query) :
  reachable SPECIALTIES st qs → Inv SPECIALTIES st.
Proof. induction 1; [apply form_Inv_init | by apply form_Inv_update]. Qed.

(** Every query sent carries a specialty the select can show; a query
    may carry any search term. *)
Theorem reachable_queries (st : State) (qs : list Query) (q : Query) :
  reachable SPECIALTIES st qs → q ∈ qs → q.2 ∈ specialtyOptions SPECIALTIES.
Proof.
  induction 1 as [|st qs e Hr IH Ho]; [by intros ?%elem_of_nil|].
  intros [Hq|Hq]%elem_of_app; [|by apply IH]. apply form_reachable_Inv in Hr as (Hs & _).
  destruct e; cbn in Hq; try (by apply elem_of_nil in Hq).
  - by apply list_elem_of_singleton in Hq as ->.
  - unfold popularClick in Hq. case_bool_decide; cbn in Hq;
      apply list_elem_of_singleton in Hq as ->; cbn; [by right | by left].
Qed.

(** A popular search that is a specialty searches every location, also
    when the form shows one: the query and the form differ until the
    form is submitted. *)
Theorem popularClick_specialty (term : string) (st : State) :
  term ∈ SPECIALTIES →
  popularClick SPECIALTIES term st = (setSpecialty term st, Some ("", term)) ∧
  (handleSubmit (setSpecialty term st)).2 = Some (searchTerm st, term).
Proof. intros Ht. unfold popularClick. by rewrite bool_decide_true. Qed.

(** A popular search that is not a specialty is searched as a term in
    every specialty, and the specialty of the form stays selected. *)
Theorem popularClick_term (term : string) (st : State) :
  term ∉ SPECIALTIES →
  popularClick SPECIALTIES term st = (setSearchTerm term st, Some (term, "")) ∧
  (handleSubmit (setSearchTerm term st)).2 = Some (term, specialty st).
Proof. intros Ht. unfold popularClick. by rewrite bool_decide_false. Qed.

End WithConstantsLemmas.

End HeroSection.

Module TherapistProfile.

#[local] Set Primitive Projections.

(** ** Definitions: the profile of a therapist *)

Record State := mkState {
  selectedPhoto : option string;
  showFullDescription : bool;
}.

Definition init : State := {| selectedPhoto := None; showFullDescription := false |}.

Definition setSelectedPhoto (v : option string) : Action State :=
  λ st, {| selectedPhoto := v; showFullDescription := showFullDescription st |}.
Definition setShowFullDescription (v : bool) : Action State :=
  λ st, {| selectedPhoto := selectedPhoto st; showFullDescription := v |}.

(** [description ? description.split(' ') : []] *)
Definition descriptionWords (therapist : Therapist) : list string :=
  if truthy (Therapist.description therapist)
  then split " " (Therapist.description therapist) else [].

Definition canShrink (therapist : Therapist) : bool :=
  (50 <? length (descriptionWords therapist))%nat.

Definition shortDescription (therapist : Therapist) : string :=
  if canShrink therapist
  then join " " (take 50 (descriptionWords therapist)) +:+ "..."
  else Therapist.description therapist.

(** The argument of [encodeURIComponent] in the address of the map:
    [therapist.clinic?.address || therapist.location]. *)
Definition mapQuery (therapist : Therapist) : string :=
  match Therapist.clinic therapist with
  | Some c => str_or (Clinic.address c) (Therapist.location therapist)
  | None => Therapist.location therapist
  end.

(** The line of the experience.  The second part is the value of
    [specialistExperience && experience !== specialistExperience &&
    `...`] as React shows it: the number 0 as the text 0, [false] as
    nothing. *)
Definition experienceLine (therapist : Therapist) : string :=
  pretty (Therapist.experience therapist) +:+ " Years Experience Overall" +:+
  (if Therapist.specialistExperience therapist =? 0 then "0"
   else if Therapist.experience therapist =? Therapist.specialistExperience therapist then ""
   else " (" +:+ pretty (Therapist.specialistExperience therapist) +:+ " years as specialist)").

(** [patientSatisfaction > 0 && ...] *)
Definition satisfaction (therapist : Therapist) : option string :=
  if 0 <? Therapist.patientSatisfaction therapist
  then Some (pretty (Therapist.patientSatisfaction therapist) +:+ "% (" +:+
             pretty (Therapist.reviewCount therapist) +:+ " patients)")
  else None.

(** [rating > 0 && ...]: the number with one decimal and the stars;
    the outer [None] when [StarRating] throws. *)
Definition ratingView (rating : Q) : option (option (string * list StarRating.Star)) :=
  if Qle_bool rating 0 then Some None
  else stars ← StarRating.render rating 5; Some (Some (TherapistCard.toFixed1 rating, stars)).

(** [phone && ...]: the address of the link and its text. *)
Definition phoneLink (phone : option string) : option (string * string) :=
  match phone with
  | Some p => if truthy p then Some ("tel:" +:+ removeSpaces p, "Call Clinic (" +:+ p +:+ ")")
              else None
  | None => None
  end.

Record ClinicView := mkClinicView {
  clinicName : string;
  clinicRating : option (string * list StarRating.Star);
  address : string;
  phone : option (string * string);
  days : string;
  hours : list string;
  area : string;   (* the line under the rating in the booking panel *)
}.

(** [location.split(',')[0]] *)
Definition panelLocation (therapist : Therapist) : string :=
  beforeFirst "," (Therapist.location therapist).

(** What the page and the booking panel show of the clinic. *)
Definition clinicView (therapist : Therapist) (c : Clinic) : option ClinicView :=
  r ← ratingView (Clinic.rating c);
  Some {| clinicName := Clinic.name c; clinicRating := r; address := Clinic.address c;
          phone := phoneLink (Clinic.phone c);
          days := Clinic.days (Clinic.timings c); hours := Clinic.hours (Clinic.timings c);
          area := panelLocation therapist |}.

Inductive Event :=
| Back                   (* onBack *)
| BookNow                (* onBookNow: the button of the panel and the floating one *)
| ToggleDescription
| PhotoClick (photo : string)
| ViewerClose.           (* the button of the viewer and the click outside the photo *)

Record View := mkView {
  photoViewer : option string;
  name : string;
  claimed : bool;
  title : string;
  specialties : string;
  experience : string;
  satisfied : option string;
  description : string;
  toggle : option string;          (* the label of the button *)
  clinic : option ClinicView;
  photos : list string;
  fee : Z;
}.

(** [selectedPhoto && <PhotoViewerModal ... />] *)
Definition viewerOf (st : State) : option string :=
  match selectedPhoto st with
  | Some p => if truthy p then Some p else None
  | None => None
  end.

(** The page; [None] when a child throws. *)
Definition render (therapist : Therapist) (st : State) : option View :=
  c ← match Therapist.clinic therapist with
      | Some c => Some <$> clinicView therapist c
      | None => Some None
      end;
  Some {| photoViewer := viewerOf st;
          name := Therapist.name therapist;
          claimed := Therapist.isProfileClaimed therapist;
          title := Therapist.title therapist;
          specialties := joinWith ", " (take 2 (Therapist.specialties therapist));
          experience := experienceLine therapist;
          satisfied := satisfaction therapist;
          description := if showFullDescription st then Therapist.description therapist
                         else shortDescription therapist;
          toggle := if canShrink therapist
                    then Some (if showFullDescription st then "[shrink]" else "[more]")
                    else None;
          clinic := c;
          photos := Therapist.clinicPhotos therapist;
          fee := Therapist.fee therapist |}.

(** The control of the event is on the page. *)
Definition offered (therapist : Therapist) (st : State) (e : Event) : bool :=
  match e with
  | Back | BookNow => true
  | ToggleDescription => canShrink therapist
  | PhotoClick photo => bool_decide (photo ∈ Therapist.clinicPhotos therapist)
  | ViewerClose => is_some (viewerOf st)
  end.

(** The state after the event; [Back] and [BookNow] are callbacks of the
    props and leave it. *)
Definition update (e : Event) (st : State) : State :=
  match e with
  | Back | BookNow => st
  | ToggleDescription => setShowFullDescription (negb (showFullDescription st)) st
  | PhotoClick photo => setSelectedPhoto (Some photo) st
  | ViewerClose => setSelectedPhoto None st
  end.

(** ** Lemmas *)
Lemma canShrink_words (therapist : Therapist) :
  canShrink therapist = true →
  descriptionWords therapist = split " " (Therapist.description therapist) ∧
  (50 < length (descriptionWords therapist))%nat.
Proof.
  unfold canShrink, descriptionWords. intros H%Nat.ltb_lt.
  destruct (truthy _); [done | cbn in H; lia].
Qed.

(** A description of more than fifty words is cut after the fiftieth:
    the short form is the text before the blank that follows it, with
    three dots, and has fifty words. *)
Theorem shortDescription_cut (therapist : Therapist) :
  canShrink therapist = true →
  ∃ pre rest, Therapist.description therapist = pre +:+ " " +:+ rest ∧
              shortDescription therapist = pre +:+ "..." ∧
              length (split " " pre) = 50%nat.
Proof.
  intros Hc. destruct (canShrink_words _ Hc) as [Hw Hl].
  unfold shortDescription. rewrite Hc. set (ws := descriptionWords therapist) in *.
  exists (join " " (take 50 ws)), (join " " (drop 50 ws)).
  assert (take 50 ws ≠ []) as Ht by
    (apply take_nonempty; [lia | intros E; rewrite E in Hl; cbn in Hl; lia]).
  assert (drop 50 ws ≠ []) as Hd by (by apply drop_nonempty).
  split_and!; [|done|].
  - rewrite <- (join_split " " (Therapist.description therapist)), <- Hw.
    rewrite <- (take_drop 50 ws) at 1. by apply join_app.
  - rewrite split_join, length_take; [lia | done |].
    apply Forall_take. rewrite Hw. apply split_lacks.
Qed.

(** A description of at most fifty words is shown whole, without a
    button, whatever the state. *)
Theorem render_short (therapist : Therapist) (st : State) (v : View) :
  canShrink therapist = false → render therapist st = Some v →
  description v = Therapist.description therapist ∧ toggle v = None.
Proof.
  intros Hc. unfold render, shortDescription. rewrite Hc.
  destruct (match Therapist.clinic therapist with Some _ => _ | None => _ end); [|done].
  cbn. intros [= <-]. cbn. by destruct (showFullDescription st).
Qed.

(** The line of a therapist whose two experiences are equal, as the
    registration page makes them: the years, followed by a stray 0 for
    a therapist without experience. *)
Theorem experienceLine_equal (therapist : Therapist) :
  Therapist.specialistExperience therapist = Therapist.experience therapist →
  experienceLine therapist =
  pretty (Therapist.experience therapist) +:+ " Years Experience Overall" +:+
  (if Therapist.experience therapist =? 0 then "0" else "").
Proof.
  intros E. unfold experienceLine. rewrite E, Z.eqb_refl.
  by destruct (Therapist.experience therapist =? 0).
Qed.

Lemma ratingView_None (rating : Q) : ratingView rating = None ↔ (5 < rating)%Q.
Proof.
  unfold ratingView. destruct (Qle_bool rating 0) eqn:E.
  - apply Qle_bool_iff in E. split; [done|]. intros H.
    exfalso. apply (Qlt_irrefl 5). eapply Qlt_le_trans; [exact H|].
    eapply Qle_trans; [exact E | done].
  - assert (0 < rating)%Q as H0.
    { apply Qnot_le_lt. intros H%Qle_bool_iff. congruence. }
    destruct (Qlt_le_dec 5 rating) as [H5|H5].
    + rewrite (StarRating.render_off_scale rating 5) by (by right). done.
    + destruct (StarRating.render_scale rating 5 (Qlt_le_weak _ _ H0) H5 eq_refl)
        as (stars & -> & _). cbn. split; [done|]. intros H.
      exfalso. apply (Qlt_irrefl 5). by eapply Qlt_le_trans.
Qed.

(** The page throws exactly for a therapist whose clinic is rated above
    five. *)
Theorem render_None (therapist : Therapist) (st : State) :
  render therapist st = None ↔
  ∃ c, Therapist.clinic therapist = Some c ∧ (5 < Clinic.rating c)%Q.
Proof.
  unfold render, clinicView. destruct (Therapist.clinic therapist) as [c|]; cbn.
  - destruct (ratingView (Clinic.rating c)) as [r|] eqn:E; cbn.
    + split; [done|]. intros (c' & [= <-] & H%ratingView_None). congruence.
    + split; [|done]. intros _. exists c. split; [done|]. by apply ratingView_None.
  - split; [done|]. by intros (c & ? & _).
Qed.

(** The viewer shows the photo clicked last until it is closed; a photo
    without an address opens nothing. *)
Theorem viewer_spec (photo : string) (st : State) :
  viewerOf (update (PhotoClick photo) st) = (if truthy photo then Some photo else None) ∧
  viewerOf (update ViewerClose st) = None ∧
  viewerOf (update ToggleDescription st) = viewerOf st.
Proof. done. Qed.

(** The button of the description switches between the two forms. *)
Lemma toggle_twice (st : State) :
  update ToggleDescription (update ToggleDescription st) = st.
Proof. destruct st as [p []]; done. Qed.

(** The telephone link holds no blank. *)
Lemma phoneLink_spaceless (p : option string) (href text : string) :
  phoneLink p = Some (href, text) →
  ∃ n, p = Some n ∧ href = "tel:" +:+ removeSpaces n ∧ spaceless href = true.
Proof.
  destruct p as [n|]; [|done]. cbn. destruct (truthy n); [|done]. intros [= <- <-].
  exists n. split_and!; try done. apply removeSpaces_spaceless.
Qed.

End TherapistProfile.

Module ViewIntakeFormModal.

#[local] Set Primitive Projections.

(** ** Definitions: the view of a submitted intake form *)

(** The [value] of a row: a string or a number. *)
Inductive Value := Str (s : string) | Num (n : Z).

Record Row := mkRow {
  label : string;
  value : string;
}.

#[global] Instance Row_eq_dec : EqDecision Row.
Proof. solve_decision. Defined.

(** [DetailRow]: nothing for a value that is not truthy. *)
Definition DetailRow (label : string) (value : Value) : list Row :=
  match value with
  | Str s => if truthy s then [mkRow label s] else []
  | Num n => if n =? 0 then [] else [mkRow label (pretty n)]
  end.

Record SectionView := mkSection {
  title : string;
  children : list Row;
}.

Definition genderText (g : IntakeForm.Gender) : string :=
  match g with
  | IntakeForm.Male => "Male"
  | IntakeForm.Female => "Female"
  | IntakeForm.Other => "Other"
  | IntakeForm.PreferNotToSay => "Prefer not to say"
  end.

(** The sections of the modal; [None] without a form. *)
Definition render (intakeData : option IntakeForm) : option (list SectionView) :=
  f ← intakeData;
  let personalInfo := IntakeForm.personalInfo f in
  let medicalHistory := IntakeForm.medicalHistory f in
  let currentCondition := IntakeForm.currentCondition f in
  let goals := IntakeForm.goals f in
  Some
    [ mkSection "Personal Information"
        (DetailRow "Full Name" (Str (IntakeForm.fullName personalInfo)) ++
         DetailRow "Date of Birth" (Str (IntakeForm.dob personalInfo)) ++
         DetailRow "Gender" (Str (genderText (IntakeForm.gender personalInfo))));
      mkSection "Medical History"
        (DetailRow "Allergies" (Str (str_or (IntakeForm.allergies medicalHistory) "N/A")) ++
         DetailRow "Current Medications"
           (Str (str_or (IntakeForm.medications medicalHistory) "N/A")) ++
         DetailRow "Past Surgeries or Major Injuries"
           (Str (str_or (IntakeForm.pastSurgeries medicalHistory) "N/A")) ++
         DetailRow "Chronic Conditions"
           (Str (str_or (IntakeForm.chronicConditions medicalHistory) "N/A")));
      mkSection "Current Condition"
        (DetailRow "Primary Complaint" (Str (IntakeForm.primaryComplaint currentCondition)) ++
         DetailRow "Pain Level (1-10)" (Num (IntakeForm.painLevel currentCondition)) ++
         DetailRow "When Symptoms Began" (Str (IntakeForm.onset currentCondition)) ++
         DetailRow "What Makes it Better" (Str (IntakeForm.betterWith currentCondition)) ++
         DetailRow "What Makes it Worse" (Str (IntakeForm.worseWith currentCondition)));
      mkSection "Patient Goals"
        (DetailRow "Goals for Physiotherapy" (Str (IntakeForm.patientGoals goals))) ].

(** The rows of the modal, section after section. *)
Definition rows (intakeData : option IntakeForm) : list Row :=
  from_option (λ ss, ss ≫= children) [] (render intakeData).

(** The form with other symptoms. *)
Definition withSymptoms (v : string) (f : IntakeForm) : IntakeForm :=
  let c := IntakeForm.currentCondition f in
  IntakeForm.mk (IntakeForm.personalInfo f) (IntakeForm.medicalHistory f)
    (IntakeForm.mkCurrentCondition (IntakeForm.primaryComplaint c) v
       (IntakeForm.painLevel c) (IntakeForm.onset c) (IntakeForm.betterWith c)
       (IntakeForm.worseWith c))
    (IntakeForm.goals f).

(** ** Lemmas *)
Lemma DetailRow_Str (label s : string) : s ≠ "" → DetailRow label (Str s) = [mkRow label s].
Proof. intros H%truthy_true. cbn. by rewrite H. Qed.

Lemma DetailRow_or (label s : string) :
  DetailRow label (Str (str_or s "N/A")) = [mkRow label (if truthy s then s else "N/A")].
Proof. unfold str_or. cbn. by destruct (truthy s) eqn:E; rewrite ?E. Qed.

(** A row is never shown with an empty value. *)
Lemma DetailRow_value (label : string) (v : Value) (r : Row) :
  r ∈ DetailRow label v → value r ≠ "".
Proof.
  destruct v as [s|n]; cbn.
  - destruct (truthy s) eqn:E; [|by intros ?%elem_of_nil].
    intros ->%list_elem_of_singleton. by apply truthy_true.
  - destruct (n =? 0) eqn:E; [by intros ?%elem_of_nil|].
    intros ->%list_elem_of_singleton. apply pretty_Z_nonempty.
Qed.

(** What the modal shows of a form that has passed the checks of the
    wizard: the name, the date of birth, the gender, the four rows of
    the medical history, the complaint, the pain level and the goals;
    the three other rows of the condition when they are filled in. *)
Theorem rows_complete (f : IntakeForm) :
  PatientIntakeForm.complete f →
  let c := IntakeForm.currentCondition f in
  let m := IntakeForm.medicalHistory f in
  rows (Some f) =
  [mkRow "Full Name" (IntakeForm.fullName (IntakeForm.personalInfo f));
   mkRow "Date of Birth" (IntakeForm.dob (IntakeForm.personalInfo f));
   mkRow "Gender" (genderText (IntakeForm.gender (IntakeForm.personalInfo f)));
   mkRow "Allergies" (str_or (IntakeForm.allergies m) "N/A");
   mkRow "Current Medications" (str_or (IntakeForm.medications m) "N/A");
   mkRow "Past Surgeries or Major Injuries" (str_or (IntakeForm.pastSurgeries m) "N/A");
   mkRow "Chronic Conditions" (str_or (IntakeForm.chronicConditions m) "N/A");
   mkRow "Primary Complaint" (IntakeForm.primaryComplaint c);
   mkRow "Pain Level (1-10)" (pretty (IntakeForm.painLevel c))] ++
  DetailRow "When Symptoms Began" (Str (IntakeForm.onset c)) ++
  DetailRow "What Makes it Better" (Str (IntakeForm.betterWith c)) ++
  DetailRow "What Makes it Worse" (Str (IntakeForm.worseWith c)) ++
  [mkRow "Goals for Physiotherapy" (IntakeForm.patientGoals (IntakeForm.goals f))].
Proof.
  intros (Hn & Hd & Hc & Hg & Hp) c m. unfold rows, render. cbn [mbind option_bind from_option].
  cbn [mbind list_bind children app].
  rewrite !(DetailRow_Str _ _ Hn), !(DetailRow_Str _ _ Hd), !(DetailRow_Str _ _ Hc),
    !(DetailRow_Str _ _ Hg).
  rewrite (DetailRow_Str "Gender") by (by destruct (IntakeForm.gender _)).
  rewrite !(DetailRow_Str _ (str_or _ "N/A")) by (by apply truthy_true, str_or_truthy).
  assert (DetailRow "Pain Level (1-10)" (Num (IntakeForm.painLevel (IntakeForm.currentCondition f)))
          = [mkRow "Pain Level (1-10)" (pretty (IntakeForm.painLevel (IntakeForm.currentCondition f)))])
    as ->.
  { cbn. destruct (Z.eqb_spec (IntakeForm.painLevel (IntakeForm.currentCondition f)) 0); [lia|done]. }
  by rewrite <- !app_assoc, app_nil_r.
Qed.

(** No row of the modal shows the symptoms. *)
Theorem render_symptoms (v : string) (f : IntakeForm) :
  render (Some (withSymptoms v f)) = render (Some f).
Proof. done. Qed.

(** A pain level of 0 has no row. *)
Lemma DetailRow_zero (label : string) : DetailRow label (Num 0) = [].
Proof. done. Qed.

End ViewIntakeFormModal.
