(* ===== verification/TherapistRegistration.v ===== *)
(** * TherapistRegistration: the form that creates or edits a therapist
    ([src/components/TherapistRegistrationPage.tsx])

    The page holds the eleven text fields of [formData], the set of
    selected specialties, the files chosen as clinic photos and their
    previews.  [handleSubmit] checks the required fields in a fixed
    order and the specialties, then waits for the photos to be read and
    builds the [Therapist] from the values it closed over when it was
    called; [settle] is that second half.  A [World] is the state of the
    component with the submission that waits, and [step] runs one event
    of the user or of the file reader.  [ProfileCompleteness] is the
    panel of ten checks above the form.  The constant [SPECIALTIES] and
    the browser's [URL.createObjectURL] are parameters; a [File] is
    known by a name only. *)

From Stdlib Require Import ZArith QArith Qround Lia Ascii String.
From stdpp Require Import base tactics option list strings pretty.
From S2P Require Import Prelude Types JsArray JsString.

#[local] Open Scope Z_scope.
#[local] Open Scope js_scope.

Module TherapistRegistrationPage.

#[local] Set Primitive Projections.

(** ** Definitions: the form *)

(** The keys of [formData]. *)
Inductive Field :=
| Name | Email | Password | Title | Location | Description | Qualifications
| Experience | ClinicName | ClinicAddress | Phone.

#[global] Instance Field_eq_dec : EqDecision Field.
Proof. solve_decision. Defined.

Record FormData := mkFormData {
  name : string;
  email : string;
  password : string;
  title : string;
  location : string;
  description : string;
  qualifications : string;
  experience : string;
  clinicName : string;
  clinicAddress : string;
  phone : string;
}.

#[global] Instance FormData_eq_dec : EqDecision FormData.
Proof. solve_decision. Defined.

(** The key as the error message prints it. *)
Definition key (f : Field) : string :=
  match f with
  | Name => "name" | Email => "email" | Password => "password" | Title => "title"
  | Location => "location" | Description => "description"
  | Qualifications => "qualifications" | Experience => "experience"
  | ClinicName => "clinicName" | ClinicAddress => "clinicAddress" | Phone => "phone"
  end.

(** [formData[field]] *)
Definition get (f : Field) (d : FormData) : string :=
  match f with
  | Name => name d | Email => email d | Password => password d | Title => title d
  | Location => location d | Description => description d
  | Qualifications => qualifications d | Experience => experience d
  | ClinicName => clinicName d | ClinicAddress => clinicAddress d | Phone => phone d
  end.

(** [{ ...prev, [name]: value }] *)
Definition set (f : Field) (v : string) (d : FormData) : FormData :=
  let 'mkFormData a b c e g h i j k l m := d in
  match f with
  | Name => mkFormData v b c e g h i j k l m
  | Email => mkFormData a v c e g h i j k l m
  | Password => mkFormData a b v e g h i j k l m
  | Title => mkFormData a b c v g h i j k l m
  | Location => mkFormData a b c e v h i j k l m
  | Description => mkFormData a b c e g v i j k l m
  | Qualifications => mkFormData a b c e g h v j k l m
  | Experience => mkFormData a b c e g h i v k l m
  | ClinicName => mkFormData a b c e g h i j v l m
  | ClinicAddress => mkFormData a b c e g h i j k v m
  | Phone => mkFormData a b c e g h i j k l v
  end.

Definition emptyForm : FormData := mkFormData "" "" "" "" "" "" "" "" "" "" "".

(** A file of the file input. *)
Definition File : Type := string.

(** The props: [therapistToEdit], and whether [onProfileUpdate] is
    given. *)
Record Props := mkProps {
  therapistToEdit : option Therapist;
  hasProfileUpdate : bool;
}.

Definition isEditMode (props : Props) : bool := is_some (therapistToEdit props).

Record State := mkState {
  formData : FormData;
  selectedSpecialties : list string;  (* the [Set], in the order of insertion *)
  clinicPhotos : list File;
  photoPreviews : list string;
  isSubmitting : bool;
  error : string;
  showPassword : bool;
}.

Definition setFormData (v : FormData) : Action State :=
  λ st, mkState v (selectedSpecialties st) (clinicPhotos st) (photoPreviews st)
          (isSubmitting st) (error st) (showPassword st).
Definition setSelectedSpecialties (v : list string) : Action State :=
  λ st, mkState (formData st) v (clinicPhotos st) (photoPreviews st)
          (isSubmitting st) (error st) (showPassword st).
Definition setClinicPhotos (v : list File) : Action State :=
  λ st, mkState (formData st) (selectedSpecialties st) v (photoPreviews st)
          (isSubmitting st) (error st) (showPassword st).
Definition setPhotoPreviews (v : list string) : Action State :=
  λ st, mkState (formData st) (selectedSpecialties st) (clinicPhotos st) v
          (isSubmitting st) (error st) (showPassword st).
Definition setIsSubmitting (v : bool) : Action State :=
  λ st, mkState (formData st) (selectedSpecialties st) (clinicPhotos st) (photoPreviews st)
          v (error st) (showPassword st).
Definition setError (v : string) : Action State :=
  λ st, mkState (formData st) (selectedSpecialties st) (clinicPhotos st) (photoPreviews st)
          (isSubmitting st) v (showPassword st).
Definition setShowPassword (v : bool) : Action State :=
  λ st, mkState (formData st) (selectedSpecialties st) (clinicPhotos st) (photoPreviews st)
          (isSubmitting st) (error st) v.

(** The state of [useState]. *)
Definition initial : State := mkState emptyForm [] [] [] false "" false.

(** The form of the first effect for a therapist with a clinic. *)
Definition editForm (t : Therapist) (c : Clinic) : FormData :=
  {| name := Therapist.name t;
     email := "";
     password := "";
     title := Therapist.title t;
     location := Therapist.location t;
     description := Therapist.description t;
     qualifications := joinWith ", " (Therapist.qualifications t);
     experience := pretty (Therapist.experience t);
     clinicName := Clinic.name c;
     clinicAddress := Clinic.address c;
     phone := opt_str_or (Clinic.phone c) "" |}.

(** The state once the first effect has run; [None] when it throws,
    reading the name of a clinic that is [undefined]. *)
Definition mount (props : Props) : option State :=
  match therapistToEdit props with
  | None => Some initial
  | Some t =>
      c ← Therapist.clinic t;
      Some (setClinicPhotos []
              (setSelectedSpecialties (setOf (Therapist.specialties t))
                 (setFormData (editForm t c) initial)))
  end.

(** [handleInputChange] *)
Definition handleInputChange (f : Field) (value : string) : Action State :=
  λ st, setFormData (set f value (formData st)) st.

(** The [Set] with [specialty] deleted if it holds it and added last
    otherwise. *)
Definition toggled (specialty : string) (prev : list string) : list string :=
  if bool_decide (specialty ∈ prev)
  then List.filter (λ s, bool_decide (s ≠ specialty)) prev
  else prev ++ [specialty].

Definition handleSpecialtyChange (specialty : string) : Action State :=
  λ st, setSelectedSpecialties (toggled specialty (selectedSpecialties st)) st.

Definition handleClearPhotos : Action State := setClinicPhotos [] ;; setPhotoPreviews [].

Definition msgSpecialty : string := "Please select at least one specialty.".
Definition msgPhotos : string := "Could not process photos. Please try again.".

(** [requiredFields] *)
Definition requiredFields (props : Props) : list Field :=
  [Name; Title; Location; Description; Qualifications; Experience; ClinicName;
   ClinicAddress; Phone] ++ (if isEditMode props then [] else [Email; Password]).

(** The checks of [handleSubmit]: the message of the first that
    fails. *)
Definition validate (props : Props) (st : State) : result unit string :=
  match List.find (λ f, negb (truthy (get f (formData st)))) (requiredFields props) with
  | Some field => Err ("Please fill in all fields. Missing: " +:+ key field)
  | None => if (length (selectedSpecialties st) =? 0)%nat then Err msgSpecialty else Ok ()
  end.

(** What the rest of [handleSubmit] has closed over. *)
Record Submission := mkSubmission {
  sub_formData : FormData;
  sub_specialties : list string;
  sub_photos : list File;
}.

(** [handleSubmit] up to the [await]: the state, and the submission that
    waits for the photos if the checks have passed. *)
Definition handleSubmit (props : Props) (st : State) : State * option Submission :=
  match validate props st with
  | Err m => (setError m st, None)
  | Ok _ =>
      (setIsSubmitting true (setError "" st),
       Some (mkSubmission (formData st) (selectedSpecialties st) (clinicPhotos st)))
  end.

(** ** Definitions: the therapist that is submitted *)

(** The callbacks of the props. *)
Inductive Callback :=
| onProfileCreate (therapist : Therapist)
| onProfileUpdate (therapist : Therapist)
| onBack.

(** [parseInt(formData.experience, 10) || 0] *)
Definition years (d : FormData) : Z := default 0 (parseInt10 (experience d)).

(** [formData.qualifications.split(',').map(q => q.trim())] *)
Definition qualificationList (d : FormData) : list string :=
  trim <$> split "," (qualifications d).

(** The clinic of a new therapist. *)
Definition newClinic (d : FormData) : Clinic :=
  {| Clinic.name := clinicName d;
     Clinic.address := clinicAddress d;
     Clinic.rating := 0;
     Clinic.timings := {| Clinic.days := "Mon - Sat"; Clinic.hours := ["10:00 AM - 07:00 PM"] |};
     Clinic.isOnlinePaymentAvailable := Some false;
     Clinic.isPrime := false;
     Clinic.maxWaitTime := 15;
     Clinic.isVerified := false;
     Clinic.phone := Some (phone d) |}.

(** [{ ...therapistToEdit.clinic, name, address, phone }] *)
Definition editedClinic (d : FormData) (c : Clinic) : Clinic :=
  {| Clinic.name := clinicName d;
     Clinic.address := clinicAddress d;
     Clinic.rating := Clinic.rating c;
     Clinic.timings := Clinic.timings c;
     Clinic.isOnlinePaymentAvailable := Clinic.isOnlinePaymentAvailable c;
     Clinic.isPrime := Clinic.isPrime c;
     Clinic.maxWaitTime := Clinic.maxWaitTime c;
     Clinic.isVerified := Clinic.isVerified c;
     Clinic.phone := Some (phone d) |}.

(** [therapistData]; [now] is [Date.now()].  [None] for a therapist to
    edit without a clinic, for which the page has thrown at [mount]. *)
Definition therapistData (props : Props) (now : Z) (sub : Submission)
    (newPhotoDataUrls : list string) : option Therapist :=
  let d := sub_formData sub in
  match therapistToEdit props with
  | Some t =>
      c ← Therapist.clinic t;
      Some {| Therapist.id := Therapist.id t;
              Therapist.name := name d;
              Therapist.email := None;
              Therapist.title := title d;
              Therapist.location := location d;
              Therapist.rating := Therapist.rating t;
              Therapist.reviewCount := Therapist.reviewCount t;
              Therapist.specialties := sub_specialties sub;
              Therapist.description := description d;
              Therapist.qualifications := qualificationList d;
              Therapist.clinicPhotos := Therapist.clinicPhotos t ++ newPhotoDataUrls;
              Therapist.reviews := Therapist.reviews t;
              Therapist.fee := Therapist.fee t;
              Therapist.isProfileClaimed := true;
              Therapist.experience := years d;
              Therapist.specialistExperience := years d;
              Therapist.patientSatisfaction := Therapist.patientSatisfaction t;
              Therapist.clinic := Some (editedClinic d c) |}
  | None =>
      Some {| Therapist.id := now;
              Therapist.name := name d;
              Therapist.email := None;
              Therapist.title := title d;
              Therapist.location := location d;
              Therapist.rating := 0;
              Therapist.reviewCount := 0;
              Therapist.specialties := sub_specialties sub;
              Therapist.description := description d;
              Therapist.qualifications := qualificationList d;
              Therapist.clinicPhotos := newPhotoDataUrls;
              Therapist.reviews := [];
              Therapist.fee := 500;
              Therapist.isProfileClaimed := true;
              Therapist.experience := years d;
              Therapist.specialistExperience := years d;
              Therapist.patientSatisfaction := 0;
              Therapist.clinic := Some (newClinic d) |}
  end.

(** [isEditMode && onProfileUpdate ? onProfileUpdate(...) :
    onProfileCreate(...)] *)
Definition submitCallback (props : Props) (t : Therapist) : Callback :=
  if isEditMode props && hasProfileUpdate props then onProfileUpdate t else onProfileCreate t.

(** The rest of [handleSubmit], once [Promise.all] has settled:
    [read] holds the addresses of the photos, or [None] when a file
    could not be read.  The result is [None] when building the
    therapist throws. *)
Definition settle (props : Props) (now : Z) (sub : Submission)
    (read : option (list string)) (st : State) : option (State * option Callback) :=
  match read with
  | Some newPhotoDataUrls =>
      t ← therapistData props now sub newPhotoDataUrls;
      Some (setIsSubmitting false st, Some (submitCallback props t))
  | None => Some (setIsSubmitting false (setError msgPhotos st), None)
  end.

(** ** Definitions: the panel of the completeness *)

Record Check := mkCheck {
  label : string;
  complete : bool;
}.

(** [completenessChecks], in the order of its keys. *)
Definition completenessChecks (props : Props) (st : State) : list Check :=
  let d := formData st in
  [ mkCheck "Add your full name" (truthy (name d));
    mkCheck "Add your professional title" (truthy (title d));
    mkCheck "Write a short bio (min 50 chars)" (50 <=? String.length (description d))%nat;
    mkCheck "List your qualifications" (truthy (qualifications d));
    mkCheck "Enter years of experience"
      (truthy (experience d) && from_option (Z.ltb 0) false (parseInt10 (experience d)));
    mkCheck "Add your clinic name" (truthy (clinicName d));
    mkCheck "Add clinic address" (truthy (clinicAddress d));
    mkCheck "Add clinic phone number" (truthy (phone d));
    mkCheck "Select at least one specialty" (0 <? length (selectedSpecialties st))%nat;
    mkCheck "Upload at least one clinic photo"
      ((0 <? length (clinicPhotos st))%nat ||
       (0 <? from_option (λ t, length (Therapist.clinicPhotos t)) 0%nat
               (therapistToEdit props))%nat) ].

Definition completedChecks (props : Props) (st : State) : nat :=
  length (List.filter complete (completenessChecks props st)).

(** [Math.round(x)]: the integer nearest to [x], the greater one of
    two. *)
Definition round (x : Q) : Z := Qfloor (x + (1 # 2))%Q.

(** [Math.round((completedChecks / totalChecks) * 100)] *)
Definition percentage (props : Props) (st : State) : Z :=
  round (inject_Z (Z.of_nat (completedChecks props st)) /
         inject_Z (Z.of_nat (length (completenessChecks props st))) * 100)%Q.

Definition incompleteItems (props : Props) (st : State) : list Check :=
  List.filter (λ c, negb (complete c)) (completenessChecks props st).

Record Completeness := mkCompleteness {
  percent : Z;
  missing : list string;     (* under the heading of what is missing *)
  congratulation : bool;     (* Your profile is complete! Great job! *)
}.

Definition ProfileCompleteness (props : Props) (st : State) : Completeness :=
  {| percent := percentage props st;
     missing := label <$> incompleteItems props st;
     congratulation := percentage props st =? 100 |}.

(** ** Definitions: the events of the page *)

Inductive Event :=
| Input (f : Field) (value : string)
| SpecialtyChange (specialty : string)
| PhotoChange (files : list File)
| ClearPhotos
| TogglePassword
| Submit
| Back
| PhotosRead (now : Z) (read : option (list string)).

(** The component with the submission that waits for its photos. *)
Record World := mkWorld {
  state : State;
  waiting : option Submission;
}.

Section WithBrowser.
Context (SPECIALTIES : list string) (createObjectURL : File → string).

(** [handlePhotoChange], for the files of the input. *)
Definition handlePhotoChange (files : list File) : Action State :=
  setClinicPhotos files ;; setPhotoPreviews (createObjectURL <$> files).

(** The control of the event is in the form, or the reader answers a
    submission that waits with one address for each file. *)
Definition offered (props : Props) (w : World) (e : Event) : bool :=
  match e with
  | Input Email _ | Input Password _ | TogglePassword => negb (isEditMode props)
  | Input _ _ | PhotoChange _ | Back => true
  | SpecialtyChange specialty => bool_decide (specialty ∈ SPECIALTIES)
  | ClearPhotos => (0 <? length (photoPreviews (state w)))%nat
  | Submit => negb (isSubmitting (state w))
  | PhotosRead _ read =>
      match waiting w with
      | Some sub => from_option (λ urls, length urls =? length (sub_photos sub))%nat true read
      | None => false
      end
  end.

(** One event: the world after it and the callback it calls; [None]
    when the event is not offered or the handler throws. *)
Definition step (props : Props) (e : Event) (w : World) : option (World * option Callback) :=
  if negb (offered props w e) then None else
  let st := state w in
  let stay st' := Some (mkWorld st' (waiting w), None) in
  match e with
  | Input f value => stay (handleInputChange f value st)
  | SpecialtyChange specialty => stay (handleSpecialtyChange specialty st)
  | PhotoChange files => stay (handlePhotoChange files st)
  | ClearPhotos => stay (handleClearPhotos st)
  | TogglePassword => stay (setShowPassword (negb (showPassword st)) st)
  | Submit => let '(st', sub) := handleSubmit props st in Some (mkWorld st' sub, None)
  | Back => Some (w, Some onBack)
  | PhotosRead now read =>
      sub ← waiting w;
      '(st', cb) ← settle props now sub read st;
      Some (mkWorld st' None, cb)
  end.

(** The worlds of a page mounted with [props], with the callbacks
    called on the way, the last one first. *)
Inductive reachable (props : Props) : World → list Callback → Prop :=
| reachable_mount st : mount props = Some st → reachable props (mkWorld st None) []
| reachable_step w cbs e w' cb :
    reachable props w cbs → step props e w = Some (w', cb) →
    reachable props w' (from_option (λ c, [c]) [] cb ++ cbs).

(** A run of events from a world: the last world and the callbacks, the
    first one first. *)
Fixpoint run (props : Props) (es : list Event) (w : World) : option (World * list Callback) :=
  match es with
  | [] => Some (w, [])
  | e :: rest =>
      '(w1, cb) ← step props e w;
      '(w2, cbs) ← run props rest w1;
      Some (w2, from_option (λ c, [c]) [] cb ++ cbs)
  end.

(** What the page shows around the fields. *)
Record View := mkView {
  heading : string;
  subheading : string;
  completeness : Completeness;
  accountSection : bool;
  specialtyBoxes : list (string * bool);
  previews : list string;
  clearButton : bool;
  errorText : option string;
  submitLabel : string;
  submitDisabled : bool;
  passwordType : string;
}.

Definition existingPhotos (props : Props) : list string :=
  from_option Therapist.clinicPhotos [] (therapistToEdit props).

Definition render (props : Props) (st : State) : View :=
  {| heading := if isEditMode props then "Edit Therapist Profile" else "Empower Your Practice";
     subheading :=
       match therapistToEdit props with
       | Some t => "Updating the profile for " +:+ Therapist.name t +:+ "."
       | None => "Create your professional profile and connect with patients seeking care."
       end;
     completeness := ProfileCompleteness props st;
     accountSection := negb (isEditMode props);
     specialtyBoxes := (λ spec, (spec, bool_decide (spec ∈ selectedSpecialties st))) <$> SPECIALTIES;
     previews := existingPhotos props ++ photoPreviews st;
     clearButton := (0 <? length (photoPreviews st))%nat;
     errorText := if truthy (error st) then Some (error st) else None;
     submitLabel := if isSubmitting st then "Submitting..."
                    else if isEditMode props then "Update Profile" else "Create Profile";
     submitDisabled := isSubmitting st;
     passwordType := if showPassword st then "text" else "password" |}.

End WithBrowser.

(** ** Definitions: what the checks establish *)

(** The form has every required field and a specialty. *)
Definition valid (props : Props) (d : FormData) (specialties : list string) : Prop :=
  (∀ f, f ∈ requiredFields props → get f d ≠ "") ∧ specialties ≠ [].

(** A therapist as the page hands it over. *)
Record Submitted (t : Therapist) : Prop := {
  sub_name : Therapist.name t ≠ "";
  sub_title : Therapist.title t ≠ "";
  sub_location : Therapist.location t ≠ "";
  sub_description : Therapist.description t ≠ "";
  sub_qualifications : Therapist.qualifications t ≠ [];
  sub_specialty : Therapist.specialties t ≠ [];
  sub_unique : NoDup (Therapist.specialties t);
  sub_experience : Therapist.specialistExperience t = Therapist.experience t;
  sub_claimed : Therapist.isProfileClaimed t = true;
  sub_email : Therapist.email t = None;
  sub_clinic : ∃ c, Therapist.clinic t = Some c ∧ Clinic.name c ≠ "" ∧
                    Clinic.address c ≠ "" ∧ ∃ p, Clinic.phone c = Some p ∧ p ≠ "";
}.

(** The invariant of the worlds of a page. *)
Record Inv (props : Props) (w : World) : Prop := {
  inv_submitting : isSubmitting (state w) = is_some (waiting w);
  inv_unique : NoDup (selectedSpecialties (state w));
  inv_previews : length (photoPreviews (state w)) = length (clinicPhotos (state w));
  inv_clinic : ∀ t, therapistToEdit props = Some t → is_Some (Therapist.clinic t);
  inv_waiting : ∀ sub, waiting w = Some sub →
                  valid props (sub_formData sub) (sub_specialties sub) ∧
                  NoDup (sub_specialties sub);
}.

(** The therapist saved by an edit that changes nothing. *)
Definition saved (t : Therapist) (c : Clinic) : Therapist :=
  {| Therapist.id := Therapist.id t;
     Therapist.name := Therapist.name t;
     Therapist.email := None;
     Therapist.title := Therapist.title t;
     Therapist.location := Therapist.location t;
     Therapist.rating := Therapist.rating t;
     Therapist.reviewCount := Therapist.reviewCount t;
     Therapist.specialties := setOf (Therapist.specialties t);
     Therapist.description := Therapist.description t;
     Therapist.qualifications := Therapist.qualifications t;
     Therapist.clinicPhotos := Therapist.clinicPhotos t;
     Therapist.reviews := Therapist.reviews t;
     Therapist.fee := Therapist.fee t;
     Therapist.isProfileClaimed := true;
     Therapist.experience := Therapist.experience t;
     Therapist.specialistExperience := Therapist.experience t;
     Therapist.patientSatisfaction := Therapist.patientSatisfaction t;
     Therapist.clinic := Some (editedClinic (editForm t c) c) |}.

(** A therapist whose form passes the checks as the page fills it in. *)
Record Editable (t : Therapist) (c : Clinic) : Prop := {
  ed_clinic : Therapist.clinic t = Some c;
  ed_name : Therapist.name t ≠ "";
  ed_title : Therapist.title t ≠ "";
  ed_location : Therapist.location t ≠ "";
  ed_description : Therapist.description t ≠ "";
  ed_qualifications : joinWith ", " (Therapist.qualifications t) ≠ "";
  ed_clinicName : Clinic.name c ≠ "";
  ed_clinicAddress : Clinic.address c ≠ "";
  ed_phone : ∃ p, Clinic.phone c = Some p ∧ p ≠ "";
  ed_specialties : Therapist.specialties t ≠ [];
}.

(** ** Lemmas: the fields *)
Lemma get_set (f g : Field) (v : string) (d : FormData) :
  get g (set f v d) = if decide (g = f) then v else get g d.
Proof. by destruct d, f, g. Qed.

Lemma get_set_same (f : Field) (v : string) (d : FormData) : get f (set f v d) = v.
Proof. rewrite get_set. by rewrite decide_True. Qed.

Lemma key_inj : Inj (=) (=) key.
Proof. intros f g. by destruct f, g. Qed.

(** An edit changes the one field of the form and nothing else of the
    state. *)
Lemma handleInputChange_spec (f : Field) (v : string) (st : State) :
  let st' := handleInputChange f v st in
  (∀ g, get g (formData st') = if decide (g = f) then v else get g (formData st)) ∧
  selectedSpecialties st' = selectedSpecialties st ∧ clinicPhotos st' = clinicPhotos st ∧
  photoPreviews st' = photoPreviews st ∧ isSubmitting st' = isSubmitting st ∧
  error st' = error st.
Proof. split_and!; try done. intros g. apply get_set. Qed.

(** ** Lemmas: the checks of [handleSubmit] *)
Lemma find_missing_None (props : Props) (d : FormData) :
  List.find (λ f, negb (truthy (get f d))) (requiredFields props) = None ↔
  ∀ f, f ∈ requiredFields props → get f d ≠ "".
Proof.
  split.
  - intros H f Hf%list_elem_of_In. apply truthy_true.
    apply (find_none _ _ H) in Hf. by apply negb_false_iff in Hf.
  - intros H. destruct (List.find _ _) as [f|] eqn:E; [|done].
    apply find_some in E as [Hf%list_elem_of_In E%negb_true_iff%truthy_false].
    by destruct (H f Hf).
Qed.

(** The checks pass exactly on a form with every required field and a
    specialty. *)
Theorem validate_passes (props : Props) (st : State) :
  validate props st = Ok () ↔ valid props (formData st) (selectedSpecialties st).
Proof.
  unfold validate, valid. rewrite <- find_missing_None.
  destruct (List.find _ _) as [f|]; [split; [done | by intros [? _]]|].
  destruct (selectedSpecialties st); cbn; split; try done. by intros [_ ?].
Qed.

(** A rejected form is told the first required field that is empty, in
    the order of the list, or that a specialty is missing when every
    field is there. *)
Theorem validate_first_missing (props : Props) (st : State) (m : string) :
  validate props st = Err m →
  (∃ pre f post, requiredFields props = pre ++ f :: post ∧
                 Forall (λ g, get g (formData st) ≠ "") pre ∧ get f (formData st) = "" ∧
                 m = "Please fill in all fields. Missing: " +:+ key f) ∨
  ((∀ f, f ∈ requiredFields props → get f (formData st) ≠ "") ∧
   selectedSpecialties st = [] ∧ m = msgSpecialty).
Proof.
  unfold validate. destruct (List.find _ _) as [f|] eqn:E.
  - intros [= <-]. left. clear -E.
    induction (requiredFields props) as [|g l IH]; [done|]. cbn in E.
    destruct (truthy (get g (formData st))) eqn:Eg; cbn in E.
    + destruct (IH E) as (pre & f' & post & -> & Hpre & Hf & Hm).
      exists (g :: pre), f', post. split_and!; try done.
      constructor; [by apply truthy_true | done].
    + injection E as <-. exists [], g, l. split_and!; try done. by apply truthy_false.
  - pose proof (proj1 (find_missing_None props (formData st)) E) as H.
    destruct (selectedSpecialties st); [|done]. cbn. intros [= <-]. by right.
Qed.

(** A form that passes is submitted as it is; one that fails changes
    nothing but the message. *)
Theorem handleSubmit_spec (props : Props) (st : State) :
  match handleSubmit props st with
  | (st', Some sub) =>
      valid props (formData st) (selectedSpecialties st) ∧
      sub = mkSubmission (formData st) (selectedSpecialties st) (clinicPhotos st) ∧
      st' = setIsSubmitting true (setError "" st)
  | (st', None) =>
      ¬ valid props (formData st) (selectedSpecialties st) ∧
      ∃ m, st' = setError m st ∧ m ≠ "" ∧ validate props st = Err m
  end.
Proof.
  unfold handleSubmit. destruct (validate props st) as [[]|m] eqn:E.
  - by apply validate_passes in E.
  - split; [intros H%validate_passes; congruence|]. exists m. split_and!; try done.
    apply validate_first_missing in E as [(? & f & ? & _ & _ & _ & ->)|(_ & _ & ->)]; done.
Qed.

(** ** Lemmas: the set of specialties *)
Lemma toggled_elem_of (specialty x : string) (prev : list string) :
  x ∈ toggled specialty prev ↔
  if decide (x = specialty) then specialty ∉ prev else x ∈ prev.
Proof.
  unfold toggled. case_bool_decide as Hs.
  - rewrite elem_of_List_filter, bool_decide_eq_true. case_decide; subst; tauto.
  - rewrite elem_of_app, list_elem_of_singleton. case_decide; subst; tauto.
Qed.

Lemma toggled_NoDup (specialty : string) (prev : list string) :
  NoDup prev → NoDup (toggled specialty prev).
Proof.
  intros Hn. unfold toggled. case_bool_decide as Hs; [by apply NoDup_List_filter|].
  apply NoDup_app. split_and!; [done | | apply NoDup_singleton].
  by intros x Hx ->%list_elem_of_singleton.
Qed.

(** A box checked and unchecked again leaves the set as it was. *)
Lemma toggled_twice (specialty : string) (prev : list string) :
  specialty ∉ prev → toggled specialty (toggled specialty prev) = prev.
Proof.
  intros Hs. unfold toggled at 2. rewrite bool_decide_false by done.
  unfold toggled. rewrite bool_decide_true by (apply elem_of_app; right; by left).
  rewrite List.filter_app. cbn. rewrite bool_decide_false by (by intros []).
  rewrite app_nil_r. apply List_filter_all. f_equal.
  induction prev as [|x l IH]; [done|]. apply not_elem_of_cons in Hs as [Hx Hl].
  cbn. rewrite bool_decide_true by done. cbn. by rewrite IH.
Qed.

(** ** Lemmas: the therapist that is handed over *)
Lemma qualificationList_nonempty (d : FormData) : qualificationList d ≠ [].
Proof.
  unfold qualificationList. pose proof (split_nonempty "," (qualifications d)).
  by destruct (split _ _).
Qed.

Lemma valid_required (props : Props) (d : FormData) (specialties : list string) (f : Field) :
  valid props d specialties → f ∉ [Email; Password] → get f d ≠ "".
Proof.
  intros [H _] Hf. apply H. unfold requiredFields. apply elem_of_app. left.
  destruct f; try (by repeat constructor); destruct Hf; by repeat constructor.
Qed.

(** The therapist built from a form that has passed the checks. *)
Theorem therapistData_Submitted (props : Props) (now : Z) (sub : Submission)
    (urls : list string) (t : Therapist) :
  valid props (sub_formData sub) (sub_specialties sub) → NoDup (sub_specialties sub) →
  therapistData props now sub urls = Some t → Submitted t.
Proof.
  intros Hv Hn. pose proof (qualificationList_nonempty (sub_formData sub)) as Hq.
  assert (∀ f, bool_decide (f ∉ [Email; Password]) = true → get f (sub_formData sub) ≠ "")
    as Hb by (intros f Hf%bool_decide_eq_true; by eapply valid_required).
  destruct Hv as [_ Hs]. unfold therapistData.
  destruct (therapistToEdit props) as [t0|]; [destruct (Therapist.clinic t0) as [c|]; [|done]|];
    cbn; intros [= <-]; split; cbn; try done;
    try (first [apply (Hb Name) | apply (Hb Title) | apply (Hb Location)
               | apply (Hb Description)]; done);
    (eexists; split; [done|]; cbn; split_and!;
       [apply (Hb ClinicName); done | apply (Hb ClinicAddress); done
       | eexists; split; [done | apply (Hb Phone); done]]).
Qed.

(** A new therapist is never paid online, costs 500 and has no rating
    yet; its identifier is the time of the submission. *)
Theorem therapistData_create (props : Props) (now : Z) (sub : Submission) (urls : list string) :
  therapistToEdit props = None →
  ∃ t c, therapistData props now sub urls = Some t ∧ Therapist.clinic t = Some c ∧
         Therapist.id t = now ∧ Therapist.fee t = 500 ∧ Therapist.reviews t = [] ∧
         Therapist.clinicPhotos t = urls ∧
         Clinic.isOnlinePaymentAvailable c = Some false ∧ Clinic.isVerified c = false.
Proof. unfold therapistData. intros ->. eexists _, _. by split_and!. Qed.

(** An edited therapist keeps the identifier, the fee, the reviews and
    the ratings, and its photos with the new ones after them; the
    address of the account is dropped and the years as a specialist
    become the years of experience. *)
Theorem therapistData_edit (props : Props) (now : Z) (sub : Submission) (urls : list string)
    (t0 : Therapist) (c0 : Clinic) :
  therapistToEdit props = Some t0 → Therapist.clinic t0 = Some c0 →
  ∃ t c, therapistData props now sub urls = Some t ∧ Therapist.clinic t = Some c ∧
         Therapist.id t = Therapist.id t0 ∧ Therapist.fee t = Therapist.fee t0 ∧
         Therapist.reviews t = Therapist.reviews t0 ∧
         Therapist.rating t = Therapist.rating t0 ∧
         Therapist.clinicPhotos t = Therapist.clinicPhotos t0 ++ urls ∧
         Therapist.email t = None ∧
         Therapist.specialistExperience t = Therapist.experience t ∧
         Clinic.isOnlinePaymentAvailable c = Clinic.isOnlinePaymentAvailable c0 ∧
         Clinic.timings c = Clinic.timings c0 ∧ Clinic.rating c = Clinic.rating c0.
Proof. unfold therapistData. intros -> ->. eexists _, _. by split_and!. Qed.

(** ** Lemmas: the worlds of the page *)

Section WithBrowserLemmas.
Context (SPECIALTIES : list string) (createObjectURL : File → string).
Implicit Types (props : Props) (w : World) (e : Event).

#[local] Abbreviation step := (step SPECIALTIES createObjectURL).
#[local] Abbreviation reachable := (reachable SPECIALTIES createObjectURL).
#[local] Abbreviation run := (run SPECIALTIES createObjectURL).

Lemma Inv_mount props (st : State) : mount props = Some st → Inv props (mkWorld st None).
Proof.
  unfold mount. destruct (therapistToEdit props) as [t|] eqn:Et.
  - destruct (Therapist.clinic t) as [c|] eqn:Ec; [|done]. cbn. intros [= <-].
    split; cbn; try done; [apply setOf_NoDup|].
    intros t' Ht. rewrite Et in Ht. injection Ht as <-. by rewrite Ec.
  - intros [= <-]. split; cbn; try done; [constructor|]. intros t' Ht. congruence.
Qed.

(** The events that leave the submission alone keep the invariant when
    they keep the flag, the set and the photos in order. *)
Lemma Inv_stay props w (st' : State) :
  Inv props w → isSubmitting st' = isSubmitting (state w) →
  NoDup (selectedSpecialties st') → length (photoPreviews st') = length (clinicPhotos st') →
  Inv props (mkWorld st' (waiting w)).
Proof. intros [H1 H2 H3 H4 H5] E Hn Hl. split; cbn; try done. by rewrite E. Qed.

Lemma Inv_step props w e w' (cb : option Callback) :
  Inv props w → step props e w = Some (w', cb) → Inv props w'.
Proof.
  intros HI. pose proof HI as [H1 H2 H3 H4 H5]. unfold step.
  destruct (offered _ _ _ _) eqn:Ho; [|done]. cbn [negb].
  destruct e; cbn [offered] in Ho.
  1-5: intros [= <- <-]; apply Inv_stay; cbn; try done.
  - by apply toggled_NoDup.
  - by rewrite length_fmap.
  - destruct (handleSubmit props (state w)) as [st' sub] eqn:E. intros [= <- <-].
    pose proof (handleSubmit_spec props (state w)) as Hs. rewrite E in Hs.
    destruct sub as [sub|].
    + destruct Hs as (Hv & -> & ->). split; cbn; try done. by intros ? [= <-].
    + destruct Hs as (_ & m & -> & _). apply negb_true_iff in Ho. by split.
  - by intros [= <- <-].
  - destruct (waiting w) as [sub|]; [|done]. cbn.
    destruct (settle props now sub read (state w)) as [[st' cb']|] eqn:E; [|done].
    cbn. intros [= <- <-]. unfold settle in E.
    destruct read as [urls|]; [destruct (therapistData _ _ _ _); [|done]|];
      injection E as <- <-; by split.
Qed.

(** In every world of the page the button is disabled exactly while a
    submission waits, the set of specialties has no repetition, each
    chosen file has its preview, and the submission that waits has
    passed the checks. *)
Theorem page_reachable_Inv props w (cbs : list Callback) : reachable props w cbs → Inv props w.
Proof. induction 1; [by apply Inv_mount | by eapply Inv_step]. Qed.

(** The callback of an event: [onBack] of the button, or the therapist
    of the submission that waited. *)
Lemma step_callback props w e w' (cb : Callback) :
  Inv props w → step props e w = Some (w', Some cb) →
  cb = onBack ∨
  ∃ sub now urls t, waiting w = Some sub ∧ e = PhotosRead now (Some urls) ∧
    therapistData props now sub urls = Some t ∧ cb = submitCallback props t ∧ Submitted t.
Proof.
  intros [_ _ _ _ Hw]. unfold step. destruct (offered _ _ _ _); [|done]. cbn [negb].
  destruct e; try done.
  - by destruct (handleSubmit _ _).
  - intros [= _ <-]. by left.
  - destruct (waiting w) as [sub|] eqn:E; [|done]. cbn. unfold settle.
    destruct read as [urls|]; [|done].
    destruct (therapistData props now sub urls) as [t|] eqn:Et; [|done]. cbn.
    intros [= _ <-]. right. exists sub, now, urls, t. split_and!; try done.
    destruct (Hw sub eq_refl). by eapply therapistData_Submitted.
Qed.

(** A run of events from a world the page reaches ends in a world it
    reaches, with the callbacks of the run called after the others. *)
Lemma page_run_reachable props (es : list Event) w w' (cbs cbs' : list Callback) :
  reachable props w cbs → run props es w = Some (w', cbs') →
  reachable props w' (rev cbs' ++ cbs).
Proof.
  revert w cbs cbs'. induction es as [|e rest IH]; intros w cbs cbs' Hr; cbn [run].
  { by intros [= <- <-]. }
  destruct (step props e w) as [[w1 cb]|] eqn:E; [|done]. cbn [mbind option_bind].
  destruct (run props rest w1) as [[w2 cbs2]|] eqn:E2; [|done]. cbn. intros [= <- <-].
  rewrite rev_app_distr, <- app_assoc.
  replace (rev (from_option (λ c, [c]) [] cb)) with (from_option (λ c, [c]) [] cb)
    by by destruct cb.
  eapply IH; [|done]. by eapply reachable_step.
Qed.

(** C16: Every therapist the page hands over comes from a form that has
    passed the checks: it has a name, a title, a location, a
    description, a qualification, a specialty and a clinic with a name,
    an address and a telephone number. *)
Theorem reachable_Submitted props w (cbs : list Callback) (cb : Callback) :
  reachable props w cbs → cb ∈ cbs →
  match cb with
  | onProfileCreate t => Submitted t ∧ (isEditMode props && hasProfileUpdate props = false)
  | onProfileUpdate t => Submitted t ∧ isEditMode props = true
  | onBack => True
  end.
Proof.
  induction 1 as [|w cbs e w' c Hr IH Hs]; [by intros ?%elem_of_nil|].
  intros [Hc|Hc]%elem_of_app; [|by apply IH]. destruct c as [c|]; [|by apply elem_of_nil in Hc].
  apply list_elem_of_singleton in Hc as ->.
  destruct (step_callback _ _ _ _ _ (page_reachable_Inv _ _ _ Hr) Hs)
    as [->|(sub & now & urls & t & _ & _ & _ & -> & Ht)]; [done|].
  unfold submitCallback. destruct (isEditMode props) eqn:Em; [|done].
  by destruct (hasProfileUpdate props).
Qed.

(** The page never throws once it is mounted: every offered event has a
    next world. *)
Theorem step_total props w e (cbs : list Callback) :
  reachable props w cbs → offered SPECIALTIES props w e = true → is_Some (step props e w).
Proof.
  intros [_ _ _ Hc Hw]%page_reachable_Inv Ho. unfold step. rewrite Ho. cbn [negb].
  destruct e; try done; [by destruct (handleSubmit _ _)|].
  cbn in Ho. destruct (waiting w) as [sub|]; [|done]. cbn.
  destruct read as [urls|]; [|done]. cbn. unfold therapistData.
  destruct (therapistToEdit props) as [t|] eqn:Et; [|done].
  by destruct (Hc t eq_refl) as [c ->].
Qed.

End WithBrowserLemmas.

(** ** Lemmas: the panel of the completeness *)
Lemma round_inject_Z (n : Z) : round (inject_Z n) = n.
Proof.
  unfold round. pose proof (Qfloor_le (inject_Z n + (1 # 2))) as Hle.
  pose proof (Qlt_floor (inject_Z n + (1 # 2))) as Hlt.
  unfold Qle, Qlt in *. cbn in *. lia.
Qed.

(** Each check counts for ten of the hundred. *)
Theorem percentage_spec (props : Props) (st : State) :
  percentage props st = 10 * Z.of_nat (completedChecks props st).
Proof.
  unfold percentage. change (length (completenessChecks props st)) with 10%nat.
  set (c := Z.of_nat (completedChecks props st)).
  rewrite <- (round_inject_Z (10 * c)). unfold round. apply Qfloor_comp.
  unfold Qdiv. change (/ inject_Z (Z.of_nat 10))%Q with (1 # 10)%Q.
  unfold Qeq. cbn. lia.
Qed.

(** C39: The panel congratulates exactly when nothing is missing, and the
    percentage falls by ten with each item that is. *)
Theorem ProfileCompleteness_spec (props : Props) (st : State) :
  let v := ProfileCompleteness props st in
  percent v = 100 - 10 * Z.of_nat (length (missing v)) ∧
  (congratulation v = true ↔ missing v = []).
Proof.
  unfold ProfileCompleteness. cbn [percent missing congratulation].
  rewrite percentage_spec, length_fmap.
  assert (completedChecks props st + length (incompleteItems props st) = 10)%nat as H
    by apply (List_filter_split_length complete (completenessChecks props st)).
  split; [lia|]. rewrite Z.eqb_eq. split.
  - intros E. apply length_zero_iff_nil. rewrite length_fmap. lia.
  - intros E%fmap_nil_inv. rewrite E in H. change (length (@nil Check)) with 0%nat in H. lia.
Qed.

(** ** Lemmas: editing a therapist *)

(** The years of experience come back from the form as they went
    in. *)
Theorem years_editForm (t : Therapist) (c : Clinic) :
  years (editForm t c) = Therapist.experience t.
Proof. unfold years. cbn. by rewrite parseInt10_pretty. Qed.

Lemma trim_after_blank (rest : list string) :
  Forall (λ q, trim q = q) rest → trim <$> ((λ p, " " +:+ p) <$> rest) = rest.
Proof.
  induction 1 as [|p rest Hp _ IH]; [done|]. rewrite !fmap_cons, IH.
  change (" " +:+ p) with (String " " p). by rewrite trim_blank, Hp.
Qed.

(** So do the qualifications, when none of them holds a comma or starts
    or ends with a blank. *)
Theorem qualificationList_editForm (t : Therapist) (c : Clinic) :
  Therapist.qualifications t ≠ [] →
  Forall (λ q, lacks "," q = true ∧ trim q = q) (Therapist.qualifications t) →
  qualificationList (editForm t c) = Therapist.qualifications t.
Proof.
  unfold qualificationList. cbn. destruct (Therapist.qualifications t) as [|q rest]; [done|].
  intros _ Hq.
  assert (Forall (λ p, lacks "," p = true) (q :: rest)) as Hl
    by (eapply Forall_impl; [exact Hq | by intros ? [? _]]).
  pose proof (split_joinWith "," " " "" q rest eq_refl eq_refl Hl) as H.
  change (split "," (joinWith ", " (q :: rest)) = q :: ((λ p, " " +:+ p) <$> rest)) in H.
  rewrite H. clear H Hl. apply Forall_cons in Hq as [[_ Hq] Hrest].
  rewrite fmap_cons, Hq. f_equal. apply trim_after_blank.
  eapply Forall_impl; [exact Hrest | by intros ? [_ ?]].
Qed.

Lemma valid_editForm (props : Props) (t : Therapist) (c : Clinic) :
  therapistToEdit props = Some t → Editable t c →
  valid props (editForm t c) (setOf (Therapist.specialties t)).
Proof.
  intros Ht [Hc Hn Hti Hl Hd Hq Hcn Hca (p & Hp & Hpne) Hs].
  split; [|by apply setOf_nonempty]. unfold requiredFields, isEditMode. rewrite Ht. cbn.
  intros f Hf.
  repeat (apply elem_of_cons in Hf as [->|Hf]); try (by apply elem_of_nil in Hf); cbn;
    try done; [apply pretty_Z_nonempty | rewrite Hp; cbn; unfold str_or].
  by rewrite (proj2 (truthy_true p) Hpne).
Qed.

Lemma therapistData_editForm (props : Props) (t : Therapist) (c : Clinic) (now : Z) :
  therapistToEdit props = Some t → Therapist.clinic t = Some c →
  Therapist.qualifications t ≠ [] →
  Forall (λ q, lacks "," q = true ∧ trim q = q) (Therapist.qualifications t) →
  therapistData props now
    (mkSubmission (editForm t c) (setOf (Therapist.specialties t)) []) [] = Some (saved t c).
Proof.
  intros Ht Hc Hne Hq. unfold therapistData, saved. rewrite Ht, Hc. cbn [mbind option_bind].
  cbn [sub_formData sub_specialties].
  by rewrite years_editForm, (qualificationList_editForm t c Hne Hq), app_nil_r.
Qed.

Section EditUnchanged.
Context (SPECIALTIES : list string) (createObjectURL : File → string).

#[local] Abbreviation step := (step SPECIALTIES createObjectURL).

(** The two steps of a submission that succeeds. *)
Lemma step_Submit (props : Props) (w : World) :
  isSubmitting (state w) = false →
  valid props (formData (state w)) (selectedSpecialties (state w)) →
  step props Submit w =
  Some (mkWorld (setIsSubmitting true (setError "" (state w)))
          (Some (mkSubmission (formData (state w)) (selectedSpecialties (state w))
                   (clinicPhotos (state w)))), None).
Proof.
  intros Hs Hv%validate_passes. unfold TherapistRegistrationPage.step. cbn [offered].
  rewrite Hs. cbn [negb]. unfold handleSubmit. by rewrite Hv.
Qed.

Lemma step_PhotosRead (props : Props) (w : World) (sub : Submission) (now : Z)
    (urls : list string) (t : Therapist) :
  waiting w = Some sub → length urls = length (sub_photos sub) →
  therapistData props now sub urls = Some t →
  step props (PhotosRead now (Some urls)) w =
  Some (mkWorld (setIsSubmitting false (state w)) None, Some (submitCallback props t)).
Proof.
  intros Hw Hl Ht. unfold TherapistRegistrationPage.step. cbn [offered]. rewrite Hw.
  cbn [from_option]. rewrite (proj2 (Nat.eqb_eq _ _) Hl). cbn [negb mbind option_bind].
  unfold settle. by rewrite Ht.
Qed.

(** C20: A submit of a form that fails a check is rejected: the page shows
    the message of the first check that fails, waits for nothing and
    calls nothing. *)
Theorem submit_rejected (props : Props) (w : World) :
  isSubmitting (state w) = false →
  ¬ valid props (formData (state w)) (selectedSpecialties (state w)) →
  ∃ m, step props Submit w = Some (mkWorld (setError m (state w)) None, None) ∧
       m ≠ "" ∧ validate props (state w) = Err m.
Proof.
  intros Hs Hv. unfold TherapistRegistrationPage.step. cbn [offered]. rewrite Hs. cbn [negb].
  pose proof (handleSubmit_spec props (state w)) as H.
  destruct (handleSubmit props (state w)) as [st' [sub|]]; [by destruct H|].
  destruct H as (_ & m & -> & Hm & Hval). by exists m.
Qed.

(** C21: Submitting the form of a therapist as the page has filled it in
    hands the therapist over for an update, with its qualifications and
    its years as they were. *)
Theorem edit_unchanged (props : Props) (t : Therapist) (c : Clinic) (st : State) (now : Z) :
  therapistToEdit props = Some t → hasProfileUpdate props = true → Editable t c →
  Forall (λ q, lacks "," q = true ∧ trim q = q) (Therapist.qualifications t) →
  mount props = Some st →
  ∃ w, run SPECIALTIES createObjectURL props [Submit; PhotosRead now (Some [])]
         (mkWorld st None) = Some (w, [onProfileUpdate (saved t c)]) ∧
       isSubmitting (state w) = false ∧ waiting w = None.
Proof.
  intros Ht Hu He Hq. pose proof (valid_editForm props t c Ht He) as Hv.
  pose proof (ed_clinic _ _ He) as Hc. unfold mount. rewrite Ht, Hc. cbn. intros [= <-].
  assert (Therapist.qualifications t ≠ []) as Hne.
  { intros E. apply (ed_qualifications _ _ He). by rewrite E. }
  cbn [run]. rewrite step_Submit by done. cbn [mbind option_bind].
  erewrite step_PhotosRead;
    [|done|done|by apply (therapistData_editForm props t c now Ht Hc Hne Hq)].
  unfold submitCallback, isEditMode. rewrite Ht, Hu. cbn. by eexists.
Qed.

End EditUnchanged.

(** The edit changes nothing of a therapist that has no address of its
    own, equal years, and specialties without repetition. *)
Theorem saved_id (t : Therapist) (c : Clinic) (p : string) :
  Therapist.clinic t = Some c → Clinic.phone c = Some p → p ≠ "" →
  Therapist.email t = None →
  Therapist.specialistExperience t = Therapist.experience t →
  Therapist.isProfileClaimed t = true → NoDup (Therapist.specialties t) →
  saved t c = t.
Proof.
  intros Hc Hp Hpne He Hs Hcl Hn. unfold saved, editedClinic. cbn.
  rewrite (setOf_NoDup_id _ Hn), Hp. cbn. unfold str_or. rewrite (proj2 (truthy_true p) Hpne).
  destruct t as [? ? ? ? ? ? ? ? ? ? ? ? ? ? ? ? ? ?], c. cbn in *. by subst.
Qed.

End TherapistRegistrationPage.
