(* ===== verification/BookingModal.v ===== *)
(** * BookingModal: intent capture ([src/components/BookingModal.tsx])

    The form's state is the record [State] (one field per [useState]),
    initialised from the props by [init].  [handleConfirmClick] validates
    the form: with a field missing or an invalid date it sets [error] and
    calls nothing; otherwise it clears [error] and hands the details to
    [onConfirm].  [handleDateChange] parses the value of the date input
    into calendar components and builds a local date.  [isOnlinePayment]
    is the payment gate as the form displays it.  [update] dispatches the
    events of the form to these handlers, [render] says what is shown. *)

From Stdlib Require Import ZArith Lia Ascii.
From stdpp Require Import base tactics option list strings numbers.
From S2P Require Import Prelude Types JsString JsTime.

#[local] Open Scope Z_scope.

Module BookingModal.

#[local] Set Primitive Projections.

(** ** Definitions *)

(** [BookingModalProps], without the two callbacks. *)
Record Props := mkProps {
  therapist : Therapist;
  currentUser : option User;
  isRescheduling : bool;
}.

Record State := mkState {
  patientName : string;
  phoneNo : string;
  service : string;
  selectedDate : option JsDate;
  selectedTime : string;
  error : string;
}.

(** What the form calls: [onConfirm(details)] or [onClose()]. *)
Inductive Out :=
| OnConfirm (details : BookingDetails)
| OnClose.

Definition availableTimes : list string :=
  ["09:00 AM"; "10:00 AM"; "11:00 AM"; "02:00 PM"; "03:00 PM"; "04:00 PM"].

Definition errMissingFields : string :=
  "Please fill in all fields, and select a date and time.".

Definition errInvalidDate : string :=
  "Invalid date selected. Please select again.".

(** The initial values of the [useState] calls. *)
Definition init (p : Props) : State :=
  {| patientName := opt_str_or (User.name <$> currentUser p) "";
     phoneNo := "";
     service := opt_str_or (head (Therapist.specialties (therapist p))) "";
     selectedDate := None;
     selectedTime := "";
     error := "" |}.

Definition setPatientName (v : string) (st : State) : State :=
  let 'mkState _ b c d e f := st in mkState v b c d e f.
Definition setPhoneNo (v : string) (st : State) : State :=
  let 'mkState a _ c d e f := st in mkState a v c d e f.
Definition setService (v : string) (st : State) : State :=
  let 'mkState a b _ d e f := st in mkState a b v d e f.
Definition setSelectedDate (v : option JsDate) (st : State) : State :=
  let 'mkState a b c _ e f := st in mkState a b c v e f.
Definition setSelectedTime (v : string) (st : State) : State :=
  let 'mkState a b c d _ f := st in mkState a b c d v f.
Definition setError (v : string) (st : State) : State :=
  let 'mkState a b c d e _ := st in mkState a b c d e v.

(** The checks of [handleConfirmClick]: the details to confirm, or the
    error message. *)
Definition validate (st : State) : result BookingDetails string :=
  if negb (truthy (patientName st)) || negb (truthy (phoneNo st))
     || negb (truthy (service st)) || negb (is_some (selectedDate st))
     || negb (truthy (selectedTime st))
  then Err errMissingFields
  else
    match selectedDate st with
    | Some d =>
        if JsDate.isInvalid d then Err errInvalidDate
        else Ok {| BookingDetails.date := d;
                   BookingDetails.time := selectedTime st;
                   BookingDetails.patientName := patientName st;
                   BookingDetails.phoneNo := phoneNo st;
                   BookingDetails.service := service st |}
    | None => Err errMissingFields
    end.

(** [handleConfirmClick]: the new state and the call made, if any. *)
Definition handleConfirmClick (st : State) : State * option Out :=
  match validate st with
  | Err e => (setError e st, None)
  | Ok details => (setError "" st, Some (OnConfirm details))
  end.

(** The element of an array of numbers, NaN when it is missing. *)
Definition nthNumber (k : nat) (l : list (option Z)) : option Z :=
  match l !! k with Some (Some n) => Some n | _ => None end.

(** [const [year, month, day] = dateString.split('-').map(Number)] *)
Definition parseYMD (dateString : string) : option Z * option Z * option Z :=
  let parts := map Number (split "-"%char dateString) in
  (nthNumber 0 parts, nthNumber 1 parts, nthNumber 2 parts).

Section WithLocalTime.
Context `{LT : LocalTime}.

(** [handleDateChange], on the value of the date input. *)
Definition handleDateChange (dateString : string) (st : State) : State :=
  if negb (truthy dateString) then setSelectedDate None st
  else
    let '(year, month, day) := parseYMD dateString in
    setSelectedDate (Some (newDate year ((λ m, m - 1) <$> month) day)) st.

(** The events of the form. *)
Inductive Event :=
| ChangePatientName (v : string)
| ChangePhoneNo (v : string)
| ChangeService (v : string)
| ChangeDate (dateString : string)
| SelectTime (time : string)
| ClickConfirm
| ClickClose.

(** The control that raises the event is on the form: a time button
    exists for each available time, a service option for each specialty
    and for the general consultation. *)
Definition offered (p : Props) (e : Event) : bool :=
  match e with
  | SelectTime t => bool_decide (t ∈ availableTimes)
  | ChangeService v =>
      bool_decide (v ∈ Therapist.specialties (therapist p) ++ ["General Consultation"])
  | _ => true
  end.

(** The handler of each event. *)
Definition update (e : Event) (st : State) : State * option Out :=
  match e with
  | ChangePatientName v => (setPatientName v st, None)
  | ChangePhoneNo v => (setPhoneNo v st, None)
  | ChangeService v => (setService v st, None)
  | ChangeDate s => (handleDateChange s st, None)
  | SelectTime t => (setSelectedTime t st, None)
  | ClickConfirm => handleConfirmClick st
  | ClickClose => (st, Some OnClose)
  end.

End WithLocalTime.

(** [therapist.clinic?.isOnlinePaymentAvailable === true] *)
Definition onlinePaymentAvailable (t : Therapist) : bool :=
  match Therapist.clinic t with
  | Some c => bool_decide (Clinic.isOnlinePaymentAvailable c = Some true)
  | None => false
  end.

(** [isOnlinePayment]: the payment gate as the form shows it. *)
Definition isOnlinePayment (p : Props) : bool :=
  onlinePaymentAvailable (therapist p) && negb (isRescheduling p).

(** The text of the confirm button. *)
Inductive ConfirmLabel :=
| ConfirmReschedule
| PayViaRazorpay (fee : Z)
| ConfirmBooking.

(** What the form shows. *)
Record View := mkView {
  title : string;
  therapistName : string;
  serviceOptions : list string;
  timeButtons : list (string * bool);
  errorText : option string;
  confirmLabel : ConfirmLabel;
  securePaymentNote : bool;
}.

Definition render (p : Props) (st : State) : View :=
  {| title := if isRescheduling p then "Reschedule Appointment" else "Book Appointment";
     therapistName := Therapist.name (therapist p);
     serviceOptions := Therapist.specialties (therapist p) ++ ["General Consultation"];
     timeButtons := map (λ t, (t, String.eqb (selectedTime st) t)) availableTimes;
     errorText := if truthy (error st) then Some (error st) else None;
     confirmLabel :=
       if isRescheduling p then ConfirmReschedule
       else if isOnlinePayment p then PayViaRazorpay (Therapist.fee (therapist p))
       else ConfirmBooking;
     securePaymentNote := isOnlinePayment p |}.

(** A time is selected only from the buttons. *)
Definition wf_state (st : State) : Prop :=
  selectedTime st = "" ∨ selectedTime st ∈ availableTimes.

(** The form is complete: every field filled in and a valid date. *)
Definition complete (st : State) : Prop :=
  patientName st ≠ "" ∧ phoneNo st ≠ "" ∧ service st ≠ "" ∧ selectedTime st ≠ "" ∧
  ∃ d, selectedDate st = Some d ∧ JsDate.valid d.

(** ** Lemmas: validation *)
Lemma validate_Ok (st : State) (details : BookingDetails) :
  validate st = Ok details ↔
  complete st ∧
  selectedDate st = Some (BookingDetails.date details) ∧
  BookingDetails.time details = selectedTime st ∧
  BookingDetails.patientName details = patientName st ∧
  BookingDetails.phoneNo details = phoneNo st ∧
  BookingDetails.service details = service st.
Proof.
  unfold validate, complete. split.
  - destruct (_ || _) eqn:E; [done|].
    destruct (selectedDate st) as [d|] eqn:Ed; [|done].
    destruct (JsDate.isInvalid d) eqn:Ev; [done|]. intros [= <-].
    repeat (apply orb_false_iff in E as [E ?]).
    rewrite !negb_false_iff, !truthy_true in *.
    apply JsDate_isInvalid_false in Ev. cbn. split_and!; eauto.
  - intros ((Hn & Hp & Hs & Ht & d & Hd & Hv) & Hd' & H1 & H2 & H3 & H4).
    rewrite Hd. rewrite Hd' in Hd. injection Hd as <-.
    apply truthy_true in Hn, Hp, Hs, Ht. rewrite Hn, Hp, Hs, Ht. cbn.
    rewrite (proj2 (JsDate_isInvalid_false _) Hv).
    f_equal. destruct details; cbn in *; by subst.
Qed.

Lemma validate_Err (st : State) (e : string) :
  validate st = Err e → e = errMissingFields ∨ e = errInvalidDate.
Proof.
  unfold validate. repeat case_match; intros [=]; subst; auto.
Qed.

(** The details that pass validation carry a valid date. *)
Lemma validate_valid_date (st : State) (details : BookingDetails) :
  validate st = Ok details → JsDate.valid (BookingDetails.date details).
Proof.
  intros ((_ & _ & _ & _ & d & Hd & Hv) & Hd' & _)%validate_Ok. congruence.
Qed.

Lemma validate_missing (st : State) :
  patientName st = "" ∨ phoneNo st = "" ∨ service st = "" ∨
  selectedDate st = None ∨ selectedTime st = "" →
  validate st = Err errMissingFields.
Proof.
  unfold validate. intros H.
  destruct H as [H | [H | [H | [H | H]]]]; rewrite H; cbn; by rewrite ?orb_true_r.
Qed.

Lemma validate_invalid_date (st : State) (d : JsDate) :
  selectedDate st = Some d → ¬ JsDate.valid d →
  validate st = Err errMissingFields ∨ validate st = Err errInvalidDate.
Proof.
  unfold validate. intros -> Hd. destruct (_ || _); [by left|].
  destruct (JsDate.isInvalid d) eqn:E; [by right|].
  by apply JsDate_isInvalid_false in E.
Qed.

(** ** Lemmas: the confirm button *)

(** C5: submitting the form with a field empty, no date or an invalid date
    calls nothing ([onConfirm] is not called, so no booking is made) and
    changes nothing of the form but the error message, which is set to
    one of the two validation messages. *)
Theorem handleConfirmClick_rejects (st : State) :
  ¬ complete st →
  ∃ e, handleConfirmClick st = (setError e st, None) ∧
       (e = errMissingFields ∨ e = errInvalidDate).
Proof.
  intros Hc. unfold handleConfirmClick. destruct (validate st) as [d|e] eqn:E.
  - by apply validate_Ok in E as [? _].
  - exists e. split; [done|]. by apply validate_Err in E.
Qed.

(** On a complete form the confirm button clears the error and calls
    [onConfirm] once, with exactly the values of the form. *)
Theorem handleConfirmClick_accepts (st : State) :
  complete st →
  ∃ d, selectedDate st = Some d ∧
    handleConfirmClick st =
      (setError "" st,
       Some (OnConfirm {| BookingDetails.date := d;
                          BookingDetails.time := selectedTime st;
                          BookingDetails.patientName := patientName st;
                          BookingDetails.phoneNo := phoneNo st;
                          BookingDetails.service := service st |})).
Proof.
  intros Hc. pose proof Hc as (_ & _ & _ & _ & d & Hd & Hv). exists d. split; [done|].
  unfold handleConfirmClick.
  by rewrite (proj2 (validate_Ok st
    (BookingDetails.mk d (selectedTime st) (patientName st) (phoneNo st) (service st)))).
Qed.

Lemma handleConfirmClick_OnConfirm (st st' : State) (details : BookingDetails) :
  handleConfirmClick st = (st', Some (OnConfirm details)) →
  validate st = Ok details ∧ st' = setError "" st.
Proof.
  unfold handleConfirmClick. destruct (validate st); intros [=]; by subst.
Qed.

(** ** Lemmas: the payment gate *)
Lemma onlinePaymentAvailable_true (t : Therapist) :
  onlinePaymentAvailable t = true ↔
  ∃ c, Therapist.clinic t = Some c ∧ Clinic.isOnlinePaymentAvailable c = Some true.
Proof.
  unfold onlinePaymentAvailable. destruct (Therapist.clinic t) as [c|].
  - rewrite bool_decide_eq_true. split; [eauto|]. by intros (? & [= <-] & ?).
  - split; [done | by intros (? & ? & ?)].
Qed.

(** C2: the payment gate is closed when rescheduling, whatever the clinic
    says, and otherwise open exactly when the therapist has a clinic whose
    flag is [true]; a missing clinic, a missing flag and [false] close
    it. *)
Theorem isOnlinePayment_spec (p : Props) :
  isOnlinePayment p =
    match isRescheduling p, Therapist.clinic (therapist p) with
    | true, _ => false
    | false, None => false
    | false, Some c =>
        match Clinic.isOnlinePaymentAvailable c with
        | Some true => true
        | Some false | None => false
        end
    end.
Proof.
  unfold isOnlinePayment, onlinePaymentAvailable.
  destruct (isRescheduling p); [apply andb_false_r|]. rewrite andb_true_r.
  destruct (Therapist.clinic (therapist p)) as [c|]; [|done].
  by destruct (Clinic.isOnlinePaymentAvailable c) as [[]|].
Qed.

Lemma isOnlinePayment_rescheduling (p : Props) :
  isRescheduling p = true → isOnlinePayment p = false.
Proof. unfold isOnlinePayment. intros ->. apply andb_false_r. Qed.

(** ** Lemmas: events *)

Section WithLocalTimeLemmas.
Context `{LT : LocalTime}.

Lemma handleDateChange_empty (st : State) :
  selectedDate (handleDateChange "" st) = None.
Proof. reflexivity. Qed.

(** Only the confirm and close buttons call the application. *)
(** C33: The date typed is the date chosen: a value of the date input
    that splits into a year from 100 on, a month and a day of the
    calendar selects the start of that day in local time, so that the
    date read back in local time is the one typed, provided that local
    time exists. *)
Theorem handleDateChange_local_date (dateString : string) (st : State) (y m d : Z) :
  dateString ≠ "" → parseYMD dateString = (Some y, Some m, Some d) →
  validCivil y m d → 100 ≤ y ≤ 270000 →
  utcOffset (daysFromCivil y m d * msPerDay - localOffset (daysFromCivil y m d * msPerDay)) =
    localOffset (daysFromCivil y m d * msPerDay) →
  ∃ date ms, selectedDate (handleDateChange dateString st) = Some date ∧
    JsDate.getTime date = Some ms ∧ civilFromDays (localDay ms) = (y, m, d).
Proof.
  intros Hne Hp Hv Hy Hoff. unfold handleDateChange.
  rewrite (proj2 (truthy_true _) Hne), Hp. cbn [negb fmap option_fmap option_map].
  destruct (newDate_local_date y m d Hv Hy Hoff) as (ms & Hms & _ & Hc).
  by exists (newDate (Some y) (Some (m - 1)) (Some d)), ms.
Qed.

Lemma update_Out (e : Event) (st st' : State) (o : Out) :
  update e st = (st', Some o) → e = ClickConfirm ∨ (e = ClickClose ∧ o = OnClose).
Proof. destruct e; cbn; intros [=]; subst; auto. Qed.

(** The details the form hands over have passed validation. *)
Lemma update_OnConfirm (e : Event) (st st' : State) (details : BookingDetails) :
  update e st = (st', Some (OnConfirm details)) →
  e = ClickConfirm ∧ validate st = Ok details ∧ st' = setError "" st ∧
  JsDate.valid (BookingDetails.date details).
Proof.
  intros H. pose proof H as [-> | [_ [=]]]%update_Out. cbn in H.
  apply handleConfirmClick_OnConfirm in H as [Hv ->].
  split_and!; try done. by eapply validate_valid_date.
Qed.

(** The events on the form keep the selected time among the buttons. *)
Lemma update_wf (p : Props) (e : Event) (st : State) :
  offered p e = true → wf_state st → wf_state (update e st).1.
Proof.
  unfold wf_state. intros He Hst. destruct e; cbn in *; try done.
  - unfold handleDateChange. destruct (negb _); [done|]. by destruct (parseYMD _) as [[? ?] ?].
  - right. by apply bool_decide_eq_true in He.
  - unfold handleConfirmClick. by destruct (validate st).
Qed.

Lemma init_wf (p : Props) : wf_state (init p).
Proof. by left. Qed.

End WithLocalTimeLemmas.

End BookingModal.
