(* ===== verification/PaymentModal.v ===== *)
(** * PaymentModal: the payment delegate
    ([src/components/PaymentProcessingModal.tsx])

    [initiatePayment] is asynchronous: it waits for the checkout script,
    then for the order, then the checkout reports success, failure or
    dismissal, and after a success [verifyPayment] waits for the
    verification.  A run of [initiatePayment] is a session whose [Phase]
    says what it waits for; each outcome is an [Input], and [react] is the
    code that runs on it: the updates of the modal's state ([loading],
    [error], [step]), the calls made ([Cmd]) and the next phase.  A
    session is started when the modal mounts and by the retry button.
    The state updates of a session reach the modal only while the modal
    that started it is mounted; its calls are made in any case.  That
    composition is in [AppFlow.v]; here are the session, the messages of
    each failure, and what the modal shows. *)

From Stdlib Require Import ZArith Lia.
From stdpp Require Import base tactics option list strings pretty.
From S2P Require Import Prelude Types JsString.

#[local] Open Scope Z_scope.

Module PaymentModal.

#[local] Set Primitive Projections.

(** ** Definitions: data *)

Inductive Step := initiating | processing | verifying.

(** The three [useState] of the modal. *)
Record State := mkState {
  loading : bool;
  error : string;
  step : Step;
}.

(** The props of the modal, without the two callbacks. *)
Record Props := mkProps {
  amount : Z;
  therapist : Therapist;
  currentUser : User;
  bookingDate : string;
}.

(** The [error] of a [supabase.functions.invoke] result. *)
Record InvokeError := mkInvokeError {
  err_message : option string;
}.

(** The body the order function answers with. *)
Record Order := mkOrder {
  order_id : option string;
  order_amount : Z;
  order_currency : string;
  order_error : option string;
}.

(** [{ data: order, error: orderError }] *)
Record OrderResult := mkOrderResult {
  order_data : option Order;
  order_invoke_error : option InvokeError;
}.

(** What the checkout hands to [handler]. *)
Record PaymentResponse := mkPaymentResponse {
  razorpay_payment_id : string;
  razorpay_signature : string;
}.

(** The body the verification function answers with. *)
Record VerifyData := mkVerifyData {
  verify_success : bool;
  verify_message : option string;
}.

(** [{ data: verifyData, error: verifyError }] *)
Record VerifyResult := mkVerifyResult {
  verify_data : option VerifyData;
  verify_invoke_error : option InvokeError;
}.

(** The options the checkout is opened with (the fields that depend on the
    order, the therapist and the user). *)
Record CheckoutOptions := mkCheckoutOptions {
  opt_amount : Z;
  opt_currency : string;
  opt_description : string;
  opt_order_id : string;
  opt_prefill_name : string;
  opt_prefill_email : string;
  opt_therapist_id : Z;
  opt_booking_date : string;
}.

(** What a session waits for. *)
Inductive Phase :=
| LoadingScript
| CreatingOrder
| CheckoutOpen (orderId : string)
| Verifying (orderId : string) (response : PaymentResponse)
| Ended.

(** The outcomes a session waits for. *)
Inductive Input :=
| ScriptLoaded (isLoaded : bool) (now : Z)
| OrderCreated (r : OrderResult)
| PaymentSucceeded (response : PaymentResponse)
| PaymentFailed (description : option string)
| Dismissed
| Verified (r : VerifyResult).

(** The calls a session makes. *)
Inductive Cmd :=
| CreateOrder (amount : Z) (receipt : string)
| OpenCheckout (options : CheckoutOptions)
| VerifyPayment (order_id payment_id signature : string)
| OnSuccess (paymentId : string)
| ConsoleError (message : string).

#[global] Instance Step_eq_dec : EqDecision Step.
Proof. solve_decision. Defined.
#[global] Instance State_eq_dec : EqDecision State.
Proof. solve_decision. Defined.
#[global] Instance PaymentResponse_eq_dec : EqDecision PaymentResponse.
Proof. solve_decision. Defined.
#[global] Instance Phase_eq_dec : EqDecision Phase.
Proof. solve_decision. Defined.
#[global] Instance CheckoutOptions_eq_dec : EqDecision CheckoutOptions.
Proof. solve_decision. Defined.
#[global] Instance Cmd_eq_dec : EqDecision Cmd.
Proof. solve_decision. Defined.

(** ** Definitions: the modal's state *)

Definition init : State := {| loading := true; error := ""; step := initiating |}.

Definition setLoading (v : bool) : Action State :=
  λ st, let 'mkState _ b c := st in mkState v b c.
Definition setError (v : string) : Action State :=
  λ st, let 'mkState a _ c := st in mkState a v c.
Definition setStep (v : Step) : Action State :=
  λ st, let 'mkState a b _ := st in mkState a b v.

(** ** Definitions: messages *)

Definition msgSdkFailed : string :=
  "Razorpay SDK failed to load. Please check your internet connection.".
Definition msgInitFallback : string := "Something went wrong initializing payment.".
Definition msgInitiateFailed : string := "Failed to initiate payment.".
Definition msgNetwork : string :=
  "Network Error: Could not connect to the backend. Please ensure the 'create-razorpay-order' function is deployed in Supabase.".
Definition msgOrderFailed : string := "Order creation failed. Please check server logs.".
Definition msgOrderIdMissing : string :=
  "Invalid order received from server. Order ID is missing.".
Definition msgPaymentFailed : string := "Payment Failed".
Definition msgCancelled : string := "Payment cancelled by user.".
Definition msgVerificationFailed : string := "Verification failed".

(** The message thrown on an [orderError]. *)
Definition orderErrorMessage (e : InvokeError) : string :=
  match err_message e with
  | Some m =>
      if truthy m then
        if includes "Failed to send a request" m || includes "fetch failed" m
        then msgNetwork
        else msgInitiateFailed +:+ " (" +:+ m +:+ ")"
      else msgInitiateFailed
  | None => msgInitiateFailed
  end.

(** The checks on the order: its identifier, or the message thrown. *)
Definition checkOrder (r : OrderResult) : result (Order * string) string :=
  match order_invoke_error r with
  | Some e => Err (orderErrorMessage e)
  | None =>
      match order_data r with
      | None => Err msgOrderFailed
      | Some order =>
          if opt_truthy (order_error order)
          then Err (opt_str_or (order_error order) msgOrderFailed)
          else
            match order_id order with
            | Some oid => if truthy oid then Ok (order, oid) else Err msgOrderIdMissing
            | None => Err msgOrderIdMissing
            end
      end
  end.

(** [verifyError || !verifyData?.success] *)
Definition verifyFailed (r : VerifyResult) : bool :=
  is_some (verify_invoke_error r) ||
  negb (default false (verify_success <$> verify_data r)).

(** [verifyData?.message || verifyError?.message || 'Verification failed'] *)
Definition verifyFailureReason (r : VerifyResult) : string :=
  opt_str_or (verify_data r ≫= verify_message)
    (opt_str_or (verify_invoke_error r ≫= err_message) msgVerificationFailed).

(** The message shown when the verification fails. *)
Definition verifyErrorMessage (reason paymentId : string) : string :=
  "Payment successful but verification failed: " +:+ reason +:+
  ". Please contact support with Payment ID: " +:+ paymentId.

(** The [catch] of [initiatePayment]. *)
Definition catchInitiate (message : string) : Action State :=
  (setError (str_or message msgInitFallback) ;; setLoading false)%js.

(** [`receipt_${Date.now()}`.substring(0, 40)] *)
Definition receipt (now : Z) : string := substring0 40 ("receipt_" +:+ pretty now).

Definition checkoutOptions (p : Props) (order : Order) (oid : string) : CheckoutOptions :=
  {| opt_amount := order_amount order;
     opt_currency := order_currency order;
     opt_description := "Appointment with " +:+ Therapist.name (therapist p);
     opt_order_id := oid;
     opt_prefill_name := User.name (currentUser p);
     opt_prefill_email := opt_str_or (User.email (currentUser p)) "";
     opt_therapist_id := Therapist.id (therapist p);
     opt_booking_date := bookingDate p |}.

(** ** Definitions: the session *)

(** The synchronous start of [initiatePayment]. *)
Definition start : Action State :=
  (setError "" ;; setLoading true ;; setStep initiating)%js.

(** The code that runs on an outcome: the next phase, the state updates
    and the calls; [None] when the session does not wait for it. *)
Definition react (p : Props) (ph : Phase) (i : Input)
    : option (Phase * Action State * list Cmd) :=
  match ph, i with
  | LoadingScript, ScriptLoaded false _ =>
      Some (Ended, catchInitiate msgSdkFailed, [ConsoleError msgSdkFailed])
  | LoadingScript, ScriptLoaded true now =>
      Some (CreatingOrder, skip, [CreateOrder (amount p) (receipt now)])
  | CreatingOrder, OrderCreated r =>
      match checkOrder r with
      | Err m => Some (Ended, catchInitiate m, [ConsoleError m])
      | Ok (order, oid) =>
          Some (CheckoutOpen oid, (setLoading false ;; setStep processing)%js,
                [OpenCheckout (checkoutOptions p order oid)])
      end
  | CheckoutOpen oid, PaymentSucceeded response =>
      Some (Verifying oid response, (setStep verifying ;; setLoading true)%js,
            [VerifyPayment oid (razorpay_payment_id response) (razorpay_signature response)])
  | CheckoutOpen oid, PaymentFailed description =>
      Some (CheckoutOpen oid,
            (setError (opt_str_or description msgPaymentFailed) ;; setLoading false)%js,
            [ConsoleError "Payment failed"])
  | CheckoutOpen oid, Dismissed =>
      Some (Ended, (setLoading false ;; setError msgCancelled)%js, [])
  | Verifying oid response, Verified r =>
      if verifyFailed r then
        let m := verifyErrorMessage (verifyFailureReason r) (razorpay_payment_id response) in
        Some (Ended, (setError m ;; setLoading false)%js, [ConsoleError "Verification error"])
      else Some (Ended, skip, [OnSuccess (razorpay_payment_id response)])
  | _, _ => None
  end.

(** A session run on a sequence of outcomes, from a phase: the phase
    reached, the composed state update and the calls, oldest first.  An
    outcome the session does not wait for is ignored. *)
Fixpoint run (p : Props) (ph : Phase) (inputs : list Input)
    : Phase * Action State * list Cmd :=
  match inputs with
  | [] => (ph, skip, [])
  | i :: rest =>
      match react p ph i with
      | Some (ph1, a1, c1) =>
          let '(ph2, a2, c2) := run p ph1 rest in (ph2, (a1 ;; a2)%js, c1 ++ c2)
      | None => run p ph rest
      end
  end.

(** ** Definitions: what the modal shows *)

Inductive Body :=
| ErrorView (message : string)
| ProgressView (heading hint : string) (amountToPay : Z).

(** The close button is part of every view; the retry button of the
    error view. *)
Record View := mkView {
  closeButton : bool;
  body : Body;
  retryButton : bool;
}.

Definition heading (s : Step) : string :=
  match s with
  | initiating => "Setting up Payment..."
  | processing => "Processing Payment..."
  | verifying => "Verifying Transaction..."
  end.

Definition hint (s : Step) : string :=
  match s with
  | processing => "Please complete the payment in the popup."
  | _ => "Please do not close this window."
  end.

Definition render (p : Props) (st : State) : View :=
  if truthy (error st)
  then {| closeButton := true; body := ErrorView (error st); retryButton := true |}
  else {| closeButton := true;
          body := ProgressView (heading (step st)) (hint (step st)) (amount p);
          retryButton := false |}.

(** The buttons of the modal. *)
Inductive Click := ClickClose | ClickRetry.

Definition offered (p : Props) (st : State) (c : Click) : bool :=
  match c with
  | ClickClose => closeButton (render p st)
  | ClickRetry => retryButton (render p st)
  end.

(** The calls, the phase and the state update of a run. *)
Definition cmds_of (p : Props) (ph : Phase) (inputs : list Input) : list Cmd :=
  (run p ph inputs).2.
Definition phase_of (p : Props) (ph : Phase) (inputs : list Input) : Phase :=
  (run p ph inputs).1.1.
Definition update_of (p : Props) (ph : Phase) (inputs : list Input) : Action State :=
  (run p ph inputs).1.2.

(** The outcomes a session can still take before it ends, failed
    payments apart: the checkout stays open after one. *)
Definition rank (ph : Phase) : nat :=
  match ph with
  | LoadingScript => 4
  | CreatingOrder => 3
  | CheckoutOpen _ => 2
  | Verifying _ _ => 1
  | Ended => 0
  end.

Definition isPaymentFailed (i : Input) : bool :=
  match i with PaymentFailed _ => true | _ => false end.

(** The outcomes of a sequence that the session takes, from a phase. *)
Fixpoint taken (p : Props) (ph : Phase) (inputs : list Input) : list Input :=
  match inputs with
  | [] => []
  | i :: rest =>
      match react p ph i with
      | Some (ph1, _, _) => i :: taken p ph1 rest
      | None => taken p ph rest
      end
  end.

(** The outcomes taken that move the session on. *)
Definition progress (p : Props) (ph : Phase) (inputs : list Input) : nat :=
  length (List.filter (λ i, negb (isPaymentFailed i)) (taken p ph inputs)).

(** [OnSuccess] among the calls. *)
Definition isOnSuccess (c : Cmd) : bool :=
  match c with OnSuccess _ => true | _ => false end.

(** [H] says that a call is in a list of calls of other kinds. *)
Ltac absent_in H :=
  repeat (apply elem_of_cons in H as [H|H]; [discriminate H|]);
  by apply elem_of_nil in H.

(** ** Lemmas: messages *)

(** When the verification of a payment fails, the message shown ends
    with the payment reference, so that the payment can be reconciled by
    hand. *)
Theorem verifyErrorMessage_has_reference (reason paymentId : string) :
  includes paymentId (verifyErrorMessage reason paymentId) = true.
Proof.
  unfold verifyErrorMessage. rewrite <- !append_assoc. apply includes_suffix.
Qed.

Lemma orderErrorMessage_nonempty (e : InvokeError) : orderErrorMessage e ≠ "".
Proof. unfold orderErrorMessage. repeat case_match; done. Qed.

Lemma verifyErrorMessage_nonempty (reason paymentId : string) :
  verifyErrorMessage reason paymentId ≠ "".
Proof. done. Qed.

Lemma catchInitiate_state (m : string) (st : State) :
  error (catchInitiate m st) ≠ "" ∧ loading (catchInitiate m st) = false ∧
  step (catchInitiate m st) = step st.
Proof.
  split_and!; try done. cbn. apply truthy_true, str_or_truthy. done.
Qed.

Lemma checkOrder_Ok (r : OrderResult) (order : Order) (oid : string) :
  checkOrder r = Ok (order, oid) ↔
  order_invoke_error r = None ∧ order_data r = Some order ∧
  opt_truthy (order_error order) = false ∧ order_id order = Some oid ∧ oid ≠ "".
Proof.
  unfold checkOrder. split.
  - repeat case_match; intros [=]; subst. split_and!; try done. by apply truthy_true.
  - intros (-> & -> & -> & -> & Ho%truthy_true). by rewrite Ho.
Qed.

(** ** Lemmas: one outcome *)
Lemma react_Ended (p : Props) (i : Input) : react p Ended i = None.
Proof. by destruct i. Qed.

(** [onSuccess] is called only on a verification that did not fail, with
    the reference of the payment that was verified, and ends the session. *)
Lemma react_OnSuccess p ph i ph' a cmds pid :
  react p ph i = Some (ph', a, cmds) → OnSuccess pid ∈ cmds →
  ∃ oid response r, ph = Verifying oid response ∧ i = Verified r ∧
    verifyFailed r = false ∧ pid = razorpay_payment_id response ∧ ph' = Ended ∧
    cmds = [OnSuccess pid].
Proof.
  intros Hr Hin. destruct ph, i; cbn in Hr; try done.
  - destruct isLoaded; injection Hr as <- <- <-; absent_in Hin.
  - destruct (checkOrder r) as [[? ?]|]; injection Hr as <- <- <-; absent_in Hin.
  - injection Hr as <- <- <-. absent_in Hin.
  - injection Hr as <- <- <-. absent_in Hin.
  - injection Hr as <- <- <-. absent_in Hin.
  - destruct (verifyFailed r) eqn:E; injection Hr as <- <- <-; [absent_in Hin|].
    apply list_elem_of_singleton in Hin as [= ->]. eauto 10.
Qed.

(** An outcome either calls [onSuccess], and is then a verification that
    did not fail, or makes no such call. *)
Lemma react_success_or_not p ph i ph' a cmds :
  react p ph i = Some (ph', a, cmds) →
  (∀ pid, OnSuccess pid ∉ cmds) ∨
  ∃ oid response r, ph = Verifying oid response ∧ i = Verified r ∧
    verifyFailed r = false ∧ cmds = [OnSuccess (razorpay_payment_id response)].
Proof.
  intros Hr. destruct (List.find isOnSuccess cmds) as [c|] eqn:E.
  - right. apply find_some in E as [Hin%list_elem_of_In Hc]. destruct c; try done.
    destruct (react_OnSuccess _ _ _ _ _ _ _ Hr Hin)
      as (oid & response & r & -> & -> & Hv & -> & _ & ->).
    eauto 10.
  - left. intros pid Hin%list_elem_of_In. by apply (find_none _ _ E) in Hin.
Qed.

(** C35: whenever an outcome ends a session without success (the script
    does not load, the order fails, the user dismisses the checkout, the
    verification fails), the modal's state has a message and is not
    loading, so that the modal shows the error with its retry and close
    buttons. *)
Theorem react_failure_shows_error p ph i a cmds (st : State) :
  react p ph i = Some (Ended, a, cmds) → (∀ pid, OnSuccess pid ∉ cmds) →
  error (a st) ≠ "" ∧ loading (a st) = false ∧
  ∃ m, render p (a st) = {| closeButton := true; body := ErrorView m; retryButton := true |}.
Proof.
  intros Hr Hno.
  enough (error (a st) ≠ "" ∧ loading (a st) = false) as [He Hl].
  { split_and!; try done. exists (error (a st)). unfold render.
    by rewrite (proj2 (truthy_true _) He). }
  destruct ph, i; cbn in Hr; try done.
  - destruct isLoaded; simplify_eq. split; apply (catchInitiate_state msgSdkFailed st).
  - destruct (checkOrder r) as [[? ?]|m]; simplify_eq.
    split; apply (catchInitiate_state m st).
  - by simplify_eq.
  - destruct (verifyFailed r); simplify_eq; [done|].
    exfalso. eapply Hno. left.
Qed.

(** The close button is on every view of the modal. *)
Lemma render_closeButton (p : Props) (st : State) : closeButton (render p st) = true.
Proof. unfold render. by destruct (truthy _). Qed.

(** ** Lemmas: a session *)
Lemma cmds_of_cons p ph i rest :
  cmds_of p ph (i :: rest) =
  match react p ph i with
  | Some (ph1, _, c1) => c1 ++ cmds_of p ph1 rest
  | None => cmds_of p ph rest
  end.
Proof.
  unfold cmds_of. cbn [run]. destruct (react p ph i) as [[[ph1 a1] c1]|]; [|done].
  by destruct (run p ph1 rest) as [[? ?] ?].
Qed.

Lemma phase_of_cons p ph i rest :
  phase_of p ph (i :: rest) =
  match react p ph i with
  | Some (ph1, _, _) => phase_of p ph1 rest
  | None => phase_of p ph rest
  end.
Proof.
  unfold phase_of. cbn [run]. destruct (react p ph i) as [[[ph1 a1] c1]|]; [|done].
  by destruct (run p ph1 rest) as [[? ?] ?].
Qed.

Lemma update_of_cons p ph i rest st :
  update_of p ph (i :: rest) st =
  match react p ph i with
  | Some (ph1, a1, _) => update_of p ph1 rest (a1 st)
  | None => update_of p ph rest st
  end.
Proof.
  unfold update_of. cbn [run]. destruct (react p ph i) as [[[ph1 a1] c1]|]; [|done].
  by destruct (run p ph1 rest) as [[? ?] ?].
Qed.

(** ** Lemmas: the session ends *)

(** A failed payment leaves the session where it is; every other
    outcome the session takes brings it nearer to its end. *)
Lemma react_rank p ph i ph' a cmds :
  react p ph i = Some (ph', a, cmds) →
  if isPaymentFailed i then ph' = ph else (rank ph' < rank ph)%nat.
Proof.
  destruct ph, i; cbn; try done; intros H; simplify_eq/=; try done; try lia.
  - destruct isLoaded; simplify_eq/=; lia.
  - destruct (checkOrder r) as [[]|]; simplify_eq/=; lia.
  - destruct (verifyFailed r); simplify_eq/=; lia.
Qed.

(** C17: A session ends: whatever the outcomes, it takes at most four that
    are not failed payments, and the phase it is left in can take as
    many fewer as it has taken. *)
Theorem session_terminates (p : Props) (ph : Phase) (inputs : list Input) :
  (rank (phase_of p ph inputs) + progress p ph inputs ≤ rank ph)%nat ∧ (rank ph ≤ 4)%nat.
Proof.
  split; [|destruct ph; cbn; lia]. unfold progress.
  revert ph. induction inputs as [|i rest IH]; intros ph; [cbn; lia|].
  rewrite phase_of_cons. cbn [taken].
  destruct (react p ph i) as [[[ph1 a1] c1]|] eqn:E; [|apply IH].
  apply react_rank in E. specialize (IH ph1). cbn [List.filter].
  destruct (isPaymentFailed i); cbn [negb length]; [by subst | lia].
Qed.

(** An ended session makes no call. *)
Lemma cmds_of_Ended p inputs : cmds_of p Ended inputs = [].
Proof.
  induction inputs as [|i rest IH]; [done|]. by rewrite cmds_of_cons, react_Ended.
Qed.

Lemma phase_of_Ended p inputs : phase_of p Ended inputs = Ended.
Proof.
  induction inputs as [|i rest IH]; [done|]. by rewrite phase_of_cons, react_Ended.
Qed.

(** After the payment, [onSuccess] needs a verification that succeeds. *)
Lemma cmds_of_Verifying p oid response inputs pid :
  OnSuccess pid ∈ cmds_of p (Verifying oid response) inputs →
  pid = razorpay_payment_id response ∧
  ∃ vr, sublist [Verified vr] inputs ∧ verifyFailed vr = false.
Proof.
  induction inputs as [|i rest IH]; [by intros ?%elem_of_nil|].
  rewrite cmds_of_cons.
  destruct i; cbn [react];
    try (intros (? & vr' & ? & ?)%IH; split; [done|]; exists vr'; split;
         [by apply sublist_cons | done]).
  destruct (verifyFailed r) eqn:E; rewrite cmds_of_Ended; intros H; [absent_in H|].
  apply list_elem_of_singleton in H as [= ->]. split; [done|].
  exists r. split; [|done]. apply sublist_skip, sublist_nil_l.
Qed.

(** With the checkout open, [onSuccess] needs a payment and its
    verification, and the verification is requested for the order of the
    checkout. *)
Lemma cmds_of_CheckoutOpen p oid inputs pid :
  OnSuccess pid ∈ cmds_of p (CheckoutOpen oid) inputs →
  ∃ response vr,
    sublist [PaymentSucceeded response; Verified vr] inputs ∧
    razorpay_payment_id response = pid ∧ verifyFailed vr = false ∧
    VerifyPayment oid pid (razorpay_signature response)
      ∈ cmds_of p (CheckoutOpen oid) inputs.
Proof.
  induction inputs as [|i rest IH]; [by intros ?%elem_of_nil|].
  rewrite cmds_of_cons.
  destruct i; cbn [react];
    try (intros (resp' & vr' & ? & ? & ? & ?)%IH; exists resp', vr';
         split_and!; [by apply sublist_cons | done..]).
  - intros [H|H]%elem_of_cons; [done|].
    apply cmds_of_Verifying in H as (-> & vr & Hsub & Hv).
    exists response, vr. split_and!; [by apply sublist_skip | done | done | left].
  - intros [H|H]%elem_of_cons; [done|].
    apply IH in H as (response & vr & ? & ? & ? & ?). exists response, vr.
    split_and!; [by apply sublist_cons | done | done | by right].
  - rewrite cmds_of_Ended. by intros ?%elem_of_nil.
Qed.

Lemma cmds_of_CreatingOrder p inputs pid :
  OnSuccess pid ∈ cmds_of p CreatingOrder inputs →
  ∃ r order oid response vr,
    sublist [OrderCreated r; PaymentSucceeded response; Verified vr] inputs ∧
    checkOrder r = Ok (order, oid) ∧
    razorpay_payment_id response = pid ∧ verifyFailed vr = false ∧
    VerifyPayment oid pid (razorpay_signature response) ∈ cmds_of p CreatingOrder inputs.
Proof.
  induction inputs as [|i rest IH]; [by intros ?%elem_of_nil|].
  rewrite cmds_of_cons.
  destruct i; cbn [react];
    try (intros (r' & order' & oid' & resp' & vr' & ? & ? & ? & ? & ?)%IH;
         exists r', order', oid', resp', vr'; split_and!; [by apply sublist_cons | done..]).
  destruct (checkOrder r) as [[order oid]|m] eqn:E.
  - intros [H|H]%elem_of_cons; [done|].
    apply cmds_of_CheckoutOpen in H as (response & vr & ? & ? & ? & ?).
    exists r, order, oid, response, vr.
    split_and!; [by apply sublist_skip | done | done | done | by right].
  - rewrite cmds_of_Ended. intros H. absent_in H.
Qed.

(** C9: a payment session calls [onSuccess] with a payment reference only
    after the script has loaded, an order was created with an identifier,
    the checkout has reported that payment, and the verification of that
    payment for that order was requested and did not fail, in this
    order. *)
Theorem session_success_only_after_verification (p : Props) (inputs : list Input)
    (pid : string) :
  OnSuccess pid ∈ cmds_of p LoadingScript inputs →
  ∃ now r order oid response vr,
    sublist [ScriptLoaded true now; OrderCreated r; PaymentSucceeded response; Verified vr]
      inputs ∧
    checkOrder r = Ok (order, oid) ∧
    razorpay_payment_id response = pid ∧ verifyFailed vr = false ∧
    VerifyPayment oid pid (razorpay_signature response) ∈ cmds_of p LoadingScript inputs.
Proof.
  induction inputs as [|i rest IH]; [by intros ?%elem_of_nil|].
  rewrite cmds_of_cons.
  destruct i; cbn [react];
    try (intros (now' & r' & order' & oid' & resp' & vr' & ? & ? & ? & ? & ?)%IH;
         exists now', r', order', oid', resp', vr';
         split_and!; [by apply sublist_cons | done..]).
  destruct isLoaded.
  - intros [H|H]%elem_of_cons; [done|].
    apply cmds_of_CreatingOrder in H as (r & order & oid & response & vr & ? & ? & ? & ? & ?).
    exists now, r, order, oid, response, vr.
    split_and!; [by apply sublist_skip | done | done | done | by right].
  - rewrite cmds_of_Ended. intros H. absent_in H.
Qed.

(** C36: a payment session calls [onSuccess] at most once, whatever the
    outcomes and from whatever phase. *)
Theorem session_success_at_most_once (p : Props) (ph : Phase) (inputs : list Input) :
  (length (List.filter isOnSuccess (cmds_of p ph inputs)) ≤ 1)%nat.
Proof.
  revert ph. induction inputs as [|i rest IH]; intros ph; [cbn; lia|].
  rewrite cmds_of_cons. destruct (react p ph i) as [[[ph1 a1] c1]|] eqn:E; [|done].
  rewrite List.filter_app, length_app.
  destruct (List.filter isOnSuccess c1) as [|c l] eqn:Ef; [apply IH|].
  assert (c ∈ List.filter isOnSuccess c1) as [Hin Hc]%list_elem_of_In%filter_In
    by (rewrite Ef; left).
  destruct c; try done. apply list_elem_of_In in Hin.
  destruct (react_OnSuccess _ _ _ _ _ _ _ E Hin) as (? & ? & ? & _ & _ & _ & _ & -> & ->).
  rewrite cmds_of_Ended. cbn in Ef. injection Ef as <-. cbn. lia.
Qed.

(** A failed payment leaves the checkout open: a later payment in the
    same checkout still succeeds. *)
Lemma payment_failed_then_succeeds p oid description response vr :
  verifyFailed vr = false →
  cmds_of p (CheckoutOpen oid)
    [PaymentFailed description; PaymentSucceeded response; Verified vr] =
  [ConsoleError "Payment failed";
   VerifyPayment oid (razorpay_payment_id response) (razorpay_signature response);
   OnSuccess (razorpay_payment_id response)].
Proof. intros Hv. unfold cmds_of. cbn. by rewrite Hv. Qed.

End PaymentModal.
