(* ===== verification/OrderFunction.v ===== *)
(** * OrderFunction: the edge function that creates a payment order
    ([src/supabase/functions/create-razorpay-order/index.ts])

    The function answers one HTTP request.  Its inputs are the request
    (the method and what [req.json()] gives), the two secrets of the
    environment and the answer of the gateway to the one request the
    function sends; its result is the response and what it has logged.
    A thrown exception is a value: every [throw] and every rejected
    [await] inside the [try] ends in the [catch], which answers 400 with
    the message.  The amount is an integer number of rupees, as the fees
    of the directory are; [btoa] is a parameter. *)

From Stdlib Require Import ZArith Lia.
From stdpp Require Import base tactics option list strings.
From S2P Require Import Prelude.

#[local] Open Scope Z_scope.

Module OrderFunction.

#[local] Set Primitive Projections.

(** ** Definitions *)

(** The body of the request as the function reads it: [Number(amount)],
    [None] for [NaN]; [currency] and [receipt], [None] for
    [undefined]. *)
Record Body := mkBody {
  amount : option Z;
  currency : option string;
  receipt : option string;
}.

(** [req.method] and [await req.json()], which rejects with a message
    when the body is not JSON. *)
Record Request := mkRequest {
  method : string;
  json : result Body string;
}.

(** [Deno.env.get] of the two secrets. *)
Record Env := mkEnv {
  key_id : option string;
  key_secret : option string;
}.

(** The request sent to the gateway: the [Authorization] header and the
    body; an amount of [None] is serialized as [null]. *)
Record OrderRequest := mkOrderRequest {
  authorization : string;
  order_amount : option Z;
  order_currency : string;
  order_receipt : option string;
}.

(** What [fetch] and [response.json()] give: a rejection with its
    message, or [response.ok] with the data, of which the function reads
    [error?.description]. *)
Inductive Answer (D : Type) :=
| Rejected (message : string)
| Answered (ok : bool) (data : D) (errorDescription : option string).
Arguments Rejected {D} message.
Arguments Answered {D} ok data errorDescription.

(** The body of a response. *)
Inductive ResponseBody (D : Type) :=
| Ok_ (* the text ok *)
| Data (data : D)
| ErrorMessage (message : string).
Arguments Ok_ {D}.
Arguments Data {D} data.
Arguments ErrorMessage {D} message.

Record Response (D : Type) := mkResponse {
  status : Z;
  cors : bool;         (* the headers include [corsHeaders] *)
  jsonContent : bool;  (* the headers include the JSON content type *)
  body : ResponseBody D;
}.
Arguments mkResponse {D} status cors jsonContent body.
Arguments status {D} r.
Arguments cors {D} r.
Arguments jsonContent {D} r.
Arguments body {D} r.

Definition msgKeysMissing : string :=
  "Razorpay keys (RAZORPAY_KEY_ID or RAZORPAY_KEY_SECRET) are missing in Supabase Secrets.".
Definition msgOrderFailed : string := "Failed to create order with Razorpay".

Section WithGateway.
Context {D : Type} (btoa : string → string).

(** The request to the gateway, or the message thrown before it is
    sent. *)
Definition orderRequest (env : Env) (req : Request) : result OrderRequest string :=
  match json req with
  | Err m => Err m
  | Ok b =>
      match key_id env, key_secret env with
      | Some i, Some s =>
          if truthy i && truthy s
          then Ok {| authorization := "Basic " +:+ btoa (i +:+ ":" +:+ s);
                     order_amount := Z.mul 100 <$> amount b;
                     order_currency := default "INR" (currency b);
                     order_receipt := receipt b |}
          else Err msgKeysMissing
      | _, _ => Err msgKeysMissing
      end
  end.

(** The [catch]. *)
Definition failure (message : string) : Response D :=
  mkResponse 400 true true (ErrorMessage message).

(** The response to the answer of the gateway. *)
Definition respond (a : Answer D) : Response D :=
  match a with
  | Rejected m => failure m
  | Answered true data _ => mkResponse 200 true true (Data data)
  | Answered false _ description => failure (opt_str_or description msgOrderFailed)
  end.

(** The handler of [serve]: the response and the requests sent to the
    gateway. *)
Definition serve (env : Env) (gateway : OrderRequest → Answer D) (req : Request)
    : Response D * list OrderRequest :=
  if String.eqb (method req) "OPTIONS" then (mkResponse 200 true false Ok_, [])
  else match orderRequest env req with
       | Ok r => (respond (gateway r), [r])
       | Err m => (failure m, [])
       end.

End WithGateway.

(** ** Lemmas *)

Section WithGatewayLemmas.
Context {D : Type} (btoa : string → string).
Implicit Types (env : Env) (req : Request) (gateway : OrderRequest → Answer D).

(** A preflight request is answered at once: nothing is read and nothing
    is sent. *)
Lemma serve_OPTIONS env gateway req :
  method req = "OPTIONS" → serve btoa env gateway req = (mkResponse 200 true false Ok_, []).
Proof. unfold serve. by intros ->. Qed.

(** Every response carries the CORS headers, and the function sends at
    most one request to the gateway. *)
Lemma serve_cors env gateway req :
  cors (serve btoa env gateway req).1 = true ∧
  (length (serve btoa env gateway req).2 ≤ 1)%nat.
Proof.
  unfold serve, respond. destruct (String.eqb _ _); [by cbn; lia|].
  destruct (orderRequest _ _ _) as [r|m]; cbn; [|lia].
  by destruct (gateway r) as [|[]]; cbn; split; try lia.
Qed.

(** A request is sent to the gateway only with both secrets set, and its
    [Authorization] header is made of them. *)
Lemma orderRequest_Ok env req (r : OrderRequest) :
  orderRequest btoa env req = Ok r →
  ∃ i s b, key_id env = Some i ∧ key_secret env = Some s ∧ i ≠ "" ∧ s ≠ "" ∧
           json req = Ok b ∧
           authorization r = "Basic " +:+ btoa (i +:+ ":" +:+ s) ∧
           order_amount r = Z.mul 100 <$> amount b ∧
           order_currency r = default "INR" (currency b) ∧ order_receipt r = receipt b.
Proof.
  unfold orderRequest. destruct (json req) as [b|]; [|done].
  destruct (key_id env) as [i|], (key_secret env) as [s|]; try done.
  destruct (truthy i) eqn:Ei; [|done]. destruct (truthy s) eqn:Es; [|done]. cbn.
  intros [= <-]. exists i, s, b. split_and!; try done; by apply truthy_true.
Qed.

(** The status is 200 exactly when the request is not a preflight, its
    body is JSON, both secrets are set and the gateway answers with an
    [ok] response; the body is then the data of the gateway, whatever the
    amount asked for. *)
Theorem serve_200 env gateway req (resp : Response D) (sent : list OrderRequest) :
  method req ≠ "OPTIONS" → serve btoa env gateway req = (resp, sent) →
  (status resp = 200 ↔
   ∃ r data d, orderRequest btoa env req = Ok r ∧ gateway r = Answered true data d ∧
               body resp = Data data ∧ sent = [r]) ∧
  (status resp = 200 ∨ status resp = 400 ∧ ∃ m, body resp = ErrorMessage m).
Proof.
  intros Hm%String.eqb_neq. unfold serve. rewrite Hm.
  destruct (orderRequest _ _ _) as [r|m] eqn:Er.
  - destruct (gateway r) as [m|[] data d] eqn:Eg; cbn; intros [= <- <-]; cbn.
    + split; [|eauto]. split; [done|]. by intros (? & ? & ? & ? & ? & ? & _).
    + split; [|eauto]. split; [|done]. intros _. exists r, data, d. by rewrite Eg.
    + split; [|eauto]. split; [done|]. by intros (? & ? & ? & ? & ? & ? & _).
  - intros [= <- <-]. cbn. split; [|eauto]. split; [done|].
    by intros (? & ? & ? & ? & _).
Qed.

(** The amount sent to the gateway is the amount of the request in
    paise: a hundred times the rupees. *)
Theorem serve_amount env gateway req (n : Z) (b : Body) :
  method req ≠ "OPTIONS" → json req = Ok b → amount b = Some n →
  ∀ r, r ∈ (serve btoa env gateway req).2 → order_amount r = Some (100 * n).
Proof.
  intros Hm%String.eqb_neq Hj Ha r. unfold serve. rewrite Hm.
  destruct (orderRequest _ _ _) as [r'|m] eqn:Er; cbn; [|by intros ?%elem_of_nil].
  intros ->%list_elem_of_singleton.
  apply orderRequest_Ok in Er as (i & s & b' & _ & _ & _ & _ & Hj' & _ & -> & _).
  rewrite Hj in Hj'. injection Hj' as <-. by rewrite Ha.
Qed.

(** A failure of the gateway is answered with its description, or with
    the default message when it gives none. *)
Lemma respond_failure (data : D) (description : option string) :
  ∃ m, respond (Answered false data description) = failure m ∧ m ≠ "" ∧
       (opt_truthy description = true → description = Some m).
Proof.
  exists (opt_str_or description msgOrderFailed). split; [done|]. split.
  - apply truthy_true. by apply opt_str_or_truthy.
  - destruct description as [d|]; [|done]. unfold opt_truthy, opt_str_or, str_or.
    by intros ->.
Qed.

End WithGatewayLemmas.

End OrderFunction.
