(* ===== verification/OrderCall.v ===== *)
(** * OrderCall: the payment modal calls the order function
    ([src/components/PaymentProcessingModal.tsx], the call of
    [supabase.functions.invoke], against
    [src/supabase/functions/create-razorpay-order/index.ts])

    [clientRequest] is the request the modal makes, [invoke] what the
    client library gives back for a response of the function: the parsed
    body for a status from 200 to 299, and otherwise no data and an error
    whose message is the fixed text of the library.  [createOrder]
    composes them with [OrderFunction.serve]; the theorems say what the
    modal does with the result. *)

From Stdlib Require Import ZArith Lia.
From stdpp Require Import base tactics option list strings pretty.
From S2P Require Import Prelude Types JsString PaymentModal OrderFunction.

#[local] Open Scope Z_scope.

Module OrderCall.

(** ** Definitions *)

(** The request of [supabase.functions.invoke('create-razorpay-order',
    { body: { amount, receipt } })]. *)
Definition clientRequest (p : PaymentModal.Props) (now : Z) : OrderFunction.Request :=
  {| OrderFunction.method := "POST";
     OrderFunction.json :=
       Ok {| OrderFunction.amount := Some (PaymentModal.amount p);
             OrderFunction.currency := None;
             OrderFunction.receipt := Some (PaymentModal.receipt now) |} |}.

(** The message of the error the client library makes of a response
    whose status is not from 200 to 299. *)
Definition msgNon2xx : string := "Edge Function returned a non-2xx status code".

(** [{ data, error }] of [invoke] for a response of the function. *)
Definition invoke (r : OrderFunction.Response PaymentModal.Order) : PaymentModal.OrderResult :=
  if (200 <=? OrderFunction.status r) && (OrderFunction.status r <? 300)
  then {| PaymentModal.order_data :=
            match OrderFunction.body r with
            | OrderFunction.Data d => Some d
            | _ => None
            end;
          PaymentModal.order_invoke_error := None |}
  else {| PaymentModal.order_data := None;
          PaymentModal.order_invoke_error :=
            Some {| PaymentModal.err_message := Some msgNon2xx |} |}.

Section WithGateway.
Context (btoa : string → string).
Context (env : OrderFunction.Env).
Context (gateway : OrderFunction.OrderRequest → OrderFunction.Answer PaymentModal.Order).

(** What the modal gets for its call. *)
Definition createOrder (p : PaymentModal.Props) (now : Z) : PaymentModal.OrderResult :=
  invoke (OrderFunction.serve btoa env gateway (clientRequest p now)).1.

(** What is asked of the gateway for that call. *)
Definition asked (p : PaymentModal.Props) (now : Z) : list OrderFunction.OrderRequest :=
  (OrderFunction.serve btoa env gateway (clientRequest p now)).2.

End WithGateway.

(** The message the modal shows whenever the function fails. *)
Definition msgFunctionFailed : string :=
  PaymentModal.msgInitiateFailed +:+ " (" +:+ msgNon2xx +:+ ")".

(** ** Lemmas *)

Section WithGatewayLemmas.
Context (btoa : string → string).
Context (env : OrderFunction.Env).
Context (gateway : OrderFunction.OrderRequest → OrderFunction.Answer PaymentModal.Order).

Lemma invoke_failure (m : string) :
  PaymentModal.checkOrder (invoke (OrderFunction.failure m)) = Err msgFunctionFailed.
Proof. reflexivity. Qed.

(** C19: Whatever makes the function fail - the secrets missing, the gateway
    refusing the order with a description, the network - the modal shows
    the same text: the message of the function does not reach the
    user. *)
Theorem createOrder_failure (p : PaymentModal.Props) (now : Z) :
  OrderFunction.status (OrderFunction.serve btoa env gateway (clientRequest p now)).1 ≠ 200 →
  PaymentModal.checkOrder (createOrder btoa env gateway p now) = Err msgFunctionFailed ∧
  ∀ st ph update cmds,
    PaymentModal.react p PaymentModal.CreatingOrder
      (PaymentModal.OrderCreated (createOrder btoa env gateway p now)) =
      Some (ph, update, cmds) →
    ph = PaymentModal.Ended ∧ PaymentModal.error (update st) = msgFunctionFailed.
Proof.
  intros Hs.
  assert (PaymentModal.checkOrder (createOrder btoa env gateway p now) = Err msgFunctionFailed)
    as Hc.
  { destruct (OrderFunction.serve_200 btoa env gateway (clientRequest p now) _ _
                ltac:(done) (surjective_pairing _)) as [_ [H200 | [H400 _]]]; [done|].
    unfold createOrder, invoke. by rewrite H400. }
  split; [done|]. intros st ph update cmds. cbn. rewrite Hc. by intros [= <- <- <-].
Qed.

(** C18: With both secrets set, the gateway is asked for an order of a
    hundred times the fee, in INR; when it answers with an order that
    has an id, the checkout opens for that order with the amount the
    gateway gives. *)
Theorem createOrder_opens_checkout (p : PaymentModal.Props) (now : Z) (i s : string) :
  OrderFunction.key_id env = Some i → OrderFunction.key_secret env = Some s →
  i ≠ "" → s ≠ "" →
  ∃ r, asked btoa env gateway p now = [r] ∧
       OrderFunction.order_amount r = Some (100 * PaymentModal.amount p) ∧
       OrderFunction.order_currency r = "INR" ∧
       ∀ order d oid,
         gateway r = OrderFunction.Answered true order d →
         PaymentModal.order_id order = Some oid → oid ≠ "" →
         opt_truthy (PaymentModal.order_error order) = false →
         ∃ update,
           PaymentModal.react p PaymentModal.CreatingOrder
             (PaymentModal.OrderCreated (createOrder btoa env gateway p now)) =
           Some (PaymentModal.CheckoutOpen oid, update,
                 [PaymentModal.OpenCheckout (PaymentModal.checkoutOptions p order oid)]).
Proof.
  intros Hi Hs Hin Hsn. unfold asked, createOrder, OrderFunction.serve, OrderFunction.orderRequest.
  cbn. rewrite Hi, Hs, (proj2 (truthy_true i) Hin), (proj2 (truthy_true s) Hsn). cbn.
  eexists. split_and!; try done. intros order d oid -> Hid Hoid He. cbn.
  unfold PaymentModal.checkOrder. cbn. rewrite He, Hid, (proj2 (truthy_true oid) Hoid).
  eauto.
Qed.

End WithGatewayLemmas.

End OrderCall.
