(* ===== verification/AppState.v ===== *)
(** * AppState: the state of the application ([src/App.tsx], lines 30 to 80)

    [AppState] has one field per [useState] of the [App] component, with
    the source's names, and the field [effects]: the calls to the outside
    that the handlers have issued (the logging request, the timer that
    opens the payment modal, the sign-out, a scroll), oldest first.  It is
    not a React state; it records what a handler does besides updating the
    state.  Each [setX] is the update the React setter enqueues; a setter
    called with a function ([setBookings(prev => ...)]) is [setXWith]. *)

From Stdlib Require Import ZArith Lia.
From stdpp Require Import base tactics option list strings.
From S2P Require Import Prelude Types.

#[local] Open Scope Z_scope.

#[local] Set Primitive Projections.

(** ** Definitions *)

(** The pages of [page]. *)
Module Page.
Inductive t :=
| browse | profile | therapist_registration | admin | therapist_dashboard | about.
#[global] Instance eq_dec : EqDecision t.
Proof. solve_decision. Defined.
End Page.
Abbreviation Page := Page.t.

(** The modes of [authMode]. *)
Module AuthMode.
Inductive t := login | signup.
#[global] Instance eq_dec : EqDecision t.
Proof. solve_decision. Defined.
End AuthMode.
Abbreviation AuthMode := AuthMode.t.

(** The values of [activeMobilePage]. *)
Module MobilePage.
Inductive t := home | search | profile | none.
#[global] Instance eq_dec : EqDecision t.
Proof. solve_decision. Defined.
End MobilePage.
Abbreviation MobilePage := MobilePage.t.

(** The body of the request of [sendBookingToGoogleSheets]. *)
Record SheetRow := mkSheetRow {
  row_bookingId : string;
  row_patientName : string;
  row_patientEmail : string;
  row_phone : string;
  row_therapistName : string;
  row_date : string;
  row_time : string;
  row_service : string;
  row_status : option Status;
  row_isPaid : option bool;
}.

(** What a handler does besides updating the state. *)
Inductive Effect :=
| LogToSheet (row : SheetRow)
| StartPaymentTimer
| StartLoadTimer
| SignOut
| ScrollToTop
| ConsoleError (message : string)
| ConsoleWarn (message : string).

#[global] Instance SheetRow_eq_dec : EqDecision SheetRow.
Proof. solve_decision. Defined.
#[global] Instance Effect_eq_dec : EqDecision Effect.
Proof. solve_decision. Defined.

Record AppState := mkAppState {
  therapists : list Therapist;
  filteredTherapists : list Therapist;
  selectedTherapist : option Therapist;
  isBookingModalOpen : bool;
  therapistToBook : option Therapist;
  bookings : list Booking;
  page : Page;
  bookingToReschedule : option Booking;
  isLoadingTherapists : bool;
  fetchError : option string;
  isCancelModalOpen : bool;
  bookingToCancel : option Booking;
  isConfirmModalOpen : bool;
  lastBookingPaid : bool;
  isPaymentModalOpen : bool;
  pendingBookingDetails : option BookingDetails;
  isDeleteModalOpen : bool;
  therapistToDelete : option Therapist;
  therapistToEdit : option Therapist;
  bookingForIntake : option Booking;
  intakeDataToView : option IntakeForm;
  isViewIntakeModalOpen : bool;
  isAuthModalOpen : bool;
  authMode : AuthMode;
  currentUser : option User;
  activeMobilePage : MobilePage;
  effects : list Effect;
}.

(** The state of the first render: the arguments of the [useState] calls. *)
Definition initial : AppState :=
  {| therapists := [];
     filteredTherapists := [];
     selectedTherapist := None;
     isBookingModalOpen := false;
     therapistToBook := None;
     bookings := [];
     page := Page.browse;
     bookingToReschedule := None;
     isLoadingTherapists := true;
     fetchError := None;
     isCancelModalOpen := false;
     bookingToCancel := None;
     isConfirmModalOpen := false;
     lastBookingPaid := false;
     isPaymentModalOpen := false;
     pendingBookingDetails := None;
     isDeleteModalOpen := false;
     therapistToDelete := None;
     therapistToEdit := None;
     bookingForIntake := None;
     intakeDataToView := None;
     isViewIntakeModalOpen := false;
     isAuthModalOpen := false;
     authMode := AuthMode.login;
     currentUser := None;
     activeMobilePage := MobilePage.home;
     effects := [] |}.

Definition setTherapists (v : list Therapist) : Action AppState := λ s,
  let 'mkAppState _ x1 x2 x3 x4 x5 x6 x7 x8 x9 x10 x11 x12 x13 x14 x15 x16 x17 x18 x19 x20 x21 x22 x23 x24 x25 x26 := s in
  mkAppState v x1 x2 x3 x4 x5 x6 x7 x8 x9 x10 x11 x12 x13 x14 x15 x16 x17 x18 x19 x20 x21 x22 x23 x24 x25 x26.
Definition setFilteredTherapists (v : list Therapist) : Action AppState := λ s,
  let 'mkAppState x0 _ x2 x3 x4 x5 x6 x7 x8 x9 x10 x11 x12 x13 x14 x15 x16 x17 x18 x19 x20 x21 x22 x23 x24 x25 x26 := s in
  mkAppState x0 v x2 x3 x4 x5 x6 x7 x8 x9 x10 x11 x12 x13 x14 x15 x16 x17 x18 x19 x20 x21 x22 x23 x24 x25 x26.
Definition setSelectedTherapist (v : option Therapist) : Action AppState := λ s,
  let 'mkAppState x0 x1 _ x3 x4 x5 x6 x7 x8 x9 x10 x11 x12 x13 x14 x15 x16 x17 x18 x19 x20 x21 x22 x23 x24 x25 x26 := s in
  mkAppState x0 x1 v x3 x4 x5 x6 x7 x8 x9 x10 x11 x12 x13 x14 x15 x16 x17 x18 x19 x20 x21 x22 x23 x24 x25 x26.
Definition setIsBookingModalOpen (v : bool) : Action AppState := λ s,
  let 'mkAppState x0 x1 x2 _ x4 x5 x6 x7 x8 x9 x10 x11 x12 x13 x14 x15 x16 x17 x18 x19 x20 x21 x22 x23 x24 x25 x26 := s in
  mkAppState x0 x1 x2 v x4 x5 x6 x7 x8 x9 x10 x11 x12 x13 x14 x15 x16 x17 x18 x19 x20 x21 x22 x23 x24 x25 x26.
Definition setTherapistToBook (v : option Therapist) : Action AppState := λ s,
  let 'mkAppState x0 x1 x2 x3 _ x5 x6 x7 x8 x9 x10 x11 x12 x13 x14 x15 x16 x17 x18 x19 x20 x21 x22 x23 x24 x25 x26 := s in
  mkAppState x0 x1 x2 x3 v x5 x6 x7 x8 x9 x10 x11 x12 x13 x14 x15 x16 x17 x18 x19 x20 x21 x22 x23 x24 x25 x26.
Definition setBookings (v : list Booking) : Action AppState := λ s,
  let 'mkAppState x0 x1 x2 x3 x4 _ x6 x7 x8 x9 x10 x11 x12 x13 x14 x15 x16 x17 x18 x19 x20 x21 x22 x23 x24 x25 x26 := s in
  mkAppState x0 x1 x2 x3 x4 v x6 x7 x8 x9 x10 x11 x12 x13 x14 x15 x16 x17 x18 x19 x20 x21 x22 x23 x24 x25 x26.
Definition setPage (v : Page) : Action AppState := λ s,
  let 'mkAppState x0 x1 x2 x3 x4 x5 _ x7 x8 x9 x10 x11 x12 x13 x14 x15 x16 x17 x18 x19 x20 x21 x22 x23 x24 x25 x26 := s in
  mkAppState x0 x1 x2 x3 x4 x5 v x7 x8 x9 x10 x11 x12 x13 x14 x15 x16 x17 x18 x19 x20 x21 x22 x23 x24 x25 x26.
Definition setBookingToReschedule (v : option Booking) : Action AppState := λ s,
  let 'mkAppState x0 x1 x2 x3 x4 x5 x6 _ x8 x9 x10 x11 x12 x13 x14 x15 x16 x17 x18 x19 x20 x21 x22 x23 x24 x25 x26 := s in
  mkAppState x0 x1 x2 x3 x4 x5 x6 v x8 x9 x10 x11 x12 x13 x14 x15 x16 x17 x18 x19 x20 x21 x22 x23 x24 x25 x26.
Definition setIsLoadingTherapists (v : bool) : Action AppState := λ s,
  let 'mkAppState x0 x1 x2 x3 x4 x5 x6 x7 _ x9 x10 x11 x12 x13 x14 x15 x16 x17 x18 x19 x20 x21 x22 x23 x24 x25 x26 := s in
  mkAppState x0 x1 x2 x3 x4 x5 x6 x7 v x9 x10 x11 x12 x13 x14 x15 x16 x17 x18 x19 x20 x21 x22 x23 x24 x25 x26.
Definition setFetchError (v : option string) : Action AppState := λ s,
  let 'mkAppState x0 x1 x2 x3 x4 x5 x6 x7 x8 _ x10 x11 x12 x13 x14 x15 x16 x17 x18 x19 x20 x21 x22 x23 x24 x25 x26 := s in
  mkAppState x0 x1 x2 x3 x4 x5 x6 x7 x8 v x10 x11 x12 x13 x14 x15 x16 x17 x18 x19 x20 x21 x22 x23 x24 x25 x26.
Definition setIsCancelModalOpen (v : bool) : Action AppState := λ s,
  let 'mkAppState x0 x1 x2 x3 x4 x5 x6 x7 x8 x9 _ x11 x12 x13 x14 x15 x16 x17 x18 x19 x20 x21 x22 x23 x24 x25 x26 := s in
  mkAppState x0 x1 x2 x3 x4 x5 x6 x7 x8 x9 v x11 x12 x13 x14 x15 x16 x17 x18 x19 x20 x21 x22 x23 x24 x25 x26.
Definition setBookingToCancel (v : option Booking) : Action AppState := λ s,
  let 'mkAppState x0 x1 x2 x3 x4 x5 x6 x7 x8 x9 x10 _ x12 x13 x14 x15 x16 x17 x18 x19 x20 x21 x22 x23 x24 x25 x26 := s in
  mkAppState x0 x1 x2 x3 x4 x5 x6 x7 x8 x9 x10 v x12 x13 x14 x15 x16 x17 x18 x19 x20 x21 x22 x23 x24 x25 x26.
Definition setIsConfirmModalOpen (v : bool) : Action AppState := λ s,
  let 'mkAppState x0 x1 x2 x3 x4 x5 x6 x7 x8 x9 x10 x11 _ x13 x14 x15 x16 x17 x18 x19 x20 x21 x22 x23 x24 x25 x26 := s in
  mkAppState x0 x1 x2 x3 x4 x5 x6 x7 x8 x9 x10 x11 v x13 x14 x15 x16 x17 x18 x19 x20 x21 x22 x23 x24 x25 x26.
Definition setLastBookingPaid (v : bool) : Action AppState := λ s,
  let 'mkAppState x0 x1 x2 x3 x4 x5 x6 x7 x8 x9 x10 x11 x12 _ x14 x15 x16 x17 x18 x19 x20 x21 x22 x23 x24 x25 x26 := s in
  mkAppState x0 x1 x2 x3 x4 x5 x6 x7 x8 x9 x10 x11 x12 v x14 x15 x16 x17 x18 x19 x20 x21 x22 x23 x24 x25 x26.
Definition setIsPaymentModalOpen (v : bool) : Action AppState := λ s,
  let 'mkAppState x0 x1 x2 x3 x4 x5 x6 x7 x8 x9 x10 x11 x12 x13 _ x15 x16 x17 x18 x19 x20 x21 x22 x23 x24 x25 x26 := s in
  mkAppState x0 x1 x2 x3 x4 x5 x6 x7 x8 x9 x10 x11 x12 x13 v x15 x16 x17 x18 x19 x20 x21 x22 x23 x24 x25 x26.
Definition setPendingBookingDetails (v : option BookingDetails) : Action AppState := λ s,
  let 'mkAppState x0 x1 x2 x3 x4 x5 x6 x7 x8 x9 x10 x11 x12 x13 x14 _ x16 x17 x18 x19 x20 x21 x22 x23 x24 x25 x26 := s in
  mkAppState x0 x1 x2 x3 x4 x5 x6 x7 x8 x9 x10 x11 x12 x13 x14 v x16 x17 x18 x19 x20 x21 x22 x23 x24 x25 x26.
Definition setIsDeleteModalOpen (v : bool) : Action AppState := λ s,
  let 'mkAppState x0 x1 x2 x3 x4 x5 x6 x7 x8 x9 x10 x11 x12 x13 x14 x15 _ x17 x18 x19 x20 x21 x22 x23 x24 x25 x26 := s in
  mkAppState x0 x1 x2 x3 x4 x5 x6 x7 x8 x9 x10 x11 x12 x13 x14 x15 v x17 x18 x19 x20 x21 x22 x23 x24 x25 x26.
Definition setTherapistToDelete (v : option Therapist) : Action AppState := λ s,
  let 'mkAppState x0 x1 x2 x3 x4 x5 x6 x7 x8 x9 x10 x11 x12 x13 x14 x15 x16 _ x18 x19 x20 x21 x22 x23 x24 x25 x26 := s in
  mkAppState x0 x1 x2 x3 x4 x5 x6 x7 x8 x9 x10 x11 x12 x13 x14 x15 x16 v x18 x19 x20 x21 x22 x23 x24 x25 x26.
Definition setTherapistToEdit (v : option Therapist) : Action AppState := λ s,
  let 'mkAppState x0 x1 x2 x3 x4 x5 x6 x7 x8 x9 x10 x11 x12 x13 x14 x15 x16 x17 _ x19 x20 x21 x22 x23 x24 x25 x26 := s in
  mkAppState x0 x1 x2 x3 x4 x5 x6 x7 x8 x9 x10 x11 x12 x13 x14 x15 x16 x17 v x19 x20 x21 x22 x23 x24 x25 x26.
Definition setBookingForIntake (v : option Booking) : Action AppState := λ s,
  let 'mkAppState x0 x1 x2 x3 x4 x5 x6 x7 x8 x9 x10 x11 x12 x13 x14 x15 x16 x17 x18 _ x20 x21 x22 x23 x24 x25 x26 := s in
  mkAppState x0 x1 x2 x3 x4 x5 x6 x7 x8 x9 x10 x11 x12 x13 x14 x15 x16 x17 x18 v x20 x21 x22 x23 x24 x25 x26.
Definition setIntakeDataToView (v : option IntakeForm) : Action AppState := λ s,
  let 'mkAppState x0 x1 x2 x3 x4 x5 x6 x7 x8 x9 x10 x11 x12 x13 x14 x15 x16 x17 x18 x19 _ x21 x22 x23 x24 x25 x26 := s in
  mkAppState x0 x1 x2 x3 x4 x5 x6 x7 x8 x9 x10 x11 x12 x13 x14 x15 x16 x17 x18 x19 v x21 x22 x23 x24 x25 x26.
Definition setIsViewIntakeModalOpen (v : bool) : Action AppState := λ s,
  let 'mkAppState x0 x1 x2 x3 x4 x5 x6 x7 x8 x9 x10 x11 x12 x13 x14 x15 x16 x17 x18 x19 x20 _ x22 x23 x24 x25 x26 := s in
  mkAppState x0 x1 x2 x3 x4 x5 x6 x7 x8 x9 x10 x11 x12 x13 x14 x15 x16 x17 x18 x19 x20 v x22 x23 x24 x25 x26.
Definition setIsAuthModalOpen (v : bool) : Action AppState := λ s,
  let 'mkAppState x0 x1 x2 x3 x4 x5 x6 x7 x8 x9 x10 x11 x12 x13 x14 x15 x16 x17 x18 x19 x20 x21 _ x23 x24 x25 x26 := s in
  mkAppState x0 x1 x2 x3 x4 x5 x6 x7 x8 x9 x10 x11 x12 x13 x14 x15 x16 x17 x18 x19 x20 x21 v x23 x24 x25 x26.
Definition setAuthMode (v : AuthMode) : Action AppState := λ s,
  let 'mkAppState x0 x1 x2 x3 x4 x5 x6 x7 x8 x9 x10 x11 x12 x13 x14 x15 x16 x17 x18 x19 x20 x21 x22 _ x24 x25 x26 := s in
  mkAppState x0 x1 x2 x3 x4 x5 x6 x7 x8 x9 x10 x11 x12 x13 x14 x15 x16 x17 x18 x19 x20 x21 x22 v x24 x25 x26.
Definition setCurrentUser (v : option User) : Action AppState := λ s,
  let 'mkAppState x0 x1 x2 x3 x4 x5 x6 x7 x8 x9 x10 x11 x12 x13 x14 x15 x16 x17 x18 x19 x20 x21 x22 x23 _ x25 x26 := s in
  mkAppState x0 x1 x2 x3 x4 x5 x6 x7 x8 x9 x10 x11 x12 x13 x14 x15 x16 x17 x18 x19 x20 x21 x22 x23 v x25 x26.
Definition setActiveMobilePage (v : MobilePage) : Action AppState := λ s,
  let 'mkAppState x0 x1 x2 x3 x4 x5 x6 x7 x8 x9 x10 x11 x12 x13 x14 x15 x16 x17 x18 x19 x20 x21 x22 x23 x24 _ x26 := s in
  mkAppState x0 x1 x2 x3 x4 x5 x6 x7 x8 x9 x10 x11 x12 x13 x14 x15 x16 x17 x18 x19 x20 x21 x22 x23 x24 v x26.

(** [setTherapists(prev => f(prev))] *)
Definition setTherapistsWith (f : list Therapist → list Therapist) : Action AppState := λ s,
  let 'mkAppState x0 x1 x2 x3 x4 x5 x6 x7 x8 x9 x10 x11 x12 x13 x14 x15 x16 x17 x18 x19 x20 x21 x22 x23 x24 x25 x26 := s in
  mkAppState (f x0) x1 x2 x3 x4 x5 x6 x7 x8 x9 x10 x11 x12 x13 x14 x15 x16 x17 x18 x19 x20 x21 x22 x23 x24 x25 x26.

(** [setFilteredTherapists(prev => f(prev))] *)
Definition setFilteredTherapistsWith (f : list Therapist → list Therapist) : Action AppState := λ s,
  let 'mkAppState x0 x1 x2 x3 x4 x5 x6 x7 x8 x9 x10 x11 x12 x13 x14 x15 x16 x17 x18 x19 x20 x21 x22 x23 x24 x25 x26 := s in
  mkAppState x0 (f x1) x2 x3 x4 x5 x6 x7 x8 x9 x10 x11 x12 x13 x14 x15 x16 x17 x18 x19 x20 x21 x22 x23 x24 x25 x26.

(** [setBookings(prev => f(prev))] *)
Definition setBookingsWith (f : list Booking → list Booking) : Action AppState := λ s,
  let 'mkAppState x0 x1 x2 x3 x4 x5 x6 x7 x8 x9 x10 x11 x12 x13 x14 x15 x16 x17 x18 x19 x20 x21 x22 x23 x24 x25 x26 := s in
  mkAppState x0 x1 x2 x3 x4 (f x5) x6 x7 x8 x9 x10 x11 x12 x13 x14 x15 x16 x17 x18 x19 x20 x21 x22 x23 x24 x25 x26.

(** Issue an effect. *)
Definition emit (e : Effect) : Action AppState := λ s,
  let 'mkAppState x0 x1 x2 x3 x4 x5 x6 x7 x8 x9 x10 x11 x12 x13 x14 x15 x16 x17 x18 x19 x20 x21 x22 x23 x24 x25 x26 := s in
  mkAppState x0 x1 x2 x3 x4 x5 x6 x7 x8 x9 x10 x11 x12 x13 x14 x15 x16 x17 x18 x19 x20 x21 x22 x23 x24 x25 (x26 ++ [e]).

(** Forget the effects issued so far. *)
Definition clearEffects : Action AppState := λ s,
  let 'mkAppState x0 x1 x2 x3 x4 x5 x6 x7 x8 x9 x10 x11 x12 x13 x14 x15 x16 x17 x18 x19 x20 x21 x22 x23 x24 x25 _ := s in
  mkAppState x0 x1 x2 x3 x4 x5 x6 x7 x8 x9 x10 x11 x12 x13 x14 x15 x16 x17 x18 x19 x20 x21 x22 x23 x24 x25 [].

#[global] Instance AppState_eq_dec : EqDecision AppState.
Proof. solve_decision. Defined.

(** A handler run from a user event: the state it closes over is the
    state it updates. *)
Definition run (h : AppState → Action AppState) (s : AppState) : AppState := h s s.

(** [LogToSheet] among the effects. *)
Definition isLogToSheet (e : Effect) : bool :=
  match e with LogToSheet _ => true | _ => false end.

(** ** Lemmas *)
Lemma emit_effects (e : Effect) (s : AppState) : effects (emit e s) = effects s ++ [e].
Proof. reflexivity. Qed.

Lemma clearEffects_effects (s : AppState) : effects (clearEffects s) = [].
Proof. reflexivity. Qed.

Lemma setBookingsWith_bookings (f : list Booking → list Booking) (s : AppState) :
  bookings (setBookingsWith f s) = f (bookings s).
Proof. reflexivity. Qed.

(** Two updates of different fields commute. *)
Lemma setPage_setCurrentUser (p : Page) (u : option User) (s : AppState) :
  setPage p (setCurrentUser u s) = setCurrentUser u (setPage p s).
Proof. reflexivity. Qed.

(** The later update of a field wins. *)
Lemma setPendingBookingDetails_twice (a b : option BookingDetails) (s : AppState) :
  setPendingBookingDetails b (setPendingBookingDetails a s) = setPendingBookingDetails b s.
Proof. reflexivity. Qed.

#[export] Hint Rewrite emit_effects clearEffects_effects setBookingsWith_bookings : js_rw.
