(* ===== verification/AuthForms.v ===== *)
(** * AuthForms: the modal that signs a user in or up
    ([src/components/AuthModal.tsx])

    The modal has three modes (login, signup, forgot) and two methods
    (email, phone); its state is the thirteen [useState] cells.  A
    submit handler runs up to its [await], where it has made a [Call] to
    the authentication service; [resume] is the rest of the handler, run
    when the call has an [Outcome], with the values the handler closed
    over.  A [World] is the state with the calls that wait, the flag of
    [isMounted] and a log of what the modal has asked of the outside.
    The service, the parent that unmounts the modal and the timer of
    fifteen seconds are inputs of [step].  The browser refuses to submit
    a form with an empty [required] input or a disabled button; the
    format it asks of an email address is not modelled. *)

From Stdlib Require Import ZArith Lia.
From stdpp Require Import base tactics option list strings.
From S2P Require Import Prelude Types JsString AppState.

#[local] Open Scope Z_scope.
#[local] Open Scope js_scope.

Module AuthModal.

#[local] Set Primitive Projections.

(** ** Definitions: the state *)

Module Mode.
Inductive t := login | signup | forgot.
#[global] Instance eq_dec : EqDecision t.
Proof. solve_decision. Defined.
End Mode.
Abbreviation Mode := Mode.t.

Module Method.
Inductive t := email | phone.
#[global] Instance eq_dec : EqDecision t.
Proof. solve_decision. Defined.
End Method.
Abbreviation Method := Method.t.

Record State := mkState {
  mode : Mode;
  authMethod : Method;
  phone : string;
  otp : string;
  isOtpSent : bool;
  name : string;
  email : string;
  password : string;
  error : string;
  resetMessage : string;
  authMessage : string;
  showPassword : bool;
  loading : bool;
}.

#[global] Instance State_eq_dec : EqDecision State.
Proof. solve_decision. Defined.

Definition setMode (v : Mode) : Action State :=
  λ s, mkState v (authMethod s) (phone s) (otp s) (isOtpSent s) (name s) (email s)
         (password s) (error s) (resetMessage s) (authMessage s) (showPassword s) (loading s).
Definition setAuthMethod (v : Method) : Action State :=
  λ s, mkState (mode s) v (phone s) (otp s) (isOtpSent s) (name s) (email s)
         (password s) (error s) (resetMessage s) (authMessage s) (showPassword s) (loading s).
Definition setPhone (v : string) : Action State :=
  λ s, mkState (mode s) (authMethod s) v (otp s) (isOtpSent s) (name s) (email s)
         (password s) (error s) (resetMessage s) (authMessage s) (showPassword s) (loading s).
Definition setOtp (v : string) : Action State :=
  λ s, mkState (mode s) (authMethod s) (phone s) v (isOtpSent s) (name s) (email s)
         (password s) (error s) (resetMessage s) (authMessage s) (showPassword s) (loading s).
Definition setIsOtpSent (v : bool) : Action State :=
  λ s, mkState (mode s) (authMethod s) (phone s) (otp s) v (name s) (email s)
         (password s) (error s) (resetMessage s) (authMessage s) (showPassword s) (loading s).
Definition setName (v : string) : Action State :=
  λ s, mkState (mode s) (authMethod s) (phone s) (otp s) (isOtpSent s) v (email s)
         (password s) (error s) (resetMessage s) (authMessage s) (showPassword s) (loading s).
Definition setEmail (v : string) : Action State :=
  λ s, mkState (mode s) (authMethod s) (phone s) (otp s) (isOtpSent s) (name s) v
         (password s) (error s) (resetMessage s) (authMessage s) (showPassword s) (loading s).
Definition setPassword (v : string) : Action State :=
  λ s, mkState (mode s) (authMethod s) (phone s) (otp s) (isOtpSent s) (name s) (email s)
         v (error s) (resetMessage s) (authMessage s) (showPassword s) (loading s).
Definition setError (v : string) : Action State :=
  λ s, mkState (mode s) (authMethod s) (phone s) (otp s) (isOtpSent s) (name s) (email s)
         (password s) v (resetMessage s) (authMessage s) (showPassword s) (loading s).
Definition setResetMessage (v : string) : Action State :=
  λ s, mkState (mode s) (authMethod s) (phone s) (otp s) (isOtpSent s) (name s) (email s)
         (password s) (error s) v (authMessage s) (showPassword s) (loading s).
Definition setAuthMessage (v : string) : Action State :=
  λ s, mkState (mode s) (authMethod s) (phone s) (otp s) (isOtpSent s) (name s) (email s)
         (password s) (error s) (resetMessage s) v (showPassword s) (loading s).
Definition setShowPassword (v : bool) : Action State :=
  λ s, mkState (mode s) (authMethod s) (phone s) (otp s) (isOtpSent s) (name s) (email s)
         (password s) (error s) (resetMessage s) (authMessage s) v (loading s).
Definition setLoading (v : bool) : Action State :=
  λ s, mkState (mode s) (authMethod s) (phone s) (otp s) (isOtpSent s) (name s) (email s)
         (password s) (error s) (resetMessage s) (authMessage s) (showPassword s) v.

(** [initialMode] as a mode of the modal. *)
Definition modeOf (initialMode : AuthMode) : Mode :=
  match initialMode with
  | AuthMode.login => Mode.login
  | AuthMode.signup => Mode.signup
  end.

(** The state of [useState]. *)
Definition init (initialMode : AuthMode) : State :=
  mkState (modeOf initialMode) Method.email "" "" false "" "" "" "" "" "" false false.

Definition resetAllAuthStates : Action State :=
  setName "" ;; setEmail "" ;; setPassword "" ;; setPhone "" ;; setOtp "" ;;
  setIsOtpSent false ;; setError "" ;; setResetMessage "" ;; setAuthMessage "".

Definition switchMode (newMode : Mode) : Action State :=
  setMode newMode ;; setAuthMethod Method.email ;; resetAllAuthStates ;;
  when (negb (bool_decide (newMode = Mode.forgot))) (setEmail "").

(** The button under the form: the other method, and every field
    emptied. *)
Definition toggleMethod : Action State :=
  (λ s, setAuthMethod (match authMethod s with
                       | Method.email => Method.phone
                       | Method.phone => Method.email
                       end) s) ;; resetAllAuthStates.

(** The callback of the timer set while [loading]; [loading] and
    [error] are those of the render that set it. *)
Definition msgTimeout : string :=
  "Request timed out. Please check your internet connection and try again.".
Definition timeout (c : State) : Action State :=
  when (loading c) (setLoading false ;; when (negb (truthy (error c))) (setError msgTimeout)).

(** ** Definitions: the calls and their outcomes *)

(** A call to the authentication service. *)
Inductive Call :=
| SignInWithPassword (email password : string)
| SignUp (email password full_name : string)
| VerifyOtp (phone token : string)
| UpdateUser (full_name : string)
| SignInWithOtp (phone : string)
| ResetPasswordForEmail (email : string).

#[global] Instance Call_eq_dec : EqDecision Call.
Proof. solve_decision. Defined.

(** How a call ends: the promise rejects with an error and its message,
    or resolves to an [error] or to data, of which the handlers read
    whether [session] (or [user]) is there. *)
Inductive Outcome :=
| Rejected (message : option string)
| Failed (message : string)
| Succeeded (present : bool).

(** The handler that waits for an outcome, with what it has closed
    over. *)
Inductive Pending :=
| AwaitSignIn
| AwaitSignUp
| AwaitVerify (mode : Mode) (name : string)
| AwaitUpdate
| AwaitSendOtp
| AwaitReset.

Definition msgFillAll : string := "Please fill in all fields.".
Definition msgNotConfirmed : string :=
  "Please verify your email address. Check your inbox for a confirmation link.".
Definition msgInvalidLogin : string := "Invalid email or password. Have you signed up yet?".
Definition msgSignedUp : string :=
  "Signup successful! Please check your email for a confirmation link before logging in.".
Definition msgUnexpected : string := "An unexpected error occurred.".
Definition msgOtp : string := "Please enter the 6-digit OTP.".
Definition msgName : string := "Please enter your full name.".
Definition msgPhone : string := "Please enter a valid 10-digit Indian phone number.".
Definition msgOtpSent : string := "An OTP has been sent to your phone.".
Definition msgEmail : string := "Please enter your email address.".
Definition msgReset : string :=
  "If an account with that email exists, a password reset link has been sent.".

(** A handler up to its [await]: the state, and the call it waits for
    if it has made one. *)
Definition Started : Type := State * option (Call * Pending).

Definition reject (m : string) (s : State) : Started :=
  (setLoading false (setError m s), None).

(** [handleEmailSubmit] *)
Definition handleEmailSubmit (s : State) : Started :=
  let s' := setAuthMessage "" (setError "" (setLoading true s)) in
  match mode s with
  | Mode.login =>
      if negb (truthy (email s)) || negb (truthy (password s)) then reject msgFillAll s'
      else (s', Some (SignInWithPassword (trim (email s)) (password s), AwaitSignIn))
  | Mode.signup =>
      if negb (truthy (email s)) || negb (truthy (password s)) || negb (truthy (name s))
      then reject msgFillAll s'
      else (s', Some (SignUp (trim (email s)) (password s) (name s), AwaitSignUp))
  | Mode.forgot => (s', None)
  end.

(** [`+91${phone}`] *)
Definition fullPhoneNumber (s : State) : string := "+91" +:+ phone s.

(** [handlePhoneSubmit] *)
Definition handlePhoneSubmit (s : State) : Started :=
  let s' := setError "" (setLoading true s) in
  if isOtpSent s then
    if negb (truthy (otp s)) || negb (isDigits 6 (otp s)) then reject msgOtp s'
    else (s', Some (VerifyOtp (fullPhoneNumber s) (otp s), AwaitVerify (mode s) (name s)))
  else if bool_decide (mode s = Mode.signup) && negb (truthy (name s)) then reject msgName s'
  else if negb (truthy (phone s)) || negb (isDigits 10 (phone s)) then reject msgPhone s'
  else (s', Some (SignInWithOtp (fullPhoneNumber s), AwaitSendOtp)).

(** [handlePasswordReset] *)
Definition handlePasswordReset (s : State) : Started :=
  let s' := setResetMessage "" (setError "" (setLoading true s)) in
  if negb (truthy (email s)) then reject msgEmail s'
  else (s', Some (ResetPasswordForEmail (trim (email s)), AwaitReset)).

(** [onSubmit] of the form that is shown. *)
Definition submit (s : State) : Started :=
  match mode s, authMethod s with
  | Mode.forgot, _ => handlePasswordReset s
  | _, Method.email => handleEmailSubmit s
  | _, Method.phone => handlePhoneSubmit s
  end.

(** The message shown for an error of the sign-in. *)
Definition signInError (message : string) : string :=
  if String.eqb message "Email not confirmed" then msgNotConfirmed
  else if includes "Invalid login credentials" message then msgInvalidLogin
  else message.

(** What the rest of a handler does: *)
Record Resumed := mkResumed {
  after : Action State;              (* the updates of the state *)
  next : option (Call * Pending);    (* the call it waits for next *)
  closes : bool;                     (* whether it calls [onClose] *)
}.

Definition stays (a : Action State) : Resumed := mkResumed a None false.
Definition fails (m : string) : Resumed := stays (setError m ;; setLoading false).

(** The rest of a handler after its [await] while the modal is mounted.
    A rejected promise ends in the [catch]; the warning logged for a
    failed update of the name is not kept. *)
Definition resumeMounted (p : Pending) (o : Outcome) : Resumed :=
  match o, p with
  | Rejected m, _ => fails (opt_str_or m msgUnexpected)
  | Failed m, AwaitSignIn => fails (signInError m)
  | Failed m, AwaitUpdate => mkResumed skip None true
  | Failed m, _ => fails m
  | Succeeded _, (AwaitSignIn | AwaitUpdate) => mkResumed skip None true
  | Succeeded present, AwaitSignUp =>
      if present then mkResumed skip None true
      else stays (setAuthMessage msgSignedUp ;; setLoading false)
  | Succeeded present, AwaitVerify mode name =>
      if bool_decide (mode = Mode.signup) && truthy name && present
      then mkResumed skip (Some (UpdateUser name, AwaitUpdate)) false
      else mkResumed skip None true
  | Succeeded _, AwaitSendOtp =>
      stays (setIsOtpSent true ;; setAuthMessage msgOtpSent ;; setLoading false)
  | Succeeded _, AwaitReset => stays (setResetMessage msgReset ;; setLoading false)
  end.

(** The rest of a handler, given [isMounted.current].  Every handler
    reads the flag after its [await] and does nothing when it is
    [false]; only the update of the name has read it before, and calls
    [onClose] when the update resolves. *)
Definition resume (isMounted : bool) (p : Pending) (o : Outcome) : Resumed :=
  if isMounted then resumeMounted p o
  else match p, o with
       | AwaitUpdate, (Failed _ | Succeeded _) => mkResumed skip None true
       | _, _ => stays skip
       end.

(** ** Definitions: what the modal shows *)

(** The inputs of the form. *)
Inductive Input := NameInput | EmailInput | PasswordInput | PhoneInput | OtpInput.

#[global] Instance Input_eq_dec : EqDecision Input.
Proof. solve_decision. Defined.

(** The inputs the form shows; each is [required]. *)
Definition inputs (s : State) : list Input :=
  match mode s, authMethod s with
  | Mode.forgot, _ => [EmailInput]
  | m, Method.email =>
      (if bool_decide (m = Mode.signup) then [NameInput] else []) ++ [EmailInput; PasswordInput]
  | m, Method.phone =>
      if isOtpSent s then [OtpInput]
      else (if bool_decide (m = Mode.signup) then [NameInput] else []) ++ [PhoneInput]
  end.

Definition value (i : Input) (s : State) : string :=
  match i with
  | NameInput => name s
  | EmailInput => email s
  | PasswordInput => password s
  | PhoneInput => phone s
  | OtpInput => otp s
  end.

Definition setValue (i : Input) (v : string) : Action State :=
  match i with
  | NameInput => setName v
  | EmailInput => setEmail v
  | PasswordInput => setPassword v
  | PhoneInput => setPhone v
  | OtpInput => setOtp v
  end.

(** [disabled] of the submit button. *)
Definition submitDisabled (s : State) : bool :=
  match mode s with
  | Mode.forgot => loading s
  | _ => loading s || truthy (authMessage s)
  end.

(** The text of the submit button. *)
Definition submitLabel (s : State) : string :=
  match mode s with
  | Mode.forgot => if loading s then "Sending..." else "Send Reset Link"
  | Mode.signup => if loading s then "Processing..." else "Create Account"
  | Mode.login =>
      if loading s then "Processing..."
      else match authMethod s with
           | Method.phone => if isOtpSent s then "Verify & Login" else "Send OTP"
           | Method.email => "Login"
           end
  end.

(** The login and signup tabs are shown. *)
Definition tabsShown (s : State) : bool :=
  negb (bool_decide (mode s = Mode.forgot)) && negb (truthy (authMessage s)).

(** A click beside the modal closes it. *)
Definition backdropCloses (s : State) : bool := negb (truthy (authMessage s)).

Record View := mkView {
  heading : string;
  shown : list Input;
  errorText : option string;
  statusText : option string;
  button : string;
  disabled : bool;
  tabs : bool;
  methodButton : option string;
  forgotLink : bool;
  changeNumber : bool;
  backLink : bool;
}.

Definition textOf (m : string) : option string := if truthy m then Some m else None.

Definition render (s : State) : View :=
  {| heading := match mode s with
                | Mode.forgot => "Reset Password"
                | Mode.login => "Welcome Back!"
                | Mode.signup => "Create Your Account"
                end;
     shown := inputs s;
     errorText := textOf (error s);
     statusText := match mode s with
                   | Mode.forgot => textOf (resetMessage s)
                   | _ => textOf (authMessage s)
                   end;
     button := submitLabel s;
     disabled := submitDisabled s;
     tabs := tabsShown s;
     methodButton :=
       match mode s, authMethod s with
       | Mode.forgot, _ => None
       | _, Method.email => Some "Continue with Phone OTP"
       | _, Method.phone => Some "Continue with Email"
       end;
     forgotLink := bool_decide (mode s = Mode.login) && bool_decide (authMethod s = Method.email);
     changeNumber := negb (bool_decide (mode s = Mode.forgot)) &&
                     bool_decide (authMethod s = Method.phone) && isOtpSent s;
     backLink := bool_decide (mode s = Mode.forgot) |}.

(** ** Definitions: the modal in time *)

Inductive Event :=
| Type_ (i : Input) (v : string)
| TogglePassword
| Submit
| Tab (m : AuthMode)          (* the login and signup tabs *)
| ForgotPassword              (* the link under the password *)
| BackToLogin                 (* the link of the forgot form *)
| ToggleMethod
| ChangeNumber
| CloseButton
| Backdrop
| InitialMode (m : AuthMode)  (* the parent changes the prop *)
| Unmount                     (* the parent removes the modal *)
| Timeout                     (* the timer of fifteen seconds *)
| Settle (k : nat) (o : Outcome).   (* the call that waits at place [k] has its outcome *)

Record World := mkWorld {
  state : State;
  initialMode : AuthMode; (* the prop *)
  isMounted : bool;
  waiting : list Pending;
  calls : list Call;      (* the calls made, the oldest first *)
  closed : nat;           (* the number of calls of [onClose] *)
}.

Definition start (initialMode : AuthMode) : World :=
  mkWorld (init initialMode) initialMode true [] [] 0.

(** The control of the event is shown and enabled, and the browser lets
    the form be submitted; or the outside acts. *)
Definition offered (w : World) (e : Event) : bool :=
  let s := state w in
  match e with
  | Settle k _ => bool_decide (k < length (waiting w))%nat
  | Unmount => isMounted w
  | _ =>
      isMounted w &&
      match e with
      | Type_ i _ => bool_decide (i ∈ inputs s)
      | TogglePassword => bool_decide (PasswordInput ∈ inputs s)
      | Submit => negb (submitDisabled s) && forallb (λ i, truthy (value i s)) (inputs s)
      | Tab _ => tabsShown s
      | ForgotPassword => forgotLink (render s)
      | BackToLogin => backLink (render s)
      | ToggleMethod => is_some (methodButton (render s))
      | ChangeNumber => changeNumber (render s)
      | CloseButton => true
      | InitialMode m => bool_decide (m ≠ initialMode w)
      | Backdrop => backdropCloses s
      | Timeout => loading s
      | Settle _ _ | Unmount => false
      end
  end.

(** The world after a handler has started. *)
Definition started (w : World) (r : Started) : World :=
  mkWorld r.1 (initialMode w) (isMounted w) (waiting w ++ from_option (λ c, [c.2]) [] r.2)
    (calls w ++ from_option (λ c, [c.1]) [] r.2) (closed w).

(** The world after the state has changed. *)
Definition withState (w : World) (s : State) : World :=
  mkWorld s (initialMode w) (isMounted w) (waiting w) (calls w) (closed w).

(** One event; [None] when it is not offered. *)
Definition step (e : Event) (w : World) : option World :=
  if negb (offered w e) then None else
  let s := state w in
  match e with
  | Type_ i v => Some (withState w (setValue i v s))
  | TogglePassword => Some (withState w (setShowPassword (negb (showPassword s)) s))
  | Submit => Some (started w (submit s))
  | Tab m => Some (withState w (switchMode (modeOf m) s))
  | ForgotPassword => Some (withState w (switchMode Mode.forgot s))
  | BackToLogin => Some (withState w (switchMode Mode.login s))
  | ToggleMethod => Some (withState w (toggleMethod s))
  | ChangeNumber => Some (withState w (setIsOtpSent false s))
  | CloseButton | Backdrop =>
      Some (mkWorld s (initialMode w) (isMounted w) (waiting w) (calls w) (S (closed w)))
  | InitialMode m =>
      Some (mkWorld (setMode (modeOf m) s) m (isMounted w) (waiting w) (calls w) (closed w))
  | Unmount => Some (mkWorld s (initialMode w) false (waiting w) (calls w) (closed w))
  | Timeout => Some (withState w (timeout s s))
  | Settle k o =>
      p ← waiting w !! k;
      let r := resume (isMounted w) p o in
      Some (mkWorld (after r s) (initialMode w) (isMounted w)
              (delete k (waiting w) ++ from_option (λ c, [c.2]) [] (next r))
              (calls w ++ from_option (λ c, [c.1]) [] (next r))
              (if closes r then S (closed w) else closed w))
  end.

Definition run (es : list Event) (w : World) : option World := runs (flip step) w es.

Inductive reachable (m : AuthMode) : World → Prop :=
| reachable_start : reachable m (start m)
| reachable_step w e w' : reachable m w → step e w = Some w' → reachable m w'.

(** ** Definitions: the invariant *)

Definition isVerifyOtp (c : Call) : bool :=
  match c with VerifyOtp _ _ => true | _ => false end.
Definition isUpdateUser (c : Call) : bool :=
  match c with UpdateUser _ => true | _ => false end.
Definition isAwaitVerify (p : Pending) : bool :=
  match p with AwaitVerify _ _ => true | _ => false end.
Definition isAwaitUpdate (p : Pending) : bool :=
  match p with AwaitUpdate => true | _ => false end.


(** A call and the rest of the handler that waits for its answer
    belong together. *)
Definition fits (c : Call) (p : Pending) : bool :=
  match c, p with
  | SignInWithPassword _ _, AwaitSignIn | SignUp _ _ _, AwaitSignUp
  | VerifyOtp _ _, AwaitVerify _ _ | UpdateUser _, AwaitUpdate
  | SignInWithOtp _, AwaitSendOtp | ResetPasswordForEmail _, AwaitReset => true
  | _, _ => false
  end.

(** The call an event makes, with what waits for its answer. *)
Definition added (e : Event) (w : World) : option (Call * Pending) :=
  match e with
  | Submit => (submit (state w)).2
  | Settle k o => p ← waiting w !! k; next (resume (isMounted w) p o)
  | _ => None
  end.

(** The calls that wait after an event, before the one it adds. *)
Definition kept {A} (e : Event) (l : list A) : list A :=
  match e with Settle k _ => delete k l | _ => l end.

(** The flag of the code that was sent is set only while a message is
    shown; no call has verified a code or updated a name, and none
    waits to; while the modal says that it is processing, a call waits
    or the modal has asked to be closed. *)
Record Inv (w : World) : Prop := {
  inv_message : isOtpSent (state w) = true → authMessage (state w) ≠ "";
  inv_calls : Forall (λ c, isVerifyOtp c = false ∧ isUpdateUser c = false) (calls w);
  inv_waiting : Forall (λ p, isAwaitVerify p = false ∧ isAwaitUpdate p = false) (waiting w);
  inv_loading : isMounted w = true → loading (state w) = true →
                waiting w ≠ [] ∨ (0 < closed w)%nat;
}.

(** ** Lemmas: the handlers *)

(** Every way of changing the mode or the method empties the fields and
    the messages; the address is emptied also on the way to the forgot
    form. *)
Theorem switchMode_spec (newMode : Mode) (s : State) :
  switchMode newMode s =
  mkState newMode Method.email "" "" false "" "" "" "" "" "" (showPassword s) (loading s).
Proof. by destruct newMode. Qed.

Lemma toggleMethod_spec (s : State) :
  toggleMethod s =
  mkState (mode s) (match authMethod s with
                    | Method.email => Method.phone
                    | Method.phone => Method.email
                    end) "" "" false "" "" "" "" "" "" (showPassword s) (loading s).
Proof. done. Qed.

(** A handler that makes no call has shown an error and is not
    loading, unless it is the email handler in the forgot mode. *)
Lemma reject_spec (m : string) (s : State) :
  loading (reject m s).1 = false ∧ error (reject m s).1 = m ∧ (reject m s).2 = None.
Proof. done. Qed.

(** What [handleEmailSubmit] asks of the service. *)
Theorem handleEmailSubmit_spec (s : State) :
  match (handleEmailSubmit s).2 with
  | Some (c, p) =>
      email s ≠ "" ∧ password s ≠ "" ∧ loading (handleEmailSubmit s).1 = true ∧
      error (handleEmailSubmit s).1 = "" ∧
      (mode s = Mode.login ∧ c = SignInWithPassword (trim (email s)) (password s) ∧
         p = AwaitSignIn ∨
       mode s = Mode.signup ∧ name s ≠ "" ∧
         c = SignUp (trim (email s)) (password s) (name s) ∧ p = AwaitSignUp)
  | None =>
      mode s = Mode.forgot ∨
      (handleEmailSubmit s).1 =
        setLoading false (setError msgFillAll (setAuthMessage "" s)) ∧
      (email s = "" ∨ password s = "" ∨ mode s = Mode.signup ∧ name s = "")
  end.
Proof.
  destruct s as [m a ph o sent n e pw er rm am sp ld]. unfold handleEmailSubmit. cbn.
  destruct m, (truthy_case e) as [[Ee He]|[Ee He]], (truthy_case pw) as [[Ep Hp]|[Ep Hp]],
    (truthy_case n) as [[En Hn]|[En Hn]]; rewrite ?Ee, ?Ep, ?En; cbn; auto 10.
Qed.

(** What [handlePhoneSubmit] asks of the service: a code for a number of
    ten digits, or the check of a code of six digits. *)
Theorem handlePhoneSubmit_spec (s : State) :
  match (handlePhoneSubmit s).2 with
  | Some (c, p) =>
      loading (handlePhoneSubmit s).1 = true ∧
      (isOtpSent s = false ∧ isDigits 10 (phone s) = true ∧
         (mode s = Mode.signup → name s ≠ "") ∧
         c = SignInWithOtp ("+91" +:+ phone s) ∧ p = AwaitSendOtp ∨
       isOtpSent s = true ∧ isDigits 6 (otp s) = true ∧
         c = VerifyOtp ("+91" +:+ phone s) (otp s) ∧ p = AwaitVerify (mode s) (name s))
  | None =>
      loading (handlePhoneSubmit s).1 = false ∧
      error (handlePhoneSubmit s).1 ∈ [msgOtp; msgName; msgPhone]
  end.
Proof.
  destruct s as [m a ph o sent n e pw er rm am sp ld]. unfold handlePhoneSubmit. cbn.
  destruct sent; cbn.
  - destruct (truthy o), (isDigits 6 o) eqn:E6; cbn;
      (split; [done|]); first [by right | by left].
  - case_bool_decide as Em; cbn.
    + destruct (truthy_case n) as [[-> Hn]|[-> Hn]]; cbn.
      * destruct (truthy ph), (isDigits 10 ph) eqn:E10; cbn;
          (split; [done|]); first [by left | rewrite !elem_of_cons; tauto].
      * split; [done|]. rewrite !elem_of_cons. tauto.
    + destruct (truthy ph), (isDigits 10 ph) eqn:E10; cbn;
        (split; [done|]); first [by left | rewrite !elem_of_cons; tauto].
Qed.

(** ** Lemmas: the invariant *)

(** With the submit button enabled outside the forgot form no message
    is shown, so no code has been sent. *)
Lemma enabled_not_sent (s : State) :
  (isOtpSent s = true → authMessage s ≠ "") → submitDisabled s = false →
  mode s = Mode.forgot ∨ isOtpSent s = false ∧ authMessage s = "".
Proof.
  intros Hi. unfold submitDisabled. destruct (mode s); [| |by left];
    intros [_ Ha%truthy_false]%orb_false_iff; right; (split; [|done]);
    destruct (isOtpSent s); try done; by destruct Hi.
Qed.

(** The handler of a form whose button is enabled neither checks a code
    nor loses the message of one: it makes one of the four other calls
    and is loading, or it shows an error and is not. *)
Lemma submit_safe (s : State) :
  (isOtpSent s = true → authMessage s ≠ "") → submitDisabled s = false →
  (isOtpSent (submit s).1 = true → authMessage (submit s).1 ≠ "") ∧
  match (submit s).2 with
  | Some (c, p) => isVerifyOtp c = false ∧ isUpdateUser c = false ∧
                   isAwaitVerify p = false ∧ isAwaitUpdate p = false
  | None => loading (submit s).1 = false
  end.
Proof.
  intros Hi Hd. destruct (enabled_not_sent s Hi Hd) as [Hm|[Hs Ha]]; clear Hd.
  - destruct s as [m a ph o sent n e pw er rm am sp ld]. cbn in *. subst m.
    unfold submit, handlePasswordReset. cbn. by destruct (truthy e).
  - destruct s as [m a ph o sent n e pw er rm am sp ld]. cbn in *. subst sent am.
    unfold submit, handlePasswordReset, handleEmailSubmit, handlePhoneSubmit. cbn.
    destruct m, a; cbn; repeat case_match; simplify_eq/=; done.
Qed.

(** The rest of a handler other than the check of a code makes no
    further call, keeps a message with the flag of the code, and leaves
    a mounted modal loading only when it asks to close it. *)
Lemma resume_safe (m : bool) (p : Pending) (o : Outcome) (s : State) :
  isAwaitVerify p = false → isAwaitUpdate p = false →
  (isOtpSent s = true → authMessage s ≠ "") →
  next (resume m p o) = None ∧
  (isOtpSent (after (resume m p o) s) = true → authMessage (after (resume m p o) s) ≠ "") ∧
  (m = true → loading (after (resume m p o) s) = true → closes (resume m p o) = true).
Proof.
  intros Hv Hu Hi. destruct s as [md a ph ot sent n e pw er rm am sp ld]. cbn in *.
  destruct m, p, o as [msg|msg|[]]; try done; cbn; split_and!; try done.
Qed.

Lemma Inv_start (m : AuthMode) : Inv (start m).
Proof. split; cbn; try done; by constructor. Qed.

(** An event that only changes the state keeps the invariant when it
    keeps a message with the flag of the code and does not start to
    load. *)
Lemma Inv_withState (w : World) (s' : State) :
  Inv w → (isOtpSent s' = true → authMessage s' ≠ "") →
  (loading s' = true → loading (state w) = true) → Inv (withState w s').
Proof. intros [H1 H2 H3 H4] Hi Hl. split; cbn; try done. auto. Qed.

Lemma Inv_started (w : World) :
  Inv w → submitDisabled (state w) = false → Inv (started w (submit (state w))).
Proof.
  intros [H1 H2 H3 H4] Hd. destruct (submit_safe (state w) H1 Hd) as [Hi Hc].
  destruct (submit (state w)) as [s' [[c p]|]]; cbn in *.
  - destruct Hc as (? & ? & ? & ?). split; cbn; try done.
    + apply Forall_app. split; [done|]. by repeat constructor.
    + apply Forall_app. split; [done|]. by repeat constructor.
    + intros _ _. left. by destruct (waiting w).
  - split; cbn; rewrite ?app_nil_r; try done. intros _ Hl. congruence.
Qed.

Lemma Inv_settle (w : World) (k : nat) (p : Pending) (o : Outcome) :
  Inv w → waiting w !! k = Some p →
  let r := resume (isMounted w) p o in
  Inv (mkWorld (after r (state w)) (initialMode w) (isMounted w)
         (delete k (waiting w) ++ from_option (λ c, [c.2]) [] (next r))
         (calls w ++ from_option (λ c, [c.1]) [] (next r))
         (if closes r then S (closed w) else closed w)).
Proof.
  intros [H1 H2 H3 H4] Hk r.
  destruct (proj1 (Forall_forall _ _) H3 p (list_elem_of_lookup_2 _ _ _ Hk)) as [Hv Hu].
  destruct (resume_safe (isMounted w) p o (state w) Hv Hu H1) as (Hn & Hi & Hl).
  subst r. rewrite Hn. cbn. rewrite !app_nil_r. split; cbn; try done.
  - apply Forall_delete. done.
  - intros Hm Hld. right. rewrite (Hl Hm Hld). lia.
Qed.

Lemma modal_Inv_step (w w' : World) (e : Event) : Inv w → step e w = Some w' → Inv w'.
Proof.
  intros HI. pose proof HI as [H1 H2 H3 H4]. unfold step.
  destruct (offered w e) eqn:Ho; [|done]. cbn [negb].
  destruct e; cbn [offered] in Ho; try apply andb_true_iff in Ho as [Hm Ho].
  all: try (intros [= <-]; apply Inv_withState; try done;
            rewrite ?switchMode_spec, ?toggleMethod_spec; cbn; try done).
  - by destruct i.
  - by destruct i.
  - apply andb_true_iff in Ho as [Hd%negb_true_iff _]. intros [= <-]. by apply Inv_started.
  - intros [= <-]. split; cbn; try done. intros _ _. right. lia.
  - intros [= <-]. split; cbn; try done. intros _ _. right. lia.
  - intros [= <-]. by split.
  - intros [= <-]. by split.
  - unfold timeout. rewrite Ho. cbn. by destruct (truthy (error (state w))).
  - destruct (waiting w !! k) as [p|] eqn:Ek; [|done]. cbn. intros [= <-].
    by apply Inv_settle.
Qed.

(** The invariant holds in every world of the modal. *)
Theorem modal_reachable_Inv (m : AuthMode) (w : World) : reachable m w → Inv w.
Proof. induction 1; [apply Inv_start | by eapply modal_Inv_step]. Qed.

(** ** Lemmas: what the modal can and cannot do *)

(** An event adds at most one call, at the end of the log, and puts
    what waits for its answer at the end of the handlers that wait; an
    answer removes the handler it resumes. *)
Lemma step_added (e : Event) (w w' : World) :
  step e w = Some w' →
  calls w' = calls w ++ from_option (λ c, [c.1]) [] (added e w) ∧
  waiting w' = kept e (waiting w) ++ from_option (λ c, [c.2]) [] (added e w).
Proof.
  unfold step. destruct (offered w e); [|done]. cbn [negb].
  destruct e as [| | | | | | | | | | | | |k o]; cbn;
    try (intros [= <-]; cbn; by rewrite !app_nil_r).
  - intros [= <-]. cbn. by destruct (submit (state w)) as [? [[]|]].
  - destruct (waiting w !! k) as [p|]; [|done]. cbn. by intros [= <-].
Qed.

(** The call a handler makes is the one its rest waits for. *)
Lemma added_fits (e : Event) (w : World) (c : Call) (p : Pending) :
  added e w = Some (c, p) → fits c p = true.
Proof.
  destruct e as [| | | | | | | | | | | | |k o]; try done; cbn.
  - unfold submit, handleEmailSubmit, handlePhoneSubmit, handlePasswordReset, reject.
    repeat case_match; cbn; try done; by intros [= <- <-].
  - destruct (waiting w !! k) as [q|]; [|done]. cbn. unfold resume, resumeMounted, stays, fails.
    repeat case_match; cbn; try done; by intros [= <- <-].
Qed.

(** The submit of a login form filled in with an address and a password
    is let through and makes the sign-in call. *)
Lemma submit_login (s : State) :
  mode s = Mode.login → authMethod s = Method.email → email s ≠ "" → password s ≠ "" →
  submit s = (setAuthMessage "" (setError "" (setLoading true s)),
              Some (SignInWithPassword (trim (email s)) (password s), AwaitSignIn)).
Proof.
  intros Hm Ha He%truthy_true Hp%truthy_true. unfold submit, handleEmailSubmit.
  by rewrite Hm, Ha, He, Hp.
Qed.

Lemma step_Submit_login (w : World) :
  isMounted w = true → mode (state w) = Mode.login → authMethod (state w) = Method.email →
  email (state w) ≠ "" → password (state w) ≠ "" →
  loading (state w) = false → authMessage (state w) = "" →
  step Submit w = Some (started w (submit (state w))).
Proof.
  intros Hmt Hm Ha He%truthy_true Hp%truthy_true Hl Hmsg.
  unfold step, offered, submitDisabled, inputs. rewrite Hmt, Hm, Ha, Hl, Hmsg.
  rewrite bool_decide_false by done. cbn [app forallb value andb negb orb truthy].
  change (truthy "") with false. by rewrite He, Hp.
Qed.

(** The answer to a sign-in that succeeds makes a mounted modal call
    [onClose] and nothing else. *)
Lemma step_Settle_signed_in (w : World) (waits : list Pending) (present : bool) :
  isMounted w = true → waiting w = AwaitSignIn :: waits →
  step (Settle 0 (Succeeded present)) w =
  Some (mkWorld (state w) (initialMode w) true waits (calls w) (S (closed w))).
Proof.
  intros Hmt Hw. unfold step, offered. rewrite Hw, Hmt. cbn.
  rewrite bool_decide_true by lia. by rewrite !app_nil_r.
Qed.

(** A run of events from a world the modal reaches ends in a world it
    reaches. *)
Lemma modal_run_reachable (m : AuthMode) (es : list Event) (w w' : World) :
  reachable m w → run es w = Some w' → reachable m w'.
Proof. apply (runs_stable (flip step)). intros ? ? ?. apply reachable_step. Qed.

(** C13: No run of the modal checks a code: once a code has been sent its
    message disables the submit button of the form that would check it,
    and what clears the message discards the code.  So no run signs a
    user in by telephone. *)
Theorem otp_never_verified (m : AuthMode) (w : World) :
  reachable m w →
  Forall (λ c, isVerifyOtp c = false ∧ isUpdateUser c = false) (calls w) ∧
  (isOtpSent (state w) = true → mode (state w) ≠ Mode.forgot → offered w Submit = false).
Proof.
  intros [Hi Hc _ _]%modal_reachable_Inv. split; [done|]. intros Hs Hm. cbn.
  apply andb_false_iff. right. apply andb_false_iff. left. apply negb_false_iff.
  unfold submitDisabled. destruct (mode (state w)); try done;
    apply orb_true_iff; right; by apply truthy_true, Hi.
Qed.

(** A form that the browser lets through is refused by its handler only
    for a telephone number that is not ten digits: the other checks of
    the handlers repeat what [required] has checked. *)
Theorem submit_rejects_only_phone (m : AuthMode) (w : World) :
  reachable m w → offered w Submit = true →
  match (submit (state w)).2 with
  | Some _ => loading (submit (state w)).1 = true
  | None => authMethod (state w) = Method.phone ∧ isDigits 10 (phone (state w)) = false ∧
            error (submit (state w)).1 = msgPhone ∧ loading (submit (state w)).1 = false
  end.
Proof.
  intros [Hi _ _ _]%modal_reachable_Inv. cbn.
  intros [_ [Hd%negb_true_iff Hr]%andb_true_iff]%andb_true_iff.
  destruct (enabled_not_sent _ Hi Hd) as [Hm|[Hs Ha]]; clear Hd Hi;
    destruct (state w) as [md a ph o sent n e pw er rm am sp ld]; cbn in *; subst.
  - unfold inputs in Hr. cbn in Hr. rewrite andb_true_r in Hr.
    unfold submit, handlePasswordReset. cbn. by rewrite Hr.
  - unfold submit, handleEmailSubmit, handlePhoneSubmit, handlePasswordReset, inputs in *.
    destruct md, a; cbn in *; repeat (apply andb_true_iff in Hr as [? Hr]);
      unfold value in *; cbn in *;
      repeat match goal with H : truthy _ = true |- _ => rewrite H; clear H end; cbn;
      try done; by destruct (isDigits 10 ph).
Qed.

(** While a mounted modal is loading its timer is set, and when it
    fires the modal shows an error and takes the next submit. *)
Theorem loading_ends (w : World) :
  isMounted w = true → loading (state w) = true →
  ∃ w', step Timeout w = Some w' ∧ loading (state w') = false ∧ error (state w') ≠ "".
Proof.
  intros Hm Hl. unfold step. cbn [offered]. rewrite Hm, Hl. cbn [andb negb].
  eexists. split; [done|]. unfold timeout. rewrite Hl. cbn.
  destruct (truthy_case (error (state w))) as [[-> He]|[-> He]]; cbn; done.
Qed.

(** The rest of a handler asks to close the modal only when the modal
    is mounted and a sign-in or a sign-up with a session has
    succeeded. *)
Theorem settle_closes (m : AuthMode) (w w' : World) (k : nat) (o : Outcome) :
  reachable m w → step (Settle k o) w = Some w' → closed w' ≠ closed w →
  isMounted w = true ∧
  ∃ present, o = Succeeded present ∧
    (waiting w !! k = Some AwaitSignIn ∨ waiting w !! k = Some AwaitSignUp ∧ present = true).
Proof.
  intros [_ _ Hw _]%modal_reachable_Inv. unfold step. destruct (offered _ _); [|done]. cbn [negb].
  destruct (waiting w !! k) as [p|] eqn:Ek; [|done]. cbn. intros [= <-]. cbn.
  destruct (proj1 (Forall_forall _ _) Hw p (list_elem_of_lookup_2 _ _ _ Ek)) as [Hv Hu].
  destruct (isMounted w), p, o as [msg|msg|[]]; try done; cbn; intros _;
    (split; [done|]); eexists; split; try done; auto.
Qed.

(** Nothing changes the state of a modal that is unmounted, and it asks
    for nothing more. *)
Theorem unmounted_frozen (m : AuthMode) (w w' : World) (e : Event) :
  reachable m w → isMounted w = false → step e w = Some w' →
  state w' = state w ∧ isMounted w' = false ∧ calls w' = calls w ∧ closed w' = closed w.
Proof.
  intros [_ _ Hw _]%modal_reachable_Inv Hm. unfold step.
  destruct (offered w e) eqn:Ho; [|done]. cbn [negb].
  destruct e; cbn [offered] in Ho; rewrite ?Hm in Ho; try done.
  destruct (waiting w !! k) as [p|] eqn:Ek; [|done]. cbn. intros [= <-]. cbn. rewrite Hm.
  destruct (proj1 (Forall_forall _ _) Hw p (list_elem_of_lookup_2 _ _ _ Ek)) as [Hv Hu].
  destruct p, o; try done; cbn; by rewrite app_nil_r.
Qed.

End AuthModal.
