(* ===== verification/Widgets.v ===== *)
(** * Widgets: the header, the mobile bar and the three confirmation dialogs
    ([src/components/Header.tsx], [src/components/MobileFooterNav.tsx],
    [src/components/BookingConfirmationModal.tsx],
    [src/components/CancelBookingModal.tsx],
    [src/components/DeleteConfirmationModal.tsx])

    Each component is the function from its props (and, for the header,
    its two [useState] cells) to what it shows: the controls with their
    text and the callback each one calls.  The styling is left out. *)

From Stdlib Require Import ZArith Lia Ascii.
From stdpp Require Import base tactics option list strings pretty.
From S2P Require Import Prelude Types JsString JsTime ProfilePage AppState.

#[local] Open Scope Z_scope.

Module Header.

#[local] Set Primitive Projections.

(** ** Definitions: the header *)

(** The callbacks of [HeaderProps]. *)
Inductive Callback :=
| onLogoClick | onLoginClick | onSignUpClick | onLogoutClick | onProfileClick
| onAboutClick | onForProfessionalsClick | onAdminClick | onDashboardClick.

#[global] Instance Callback_eq_dec : EqDecision Callback.
Proof. solve_decision. Defined.

(** A link, a button or a text of the header: what it reads and the
    callback it calls, if any. *)
Record Control := mkControl {
  text : string;
  calls : option Callback;
}.

#[global] Instance Control_eq_dec : EqDecision Control.
Proof. solve_decision. Defined.

(** [isMenuOpen] and [isScrolled]. *)
Record State := mkState {
  isMenuOpen : bool;
  isScrolled : bool;
}.

Definition init : State := {| isMenuOpen := false; isScrolled := false |}.

Definition setIsMenuOpen (v : bool) : Action State :=
  λ st, let 'mkState _ b := st in mkState v b.
Definition setIsScrolled (v : bool) : Action State :=
  λ st, let 'mkState a _ := st in mkState a v.

(** [handleScroll]: [setIsScrolled(window.scrollY > 10)] *)
Definition handleScroll (scrollY : Z) : Action State := setIsScrolled (10 <? scrollY).

(** [handleLinkClick(action)]: the callback is called and the menu
    closes. *)
Definition handleLinkClick (action : Callback) (st : State) : State * Callback :=
  (setIsMenuOpen false st, action).

(** The menu button: [setIsMenuOpen(!isMenuOpen)] *)
Definition toggleMenu : Action State := λ st, setIsMenuOpen (negb (isMenuOpen st)) st.

(** [currentUser.name.split(' ')[0]] *)
Definition firstName (u : User) : string := beforeFirst " "%char (User.name u).

(** [currentUser?.role === r] *)
Definition hasRole (r : Role) (currentUser : option User) : bool :=
  bool_decide (User.role <$> currentUser = Some r).

(** The links of both navigations. *)
Definition links (currentUser : option User) : list Control :=
  [mkControl "About Us" (Some onAboutClick);
   mkControl "Find a Therapist" (Some onLogoClick);
   mkControl "For Professionals" (Some onForProfessionalsClick)] ++
  (if hasRole Role.therapist currentUser
   then [mkControl "My Dashboard" (Some onDashboardClick)] else []) ++
  (if hasRole Role.admin currentUser
   then [mkControl "Admin Panel" (Some onAdminClick)] else []).

(** The desktop navigation and the account controls beside it. *)
Definition desktop (currentUser : option User) : list Control :=
  links currentUser ++
  match currentUser with
  | Some u =>
      [mkControl ("Hi, " +:+ firstName u)
         (if bool_decide (User.role u = Role.patient) then Some onProfileClick else None);
       mkControl "Logout" (Some onLogoutClick)]
  | None => [mkControl "Login" (Some onLoginClick); mkControl "Sign Up" (Some onSignUpClick)]
  end.

(** The mobile menu panel, shown when the menu is open. *)
Definition mobile (currentUser : option User) : list Control :=
  links currentUser ++
  match currentUser with
  | Some u =>
      (if bool_decide (User.role u = Role.patient)
       then [mkControl ("My Profile (" +:+ firstName u +:+ ")") (Some onProfileClick)]
       else []) ++
      [mkControl "Logout" (Some onLogoutClick)]
  | None => [mkControl "Login" (Some onLoginClick); mkControl "Sign Up" (Some onSignUpClick)]
  end.

(** What the header shows: the logo and the desktop navigation always,
    the panel when the menu is open. *)
Definition render (currentUser : option User) (st : State) : list Control :=
  mkControl "" (Some onLogoClick) :: desktop currentUser ++
  (if isMenuOpen st then mobile currentUser else []).

(** A control of the header calls the callback. *)
Definition offers (currentUser : option User) (cb : Callback) : bool :=
  bool_decide (Some cb ∈ calls <$> render currentUser init).

(** ** Lemmas *)
Lemma hasRole_Some (r : Role) (u : User) :
  hasRole r (Some u) = bool_decide (User.role u = r).
Proof. unfold hasRole. cbn. repeat case_bool_decide; congruence. Qed.

(** The header offers the three pages to everybody, login and sign-up to
    a visitor, logout to a user, and the profile, the dashboard and the
    admin panel to the role each belongs to. *)
Theorem offers_spec (currentUser : option User) (cb : Callback) :
  offers currentUser cb =
    match cb with
    | onLogoClick | onAboutClick | onForProfessionalsClick => true
    | onLoginClick | onSignUpClick => negb (is_some currentUser)
    | onLogoutClick => is_some currentUser
    | onProfileClick => hasRole Role.patient currentUser
    | onAdminClick => hasRole Role.admin currentUser
    | onDashboardClick => hasRole Role.therapist currentUser
    end.
Proof.
  destruct currentUser as [[i n e [] tid]|], cb; reflexivity.
Qed.

(** The menu panel calls the callbacks the desktop navigation calls. *)
Theorem mobile_desktop_agree (currentUser : option User) (cb : Callback) :
  Some cb ∈ calls <$> mobile currentUser ↔ Some cb ∈ calls <$> desktop currentUser.
Proof.
  assert (bool_decide (Some cb ∈ calls <$> mobile currentUser) =
          bool_decide (Some cb ∈ calls <$> desktop currentUser)) as E
    by (destruct currentUser as [[i n e [] tid]|], cb; reflexivity).
  by rewrite <- (bool_decide_spec (_ ∈ calls <$> mobile _)), E, bool_decide_spec.
Qed.

Lemma handleLinkClick_closes (action : Callback) (st : State) :
  isMenuOpen (handleLinkClick action st).1 = false ∧ (handleLinkClick action st).2 = action.
Proof. by destruct st. Qed.

Lemma toggleMenu_involutive (st : State) : toggleMenu (toggleMenu st) = st.
Proof. by destruct st as [[] ?]. Qed.

End Header.

Module MobileFooterNav.

(** ** Definitions: the mobile bar *)

Inductive Callback := onHomeClick | onSearchClick | onProfileClick.

(** A [NavButton]. *)
Record NavButton := mkNavButton {
  label : string;
  isActive : bool;
  onClick : Callback;
}.

Definition render (activePage : MobilePage) : list NavButton :=
  [mkNavButton "Home" (bool_decide (activePage = MobilePage.home)) onHomeClick;
   mkNavButton "Find a Therapist" (bool_decide (activePage = MobilePage.search)) onSearchClick;
   mkNavButton "Profile" (bool_decide (activePage = MobilePage.profile)) onProfileClick].

(** ** Lemmas *)

(** The bar always has its three buttons, and at most one is active. *)
Lemma render_active (activePage : MobilePage) :
  map onClick (render activePage) = [onHomeClick; onSearchClick; onProfileClick] ∧
  (length (List.filter isActive (render activePage)) ≤ 1)%nat ∧
  (activePage = MobilePage.none ↔ List.filter isActive (render activePage) = []).
Proof.
  destruct activePage;
    (split_and!; [reflexivity | vm_compute; lia | split; [done | by vm_compute]]).
Qed.

End MobileFooterNav.

Module ConfirmationModal.

(** ** Definitions: [BookingConfirmationModal] *)

Inductive Callback := onClose | onGoToProfile.

Record View := mkView {
  paymentReceived : bool;
  message : string;
  buttons : list (string * Callback);
}.

(** [null] unless the modal is open and has a therapist. *)
Definition render (isOpen : bool) (therapist : option Therapist) (isPaid : bool)
    : option View :=
  match therapist with
  | Some t =>
      if isOpen
      then Some {| paymentReceived := isPaid;
                   message := "Your appointment with " +:+ Therapist.name t +:+
                              " is confirmed. A confirmation has been sent to your email.";
                   buttons := [("", onClose); ("View My Bookings", onGoToProfile);
                               ("Close", onClose)] |}
      else None
  | None => None
  end.

(** ** Lemmas *)
Lemma render_Some (isOpen : bool) (therapist : option Therapist) (isPaid : bool) :
  is_some (render isOpen therapist isPaid) = isOpen && is_some therapist.
Proof. by destruct isOpen, therapist. Qed.

Lemma render_paymentReceived isOpen therapist isPaid (v : View) :
  render isOpen therapist isPaid = Some v → paymentReceived v = isPaid.
Proof. destruct isOpen, therapist; cbn; intros [= <-]; done. Qed.

End ConfirmationModal.

Module CancelModal.

(** ** Definitions: [CancelBookingModal] *)

(** [onClose()] and [onConfirm(booking.id)]. *)
Inductive Call := onClose | onConfirm (bookingId : string).

Record View := mkView {
  therapistName : string;
  formattedDate : string;
  time : string;
  buttons : list (string * Call);
}.

(** [date.toLocaleDateString('en-US', { weekday: 'long', month: 'long',
    day: 'numeric' })] *)
Definition formatDate `{LocalTime} (date : JsDate) : string :=
  match JsDate.getTime date with
  | None => "Invalid Date"
  | Some t =>
      let day := localDay t in
      let '(_, m, d) := civilFromDays day in
      default "" (BookingCard.longDayNames !! Z.to_nat (weekDay day)) +:+ ", " +:+
      default "" (BookingCard.longMonthNames !! Z.to_nat (m - 1)) +:+ " " +:+ pretty d
  end.

Definition render `{LocalTime} (booking : Booking) : View :=
  {| therapistName := Therapist.name (Booking.therapist booking);
     formattedDate := formatDate (Booking.date booking);
     time := Booking.time booking;
     buttons := [("Nevermind", onClose);
                 ("Confirm Cancellation", onConfirm (Booking.id booking))] |}.

(** ** Lemmas *)

(** The dialog confirms the cancellation of the booking it shows, and of
    no other. *)
Lemma render_confirms_own `{LocalTime} (booking : Booking) (label : string) (i : string) :
  (label, onConfirm i) ∈ buttons (render booking) → i = Booking.id booking.
Proof.
  cbn. rewrite !elem_of_cons, elem_of_nil. intros [H0|[H0|[]]]; by simplify_eq.
Qed.

End CancelModal.

Module DeleteModal.

(** ** Definitions: [DeleteConfirmationModal] *)

Inductive Callback := onClose | onConfirm.

Record View := mkView {
  message : string;
  buttons : list (string * Callback);
}.

Definition render (therapistName : string) : View :=
  {| message := "You are about to permanently delete the profile for " +:+ therapistName +:+ ".";
     buttons := [("", onClose); ("Cancel", onClose); ("Yes, Delete", onConfirm)] |}.

(** ** Lemmas *)
Lemma render_names (therapistName : string) :
  includes therapistName (message (render therapistName)) = true.
Proof.
  apply (includes_app therapistName _ ".").
Qed.

End DeleteModal.
