(* ===== verification/AppHandlers.v ===== *)
(** * AppHandlers: the handlers of the [App] component ([src/App.tsx])

    One definition per handler, with the source's name.  A handler that
    reads state takes the state it closes over as its argument [c] and
    returns the [Action] on the current state: the updates it enqueues, in
    order.  [Date.now()] is the argument [now] of the handlers that call
    it.  The expressions on the booking list are those of
    [BookingList.v]; [sort] is any conforming [JsSort]. *)

From Stdlib Require Import ZArith Lia Ascii.
From stdpp Require Import base tactics option list strings.
From S2P Require Import Prelude Types JsArray JsString JsTime BookingList AppState.

#[local] Open Scope Z_scope.
#[local] Open Scope js_scope.

Module App.

#[local] Set Primitive Projections.

(** ** Definitions: the session of the auth provider *)

(** The events of [onAuthStateChange]. *)
Inductive AuthEvent :=
| INITIAL_SESSION | SIGNED_IN | SIGNED_OUT | TOKEN_REFRESHED | USER_UPDATED
| PASSWORD_RECOVERY.

(** [session.user]: the fields the listener reads. *)
Record SessionUser := mkSessionUser {
  su_id : string;
  su_email : option string;
  su_phone : option string;
  su_full_name : option string;
}.

(** A row of the [profiles] table. *)
Record Profile := mkProfile {
  full_name : option string;
  role : Role;
  therapist_id : option Z;
}.

(** [{ data, error }] of a query on [profiles]; [error] is its message. *)
Record ProfileResult := mkProfileResult {
  profile_data : option (list Profile);
  profile_error : option string;
}.

#[global] Instance AuthEvent_eq_dec : EqDecision AuthEvent.
Proof. solve_decision. Defined.

(** ** Definitions: navigation and authentication *)

(** The effect of mounting [App]: the therapists are loaded after a timer. *)
Definition mountEffect : Action AppState :=
  setIsLoadingTherapists true ;; setFetchError None ;; emit StartLoadTimer.

(** The callback of that timer, on the list [MOCK_THERAPISTS]. *)
Definition therapistsLoaded (mock : list Therapist) : Action AppState :=
  setTherapists mock ;; setFilteredTherapists mock ;; setIsLoadingTherapists false.

Definition handleShowAdminPage : Action AppState :=
  setSelectedTherapist None ;; setPage Page.admin.

Definition handleShowTherapistDashboard : Action AppState :=
  setSelectedTherapist None ;; setPage Page.therapist_dashboard.

Definition handleCloseAuthModal : Action AppState := setIsAuthModalOpen false.

Definition handleOpenLoginModal : Action AppState :=
  setAuthMode AuthMode.login ;; setIsAuthModalOpen true.

Definition handleOpenSignUpModal : Action AppState :=
  setAuthMode AuthMode.signup ;; setIsAuthModalOpen true.

Definition handleGoHome : Action AppState :=
  setSelectedTherapist None ;; setPage Page.browse ;; setTherapistToEdit None ;;
  setActiveMobilePage MobilePage.home.

(** [handleLogout] up to its [await]: the sign-out is requested. *)
Definition handleLogout : Action AppState := emit SignOut.

(** [handleLogout] after its [await]. *)
Definition handleLogout_resumed : Action AppState := handleGoHome.

(** [session.user.email?.split('@')[0]] *)
Definition emailName (u : SessionUser) : option string :=
  beforeFirst "@"%char <$> su_email u.

(** The name of the user a fetch error falls back to. *)
Definition fallbackName (u : SessionUser) : string :=
  opt_str_or (su_full_name u) (opt_str_or (emailName u) "User").

(** The name tried after [profile.full_name], and of a new profile. *)
Definition sessionName (u : SessionUser) : string :=
  opt_str_or (su_full_name u)
    (opt_str_or (emailName u) (opt_str_or (su_phone u) "New User")).

(** [if (session.user.email) user.email = session.user.email] *)
Definition truthyEmail (u : SessionUser) : option string :=
  if opt_truthy (su_email u) then su_email u else None.

Definition fallbackUser (u : SessionUser) (name : string) : User :=
  {| User.id := su_id u; User.name := name; User.email := su_email u;
     User.role := Role.patient; User.therapistId := None |}.

Definition profileUser (u : SessionUser) (name : string) (p : Profile) : User :=
  {| User.id := su_id u; User.name := name; User.email := truthyEmail u;
     User.role := role p; User.therapistId := therapist_id p |}.

(** [if (_event === 'SIGNED_IN') handleCloseAuthModal()] *)
Definition closeOnSignIn (ev : AuthEvent) : Action AppState :=
  when (bool_decide (ev = SIGNED_IN)) handleCloseAuthModal.

(** The listener of [onAuthStateChange], on the answers of its two
    queries: [profiles] of the select, [inserted] of the insert made when
    no profile exists. *)
Definition onAuthStateChange (ev : AuthEvent) (session : option SessionUser)
    (profiles inserted : ProfileResult) : Action AppState :=
  match session with
  | None => setCurrentUser None
  | Some u =>
      match profile_error profiles with
      | Some m =>
          emit (ConsoleWarn m) ;;
          setCurrentUser (Some (fallbackUser u (fallbackName u))) ;; closeOnSignIn ev
      | None =>
          match profile_data profiles with
          | Some (profile :: _) =>
              let user :=
                profileUser u (opt_str_or (full_name profile) (sessionName u)) profile in
              setCurrentUser (Some user) ;;
              when (bool_decide (ev = SIGNED_IN))
                (handleCloseAuthModal ;;
                 match User.role user with
                 | Role.therapist => handleShowTherapistDashboard
                 | Role.admin => handleShowAdminPage
                 | Role.patient => skip
                 end)
          | _ =>
              emit (ConsoleWarn "Profile not found for authenticated user. Attempting to create one.") ;;
              match profile_error inserted with
              | Some m =>
                  emit (ConsoleError m) ;;
                  setCurrentUser (Some (fallbackUser u (sessionName u))) ;; closeOnSignIn ev
              | None =>
                  match profile_data inserted with
                  | Some (newProfile :: _) =>
                      setCurrentUser
                        (Some (profileUser u (default "" (full_name newProfile)) newProfile)) ;;
                      closeOnSignIn ev
                  | _ => skip
                  end
              end
          end
      end
  end.

(** The filter of [handleSearch] on the lower-cased term. *)
Definition matchesTerm (lowercasedTerm : string) (t : Therapist) : bool :=
  includes lowercasedTerm (toLowerCase (Therapist.name t)) ||
  includes lowercasedTerm (toLowerCase (Therapist.title t)) ||
  includes lowercasedTerm (toLowerCase (Therapist.location t)) ||
  existsb (λ s, includes lowercasedTerm (toLowerCase s)) (Therapist.specialties t).

(** [t.specialties.includes(specialty)] *)
Definition hasSpecialty (specialty : string) (t : Therapist) : bool :=
  existsb (String.eqb specialty) (Therapist.specialties t).

(** The [results] of [handleSearch]. *)
Definition searchResults (therapists : list Therapist) (searchTerm specialty : string)
    : list Therapist :=
  let lowercasedTerm := toLowerCase searchTerm in
  let results :=
    if truthy lowercasedTerm then List.filter (matchesTerm lowercasedTerm) therapists
    else therapists in
  if truthy specialty then List.filter (hasSpecialty specialty) results else results.

Definition handleSearch (c : AppState) (searchTerm specialty : string) : Action AppState :=
  setFilteredTherapists (searchResults (therapists c) searchTerm specialty) ;; handleGoHome.

Definition handleSelectTherapist (therapist : Therapist) : Action AppState :=
  setSelectedTherapist (Some therapist) ;; emit ScrollToTop.

Definition handleShowAboutPage : Action AppState :=
  setSelectedTherapist None ;; setPage Page.about.

Definition handleShowProfile (c : AppState) : Action AppState :=
  match User.role <$> currentUser c with
  | Some Role.patient =>
      setSelectedTherapist None ;; setPage Page.profile ;;
      setActiveMobilePage MobilePage.profile
  | Some Role.therapist => handleShowTherapistDashboard
  | Some Role.admin => handleShowAdminPage
  | None => skip
  end.

Definition handleMobileProfileClick (c : AppState) : Action AppState :=
  if is_some (currentUser c) then handleShowProfile c else handleOpenLoginModal.

Definition handleMobileSearchClick : Action AppState := handleGoHome ;; emit ScrollToTop.

Definition handleShowTherapistRegistration : Action AppState :=
  setSelectedTherapist None ;; setTherapistToEdit None ;;
  setPage Page.therapist_registration.

(** ** Definitions: the booking flow *)

Definition handleOpenBookingModal (c : AppState) (therapist : Therapist) : Action AppState :=
  if negb (is_some (currentUser c)) then handleOpenLoginModal
  else setTherapistToBook (Some therapist) ;; setIsBookingModalOpen true.

Definition handleOpenRescheduleModal (c : AppState) (bookingId : string) : Action AppState :=
  match findBooking bookingId (bookings c) with
  | Some booking =>
      setBookingToReschedule (Some booking) ;;
      setTherapistToBook (Some (Booking.therapist booking)) ;;
      setIsBookingModalOpen true
  | None => skip
  end.

Definition handleCloseBookingModal : Action AppState :=
  setIsBookingModalOpen false ;; setTherapistToBook None ;;
  setBookingToReschedule None ;; setPendingBookingDetails None.

(** [therapistToBook.clinic?.isOnlinePaymentAvailable === true] *)
Definition onlinePaymentAvailable (t : Therapist) : bool :=
  match Therapist.clinic t with
  | Some cl => bool_decide (Clinic.isOnlinePaymentAvailable cl = Some true)
  | None => false
  end.

Section WithSort.
Context `{JS : JsSort} `{LT : LocalTime}.

(** The body of the request of [sendBookingToGoogleSheets]. *)
Definition sheetRow (c : AppState) (booking : Booking) : SheetRow :=
  {| row_bookingId := Booking.id booking;
     row_patientName := Booking.patientName booking;
     row_patientEmail := opt_str_or (currentUser c ≫= User.email) "N/A";
     row_phone := opt_str_or (Booking.phoneNo booking) "N/A";
     row_therapistName := Therapist.name (Booking.therapist booking);
     row_date := toDateString (Booking.date booking);
     row_time := Booking.time booking;
     row_service := opt_str_or (Booking.service booking) "General";
     row_status := Booking.status booking;
     row_isPaid := Booking.isPaid booking |}.

(** [sendBookingToGoogleSheets]: the request is sent and not waited for;
    its failure is only logged. *)
Definition sendBookingToGoogleSheets (c : AppState) (booking : Booking) : Action AppState :=
  emit (LogToSheet (sheetRow c booking)).

Definition finalizeBooking (c : AppState) (now : Z) (details : option BookingDetails)
    (isPaid : bool) : Action AppState :=
  match details, therapistToBook c, currentUser c with
  | Some d, Some t, Some u =>
      let newBooking := newBooking now t u d isPaid in
      setBookingsWith (addBooking newBooking) ;;
      sendBookingToGoogleSheets c newBooking ;;
      setTherapistToBook (Some (Booking.therapist newBooking)) ;;
      setLastBookingPaid isPaid ;;
      setIsConfirmModalOpen true ;;
      setPendingBookingDetails None
  | _, _, _ => skip
  end.

Definition handleBookingConfirm (c : AppState) (now : Z) (details : BookingDetails)
    : Action AppState :=
  match bookingToReschedule c with
  | Some r =>
      setBookings (rescheduleBookings (Booking.id r) details (bookings c)) ;;
      setBookingToReschedule None ;;
      setIsBookingModalOpen false ;;
      setLastBookingPaid false ;;
      setIsConfirmModalOpen true
  | None =>
      match therapistToBook c, currentUser c with
      | Some t, Some _ =>
          setPendingBookingDetails (Some details) ;;
          if onlinePaymentAvailable t
          then setIsBookingModalOpen false ;; emit StartPaymentTimer
          else setIsBookingModalOpen false ;; finalizeBooking c now (Some details) false
      | _, _ => skip
      end
  end.

Definition handlePaymentSuccess (c : AppState) (now : Z) (paymentId : string)
    : Action AppState :=
  setIsPaymentModalOpen false ;;
  match pendingBookingDetails c with
  | Some d => finalizeBooking c now (Some d) true
  | None => emit (ConsoleError "Payment successful but booking details missing")
  end.

End WithSort.

(** The callback of the timer of [handleBookingConfirm]. *)
Definition paymentTimerFired : Action AppState := setIsPaymentModalOpen true.

(** The [onClose] of the payment modal. *)
Definition handlePaymentModalClose : Action AppState :=
  setIsPaymentModalOpen false ;; setPendingBookingDetails None ;; setTherapistToBook None.

(** The [onClose] of the confirmation modal. *)
Definition handleConfirmModalClose : Action AppState :=
  setIsConfirmModalOpen false ;; setTherapistToBook None.

(** ** Definitions: cancelling, the directory, intake forms *)

Definition handleOpenCancelModal (c : AppState) (bookingId : string) : Action AppState :=
  match findBooking bookingId (bookings c) with
  | Some booking => setBookingToCancel (Some booking) ;; setIsCancelModalOpen true
  | None => skip
  end.

Definition handleCloseCancelModal : Action AppState :=
  setIsCancelModalOpen false ;; setBookingToCancel None.

Definition handleConfirmCancelBooking (c : AppState) (bookingId : string) : Action AppState :=
  when (is_some (findBooking bookingId (bookings c)))
    (setBookingsWith (cancelBookings bookingId)) ;;
  handleCloseCancelModal.

Definition handleDeleteTherapist (therapist : Therapist) : Action AppState :=
  setTherapistToDelete (Some therapist) ;; setIsDeleteModalOpen true.

Definition handleCloseDeleteModal : Action AppState :=
  setIsDeleteModalOpen false ;; setTherapistToDelete None.

(** [prev.filter(t => t.id !== therapistToDelete.id)] *)
Definition withoutTherapist (tid : Z) (prev : list Therapist) : list Therapist :=
  List.filter (λ t, negb (Therapist.id t =? tid)) prev.

Definition handleConfirmDelete (c : AppState) : Action AppState :=
  match therapistToDelete c with
  | Some t =>
      setTherapistsWith (withoutTherapist (Therapist.id t)) ;;
      setFilteredTherapistsWith (withoutTherapist (Therapist.id t))
  | None => skip
  end ;;
  handleCloseDeleteModal.

Definition handleEditTherapist (therapist : Therapist) : Action AppState :=
  setTherapistToEdit (Some therapist) ;; setPage Page.therapist_registration.

(** [{ ...therapist, id: Date.now() }] *)
Definition withId (tid : Z) (t : Therapist) : Therapist :=
  let 'Therapist.mk _ a b c d e f g h i j k l m n o p q := t in
  Therapist.mk tid a b c d e f g h i j k l m n o p q.

Definition handleProfileCreate (now : Z) (therapist : Therapist) : Action AppState :=
  let newTherapist := withId now therapist in
  setTherapistsWith (λ prev, prev ++ [newTherapist]) ;;
  setFilteredTherapistsWith (λ prev, prev ++ [newTherapist]) ;;
  handleGoHome.

(** [prev.map(t => t.id === updatedTherapist.id ? updatedTherapist : t)] *)
Definition replaceTherapist (updated : Therapist) (prev : list Therapist) : list Therapist :=
  map (λ t, if Therapist.id t =? Therapist.id updated then updated else t) prev.

Definition handleProfileUpdate (updatedTherapist : Therapist) : Action AppState :=
  setTherapistsWith (replaceTherapist updatedTherapist) ;;
  setFilteredTherapistsWith (replaceTherapist updatedTherapist) ;;
  handleGoHome.

Definition handleOpenIntakeForm (c : AppState) (bookingId : string) : Action AppState :=
  match findBooking bookingId (bookings c) with
  | Some booking => setBookingForIntake (Some booking)
  | None => skip
  end.

Definition handleCloseIntakeForm : Action AppState := setBookingForIntake None.

Definition handleIntakeFormSubmit (bookingId : string) (formData : IntakeForm)
    : Action AppState :=
  setBookingsWith (attachIntakeForm bookingId formData) ;; handleCloseIntakeForm.

Definition handleViewIntakeForm (c : AppState) (bookingId : string) : Action AppState :=
  match findBooking bookingId (bookings c) ≫= Booking.intakeForm with
  | Some form => setIntakeDataToView (Some form) ;; setIsViewIntakeModalOpen true
  | None => skip
  end.

Definition handleCloseViewIntakeModal : Action AppState :=
  setIsViewIntakeModalOpen false ;; setIntakeDataToView None.

Definition featuredTherapistIds : list Z := [2; 13; 11].

(** [therapists.filter(t => featuredTherapistIds.includes(t.id))] *)
Definition featuredTherapists (s : AppState) : list Therapist :=
  List.filter (λ t, existsb (Z.eqb (Therapist.id t)) featuredTherapistIds) (therapists s).

(** ** Lemmas: the booking flow *)
Lemma gate_open_iff (t : Therapist) :
  onlinePaymentAvailable t = true ↔
  ∃ cl, Therapist.clinic t = Some cl ∧ Clinic.isOnlinePaymentAvailable cl = Some true.
Proof.
  unfold onlinePaymentAvailable. destruct (Therapist.clinic t) as [cl|].
  - rewrite bool_decide_eq_true. split; [eauto|]. by intros (? & [= <-] & ?).
  - split; [done | by intros (? & ? & ?)].
Qed.

Section WithSortLemmas.
Context `{JS : JsSort} `{LT : LocalTime}.

Lemma sheetRow_of_booking (c : AppState) (b : Booking) :
  row_bookingId (sheetRow c b) = Booking.id b ∧
  row_status (sheetRow c b) = Booking.status b ∧
  row_isPaid (sheetRow c b) = Booking.isPaid b ∧
  row_phone (sheetRow c b) ≠ "" ∧ row_service (sheetRow c b) ≠ "".
Proof. split_and!; try done; apply truthy_true; cbn; by apply opt_str_or_truthy. Qed.

Implicit Types (c s : AppState) (d details : BookingDetails) (t : Therapist) (u : User).

(** What [finalizeBooking] does once its guard has passed. *)
Lemma finalizeBooking_eq c now d isPaid t u :
  therapistToBook c = Some t → currentUser c = Some u →
  finalizeBooking c now (Some d) isPaid =
    (setBookingsWith (addBooking (newBooking now t u d isPaid)) ;;
     sendBookingToGoogleSheets c (newBooking now t u d isPaid) ;;
     setTherapistToBook (Some t) ;; setLastBookingPaid isPaid ;;
     setIsConfirmModalOpen true ;; setPendingBookingDetails None).
Proof. unfold finalizeBooking. by intros -> ->. Qed.

Lemma finalizeBooking_fields c now d isPaid t u s :
  therapistToBook c = Some t → currentUser c = Some u →
  let b := newBooking now t u d isPaid in
  let s' := finalizeBooking c now (Some d) isPaid s in
  bookings s' = addBooking b (bookings s) ∧
  effects s' = effects s ++ [LogToSheet (sheetRow c b)] ∧
  pendingBookingDetails s' = None.
Proof. intros Ht Hu b s'. subst s'. by rewrite (finalizeBooking_eq _ _ _ _ _ _ Ht Hu). Qed.

(** C1: [finalizeBooking], with details, a therapist and a user in the
    state it closes over, adds exactly one booking to the current list:
    the confirmed booking of that user with that therapist, paid as the
    caller says; a list of valid dates in order stays so; the booking is
    logged once; the confirmation opens and the pending details are
    cleared. *)
Theorem finalizeBooking_books c now d isPaid t u s :
  therapistToBook c = Some t → currentUser c = Some u →
  let b := newBooking now t u d isPaid in
  let s' := finalizeBooking c now (Some d) isPaid s in
  bookings s' ≡ₚ b :: bookings s ∧
  (JsDate.valid (BookingDetails.date d) → wf_bookings (bookings s) →
   wf_bookings (bookings s')) ∧
  Booking.status b = Some Status.confirmed ∧ Booking.isPaid b = Some isPaid ∧
  Booking.therapist b = t ∧ Booking.userId b = User.id u ∧
  effects s' = effects s ++ [LogToSheet (sheetRow c b)] ∧
  isConfirmModalOpen s' = true ∧ lastBookingPaid s' = isPaid ∧
  pendingBookingDetails s' = None.
Proof.
  intros Ht Hu b s'. subst s'. rewrite (finalizeBooking_eq _ _ _ _ _ _ Ht Hu). fold b. split_and!; try done.
  - apply addBooking_perm.
  - intros Hd [Hv _]. by apply addBooking_wf.
Qed.

(** [finalizeBooking] does nothing when the details, the therapist
    or the user is missing. *)
Theorem finalizeBooking_guard c now (details : option BookingDetails) isPaid s :
  details = None ∨ therapistToBook c = None ∨ currentUser c = None →
  finalizeBooking c now details isPaid s = s.
Proof.
  unfold finalizeBooking. intros [-> | [-> | ->]]; [done| |]; by repeat case_match.
Qed.

(** With the payment gate open, [handleBookingConfirm] books nothing:
    it keeps the details as pending, closes the form, keeps the therapist
    and starts the timer that opens the payment modal. *)
Theorem handleBookingConfirm_online c now d t u s :
  bookingToReschedule c = None → therapistToBook c = Some t → currentUser c = Some u →
  onlinePaymentAvailable t = true →
  let s' := handleBookingConfirm c now d s in
  bookings s' = bookings s ∧ pendingBookingDetails s' = Some d ∧
  isBookingModalOpen s' = false ∧ therapistToBook s' = therapistToBook s ∧
  isConfirmModalOpen s' = isConfirmModalOpen s ∧
  effects s' = effects s ++ [StartPaymentTimer].
Proof. unfold handleBookingConfirm. by intros -> -> -> ->. Qed.

(** With the payment gate closed, [handleBookingConfirm] books at
    once, unpaid. *)
Theorem handleBookingConfirm_pay_later c now d t u s :
  bookingToReschedule c = None → therapistToBook c = Some t → currentUser c = Some u →
  onlinePaymentAvailable t = false →
  let b := newBooking now t u d false in
  let s' := handleBookingConfirm c now d s in
  bookings s' ≡ₚ b :: bookings s ∧ Booking.isPaid b = Some false ∧
  isBookingModalOpen s' = false ∧ isConfirmModalOpen s' = true ∧
  lastBookingPaid s' = false ∧ pendingBookingDetails s' = None ∧
  effects s' = effects s ++ [LogToSheet (sheetRow c b)].
Proof.
  intros Hr Ht Hu Hg b s'. subst s'. unfold handleBookingConfirm.
  rewrite Hr, Ht, Hu, Hg, (finalizeBooking_eq _ _ _ _ _ _ Ht Hu). fold b.
  split_and!; try done. apply addBooking_perm.
Qed.

(** When rescheduling, [handleBookingConfirm] replaces the list by the
    rescheduled list computed from the list it closes over, opens the
    confirmation as unpaid, and neither logs nor asks for payment. *)
Theorem handleBookingConfirm_reschedule c now d r s :
  bookingToReschedule c = Some r →
  let s' := handleBookingConfirm c now d s in
  bookings s' = rescheduleBookings (Booking.id r) d (bookings c) ∧
  bookingToReschedule s' = None ∧ isBookingModalOpen s' = false ∧
  lastBookingPaid s' = false ∧ isConfirmModalOpen s' = true ∧
  pendingBookingDetails s' = pendingBookingDetails s ∧ effects s' = effects s.
Proof. unfold handleBookingConfirm. by intros ->. Qed.

Lemma handleBookingConfirm_guard c now d s :
  bookingToReschedule c = None → therapistToBook c = None ∨ currentUser c = None →
  handleBookingConfirm c now d s = s.
Proof.
  unfold handleBookingConfirm. intros -> [-> | ->]; [done|]. by case_match.
Qed.

Lemma handlePaymentSuccess_eq c now paymentId d t u :
  pendingBookingDetails c = Some d → therapistToBook c = Some t → currentUser c = Some u →
  handlePaymentSuccess c now paymentId =
    (setIsPaymentModalOpen false ;;
     setBookingsWith (addBooking (newBooking now t u d true)) ;;
     sendBookingToGoogleSheets c (newBooking now t u d true) ;;
     setTherapistToBook (Some t) ;; setLastBookingPaid true ;;
     setIsConfirmModalOpen true ;; setPendingBookingDetails None).
Proof.
  intros Hp Ht Hu. unfold handlePaymentSuccess.
  by rewrite Hp, (finalizeBooking_eq _ _ _ _ _ _ Ht Hu).
Qed.

(** The bookings after [handleBookingConfirm]: as many, or one more. *)
Lemma handleBookingConfirm_length c now d s :
  length (bookings c) = length (bookings s) →
  let n := length (bookings (handleBookingConfirm c now d s)) in
  n = length (bookings s) ∨
  n = S (length (bookings s)) ∧ bookingToReschedule c = None ∧
    ∃ t, therapistToBook c = Some t ∧ onlinePaymentAvailable t = false.
Proof.
  intros Hlen. unfold handleBookingConfirm. destruct (bookingToReschedule c) as [r|].
  - left. cbn. by rewrite rescheduleBookings_length.
  - destruct (therapistToBook c) as [t|] eqn:Et; [|by left].
    destruct (currentUser c) as [u|] eqn:Eu; [|by left].
    destruct (onlinePaymentAvailable t) eqn:Eg; [by left|]. right.
    rewrite (finalizeBooking_eq _ _ _ _ _ _ Et Eu). cbn. rewrite addBooking_length. eauto.
Qed.

(** [handlePaymentSuccess] closes the payment modal and, with pending
    details, a therapist and a user in the state it closes over, adds the
    paid booking to the current list, whatever the current state is. *)
Theorem handlePaymentSuccess_books c now paymentId d t u s :
  pendingBookingDetails c = Some d → therapistToBook c = Some t → currentUser c = Some u →
  let b := newBooking now t u d true in
  let s' := handlePaymentSuccess c now paymentId s in
  bookings s' ≡ₚ b :: bookings s ∧ Booking.isPaid b = Some true ∧
  isPaymentModalOpen s' = false ∧ isConfirmModalOpen s' = true ∧
  lastBookingPaid s' = true ∧ pendingBookingDetails s' = None ∧
  effects s' = effects s ++ [LogToSheet (sheetRow c b)].
Proof.
  intros Hp Ht Hu b s'. subst s'. unfold handlePaymentSuccess. rewrite Hp.
  rewrite (finalizeBooking_eq _ _ _ _ _ _ Ht Hu). fold b.
  split_and!; try done. apply addBooking_perm.
Qed.

(** Without pending details in the state it closes over,
    [handlePaymentSuccess] books nothing and logs an error. *)
Theorem handlePaymentSuccess_missing c now paymentId s :
  pendingBookingDetails c = None →
  let s' := handlePaymentSuccess c now paymentId s in
  bookings s' = bookings s ∧ isPaymentModalOpen s' = false ∧
  isConfirmModalOpen s' = isConfirmModalOpen s ∧
  effects s' = effects s ++ [ConsoleError "Payment successful but booking details missing"].
Proof. unfold handlePaymentSuccess. by intros ->. Qed.

End WithSortLemmas.

(** ** Lemmas: the modals of the booking flow *)

(** Closing the booking form forgets the therapist, the booking being
    rescheduled and the pending details, and leaves the bookings. *)
Theorem handleCloseBookingModal_resets (s : AppState) :
  let s' := handleCloseBookingModal s in
  isBookingModalOpen s' = false ∧ therapistToBook s' = None ∧
  bookingToReschedule s' = None ∧ pendingBookingDetails s' = None ∧
  bookings s' = bookings s.
Proof. done. Qed.

(** Closing the payment modal abandons the booking: nothing is
    pending, no therapist is selected for booking, the list is as it
    was. *)
Theorem handlePaymentModalClose_abandons (s : AppState) :
  let s' := handlePaymentModalClose s in
  isPaymentModalOpen s' = false ∧ pendingBookingDetails s' = None ∧
  therapistToBook s' = None ∧ bookings s' = bookings s ∧ effects s' = effects s.
Proof. done. Qed.

(** A visitor who is not signed in and asks to book is shown the
    login form, and no booking form opens. *)
Theorem handleOpenBookingModal_signed_out (c s : AppState) (therapist : Therapist) :
  currentUser c = None →
  let s' := handleOpenBookingModal c therapist s in
  isAuthModalOpen s' = true ∧ authMode s' = AuthMode.login ∧
  isBookingModalOpen s' = isBookingModalOpen s ∧ therapistToBook s' = therapistToBook s.
Proof. unfold handleOpenBookingModal. by intros ->. Qed.

Lemma handleOpenBookingModal_signed_in (c s : AppState) (therapist : Therapist) (u : User) :
  currentUser c = Some u →
  let s' := handleOpenBookingModal c therapist s in
  isBookingModalOpen s' = true ∧ therapistToBook s' = Some therapist ∧
  isAuthModalOpen s' = isAuthModalOpen s.
Proof. unfold handleOpenBookingModal. by intros ->. Qed.

(** Rescheduling opens the form for the first booking with the given
    id and for its therapist; an unknown id does nothing. *)
Theorem handleOpenRescheduleModal_spec (c s : AppState) (bookingId : string) :
  match findBooking bookingId (bookings c) with
  | Some b =>
      let s' := handleOpenRescheduleModal c bookingId s in
      Booking.id b = bookingId ∧ b ∈ bookings c ∧
      bookingToReschedule s' = Some b ∧
      therapistToBook s' = Some (Booking.therapist b) ∧ isBookingModalOpen s' = true
  | None => handleOpenRescheduleModal c bookingId s = s
  end.
Proof.
  unfold handleOpenRescheduleModal.
  destruct (findBooking bookingId (bookings c)) as [b|] eqn:E; [|done].
  apply findBooking_Some in E as [? ?]. done.
Qed.

(** ** Lemmas: cancelling and intake forms *)

(** C3: confirming a cancellation closes the modal and, when the id is in
    the list the handler closes over, cancels in the current list:
    entries correspond one to one and differ at most in their status. *)
Theorem handleConfirmCancelBooking_spec (c s : AppState) (bookingId : string) :
  let s' := handleConfirmCancelBooking c bookingId s in
  isCancelModalOpen s' = false ∧ bookingToCancel s' = None ∧
  Forall2 sameButStatus (bookings s) (bookings s') ∧
  bookings s' =
    (if is_some (findBooking bookingId (bookings c))
     then cancelBookings bookingId (bookings s) else bookings s).
Proof.
  unfold handleConfirmCancelBooking.
  destruct (is_some (findBooking bookingId (bookings c))); split_and!; try done.
  - apply cancelBookings_only_status.
  - apply Forall2_reflexive, sameButStatus_refl.
Qed.

(** Submitting an intake form attaches it to the bookings with the
    given id, changes nothing else of any booking, and closes the
    form. *)
Theorem handleIntakeFormSubmit_spec (s : AppState) (bookingId : string) (formData : IntakeForm) :
  let s' := handleIntakeFormSubmit bookingId formData s in
  bookings s' = attachIntakeForm bookingId formData (bookings s) ∧
  Forall2 sameButIntakeForm (bookings s) (bookings s') ∧
  bookingForIntake s' = None.
Proof. split_and!; try done. apply attachIntakeForm_only_form. Qed.

(** An intake form is shown only when the first booking with the id
    has one. *)
Theorem handleViewIntakeForm_spec (c s : AppState) (bookingId : string) :
  let s' := handleViewIntakeForm c bookingId s in
  match findBooking bookingId (bookings c) ≫= Booking.intakeForm with
  | Some form => intakeDataToView s' = Some form ∧ isViewIntakeModalOpen s' = true
  | None => s' = s
  end.
Proof. unfold handleViewIntakeForm. by case_match. Qed.

(** ** Lemmas: search *)

Section Search.
Context (therapists : list Therapist) (searchTerm specialty : string).

Lemma searchResults_elem_of (t : Therapist) :
  t ∈ searchResults therapists searchTerm specialty ↔
  t ∈ therapists ∧
  (toLowerCase searchTerm = "" ∨ matchesTerm (toLowerCase searchTerm) t = true) ∧
  (specialty = "" ∨ hasSpecialty specialty t = true).
Proof.
  unfold searchResults.
  destruct (truthy_case (toLowerCase searchTerm)) as [[-> ?]|[-> ?]],
    (truthy_case specialty) as [[-> ?]|[-> ?]];
    rewrite ?elem_of_List_filter; tauto.
Qed.

Lemma searchResults_sublist : sublist (searchResults therapists searchTerm specialty) therapists.
Proof.
  unfold searchResults. repeat case_match; try done;
    repeat (etrans; [apply List_filter_sublist|]); done.
Qed.

(** The search does not depend on the case of the term. *)
Lemma searchResults_toLowerCase :
  searchResults therapists (toLowerCase searchTerm) specialty =
  searchResults therapists searchTerm specialty.
Proof. unfold searchResults. by rewrite toLowerCase_idem. Qed.

End Search.

(** With no term and no specialty every therapist is listed. *)
Lemma searchResults_all (therapists : list Therapist) : searchResults therapists "" "" = therapists.
Proof. reflexivity. Qed.

(** A therapist whose name contains the term, in whatever case, matches. *)
Lemma matchesTerm_name (t : Therapist) (searchTerm pre post : string) :
  Therapist.name t = pre +:+ searchTerm +:+ post →
  matchesTerm (toLowerCase searchTerm) t = true.
Proof.
  intros H. unfold matchesTerm. rewrite H, !toLowerCase_app, includes_app. done.
Qed.

(** [handleSearch] lists exactly the therapists of the directory that
    match the term (if any) in name, title, location or a specialty,
    without regard to case, and have the specialty (if any), in the order
    of the directory; it shows the list. *)
Theorem handleSearch_spec (c s : AppState) (searchTerm specialty : string) :
  let s' := handleSearch c searchTerm specialty s in
  sublist (filteredTherapists s') (therapists c) ∧
  (∀ t, t ∈ filteredTherapists s' ↔
        t ∈ therapists c ∧
        (searchTerm = "" ∨ matchesTerm (toLowerCase searchTerm) t = true) ∧
        (specialty = "" ∨ hasSpecialty specialty t = true)) ∧
  page s' = Page.browse ∧ selectedTherapist s' = None ∧ therapists s' = therapists s.
Proof.
  split_and!; try done.
  - apply searchResults_sublist.
  - intros t. cbn. rewrite searchResults_elem_of. by rewrite toLowerCase_empty.
Qed.

(** ** Lemmas: the directory of therapists *)
Lemma withoutTherapist_elem_of (tid : Z) (prev : list Therapist) (t : Therapist) :
  t ∈ withoutTherapist tid prev ↔ t ∈ prev ∧ Therapist.id t ≠ tid.
Proof.
  unfold withoutTherapist. rewrite elem_of_List_filter, negb_true_iff, Z.eqb_neq. done.
Qed.

Lemma replaceTherapist_ids (updated : Therapist) (prev : list Therapist) :
  map Therapist.id (replaceTherapist updated prev) = map Therapist.id prev.
Proof.
  unfold replaceTherapist. rewrite map_map. apply map_ext. intros t.
  destruct (Z.eqb_spec (Therapist.id t) (Therapist.id updated)); done.
Qed.

Lemma replaceTherapist_elem_of (updated : Therapist) (prev : list Therapist) (t : Therapist) :
  t ∈ replaceTherapist updated prev →
  t = updated ∨ t ∈ prev ∧ Therapist.id t ≠ Therapist.id updated.
Proof.
  unfold replaceTherapist. intros (t0 & -> & Hin)%list_elem_of_fmap_1.
  destruct (Z.eqb_spec (Therapist.id t0) (Therapist.id updated)); auto.
Qed.

Lemma withId_id (tid : Z) (t : Therapist) : Therapist.id (withId tid t) = tid.
Proof. reflexivity. Qed.

(** Confirming a deletion removes every therapist with the id of the
    one selected from the directory and from the list shown, keeps the
    others in order, and closes the modal. *)
Theorem handleConfirmDelete_spec (c s : AppState) (t : Therapist) :
  therapistToDelete c = Some t →
  let s' := handleConfirmDelete c s in
  (∀ x, x ∈ therapists s' ↔ x ∈ therapists s ∧ Therapist.id x ≠ Therapist.id t) ∧
  (∀ x, x ∈ filteredTherapists s' ↔
        x ∈ filteredTherapists s ∧ Therapist.id x ≠ Therapist.id t) ∧
  sublist (therapists s') (therapists s) ∧
  isDeleteModalOpen s' = false ∧ therapistToDelete s' = None.
Proof.
  unfold handleConfirmDelete. intros ->. split_and!; try done.
  - intros x. apply withoutTherapist_elem_of.
  - intros x. apply withoutTherapist_elem_of.
  - apply List_filter_sublist.
Qed.

(** Updating a profile replaces, in the directory and in the list
    shown, the therapists that have the id of the update, keeps the ids
    in place, and goes home. *)
Theorem handleProfileUpdate_spec (s : AppState) (updatedTherapist : Therapist) :
  let s' := handleProfileUpdate updatedTherapist s in
  map Therapist.id (therapists s') = map Therapist.id (therapists s) ∧
  (∀ t, t ∈ therapists s' →
        t = updatedTherapist ∨
        t ∈ therapists s ∧ Therapist.id t ≠ Therapist.id updatedTherapist) ∧
  map Therapist.id (filteredTherapists s') = map Therapist.id (filteredTherapists s) ∧
  page s' = Page.browse ∧ therapistToEdit s' = None.
Proof.
  split_and!; try done.
  - apply replaceTherapist_ids.
  - apply replaceTherapist_elem_of.
  - apply replaceTherapist_ids.
Qed.

(** Creating a profile appends the therapist, with the current time
    as id, to the directory and to the list shown, and goes home. *)
Theorem handleProfileCreate_spec (s : AppState) (now : Z) (therapist : Therapist) :
  let s' := handleProfileCreate now therapist s in
  therapists s' = therapists s ++ [withId now therapist] ∧
  filteredTherapists s' = filteredTherapists s ++ [withId now therapist] ∧
  Therapist.id (withId now therapist) = now ∧
  Therapist.name (withId now therapist) = Therapist.name therapist ∧
  page s' = Page.browse.
Proof. done. Qed.

(** ** Lemmas: authentication and navigation *)
Lemma fallbackName_truthy (u : SessionUser) : fallbackName u ≠ "".
Proof. apply truthy_true. unfold fallbackName. auto with bmp. Qed.

Lemma sessionName_truthy (u : SessionUser) : sessionName u ≠ "".
Proof. apply truthy_true. unfold sessionName. auto with bmp. Qed.

Lemma emailName_no_at (u : SessionUser) (email : string) :
  su_email u = Some email → ∃ rest, emailName u = Some (beforeFirst "@" email) ∧
  (email = beforeFirst "@" email +:+ rest).
Proof.
  intros E. unfold emailName. rewrite E. cbn.
  exists (match split "@" email with
          | [] | [_] => ""
          | _ :: rest => String "@" (join "@" rest)
          end).
  split; [done|]. unfold beforeFirst.
  pose proof (join_split "@" email) as HJ. pose proof (split_nonempty "@" email).
  destruct (split "@" email) as [|p [|q rest]]; [done| |]; cbn in *.
  - by rewrite append_nil_r.
  - done.
Qed.

Section Auth.
Context (ev : AuthEvent) (profiles inserted : ProfileResult) (s : AppState).

(** A session that ends signs the user out and leaves everything
    else of the state, the bookings and what the booking flow holds
    included. *)
Theorem onAuthStateChange_signed_out :
  let s' := onAuthStateChange ev None profiles inserted s in
  currentUser s' = None ∧ s' = setCurrentUser None s ∧
  bookings s' = bookings s ∧ page s' = page s ∧
  pendingBookingDetails s' = pendingBookingDetails s ∧
  therapistToBook s' = therapistToBook s ∧
  isPaymentModalOpen s' = isPaymentModalOpen s.
Proof. done. Qed.

(** The listener never changes the bookings. *)
Lemma onAuthStateChange_bookings (session : option SessionUser) :
  bookings (onAuthStateChange ev session profiles inserted s) = bookings s.
Proof.
  unfold onAuthStateChange, closeOnSignIn.
  repeat (case_match; try done); by destruct ev.
Qed.

(** With a session, the user the listener sets has the id of the
    session; no user is set only when an insert without error returns no
    row. *)
Theorem onAuthStateChange_user_id (u : SessionUser) :
  let s' := onAuthStateChange ev (Some u) profiles inserted s in
  (∃ user, currentUser s' = Some user ∧ User.id user = su_id u) ∨
  (currentUser s' = currentUser s ∧ profile_error profiles = None ∧
   profile_error inserted = None).
Proof.
  unfold onAuthStateChange, closeOnSignIn.
  repeat (case_match; try done); destruct ev; cbn; eauto.
Qed.

(** A profile that exists decides role and name; on sign-in the form
    closes and a therapist lands on the dashboard, an admin on the admin
    page, a patient where they were. *)
Theorem onAuthStateChange_routes (u : SessionUser) (profile : Profile) (rest : list Profile) :
  profile_error profiles = None → profile_data profiles = Some (profile :: rest) →
  let s' := onAuthStateChange SIGNED_IN (Some u) profiles inserted s in
  (∃ user, currentUser s' = Some user ∧ User.role user = role profile ∧
           User.therapistId user = therapist_id profile ∧ User.name user ≠ "") ∧
  isAuthModalOpen s' = false ∧
  page s' = match role profile with
            | Role.therapist => Page.therapist_dashboard
            | Role.admin => Page.admin
            | Role.patient => page s
            end.
Proof.
  unfold onAuthStateChange. intros -> ->. destruct profile as [fn [] tid]; cbn.
  all: split_and!; try done.
  all: eexists; split_and!; try done.
  all: apply truthy_true, opt_str_or_truthy, truthy_true, sessionName_truthy.
Qed.

(** An event other than a sign-in never closes the form and never
    navigates. *)
Theorem onAuthStateChange_quiet (session : option SessionUser) :
  ev ≠ SIGNED_IN →
  let s' := onAuthStateChange ev session profiles inserted s in
  isAuthModalOpen s' = isAuthModalOpen s ∧ page s' = page s ∧
  selectedTherapist s' = selectedTherapist s.
Proof.
  intros Hev. unfold onAuthStateChange, closeOnSignIn.
  rewrite bool_decide_eq_false_2 by done.
  repeat (case_match; try done).
Qed.

End Auth.

(** The profile entry of the mobile bar opens the login form for a
    visitor and the page of the role for a user. *)
Theorem handleMobileProfileClick_spec (c s : AppState) :
  let s' := handleMobileProfileClick c s in
  match currentUser c with
  | None => isAuthModalOpen s' = true ∧ authMode s' = AuthMode.login ∧ page s' = page s
  | Some u =>
      page s' = match User.role u with
                | Role.patient => Page.profile
                | Role.therapist => Page.therapist_dashboard
                | Role.admin => Page.admin
                end ∧ selectedTherapist s' = None
  end.
Proof.
  unfold handleMobileProfileClick, handleShowProfile.
  destruct (currentUser c) as [[]|]; [|done]. cbn. by repeat case_match.
Qed.

Lemma handleGoHome_spec (s : AppState) :
  let s' := handleGoHome s in
  page s' = Page.browse ∧ selectedTherapist s' = None ∧ therapistToEdit s' = None ∧
  activeMobilePage s' = MobilePage.home ∧ bookings s' = bookings s.
Proof. done. Qed.

End App.
