(* ===== verification/AppView.v ===== *)
(** * AppView: what [App] renders ([src/App.tsx], the [return] of [App])

    [render] gives, for a state, the components that are mounted and the
    props each receives: the sections of [main] by page, and the modals
    by their guards.  Rendering raises an exception in one place, the
    [toISOString] of the pending date in the props of the payment modal;
    [render] answers [None] there.  The props of the booking form and of
    the payment modal are the interfaces to [BookingModal.v] and
    [PaymentModal.v]. *)

From Stdlib Require Import ZArith Lia.
From stdpp Require Import base tactics option list strings.
From S2P Require Import Prelude Types JsArray JsTime BookingList.
From S2P Require Import BookingModal PaymentModal AppState AppHandlers.

#[local] Open Scope Z_scope.

Module AppView.

#[local] Set Primitive Projections.

(** ** Definitions *)

(** The list under the heading of the browse page. *)
Inductive Listing :=
| Loading
| FetchError (message : string)
| Cards (therapists : list Therapist).

(** The browse page: [HeroSection], [FeaturedTherapists] and the list. *)
Record Browse := mkBrowse {
  featured : list Therapist;
  heading : string;
  listing : Listing;
}.

(** The props of [ProfilePage]. *)
Record ProfileProps := mkProfileProps {
  profile_user : User;
  profile_bookings : list Booking;
}.

(** The props of [TherapistDashboard]; [therapist] is what [find]
    returns, which the source asserts to be defined. *)
Record DashboardProps := mkDashboardProps {
  dashboard_therapist : option Therapist;
  dashboard_bookings : list Booking;
}.

(** The props of [BookingConfirmationModal]. *)
Record ConfirmationProps := mkConfirmationProps {
  conf_isOpen : bool;
  conf_therapist : option Therapist;
  conf_isPaid : bool;
}.

(** The props of [IntakeFormModal]. *)
Record IntakeProps := mkIntakeProps {
  intake_booking : Booking;
  intake_userName : string;
}.

(** What [App] renders: [None] or [false] for a component that is not
    mounted. *)
Record View := mkView {
  header_currentUser : option User;
  browse : option Browse;
  therapistProfile : option Therapist;
  profilePage : option ProfileProps;
  aboutPage : bool;
  registrationPage : option (option Therapist);
  adminPage : option (list Therapist);
  therapistDashboard : option DashboardProps;
  bookingModal : option BookingModal.Props;
  paymentModal : option PaymentModal.Props;
  authModal : option AuthMode;
  cancelModal : option Booking;
  deleteModal : option string;
  confirmationModal : ConfirmationProps;
  intakeFormModal : option IntakeProps;
  viewIntakeModal : option IntakeForm;
  mobileNav_activePage : MobilePage;
}.

(** ['All Therapists'] or ['Search Results'] *)
Definition browseHeading (s : AppState) : string :=
  if Nat.eqb (length (filteredTherapists s)) (length (therapists s))
  then "All Therapists" else "Search Results".

Definition browseListing (s : AppState) : Listing :=
  if isLoadingTherapists s then Loading
  else if opt_truthy (fetchError s) then FetchError (default "" (fetchError s))
  else Cards (filteredTherapists s).

(** [page === 'browse' && !selectedTherapist && ...] *)
Definition browseSection (s : AppState) : option Browse :=
  if bool_decide (page s = Page.browse) && negb (is_some (selectedTherapist s))
  then Some {| featured := App.featuredTherapists s;
               heading := browseHeading s;
               listing := browseListing s |}
  else None.

(** [bookings.filter(b => b.userId === currentUser.id)] *)
Definition bookingsOfUser (u : User) (bookings : list Booking) : list Booking :=
  List.filter (λ b, String.eqb (Booking.userId b) (User.id u)) bookings.

(** [t.id === currentUser.therapistId] *)
Definition isTherapistOf (u : User) (tid : Z) : bool :=
  match User.therapistId u with
  | Some i => tid =? i
  | None => false
  end.

(** [bookings.filter(b => b.therapist.id === currentUser.therapistId)] *)
Definition bookingsOfTherapist (u : User) (bookings : list Booking) : list Booking :=
  List.filter (λ b, isTherapistOf u (Therapist.id (Booking.therapist b))) bookings.

(** [therapists.find(t => t.id === currentUser.therapistId)] *)
Definition therapistOfUser (u : User) (therapists : list Therapist) : option Therapist :=
  List.find (λ t, isTherapistOf u (Therapist.id t)) therapists.

(** [page === p && currentUser?.role === r] *)
Definition onPageAs (p : Page) (r : Role) (s : AppState) : option User :=
  match currentUser s with
  | Some u =>
      if bool_decide (page s = p) && bool_decide (User.role u = r) then Some u else None
  | None => None
  end.

Definition profileSection (s : AppState) : option ProfileProps :=
  u ← onPageAs Page.profile Role.patient s;
  Some {| profile_user := u; profile_bookings := bookingsOfUser u (bookings s) |}.

Definition adminSection (s : AppState) : option (list Therapist) :=
  _ ← onPageAs Page.admin Role.admin s; Some (therapists s).

Definition dashboardSection (s : AppState) : option DashboardProps :=
  u ← onPageAs Page.therapist_dashboard Role.therapist s;
  Some {| dashboard_therapist := therapistOfUser u (therapists s);
          dashboard_bookings := bookingsOfTherapist u (bookings s) |}.

Definition registrationSection (s : AppState) : option (option Therapist) :=
  if bool_decide (page s = Page.therapist_registration) then Some (therapistToEdit s)
  else None.

(** [isBookingModalOpen && therapistToBook && currentUser && ...] *)
Definition bookingModalProps (s : AppState) : option BookingModal.Props :=
  if isBookingModalOpen s then
    match therapistToBook s, currentUser s with
    | Some t, Some u =>
        Some (BookingModal.mkProps t (Some u) (is_some (bookingToReschedule s)))
    | _, _ => None
    end
  else None.

(** The guard of the payment modal: what it is mounted with. *)
Definition paymentModalGuard (s : AppState) : option (Therapist * User * BookingDetails) :=
  if isPaymentModalOpen s then
    match therapistToBook s, currentUser s, pendingBookingDetails s with
    | Some t, Some u, Some d => Some (t, u, d)
    | _, _, _ => None
    end
  else None.

(** The props of the payment modal; the inner [None] is the exception of
    [toISOString] on an invalid date. *)
Definition paymentModalProps (s : AppState) : option (option PaymentModal.Props) :=
  '(t, u, d) ← paymentModalGuard s;
  Some (PaymentModal.mkProps (Therapist.fee t) t u <$> toISOString (BookingDetails.date d)).

Definition cancelModalProps (s : AppState) : option Booking :=
  if isCancelModalOpen s then bookingToCancel s else None.

Definition deleteModalProps (s : AppState) : option string :=
  if isDeleteModalOpen s then Therapist.name <$> therapistToDelete s else None.

Definition intakeModalProps (s : AppState) : option IntakeProps :=
  match bookingForIntake s, currentUser s with
  | Some b, Some u => Some {| intake_booking := b; intake_userName := User.name u |}
  | _, _ => None
  end.

Definition viewIntakeModalProps (s : AppState) : option IntakeForm :=
  if isViewIntakeModalOpen s then intakeDataToView s else None.

(** The [return] of [App]: the elements it creates; [None] when
    evaluating the JSX throws.  What a child does with its props, a throw
    included, is the child's. *)
Definition render (s : AppState) : option View :=
  payment ← match paymentModalProps s with
            | Some (Some p) => Some (Some p)
            | Some None => None
            | None => Some None
            end;
  Some {| header_currentUser := currentUser s;
          browse := browseSection s;
          therapistProfile := selectedTherapist s;
          profilePage := profileSection s;
          aboutPage := bool_decide (page s = Page.about);
          registrationPage := registrationSection s;
          adminPage := adminSection s;
          therapistDashboard := dashboardSection s;
          bookingModal := bookingModalProps s;
          paymentModal := payment;
          authModal := if isAuthModalOpen s then Some (authMode s) else None;
          cancelModal := cancelModalProps s;
          deleteModal := deleteModalProps s;
          confirmationModal :=
            {| conf_isOpen := isConfirmModalOpen s;
               conf_therapist := therapistToBook s;
               conf_isPaid := lastBookingPaid s |};
          intakeFormModal := intakeModalProps s;
          viewIntakeModal := viewIntakeModalProps s;
          mobileNav_activePage := activeMobilePage s |}.

(** The pending date, when there is one, is valid. *)
Definition pendingValid (s : AppState) : Prop :=
  ∀ d, pendingBookingDetails s = Some d → JsDate.valid (BookingDetails.date d).

(** ** Lemmas *)
Lemma bookingsOfUser_elem_of (u : User) (bookings : list Booking) (b : Booking) :
  b ∈ bookingsOfUser u bookings ↔ b ∈ bookings ∧ Booking.userId b = User.id u.
Proof. unfold bookingsOfUser. by rewrite elem_of_List_filter, String.eqb_eq. Qed.

Lemma isTherapistOf_true (u : User) (tid : Z) :
  isTherapistOf u tid = true ↔ User.therapistId u = Some tid.
Proof.
  unfold isTherapistOf. destruct (User.therapistId u) as [i|]; [|done].
  rewrite Z.eqb_eq. split; [by intros -> | by intros [= ->]].
Qed.

Lemma bookingsOfTherapist_elem_of (u : User) (bookings : list Booking) (b : Booking) :
  b ∈ bookingsOfTherapist u bookings ↔
  b ∈ bookings ∧ User.therapistId u = Some (Therapist.id (Booking.therapist b)).
Proof. unfold bookingsOfTherapist. by rewrite elem_of_List_filter, isTherapistOf_true. Qed.

Lemma onPageAs_Some (p : Page) (r : Role) (s : AppState) (u : User) :
  onPageAs p r s = Some u ↔ currentUser s = Some u ∧ page s = p ∧ User.role u = r.
Proof.
  unfold onPageAs. destruct (currentUser s) as [u'|]; [|by split; [|intros [? _]]].
  destruct (bool_decide_reflect (page s = p)), (bool_decide_reflect (User.role u' = r));
    cbn; split; try done; try (by intros [= <-]); intros ([= <-] & ? & ?); done.
Qed.

(** C38: the profile page is shown to a signed-in patient on the profile
    page only, and lists exactly the bookings made by that user, in the
    order of the list. *)
Theorem profileSection_own_bookings (s : AppState) (props : ProfileProps) :
  profileSection s = Some props →
  currentUser s = Some (profile_user props) ∧
  User.role (profile_user props) = Role.patient ∧ page s = Page.profile ∧
  sublist (profile_bookings props) (bookings s) ∧
  ∀ b, b ∈ profile_bookings props ↔
       b ∈ bookings s ∧ Booking.userId b = User.id (profile_user props).
Proof.
  unfold profileSection. destruct (onPageAs _ _ s) as [u|] eqn:E; [|done].
  intros [= <-]. apply onPageAs_Some in E as (? & ? & ?). cbn. split_and!; try done.
  - apply List_filter_sublist.
  - intros b. apply bookingsOfUser_elem_of.
Qed.

(** The dashboard is shown to a signed-in therapist only, and lists
    exactly the bookings with the therapist of that user. *)
Theorem dashboardSection_own_bookings (s : AppState) (props : DashboardProps) :
  dashboardSection s = Some props →
  ∃ u, currentUser s = Some u ∧ User.role u = Role.therapist ∧
       (∀ t, dashboard_therapist props = Some t → User.therapistId u = Some (Therapist.id t)) ∧
       ∀ b, b ∈ dashboard_bookings props ↔
            b ∈ bookings s ∧ User.therapistId u = Some (Therapist.id (Booking.therapist b)).
Proof.
  unfold dashboardSection. destruct (onPageAs _ _ s) as [u|] eqn:E; [|done].
  intros [= <-]. apply onPageAs_Some in E as (? & ? & ?). exists u. cbn.
  split_and!; try done.
  - intros t [_ Ht]%find_some. by apply isTherapistOf_true.
  - intros b. apply bookingsOfTherapist_elem_of.
Qed.

Lemma paymentModalGuard_Some (s : AppState) t u d :
  paymentModalGuard s = Some (t, u, d) ↔
  isPaymentModalOpen s = true ∧ therapistToBook s = Some t ∧ currentUser s = Some u ∧
  pendingBookingDetails s = Some d.
Proof.
  unfold paymentModalGuard. split.
  - repeat case_match; try done. by intros [= -> -> ->].
  - by intros (-> & -> & -> & ->).
Qed.

Lemma paymentModalProps_total (s : AppState) :
  pendingValid s → paymentModalProps s ≠ Some None.
Proof.
  intros Hp. unfold paymentModalProps.
  destruct (paymentModalGuard s) as [[[t u] d]|] eqn:E; cbn; [|done].
  apply paymentModalGuard_Some in E as (_ & _ & _ & Hd).
  by destruct (toISOString_valid _ (Hp d Hd)) as [iso ->].
Qed.

Lemma paymentModalProps_Some (s : AppState) (p : PaymentModal.Props) :
  paymentModalProps s = Some (Some p) →
  ∃ d, paymentModalGuard s = Some (PaymentModal.therapist p, PaymentModal.currentUser p, d) ∧
       PaymentModal.amount p = Therapist.fee (PaymentModal.therapist p) ∧
       toISOString (BookingDetails.date d) = Some (PaymentModal.bookingDate p).
Proof.
  unfold paymentModalProps.
  destruct (paymentModalGuard s) as [[[t u] d]|]; cbn; [|done].
  destruct (toISOString (BookingDetails.date d)) as [iso|] eqn:E; cbn; [|done].
  intros [= <-]. exists d. cbn. done.
Qed.

(** Evaluating the JSX of [App] throws only with the payment modal open
    on a pending date that is invalid; with a valid pending date it
    never throws. *)
Theorem render_total (s : AppState) : pendingValid s → is_Some (render s).
Proof.
  intros Hp%paymentModalProps_total. unfold render.
  destruct (paymentModalProps s) as [[p|]|]; cbn; eauto. done.
Qed.

Lemma render_bookingModal (s : AppState) (v : View) :
  render s = Some v → bookingModal v = bookingModalProps s.
Proof. unfold render. destruct (paymentModalProps s) as [[?|]|]; by intros [= <-]. Qed.

Lemma render_paymentModal (s : AppState) (v : View) (p : PaymentModal.Props) :
  render s = Some v → paymentModal v = Some p →
  ∃ d, paymentModalGuard s = Some (PaymentModal.therapist p, PaymentModal.currentUser p, d) ∧
       PaymentModal.amount p = Therapist.fee (PaymentModal.therapist p) ∧
       toISOString (BookingDetails.date d) = Some (PaymentModal.bookingDate p).
Proof.
  unfold render. destruct (paymentModalProps s) as [[p'|]|] eqn:E; cbn; try done.
  - intros [= <-]. cbn. intros [= <-]. by apply paymentModalProps_Some.
  - by intros [= <-].
Qed.

(** The two components compute the gate alike. *)
Lemma onlinePaymentAvailable_agree (t : Therapist) :
  BookingModal.onlinePaymentAvailable t = App.onlinePaymentAvailable t.
Proof. reflexivity. Qed.

Lemma bookingModalProps_Some (s : AppState) (p : BookingModal.Props) :
  bookingModalProps s = Some p →
  ∃ u, isBookingModalOpen s = true ∧ therapistToBook s = Some (BookingModal.therapist p) ∧
       currentUser s = Some u ∧ BookingModal.currentUser p = Some u ∧
       BookingModal.isRescheduling p = is_some (bookingToReschedule s).
Proof.
  unfold bookingModalProps. repeat case_match; try done. intros [= <-]. cbn.
  eexists. split_and!; done.
Qed.

Section Gate.
Context `{JS : JsSort} `{LT : LocalTime}.

(** C11: the form and the application agree on the payment gate: the form
    [App] mounts announces online payment exactly when confirming it
    leads to the payment modal and books nothing yet; otherwise
    confirming it reschedules, or books at once and logs the booking,
    and never asks for payment. *)
Theorem payment_gate_agrees (s : AppState) (p : BookingModal.Props) (now : Z)
    (details : BookingDetails) :
  bookingModalProps s = Some p →
  let s' := App.handleBookingConfirm s now details s in
  if BookingModal.isOnlinePayment p
  then effects s' = effects s ++ [StartPaymentTimer] ∧ bookings s' = bookings s ∧
       pendingBookingDetails s' = Some details ∧ isConfirmModalOpen s' = isConfirmModalOpen s
  else isConfirmModalOpen s' = true ∧
       match bookingToReschedule s with
       | Some _ => effects s' = effects s ∧ length (bookings s') = length (bookings s)
       | None => (∃ row, effects s' = effects s ++ [LogToSheet row]) ∧
                 length (bookings s') = S (length (bookings s))
       end.
Proof.
  intros (u & _ & Ht & Hu & _ & Hr)%bookingModalProps_Some s'. subst s'.
  unfold BookingModal.isOnlinePayment. rewrite Hr, onlinePaymentAvailable_agree.
  destruct (bookingToReschedule s) as [r|] eqn:Er; cbn [is_some negb].
  - rewrite andb_false_r.
    destruct (App.handleBookingConfirm_reschedule s now details r s Er)
      as (-> & _ & _ & _ & -> & _ & ->).
    by rewrite rescheduleBookings_length.
  - rewrite andb_true_r.
    destruct (App.onlinePaymentAvailable (BookingModal.therapist p)) eqn:Eg.
    + by destruct (App.handleBookingConfirm_online s now details _ u s Er Ht Hu Eg)
        as (-> & -> & _ & _ & -> & ->).
    + destruct (App.handleBookingConfirm_pay_later s now details _ u s Er Ht Hu Eg)
        as (Hp & _ & _ & -> & _ & _ & ->).
      split_and!; [done|eauto|]. by rewrite Hp.
Qed.

End Gate.

End AppView.
