(* ===== verification/AppEvents.v ===== *)
(** * AppEvents: the callbacks [App] hands to its children
    ([src/App.tsx], the props of the JSX; the buttons of
    [src/components/Header.tsx] and of the modals)

    An [Event] is a call of one of the callbacks [App] passes down;
    [dispatch] is the wiring: the handler each callback is bound to, run
    from the state the render closed over.  [offered] says whether a
    control that raises the event is on the page in a state: the
    component is mounted and shows the control.  Overlays do not disable
    what they cover. *)

From Stdlib Require Import ZArith Lia.
From stdpp Require Import base tactics option list strings.
From S2P Require Import Prelude Types JsArray JsTime BookingList ProfilePage TherapistViews.
From S2P Require Import BookingModal PaymentModal AppState Widgets AppHandlers AppView.

#[local] Open Scope Z_scope.
#[local] Open Scope js_scope.

Module Events.

(** ** Definitions *)

Inductive Event :=
(* Header, Footer *)
| LogoClick | AboutClick | ForProfessionalsClick
| LoginClick | SignUpClick | LogoutClick | ProfileClick | AdminClick | DashboardClick
(* MobileFooterNav *)
| MobileHomeClick | MobileSearchClick | MobileProfileClick
(* HeroSection, FeaturedTherapists, TherapistCard, TherapistProfile *)
| Search (searchTerm specialty : string)
| ViewProfile (therapist : Therapist)
| BookNow (therapist : Therapist)
| ProfileBack
(* ProfilePage, through BookingCard *)
| CardClick (button : BookingCard.Button) (bookingId : string)
(* TherapistRegistrationPage *)
| ProfileCreate (now : Z) (therapist : Therapist)
| ProfileUpdate (therapist : Therapist)
| RegistrationBack
(* AdminPage *)
| AddTherapist | EditTherapist (therapist : Therapist) | DeleteTherapist (therapist : Therapist)
(* TherapistDashboard *)
| EditProfile | DashboardViewIntakeForm (bookingId : string)
(* BookingModal *)
| BookingClose | BookingConfirm (now : Z) (details : BookingDetails)
(* PaymentProcessingModal: its close button *)
| PaymentClose
(* AuthModal, CancelBookingModal, DeleteConfirmationModal *)
| AuthClose | CancelClose | CancelConfirm | DeleteClose | DeleteConfirm
(* BookingConfirmationModal *)
| ConfirmationClose | ConfirmationGoToProfile
(* IntakeFormModal, ViewIntakeFormModal *)
| IntakeClose | IntakeSubmit (formData : IntakeForm) | ViewIntakeClose.

Section WithSort.
Context `{JS : JsSort} `{LT : LocalTime}.

(** [onEditProfile]: [handleEditTherapist(therapists.find(...)!)] *)
Definition editOwnProfile (c : AppState) : Action AppState :=
  match currentUser c with
  | Some u => setTherapistToEdit (AppView.therapistOfUser u (therapists c)) ;;
              setPage Page.therapist_registration
  | None => skip
  end.

(** The handler bound to each callback, run from the state [c]. *)
Definition dispatch (e : Event) (c : AppState) : Action AppState :=
  match e with
  | LogoClick | MobileHomeClick | ProfileBack | RegistrationBack => App.handleGoHome
  | AboutClick => App.handleShowAboutPage
  | ForProfessionalsClick | AddTherapist => App.handleShowTherapistRegistration
  | LoginClick => App.handleOpenLoginModal
  | SignUpClick => App.handleOpenSignUpModal
  | LogoutClick => App.handleLogout
  | ProfileClick | ConfirmationGoToProfile => App.handleShowProfile c
  | AdminClick => App.handleShowAdminPage
  | DashboardClick => App.handleShowTherapistDashboard
  | MobileSearchClick => App.handleMobileSearchClick
  | MobileProfileClick => App.handleMobileProfileClick c
  | Search searchTerm specialty => App.handleSearch c searchTerm specialty
  | ViewProfile t => App.handleSelectTherapist t
  | BookNow t => App.handleOpenBookingModal c t
  | CardClick BookingCard.Cancel i => App.handleOpenCancelModal c i
  | CardClick BookingCard.Reschedule i => App.handleOpenRescheduleModal c i
  | CardClick BookingCard.FillIntakeForm i => App.handleOpenIntakeForm c i
  | CardClick BookingCard.ViewForm i => App.handleViewIntakeForm c i
  | DashboardViewIntakeForm i => App.handleViewIntakeForm c i
  | ProfileCreate now t => App.handleProfileCreate now t
  | ProfileUpdate t => App.handleProfileUpdate t
  | EditTherapist t => App.handleEditTherapist t
  | DeleteTherapist t => App.handleDeleteTherapist t
  | EditProfile => editOwnProfile c
  | BookingClose => App.handleCloseBookingModal
  | BookingConfirm now details => App.handleBookingConfirm c now details
  | PaymentClose => App.handlePaymentModalClose
  | AuthClose => App.handleCloseAuthModal
  | CancelClose => App.handleCloseCancelModal
  | CancelConfirm =>
      match bookingToCancel c with
      | Some b => App.handleConfirmCancelBooking c (Booking.id b)
      | None => skip
      end
  | DeleteClose => App.handleCloseDeleteModal
  | DeleteConfirm => App.handleConfirmDelete c
  | ConfirmationClose => App.handleConfirmModalClose
  | IntakeClose => App.handleCloseIntakeForm
  | IntakeSubmit formData =>
      match bookingForIntake c with
      | Some b => App.handleIntakeFormSubmit (Booking.id b) formData
      | None => skip
      end
  | ViewIntakeClose => App.handleCloseViewIntakeModal
  end.

(** A card of the browse page shows the therapist. *)
Definition listed (t : Therapist) (s : AppState) : bool :=
  match AppView.browseSection s with
  | Some b =>
      bool_decide (t ∈ AppView.featured b) ||
      match AppView.listing b with
      | AppView.Cards ts => bool_decide (t ∈ ts)
      | _ => false
      end
  | None => false
  end.

(** A control that raises the event is on the page; [today] is local
    midnight of the current day. *)
Definition offered (today : Z) (s : AppState) (e : Event) : bool :=
  match e with
  | LogoClick => Header.offers (currentUser s) Header.onLogoClick
  | AboutClick => Header.offers (currentUser s) Header.onAboutClick
  | ForProfessionalsClick => Header.offers (currentUser s) Header.onForProfessionalsClick
  | LoginClick => Header.offers (currentUser s) Header.onLoginClick
  | SignUpClick => Header.offers (currentUser s) Header.onSignUpClick
  | LogoutClick => Header.offers (currentUser s) Header.onLogoutClick
  | ProfileClick => Header.offers (currentUser s) Header.onProfileClick
  | AdminClick => Header.offers (currentUser s) Header.onAdminClick
  | DashboardClick => Header.offers (currentUser s) Header.onDashboardClick
  | MobileHomeClick | MobileSearchClick | MobileProfileClick => true
  | Search _ _ => is_some (AppView.browseSection s)
  | ViewProfile t => listed t s
  | BookNow t => listed t s || bool_decide (selectedTherapist s = Some t)
  | ProfileBack => is_some (selectedTherapist s)
  | CardClick x i =>
      match AppView.profileSection s with
      | Some p => ProfilePage.offers today (AppView.profile_bookings p) x i
      | None => false
      end
  | ProfileCreate _ _ =>
      bool_decide (AppView.registrationSection s = Some None)
  | ProfileUpdate t =>
      match AppView.registrationSection s with
      | Some (Some t0) => bool_decide (Therapist.id t = Therapist.id t0)
      | _ => false
      end
  | RegistrationBack => is_some (AppView.registrationSection s)
  | AddTherapist => is_some (AppView.adminSection s)
  | EditTherapist t | DeleteTherapist t =>
      is_some (AppView.adminSection s) && bool_decide (t ∈ therapists s)
  | EditProfile => is_some (AppView.dashboardSection s)
  | DashboardViewIntakeForm i =>
      match AppView.dashboardSection s with
      | Some p => TherapistDashboard.offers today (AppView.dashboard_bookings p) i
      | None => false
      end
  | BookingClose | BookingConfirm _ _ => is_some (AppView.bookingModalProps s)
  | PaymentClose => is_some (AppView.paymentModalGuard s)
  | AuthClose => isAuthModalOpen s
  | CancelClose | CancelConfirm => is_some (AppView.cancelModalProps s)
  | DeleteClose | DeleteConfirm => is_some (AppView.deleteModalProps s)
  | ConfirmationClose | ConfirmationGoToProfile =>
      is_some (ConfirmationModal.render (isConfirmModalOpen s) (therapistToBook s)
                 (lastBookingPaid s))
  | IntakeClose | IntakeSubmit _ => is_some (AppView.intakeModalProps s)
  | ViewIntakeClose => is_some (AppView.viewIntakeModalProps s)
  end.

End WithSort.

(** The bookings are in order, with valid dates, and so is the pending
    date. *)
Definition Inv (s : AppState) : Prop :=
  wf_bookings (bookings s) ∧ AppView.pendingValid s.

(** The details an event carries have a valid date. *)
Definition eventValid (e : Event) : Prop :=
  match e with
  | BookingConfirm _ details => JsDate.valid (BookingDetails.date details)
  | _ => True
  end.

(** The number of bookings logged to the sheet. *)
Definition logged (s : AppState) : nat := length (List.filter isLogToSheet (effects s)).

(** Every booking has been logged once. *)
Definition AInv (s : AppState) : Prop := Inv s ∧ logged s = length (bookings s).

(** [s'] has the bookings and the log of [s], and its pending details or
    none. *)
Definition Frame (s s' : AppState) : Prop :=
  bookings s' = bookings s ∧
  (pendingBookingDetails s' = pendingBookingDetails s ∨ pendingBookingDetails s' = None) ∧
  ∃ es, effects s' = effects s ++ es ∧ Forall (λ e, isLogToSheet e = false) es.

(** The events that change the bookings. *)
Definition changesBookings (e : Event) : bool :=
  match e with
  | BookingConfirm _ _ | CancelConfirm | IntakeSubmit _ => true
  | _ => false
  end.

(** Solves [Frame s (h s)] for a handler [h] that is unfolded. *)
Ltac frame_goal :=
  unfold Frame;
  split_and!;
    [ done
    | by auto
    | first [ by (exists []; split; [rewrite app_nil_r; reflexivity | constructor])
            | by (eexists [_]; split; [reflexivity | repeat constructor])
            | by (eexists [_; _]; split;
                    [ etrans; [|symmetry; apply (app_assoc _ [_] [_])]; reflexivity
                    | repeat constructor ]) ] ].

Ltac frame := repeat case_match; frame_goal.

(** ** Lemmas *)

Section WithSortLemmas.
Context `{JS : JsSort} `{LT : LocalTime}.

Lemma Inv_initial : Inv initial.
Proof. split; [apply wf_bookings_nil | done]. Qed.

(** An action that leaves the bookings and clears or keeps the pending
    details keeps the invariant. *)
Lemma Inv_frame (s s' : AppState) :
  bookings s' = bookings s →
  pendingBookingDetails s' = pendingBookingDetails s ∨ pendingBookingDetails s' = None →
  Inv s → Inv s'.
Proof.
  intros Hb Hp [Hwf Hpv]. split; [by rewrite Hb|].
  intros d Hd. destruct Hp as [Hp|Hp]; rewrite Hp in Hd; [by apply Hpv | done].
Qed.

Lemma Inv_finalizeBooking (c s : AppState) (now : Z) (d : BookingDetails) (isPaid : bool) :
  JsDate.valid (BookingDetails.date d) → Inv s →
  Inv (App.finalizeBooking c now (Some d) isPaid s).
Proof.
  intros Hd [Hwf Hpv]. unfold App.finalizeBooking.
  destruct (therapistToBook c) as [t|]; [|done].
  destruct (currentUser c) as [u|]; [|done]. split; [|done].
  cbn. destruct Hwf as [Hv _]. by apply addBooking_wf.
Qed.

Lemma Inv_handlePaymentSuccess (c s : AppState) (now : Z) (paymentId : string) :
  AppView.pendingValid c → Inv s → Inv (App.handlePaymentSuccess c now paymentId s).
Proof.
  intros Hc Hs. unfold App.handlePaymentSuccess.
  destruct (pendingBookingDetails c) as [d|] eqn:E.
  - apply Inv_finalizeBooking; [by apply Hc|]. by eapply Inv_frame; [..|done]; eauto.
  - by eapply Inv_frame; [..|done]; eauto.
Qed.

Lemma Inv_handleBookingConfirm (s : AppState) (now : Z) (d : BookingDetails) :
  JsDate.valid (BookingDetails.date d) → Inv s → Inv (App.handleBookingConfirm s now d s).
Proof.
  intros Hd Hs. unfold App.handleBookingConfirm.
  destruct (bookingToReschedule s) as [r|].
  - destruct Hs as [[Hv _] Hpv]. split; [|done]. cbn. by apply rescheduleBookings_wf.
  - destruct (therapistToBook s) as [t|] eqn:Et; [|done].
    destruct (currentUser s) as [u|] eqn:Eu; [|done].
    destruct (App.onlinePaymentAvailable t).
    + destruct Hs as [Hwf Hpv]. split; [done|]. by intros d' [= <-].
    + apply Inv_finalizeBooking; [done|]. destruct Hs as [Hwf Hpv].
      split; [done|]. by intros d' [= <-].
Qed.

Lemma Inv_cancel (c s : AppState) (i : string) :
  Inv s → Inv (App.handleConfirmCancelBooking c i s).
Proof.
  intros [Hwf Hpv]. unfold App.handleConfirmCancelBooking.
  destruct (is_some _); split; try done. cbn. by apply cancelBookings_wf.
Qed.

Lemma Inv_intake (s : AppState) (i : string) (formData : IntakeForm) :
  Inv s → Inv (App.handleIntakeFormSubmit i formData s).
Proof. intros [Hwf Hpv]. split; [|done]. cbn. by apply attachIntakeForm_wf. Qed.

Lemma Frame_refl (s : AppState) : Frame s s.
Proof. frame. Qed.

Lemma Frame_logged (s s' : AppState) : Frame s s' → logged s' = logged s.
Proof.
  unfold logged. intros (_ & _ & es & -> & Hes). rewrite List.filter_app, length_app.
  replace (List.filter isLogToSheet es) with (@nil Effect); [cbn; lia|].
  induction Hes as [|e es He _ IH]; [done|]. cbn. by rewrite He.
Qed.

Lemma AInv_initial : AInv initial.
Proof. split; [apply Inv_initial | done]. Qed.

Lemma AInv_frame (s s' : AppState) : Frame s s' → AInv s → AInv s'.
Proof.
  intros HF [HI HL]. pose proof (Frame_logged _ _ HF) as Hl. destruct HF as (Hb & Hp & _).
  split; [by eapply Inv_frame|]. by rewrite Hl, Hb.
Qed.

(** The navigation, the directory and the modals other than the three
    that change the bookings leave the bookings and the log alone. *)
Lemma dispatch_Frame (e : Event) (c s : AppState) :
  changesBookings e = false → Frame s (dispatch e c s).
Proof.
  destruct e; try done; intros _; cbn;
    unfold App.handleShowProfile, App.handleMobileProfileClick, App.handleShowProfile,
      App.handleOpenBookingModal, App.handleOpenCancelModal, App.handleOpenRescheduleModal,
      App.handleOpenIntakeForm, App.handleViewIntakeForm, App.handleConfirmDelete,
      editOwnProfile; frame.
Qed.

Lemma logged_finalizeBooking (c s : AppState) (now : Z) (d : BookingDetails) (isPaid : bool) :
  logged s = length (bookings s) →
  let s' := App.finalizeBooking c now (Some d) isPaid s in
  logged s' = length (bookings s').
Proof.
  intros HL s'. subst s'. destruct (therapistToBook c) as [t|] eqn:Et;
    [|by rewrite App.finalizeBooking_guard by auto].
  destruct (currentUser c) as [u|] eqn:Eu; [|by rewrite App.finalizeBooking_guard by auto].
  destruct (App.finalizeBooking_fields c now d isPaid t u s Et Eu) as (Hb & He & _).
  unfold logged in *. rewrite Hb, He, List.filter_app, length_app, addBooking_length.
  cbn. lia.
Qed.

Lemma AInv_finalizeBooking (c s : AppState) (now : Z) (d : BookingDetails) (isPaid : bool) :
  JsDate.valid (BookingDetails.date d) → AInv s →
  AInv (App.finalizeBooking c now (Some d) isPaid s).
Proof.
  intros Hd [HI HL]. split; [by apply Inv_finalizeBooking | by apply logged_finalizeBooking].
Qed.

Lemma AInv_handlePaymentSuccess (c s : AppState) (now : Z) (paymentId : string) :
  AppView.pendingValid c → is_Some (pendingBookingDetails c) → AInv s →
  AInv (App.handlePaymentSuccess c now paymentId s).
Proof.
  intros Hc [d Hd] Hs. unfold App.handlePaymentSuccess. rewrite Hd.
  apply AInv_finalizeBooking; [by apply Hc|]. eapply AInv_frame; [|done]. frame.
Qed.

Lemma AInv_handleBookingConfirm (s : AppState) (now : Z) (d : BookingDetails) :
  JsDate.valid (BookingDetails.date d) → AInv s → AInv (App.handleBookingConfirm s now d s).
Proof.
  intros Hd [HI HL]. split; [by apply Inv_handleBookingConfirm|].
  unfold App.handleBookingConfirm. destruct (bookingToReschedule s) as [r|].
  - unfold logged in *. cbn. by rewrite rescheduleBookings_length.
  - destruct (therapistToBook s) as [t|] eqn:Et; [|done].
    destruct (currentUser s) as [u|] eqn:Eu; [|done].
    destruct (App.onlinePaymentAvailable t).
    + unfold logged in *. etrans; [|exact HL].
      match goal with
      | |- context [effects (?f s)] =>
          change (effects (f s)) with (effects s ++ [StartPaymentTimer])
      end.
      rewrite List.filter_app, length_app. cbn. lia.
    + by apply logged_finalizeBooking.
Qed.

(** Every event of the page keeps the bookings in order with valid
    dates, the pending date valid, and one row of the log per booking;
    the details the booking form hands over are valid because the form
    has validated them. *)
Theorem dispatch_AInv (e : Event) (s : AppState) :
  eventValid e → AInv s → AInv (dispatch e s s).
Proof.
  intros He Hs. destruct (changesBookings e) eqn:E.
  - destruct e; try done; cbn.
    + by apply AInv_handleBookingConfirm.
    + destruct (bookingToCancel s) as [b|]; [|done]. destruct Hs as [HI HL].
      split; [by apply Inv_cancel|]. unfold App.handleConfirmCancelBooking, logged in *.
      destruct (is_some _); cbn; [by rewrite cancelBookings_length | done].
    + destruct (bookingForIntake s) as [b|]; [|done]. destruct Hs as [HI HL].
      split; [by apply Inv_intake|]. etrans; [exact HL|]. symmetry.
      apply (mapWhereId_length (Booking.id b) (withIntakeForm formData)).
  - eapply AInv_frame; [|done]. by apply dispatch_Frame.
Qed.

(** The events of the page other than the confirmation of the booking
    form keep the number of bookings. *)
Lemma dispatch_length (e : Event) (c s : AppState) :
  (∀ now details, e ≠ BookingConfirm now details) →
  length (bookings (dispatch e c s)) = length (bookings s).
Proof.
  intros He. destruct (changesBookings e) eqn:E.
  - destruct e; try done; cbn.
    + by destruct (He now details).
    + destruct (bookingToCancel c) as [b|]; [|done]. unfold App.handleConfirmCancelBooking.
      destruct (is_some _); cbn; [by rewrite cancelBookings_length | done].
    + destruct (bookingForIntake c) as [b|]; [|done].
      apply (mapWhereId_length (Booking.id b) (withIntakeForm formData)).
  - by destruct (dispatch_Frame e c s E) as [-> _].
Qed.

Lemma onAuthStateChange_Frame ev session profiles inserted (s : AppState) :
  Frame s (App.onAuthStateChange ev session profiles inserted s).
Proof.
  unfold App.onAuthStateChange, App.closeOnSignIn. destruct ev; cbn; frame.
Qed.

End WithSortLemmas.

End Events.
