(* ===== verification/AppPages.v ===== *)
(** * AppPages: the pages of the directory as [App] mounts them
    ([src/App.tsx], the JSX of [main] and of the footer;
    [src/components/Footer.tsx])

    [Footer] is the footer with its links.  [Pages] binds the callbacks
    of the pages modelled on their own ([AdminPage], [HeroSection],
    [TherapistProfile], [TherapistRegistrationPage], [AuthModal] and the
    view of an intake form) to the events of [AppEvents], the way the
    JSX of [App] passes handlers down, and proves what the pages and
    the handlers do together: every callback a page can call is one
    [App] offers; a therapist registered through the page is booked
    without payment and its profile renders; a popular search of the
    hero form lists the therapists of the specialty; a submitted intake
    form is the one shown afterwards. *)

From Stdlib Require Import ZArith QArith Lia.
From stdpp Require Import base tactics option list strings pretty.
From S2P Require Import Prelude Types JsArray JsString JsTime BookingList ProfilePage.
From S2P Require Import TherapistViews IntakeWizard.
From S2P Require Import DirectoryPages TherapistRegistration BookingModal AppState AuthForms.
From S2P Require Import Widgets AppHandlers AppView AppEvents.

#[local] Open Scope Z_scope.
#[local] Open Scope js_scope.

Module Footer.

(** ** Definitions *)

Inductive Callback := onFindTherapistClick | onAboutClick | onForProfessionalsClick.

#[global] Instance Callback_eq_dec : EqDecision Callback.
Proof. solve_decision. Defined.

(** A column of the footer: its heading and its links, each with the
    callback its click calls. *)
Record Column := mkColumn {
  heading : string;
  links : list (string * Callback);
}.

Definition render : list Column :=
  [ mkColumn "For Patients"
      [("Find a Therapist", onFindTherapistClick); ("How it Works", onAboutClick);
       ("FAQs", onAboutClick)];
    mkColumn "For Therapists"
      [("Join as a Professional", onForProfessionalsClick);
       ("Pricing", onForProfessionalsClick); ("Benefits", onForProfessionalsClick)];
    mkColumn "Company"
      [("About Us", onAboutClick); ("Contact", onAboutClick); ("Privacy Policy", onAboutClick)] ].

(** The callbacks the footer can call. *)
Definition callbacks : list Callback := render ≫= (λ c, snd <$> links c).

(** ** Lemmas *)

(** Every callback of the props is behind a link. *)
Lemma callbacks_all (cb : Callback) : cb ∈ callbacks.
Proof. destruct cb; cbn; rewrite !elem_of_cons; tauto. Qed.

End Footer.

Module Pages.
Import Events.

(** ** Definitions: the props [App] passes *)

(** [<Footer onFindTherapistClick={handleGoHome} onAboutClick={handleShowAboutPage}
    onForProfessionalsClick={handleShowTherapistRegistration} />] *)
Definition footerEvent (cb : Footer.Callback) : Event :=
  match cb with
  | Footer.onFindTherapistClick => LogoClick
  | Footer.onAboutClick => AboutClick
  | Footer.onForProfessionalsClick => ForProfessionalsClick
  end.

(** [<AdminPage onAddTherapist={handleShowTherapistRegistration}
    onEditTherapist={handleEditTherapist} onDeleteTherapist={handleDeleteTherapist} />] *)
Definition adminEvent (cb : AdminPage.Callback) : Event :=
  match cb with
  | AdminPage.onAddTherapist => AddTherapist
  | AdminPage.onEditTherapist t => EditTherapist t
  | AdminPage.onDeleteTherapist t => DeleteTherapist t
  end.

(** [<HeroSection onSearch={handleSearch} />] *)
Definition heroEvent (q : HeroSection.Query) : Event := Search q.1 q.2.

(** [<TherapistProfile therapist={selectedTherapist} onBack={handleGoHome}
    onBookNow={() => handleOpenBookingModal(selectedTherapist)} />]: the
    events of the page that call a callback. *)
Definition profileEvent (selectedTherapist : Therapist) (e : TherapistProfile.Event)
    : option Event :=
  match e with
  | TherapistProfile.Back => Some ProfileBack
  | TherapistProfile.BookNow => Some (BookNow selectedTherapist)
  | _ => None
  end.

(** The props of [<TherapistRegistrationPage ... />]: [onProfileUpdate]
    is always passed. *)
Definition registrationProps (s : AppState) : option TherapistRegistrationPage.Props :=
  therapistToEdit ← AppView.registrationSection s;
  Some (TherapistRegistrationPage.mkProps therapistToEdit true).

(** [onProfileCreate={handleProfileCreate} onProfileUpdate={handleProfileUpdate}
    onBack={handleGoHome}]; [now] is the [Date.now()] of
    [handleProfileCreate]. *)
Definition registrationEvent (now : Z) (cb : TherapistRegistrationPage.Callback) : Event :=
  match cb with
  | TherapistRegistrationPage.onProfileCreate t => ProfileCreate now t
  | TherapistRegistrationPage.onProfileUpdate t => ProfileUpdate t
  | TherapistRegistrationPage.onBack => RegistrationBack
  end.

(** [{isAuthModalOpen && <AuthModal initialMode={authMode} onClose={handleCloseAuthModal} />}]:
    the modal as it mounts. *)
Definition authModal (s : AppState) : option AuthModal.World :=
  if isAuthModalOpen s then Some (AuthModal.start (authMode s)) else None.

(** [{isViewIntakeModalOpen && intakeDataToView && <ViewIntakeFormModal ... />}]:
    the rows shown. *)
Definition viewIntakeRows (s : AppState) : list ViewIntakeFormModal.Row :=
  ViewIntakeFormModal.rows (AppView.viewIntakeModalProps s).

(** An event of the modal under [App]: the modal takes it, and [App]
    runs [handleCloseAuthModal] when the modal has called [onClose]. *)
Definition modalStep (e : AuthModal.Event) (x : AppState * AuthModal.World)
    : option (AppState * AuthModal.World) :=
  w' ← AuthModal.step e x.2;
  Some (if (AuthModal.closed x.2 <? AuthModal.closed w')%nat
        then App.handleCloseAuthModal x.1 else x.1, w').

(** A sign-in the service accepts, as [App] sees it: [onClose] of the
    modal and the listener of the session, in the two orders. *)
Definition closeThenListen (u : App.SessionUser) (profiles inserted : App.ProfileResult)
    : Action AppState :=
  App.handleCloseAuthModal ;; App.onAuthStateChange App.SIGNED_IN (Some u) profiles inserted.

Definition listenThenClose (u : App.SessionUser) (profiles inserted : App.ProfileResult)
    : Action AppState :=
  App.onAuthStateChange App.SIGNED_IN (Some u) profiles inserted ;; App.handleCloseAuthModal.

(** A query that answers without an error and without a row. *)
Definition noRow (r : App.ProfileResult) : Prop :=
  App.profile_error r = None ∧
  (App.profile_data r = None ∨ App.profile_data r = Some []).

Section WithSort.
Context `{JS : JsSort} `{LT : LocalTime}.

(** A callback of the registration page reaches [App]: the state after
    the handler bound to it, run from the state [c] of the render. *)
Definition forward (now : Z) (cb : option TherapistRegistrationPage.Callback)
    (c : AppState) : Action AppState :=
  match cb with
  | Some cb => dispatch (registrationEvent now cb) c
  | None => skip
  end.

End WithSort.

(** ** Lemmas *)
Lemma withId_clinic (tid : Z) (t : Therapist) :
  Therapist.clinic (App.withId tid t) = Therapist.clinic t.
Proof. by destruct t. Qed.

Lemma withId_experience (tid : Z) (t : Therapist) :
  TherapistProfile.experienceLine (App.withId tid t) = TherapistProfile.experienceLine t.
Proof. by destruct t. Qed.

Lemma registrationProps_Some (s : AppState) (props : TherapistRegistrationPage.Props) :
  registrationProps s = Some props →
  AppView.registrationSection s = Some (TherapistRegistrationPage.therapistToEdit props) ∧
  TherapistRegistrationPage.hasProfileUpdate props = true.
Proof.
  unfold registrationProps. destruct (AppView.registrationSection s); [|done].
  by intros [= <-].
Qed.

(** ** Lemmas: signing in *)

(** [onClose] of the modal and the listener of [App] come in any
    order: the state after both is the same, and the modal is
    unmounted. *)
Theorem sign_in_order (u : App.SessionUser) (profiles inserted : App.ProfileResult)
    (s : AppState) :
  closeThenListen u profiles inserted s = listenThenClose u profiles inserted s ∧
  authModal (closeThenListen u profiles inserted s) = None.
Proof.
  unfold closeThenListen, listenThenClose, authModal, App.onAuthStateChange, App.closeOnSignIn.
  cbn. repeat case_match; done.
Qed.

(** Closing the modal commutes with the listener of the session,
    whatever the event and the answers of its queries. *)
Theorem close_commutes_with_listener (ev : App.AuthEvent) (session : option App.SessionUser)
    (profiles inserted : App.ProfileResult) :
  commute App.handleCloseAuthModal (App.onAuthStateChange ev session profiles inserted).
Proof.
  intros s. unfold andThen, App.onAuthStateChange, App.closeOnSignIn.
  repeat case_match; try done; by destruct ev.
Qed.

(** When the account has no profile and the insert of one answers
    without a row, a sign-in the service has accepted closes the modal
    and leaves [App] without a user. *)
Theorem sign_in_without_row (u : App.SessionUser) (profiles inserted : App.ProfileResult)
    (s : AppState) :
  noRow profiles → noRow inserted →
  let s' := closeThenListen u profiles inserted s in
  currentUser s' = currentUser s ∧ isAuthModalOpen s' = false ∧ page s' = page s.
Proof.
  intros [Hp Hd] [Hi Hn].
  unfold closeThenListen, App.onAuthStateChange. cbn. rewrite Hp, Hi.
  destruct Hd as [-> | ->], Hn as [-> | ->]; done.
Qed.

(** The modal closes [App]'s side only through [onClose]: an event of
    the modal leaves the state of [App] as it is or closes the modal,
    and the answer to a sign-in that succeeds, in a mounted modal,
    closes it. *)
Theorem modalStep_spec (e : AuthModal.Event) (s s' : AppState) (w w' : AuthModal.World) :
  modalStep e (s, w) = Some (s', w') →
  (s' = s ∨ s' = App.handleCloseAuthModal s) ∧
  (∀ k present, e = AuthModal.Settle k (AuthModal.Succeeded present) →
     AuthModal.waiting w !! k = Some AuthModal.AwaitSignIn → AuthModal.isMounted w = true →
     isAuthModalOpen s' = false).
Proof.
  unfold modalStep. cbn. destruct (AuthModal.step e w) as [w1|] eqn:E; [|done]. cbn.
  intros [= <- <-]. split; [case_match; auto|].
  intros k present -> Hk Hm. unfold AuthModal.step in E.
  destruct (AuthModal.offered w _); [|done]. cbn in E. rewrite Hk in E. cbn in E.
  injection E as <-. cbn. rewrite Hm. cbn.
  by rewrite Nat.leb_refl.
Qed.

Section WithSortLemmas.
Context `{JS : JsSort} `{LT : LocalTime}.

(** Every link of the footer is bound to a handler, and the footer is
    always on the page. *)
Theorem footer_offered (today : Z) (s : AppState) (cb : Footer.Callback) :
  cb ∈ Footer.callbacks ∧ offered today s (footerEvent cb) = true.
Proof.
  split; [apply Footer.callbacks_all|]. destruct cb; cbn; by rewrite Header.offers_spec.
Qed.

(** The callbacks the admin page can call are the events [App] offers
    on it: adding a therapist, and editing and deleting the therapists
    of the directory. *)
Theorem admin_callbacks_offered (today : Z) (s : AppState) (ts : list Therapist)
    (cb : AdminPage.Callback) :
  AppView.adminSection s = Some ts →
  (cb ∈ AdminPage.callbacks (AdminPage.render ts) ↔ offered today s (adminEvent cb) = true).
Proof.
  intros Ha. rewrite AdminPage.render_callbacks. unfold AppView.adminSection in Ha.
  destruct cb as [|t|t]; cbn; unfold AppView.adminSection;
    destruct (AppView.onPageAs _ _ s); simplify_eq/=; try done;
    by rewrite bool_decide_eq_true.
Qed.

(** The callbacks of the profile page are events [App] offers while a
    therapist is selected. *)
Theorem profile_events_offered (today : Z) (s : AppState) (t : Therapist)
    (e : TherapistProfile.Event) (ev : Event) :
  selectedTherapist s = Some t → profileEvent t e = Some ev → offered today s ev = true.
Proof.
  intros Hs. destruct e; intros [= <-]; cbn; rewrite Hs; [done|].
  rewrite bool_decide_true by done. apply orb_true_r.
Qed.

(** The therapists listed after a query of the hero form are those of
    the directory that match its term, if it has one, and have its
    specialty, if it has one. *)
Theorem hero_search_results (c s : AppState) (q : HeroSection.Query) (t : Therapist) :
  t ∈ filteredTherapists (dispatch (heroEvent q) c s) ↔
  t ∈ therapists c ∧
  (toLowerCase q.1 = "" ∨ App.matchesTerm (toLowerCase q.1) t = true) ∧
  (q.2 = "" ∨ App.hasSpecialty q.2 t = true).
Proof. apply App.searchResults_elem_of. Qed.

(** A popular search that is a specialty lists every therapist of the
    specialty, whatever location the form shows. *)
Theorem popular_specialty_results (SPECIALTIES : list string) (term : string)
    (st : HeroSection.State) (c s : AppState) (t : Therapist) :
  term ∈ SPECIALTIES → term ≠ "" →
  ∃ q, (HeroSection.popularClick SPECIALTIES term st).2 = Some q ∧
    (t ∈ filteredTherapists (dispatch (heroEvent q) c s) ↔
     t ∈ therapists c ∧ App.hasSpecialty term t = true).
Proof.
  intros Ht Hne. unfold HeroSection.popularClick. rewrite bool_decide_true by done.
  eexists. split; [done|]. rewrite hero_search_results. cbn. tauto.
Qed.

(** C24: The intake form submitted for a booking of the list is the form
    shown when the booking's form is viewed afterwards. *)
Theorem submitted_form_shown (c s : AppState) (b : Booking) (f : IntakeForm) :
  bookingForIntake c = Some b → is_Some (findBooking (Booking.id b) (bookings s)) →
  let s1 := dispatch (IntakeSubmit f) c s in
  let s2 := dispatch (CardClick BookingCard.ViewForm (Booking.id b)) s1 s1 in
  AppView.viewIntakeModalProps s2 = Some f ∧
  viewIntakeRows s2 = ViewIntakeFormModal.rows (Some f).
Proof.
  intros Hb Hf. cbn [dispatch]. rewrite Hb. unfold viewIntakeRows, App.handleViewIntakeForm.
  change (bookings (App.handleIntakeFormSubmit (Booking.id b) f s))
    with (attachIntakeForm (Booking.id b) f (bookings s)).
  by rewrite (attachIntakeForm_find _ f _ Hf).
Qed.

(** The modal [App] mounts is a modal of [AuthModal], and closing it
    unmounts it. *)
Theorem authModal_mounts (c s : AppState) (w : AuthModal.World) :
  authModal s = Some w →
  AuthModal.reachable (authMode s) w ∧ authModal (dispatch AuthClose c s) = None.
Proof.
  unfold authModal. destruct (isAuthModalOpen s); [|done]. intros [= <-].
  split; [constructor | done].
Qed.

End WithSortLemmas.

Section Registration.
Context `{JS : JsSort} `{LT : LocalTime}.
Context (SPECIALTIES : list string) (createObjectURL : TherapistRegistrationPage.File → string).

#[local] Abbreviation step := (TherapistRegistrationPage.step SPECIALTIES createObjectURL).

(** The callbacks the registration page calls are events [App] offers
    while it shows the page with these props. *)
Theorem registration_callbacks_offered (today now : Z) (s : AppState)
    (props : TherapistRegistrationPage.Props) (w w' : TherapistRegistrationPage.World)
    (e : TherapistRegistrationPage.Event) (cb : TherapistRegistrationPage.Callback) :
  registrationProps s = Some props → TherapistRegistrationPage.Inv props w →
  step props e w = Some (w', Some cb) →
  offered today s (registrationEvent now cb) = true.
Proof.
  intros [Hs Hu]%registrationProps_Some Hi Hst.
  destruct (TherapistRegistrationPage.step_callback _ _ _ _ _ _ _ Hi Hst)
    as [->|(sub & now' & urls & t & _ & _ & Ht & -> & _)]; cbn; [by rewrite Hs|].
  unfold TherapistRegistrationPage.submitCallback, TherapistRegistrationPage.isEditMode.
  unfold TherapistRegistrationPage.therapistData in Ht. rewrite Hu.
  destruct (TherapistRegistrationPage.therapistToEdit props) as [t0|]; cbn; rewrite Hs.
  - destruct (Therapist.clinic t0); simplify_eq/=. by rewrite bool_decide_true.
  - by rewrite bool_decide_true.
Qed.

(** C15: A page that registers a new therapist hands [App] a therapist of a
    submitted form; [App] appends it to the directory and goes home.
    The therapist is booked without payment, and its profile page
    renders. *)
Theorem registration_creates (now : Z) (c s : AppState)
    (props : TherapistRegistrationPage.Props) (w w' : TherapistRegistrationPage.World)
    (e : TherapistRegistrationPage.Event) (cb : TherapistRegistrationPage.Callback) :
  TherapistRegistrationPage.therapistToEdit props = None →
  TherapistRegistrationPage.Inv props w →
  step props e w = Some (w', Some cb) → cb ≠ TherapistRegistrationPage.onBack →
  let s' := forward now (Some cb) c s in
  ∃ t, therapists s' = therapists s ++ [t] ∧ page s' = Page.browse ∧
       Therapist.id t = now ∧ Therapist.fee t = 500 ∧
       BookingModal.onlinePaymentAvailable t = false ∧
       ∀ st, is_Some (TherapistProfile.render t st).
Proof.
  intros He Hi Hst.
  destruct (TherapistRegistrationPage.step_callback _ _ _ _ _ _ _ Hi Hst)
    as [->|(sub & now' & urls & t & _ & _ & Ht & -> & _)]; [done|]. intros _.
  unfold TherapistRegistrationPage.submitCallback, TherapistRegistrationPage.isEditMode.
  rewrite He. cbn. exists (App.withId now t).
  destruct (TherapistRegistrationPage.therapistData_create props now' sub urls He)
    as (t' & cl & Ht' & Hc & _ & Hf & _ & _ & Hp & _).
  rewrite Ht in Ht'. injection Ht' as <-.
  split_and!; try done.
  - unfold BookingModal.onlinePaymentAvailable. rewrite withId_clinic, Hc, Hp. done.
  - intros st. apply not_eq_None_Some. rewrite TherapistProfile.render_None.
    intros (cl' & Hc' & Hr). rewrite withId_clinic, Hc in Hc'. injection Hc' as <-.
    unfold TherapistRegistrationPage.therapistData in Ht. rewrite He in Ht.
    by simplify_eq/=.
Qed.

(** A page that edits a therapist hands [App] a therapist with the
    same identifier, which takes the place of every therapist with that
    identifier in the directory. *)
Theorem registration_updates (now : Z) (c s : AppState)
    (props : TherapistRegistrationPage.Props) (w w' : TherapistRegistrationPage.World)
    (e : TherapistRegistrationPage.Event) (cb : TherapistRegistrationPage.Callback)
    (t0 : Therapist) :
  registrationProps c = Some props →
  TherapistRegistrationPage.therapistToEdit props = Some t0 →
  TherapistRegistrationPage.Inv props w →
  step props e w = Some (w', Some cb) → cb ≠ TherapistRegistrationPage.onBack →
  let s' := forward now (Some cb) c s in
  ∃ t, therapists s' = App.replaceTherapist t (therapists s) ∧ page s' = Page.browse ∧
       Therapist.id t = Therapist.id t0 ∧ Therapist.email t = None ∧
       BookingModal.onlinePaymentAvailable t = BookingModal.onlinePaymentAvailable t0.
Proof.
  intros [_ Hu]%registrationProps_Some He Hi Hst.
  destruct (TherapistRegistrationPage.step_callback _ _ _ _ _ _ _ Hi Hst)
    as [->|(sub & now' & urls & t & _ & _ & Ht & -> & _)]; [done|]. intros _.
  unfold TherapistRegistrationPage.submitCallback, TherapistRegistrationPage.isEditMode.
  rewrite He, Hu. cbn. exists t.
  destruct (TherapistRegistrationPage.inv_clinic _ _ Hi t0 He) as [c0 Hc0].
  destruct (TherapistRegistrationPage.therapistData_edit props now' sub urls t0 c0 He Hc0)
    as (t' & cl & Ht' & Hc & Hid & _ & _ & _ & _ & Hm & _ & Hp & _).
  rewrite Ht in Ht'. injection Ht' as <-.
  split_and!; try done.
  unfold BookingModal.onlinePaymentAvailable. by rewrite Hc, Hc0, Hp.
Qed.

(** C23: Going back while the photos of a submission are read does not stop
    the submission: the page, though [App] shows it no longer, still
    hands the therapist over, and [App] adds it to the directory. *)
Theorem created_after_back (today now now' : Z) (s : AppState)
    (props : TherapistRegistrationPage.Props) (w : TherapistRegistrationPage.World)
    (sub : TherapistRegistrationPage.Submission) (urls : list string) :
  TherapistRegistrationPage.therapistToEdit props = None →
  TherapistRegistrationPage.waiting w = Some sub →
  length urls = length (TherapistRegistrationPage.sub_photos sub) →
  step props TherapistRegistrationPage.Back w = Some (w, Some TherapistRegistrationPage.onBack) ∧
  let s1 := forward now (Some TherapistRegistrationPage.onBack) s s in
  registrationProps s1 = None ∧
  ∃ w' t, step props (TherapistRegistrationPage.PhotosRead now (Some urls)) w =
            Some (w', Some (TherapistRegistrationPage.onProfileCreate t)) ∧
    offered today s1 (registrationEvent now' (TherapistRegistrationPage.onProfileCreate t)) = false ∧
    therapists (forward now' (Some (TherapistRegistrationPage.onProfileCreate t)) s1 s1) =
      therapists s ++ [App.withId now' t].
Proof.
  intros He Hw Hl. split; [done|]. cbn. split; [done|].
  destruct (TherapistRegistrationPage.therapistData_create props now sub urls He)
    as (t & cl & Ht & _).
  eexists _, t. split; [|done].
  rewrite (TherapistRegistrationPage.step_PhotosRead _ _ props w sub now urls t Hw Hl Ht).
  unfold TherapistRegistrationPage.submitCallback, TherapistRegistrationPage.isEditMode.
  by rewrite He.
Qed.

End Registration.


End Pages.
