(* ===== verification/AuthFlow.v ===== *)
(** * AuthFlow: signing in, from the modal to the listener of [App]
    ([src/components/AuthModal.tsx], [src/App.tsx])

    [AuthModal] calls the authentication service and waits for the
    answer; the service, when a call changes the session, notifies the
    listener [App] registered with [onAuthStateChange].  The modal and
    [App] share nothing but the prop [initialMode], the callback
    [onClose] and the service.  The class [AuthService] states what the
    development assumes of the service: which calls notify the listener
    and when.  A [World] is the state of [App], the modals [App] has
    mounted so far, each with the calls it has in flight, and the state
    of the service; [step] runs a click on the header, an event of the
    mounted modal, or the answer of the service to a call in flight.
    With an answer the modal resumes and the listener runs; the two
    commute ([onClose_listen_commute]), so one order is modelled.  The
    session changes only through the calls of the modals here; the
    changes that come from elsewhere are labels of [AppFlow.v].  The
    theorems hold for every service of the class; [tableService] is
    one, with a table of accounts. *)

From Stdlib Require Import ZArith Lia.
From stdpp Require Import base tactics option list strings.
From S2P Require Import Prelude Types JsString AppState AuthForms Widgets AppHandlers AppView.
From S2P Require Import AppEvents AppPages.

#[local] Open Scope Z_scope.
#[local] Open Scope js_scope.

Module AuthFlow.

#[local] Set Primitive Projections.

(** ** Definitions: the service *)

(** The reply of the service to a call: how the promise ends, and the
    event and session the listener is called with, if it is. *)
Record Reply := mkReply {
  outcome : AuthModal.Outcome;
  notified : option (App.AuthEvent * option App.SessionUser);
}.

(** The calls of the email form that open a session. *)
Definition byEmail (c : AuthModal.Call) : bool :=
  match c with
  | AuthModal.SignInWithPassword _ _ | AuthModal.SignUp _ _ _ => true
  | _ => false
  end.

Definition succeeded (o : AuthModal.Outcome) : bool :=
  match o with AuthModal.Succeeded _ => true | _ => false end.

(** The data of the answer has a session. *)
Definition withSession (o : AuthModal.Outcome) : bool :=
  match o with AuthModal.Succeeded present => present | _ => false end.

(** The calls that send a code or a link. *)
Definition sends (c : AuthModal.Call) : bool :=
  match c with
  | AuthModal.SignInWithOtp _ | AuthModal.ResetPasswordForEmail _ => true
  | _ => false
  end.

(** What the modal and [App] rely on: a call that fails notifies
    nobody; sending a code or a reset link changes no session; a
    sign-in with a password that succeeds, and a sign-up that answers
    with a session, notify the listener of [SIGNED_IN] with the user; a
    sign-up that answers without one notifies nobody. *)
Class AuthService (S : Type) := {
  reply : AuthModal.Call → S → S * Reply;
  reply_failed c st :
    succeeded (outcome (reply c st).2) = false → notified (reply c st).2 = None;
  reply_sent c st : sends c = true → notified (reply c st).2 = None;
  reply_sign_in email password st :
    succeeded (outcome (reply (AuthModal.SignInWithPassword email password) st).2) = true →
    ∃ u, notified (reply (AuthModal.SignInWithPassword email password) st).2 =
           Some (App.SIGNED_IN, Some u);
  reply_sign_up email password name st :
    let a := (reply (AuthModal.SignUp email password name) st).2 in
    succeeded (outcome a) = true →
    if withSession (outcome a) then ∃ u, notified a = Some (App.SIGNED_IN, Some u)
    else notified a = None;
}.

(** ** Definitions: the modals under [App] *)

(** A modal [App] has mounted, with the calls it has in flight, in the
    order of the handlers that wait for them. *)
Record Instance := mkInstance {
  modal : AuthModal.World;
  flying : list AuthModal.Call;
}.

Record World (S : Type) := mkWorld {
  app : AppState;
  instances : list Instance;   (* the last one mounted first *)
  service : S;
}.
Arguments mkWorld {S} app instances service.
Arguments app {S} w.
Arguments instances {S} w.
Arguments service {S} w.

Inductive Label :=
| Open (m : AuthMode)                 (* Login or Sign Up of the header *)
| Modal (e : AuthModal.Event)         (* the user, or the timer, on the mounted modal *)
| Answer (i k : nat) (profiles inserted : App.ProfileResult).
    (* the service answers call [k] of modal [i]; the answers of the
       two queries of the listener *)

(** The events of the modal that are not the parent's or the
    service's. *)
Definition ownEvent (e : AuthModal.Event) : bool :=
  match e with
  | AuthModal.Settle _ _ | AuthModal.Unmount | AuthModal.InitialMode _ => false
  | _ => true
  end.

(** An event on a modal: the modal after it, with its calls in flight,
    and whether it has called [onClose]. *)
Definition advance (e : AuthModal.Event) (x : Instance) : option (Instance * bool) :=
  w' ← AuthModal.step e (modal x);
  Some (mkInstance w'
          (AuthModal.kept e (flying x) ++
           from_option (λ c, [c.1]) [] (AuthModal.added e (modal x))),
        (AuthModal.closed (modal x) <? AuthModal.closed w')%nat).

(** [onClose={handleCloseAuthModal}] *)
Definition onClose (called : bool) : Action AppState :=
  when called App.handleCloseAuthModal.

(** The parent acts on the mounted modal. *)
Definition parent (e : AuthModal.Event) (x : Instance) : Instance :=
  mkInstance (default (modal x) (AuthModal.step e (modal x))) (flying x).

(** [{isAuthModalOpen && <AuthModal initialMode={authMode} ... />}]
    after a render of [App]: the modal is unmounted, mounted anew, or
    given the new prop. *)
Definition sync (a : AppState) (xs : list Instance) : list Instance :=
  let fresh := mkInstance (AuthModal.start (authMode a)) [] in
  match xs with
  | x :: rest =>
      if AuthModal.isMounted (modal x) then
        if isAuthModalOpen a then
          if decide (authMode a = AuthModal.initialMode (modal x)) then xs
          else parent (AuthModal.InitialMode (authMode a)) x :: rest
        else parent AuthModal.Unmount x :: rest
      else if isAuthModalOpen a then fresh :: xs else xs
  | [] => if isAuthModalOpen a then [fresh] else []
  end.

(** The click on Login or Sign Up. *)
Definition open (m : AuthMode) : Action AppState :=
  match m with
  | AuthMode.login => App.handleOpenLoginModal
  | AuthMode.signup => App.handleOpenSignUpModal
  end.

(** The listener, for the notification of an answer. *)
Definition listen (n : option (App.AuthEvent * option App.SessionUser))
    (profiles inserted : App.ProfileResult) : Action AppState :=
  match n with
  | Some (ev, session) => App.onAuthStateChange ev session profiles inserted
  | None => skip
  end.

Section WithService.
Context {S : Type} `{AuthService S}.

(** One step; [None] when the control is not there or nothing is in
    flight at that place. *)
Definition step (l : Label) (w : World S) : option (World S) :=
  match l with
  | Open m =>
      if negb (Header.offers (currentUser (app w)) Header.onLoginClick) then None else
      let a := open m (app w) in
      Some (mkWorld a (sync a (instances w)) (service w))
  | Modal e =>
      if negb (ownEvent e) then None else
      x ← head (instances w);
      '(x', called) ← advance e x;
      let a := onClose called (app w) in
      Some (mkWorld a (sync a (x' :: tail (instances w))) (service w))
  | Answer i k profiles inserted =>
      x ← instances w !! i;
      c ← flying x !! k;
      let r := reply c (service w) in
      '(x', called) ← advance (AuthModal.Settle k (outcome r.2)) x;
      let a := listen (notified r.2) profiles inserted (onClose called (app w)) in
      Some (mkWorld a (sync a (<[i := x']> (instances w))) r.1)
  end.

(** The worlds reached from the mount of [App] with the service in the
    state [st]. *)
Inductive reachable (st : S) : World S → Prop :=
| reachable_mount : reachable st (mkWorld initial [] st)
| reachable_step w l w' : reachable st w → step l w = Some w' → reachable st w'.

Definition run (ls : list Label) (w : World S) : option (World S) := runs (flip step) w ls.

End WithService.

(** ** Definitions: the invariant *)

(** A modal of the list is one [AuthModal] reaches, and its calls in
    flight are those its handlers wait for, in order. *)
Record Sound (x : Instance) : Prop := {
  sound_reachable : ∃ m, AuthModal.reachable m (modal x);
  sound_flying : Forall2 (λ c p, AuthModal.fits c p = true) (flying x)
                   (AuthModal.waiting (modal x));
}.

(** The first modal of the list is mounted exactly when [App] shows
    the modal, with the mode of [App] as its prop; the others are
    unmounted. *)
Definition Mounted (a : AppState) (xs : list Instance) : Prop :=
  match xs with
  | x :: rest =>
      AuthModal.isMounted (modal x) = isAuthModalOpen a ∧
      (isAuthModalOpen a = true → AuthModal.initialMode (modal x) = authMode a) ∧
      Forall (λ y, AuthModal.isMounted (modal y) = false) rest
  | [] => isAuthModalOpen a = false
  end.

Record Inv {S : Type} (w : World S) : Prop := {
  inv_sound : Forall Sound (instances w);
  inv_mounted : Mounted (app w) (instances w);
}.

(** The login form of a mounted modal is filled in with an address and
    a password, and nothing is in flight. *)
Record Ready (x : Instance) (email password : string) : Prop := {
  ready_mounted : AuthModal.isMounted (modal x) = true;
  ready_mode : AuthModal.mode (AuthModal.state (modal x)) = AuthModal.Mode.login;
  ready_method : AuthModal.authMethod (AuthModal.state (modal x)) = AuthModal.Method.email;
  ready_email : AuthModal.email (AuthModal.state (modal x)) = email;
  ready_password : AuthModal.password (AuthModal.state (modal x)) = password;
  ready_filled : email ≠ "" ∧ password ≠ "";
  ready_idle : AuthModal.loading (AuthModal.state (modal x)) = false ∧
               AuthModal.authMessage (AuthModal.state (modal x)) = "";
  ready_waiting : AuthModal.waiting (modal x) = [];
}.

(** The modal while the sign-in of the form is in flight. *)
Definition signingIn (x : Instance) (email password : string) : Instance :=
  mkInstance (AuthModal.started (modal x) (AuthModal.submit (AuthModal.state (modal x))))
    [AuthModal.SignInWithPassword (trim email) password].

(** ** Definitions: a service with a table of accounts *)

Record Account := mkAccount {
  acc_email : string;
  acc_password : string;
  acc_user : App.SessionUser;
  acc_confirmed : bool;
}.

Definition findAccount (email password : string) (t : list Account) : option Account :=
  List.find (λ a, String.eqb (acc_email a) email && String.eqb (acc_password a) password) t.

Definition refused : Reply := mkReply (AuthModal.Failed "Invalid login credentials") None.

(** Sign-in needs a confirmed account; sign-up makes an account that is
    not confirmed and answers without a session; codes and reset links
    are sent and change nothing. *)
Definition tableAnswer (c : AuthModal.Call) (t : list Account) : list Account * Reply :=
  match c with
  | AuthModal.SignInWithPassword email password =>
      match findAccount email password t with
      | Some a =>
          if acc_confirmed a
          then (t, mkReply (AuthModal.Succeeded true) (Some (App.SIGNED_IN, Some (acc_user a))))
          else (t, mkReply (AuthModal.Failed "Email not confirmed") None)
      | None => (t, refused)
      end
  | AuthModal.SignUp email password name =>
      (t ++ [mkAccount email password
               {| App.su_id := email; App.su_email := Some email; App.su_phone := None;
                  App.su_full_name := Some name |} false],
       mkReply (AuthModal.Succeeded false) None)
  | AuthModal.VerifyOtp _ _ => (t, mkReply (AuthModal.Failed "Token has expired or is invalid") None)
  | AuthModal.UpdateUser _ => (t, mkReply (AuthModal.Failed "Auth session missing!") None)
  | AuthModal.SignInWithOtp _ | AuthModal.ResetPasswordForEmail _ =>
      (t, mkReply (AuthModal.Succeeded false) None)
  end.

(** ** Lemmas: the table of accounts is a service *)
Lemma tableAnswer_failed (c : AuthModal.Call) (t : list Account) :
  succeeded (outcome (tableAnswer c t).2) = false → notified (tableAnswer c t).2 = None.
Proof. destruct c; cbn; repeat case_match; done. Qed.

Lemma tableAnswer_sent (c : AuthModal.Call) (t : list Account) :
  sends c = true → notified (tableAnswer c t).2 = None.
Proof. by destruct c. Qed.

Lemma tableAnswer_sign_in (email password : string) (t : list Account) :
  succeeded (outcome (tableAnswer (AuthModal.SignInWithPassword email password) t).2) = true →
  ∃ u, notified (tableAnswer (AuthModal.SignInWithPassword email password) t).2 =
         Some (App.SIGNED_IN, Some u).
Proof. cbn. repeat case_match; cbn; try done. eauto. Qed.

Lemma tableAnswer_sign_up (email password name : string) (t : list Account) :
  let a := (tableAnswer (AuthModal.SignUp email password name) t).2 in
  succeeded (outcome a) = true →
  if withSession (outcome a) then ∃ u, notified a = Some (App.SIGNED_IN, Some u)
  else notified a = None.
Proof. done. Qed.

#[global] Instance tableService : AuthService (list Account) := {|
  reply := tableAnswer;
  reply_failed := tableAnswer_failed;
  reply_sent := tableAnswer_sent;
  reply_sign_in := tableAnswer_sign_in;
  reply_sign_up := tableAnswer_sign_up;
|}.

(** ** Lemmas: the modals *)
Lemma fresh_Sound (m : AuthMode) : Sound (mkInstance (AuthModal.start m) []).
Proof. split; cbn; [exists m; constructor | constructor]. Qed.

Lemma Forall2_kept {A B} (R : A → B → Prop) (e : AuthModal.Event) (l : list A) (k : list B) :
  Forall2 R l k → Forall2 R (AuthModal.kept e l) (AuthModal.kept e k).
Proof. destruct e; cbn; try done. apply Forall2_delete. Qed.

(** An event of a modal keeps its calls in flight in step with the
    handlers that wait. *)
Lemma step_Sound (e : AuthModal.Event) (x : Instance) (w' : AuthModal.World) :
  Sound x → AuthModal.step e (modal x) = Some w' →
  Sound (mkInstance w'
           (AuthModal.kept e (flying x) ++
            from_option (λ c, [c.1]) [] (AuthModal.added e (modal x)))).
Proof.
  intros [[m Hr] Hf] E. split; cbn; [exists m; by eapply AuthModal.reachable_step|].
  destruct (AuthModal.step_added _ _ _ E) as [_ ->].
  apply Forall2_app; [by apply Forall2_kept|].
  destruct (AuthModal.added e (modal x)) as [[c p]|] eqn:Ea; cbn; [|constructor].
  repeat constructor. by eapply AuthModal.added_fits.
Qed.

Lemma advance_Sound (e : AuthModal.Event) (x x' : Instance) (called : bool) :
  Sound x → advance e x = Some (x', called) → Sound x'.
Proof.
  intros Hx. unfold advance. destruct (AuthModal.step e (modal x)) as [w'|] eqn:E; [|done].
  cbn. intros [= <- _]. by apply step_Sound.
Qed.

(** The parent adds no call and resumes no handler. *)
Lemma parent_Sound (e : AuthModal.Event) (x : Instance) :
  AuthModal.added e (modal x) = None → (∀ l : list AuthModal.Call, AuthModal.kept e l = l) →
  Sound x → Sound (parent e x).
Proof.
  intros Ha Hk Hx. unfold parent.
  destruct (AuthModal.step e (modal x)) as [w'|] eqn:E; cbn; [|by destruct x].
  pose proof (step_Sound e x w' Hx E) as Hs. by rewrite Ha, Hk, app_nil_r in Hs.
Qed.

Lemma sync_Sound (a : AppState) (xs : list Instance) :
  Forall Sound xs → Forall Sound (sync a xs).
Proof.
  intros Hxs. unfold sync. destruct Hxs as [|x rest Hx Hrest].
  - case_match; [|done]. constructor; [apply fresh_Sound | done].
  - repeat case_match; try (by constructor).
    + constructor; [by apply parent_Sound | done].
    + constructor; [by apply parent_Sound | done].
    + constructor; [apply fresh_Sound | by constructor].
Qed.

(** Only the parent unmounts a modal. *)
Lemma advance_isMounted (e : AuthModal.Event) (x x' : Instance) (called : bool) :
  e ≠ AuthModal.Unmount → advance e x = Some (x', called) →
  AuthModal.isMounted (modal x') = AuthModal.isMounted (modal x) ∧
  AuthModal.initialMode (modal x') =
    match e with AuthModal.InitialMode m => m | _ => AuthModal.initialMode (modal x) end.
Proof.
  intros He. unfold advance, AuthModal.step.
  destruct (AuthModal.offered (modal x) e); [|done]. cbn [negb].
  destruct e; try done; cbn; try by intros [= <- _].
  destruct (AuthModal.waiting (modal x) !! k); [|done]. cbn. by intros [= <- _].
Qed.

(** After a render of [App] the first modal is as [App] shows it. *)
Lemma sync_Mounted (a : AppState) (xs : list Instance) :
  Forall (λ y, AuthModal.isMounted (modal y) = false) (tail xs) → Mounted a (sync a xs).
Proof.
  unfold sync, Mounted, parent. destruct xs as [|x rest]; cbn [tail]; intros Hrest.
  { by destruct (isAuthModalOpen a). }
  destruct (AuthModal.isMounted (modal x)) eqn:Hm, (isAuthModalOpen a) eqn:Ho.
  - case_decide as Hd; cbn; rewrite ?Hm; [done|].
    unfold AuthModal.step. cbn. rewrite Hm, bool_decide_true by done. cbn. done.
  - cbn. unfold AuthModal.step. cbn. rewrite Hm. cbn. done.
  - cbn. split_and!; try done. by constructor.
  - done.
Qed.

Lemma Mounted_tail (a : AppState) (xs : list Instance) :
  Mounted a xs → Forall (λ y, AuthModal.isMounted (modal y) = false) (tail xs).
Proof. destruct xs; cbn; [constructor | tauto]. Qed.

(** An answer leaves the modals after the first unmounted. *)
Lemma insert_tail_unmounted (xs : list Instance) (i : nat) (x x' : Instance) :
  Forall (λ y, AuthModal.isMounted (modal y) = false) (tail xs) → xs !! i = Some x →
  AuthModal.isMounted (modal x') = AuthModal.isMounted (modal x) →
  Forall (λ y, AuthModal.isMounted (modal y) = false) (tail (<[i := x']> xs)).
Proof.
  destruct xs as [|y rest]; [done|]. destruct i as [|j]; cbn; [done|].
  intros Hrest Hj Hm. apply Forall_insert; [done|]. rewrite Hm.
  by apply (proj1 (Forall_lookup _ _) Hrest j x).
Qed.

(** A render of [App] changes nothing of the modals that are as [App]
    shows them. *)
Lemma sync_id (a : AppState) (xs : list Instance) : Mounted a xs → sync a xs = xs.
Proof.
  unfold sync, Mounted. destruct xs as [|x rest]; [by intros ->|].
  intros (Hm & Hi & _). rewrite Hm. destruct (isAuthModalOpen a); [|done].
  by rewrite decide_True by (symmetry; by apply Hi).
Qed.

Lemma Mounted_head (a : AppState) (x x' : Instance) (rest : list Instance) :
  Mounted a (x :: rest) →
  AuthModal.isMounted (modal x') = AuthModal.isMounted (modal x) →
  AuthModal.initialMode (modal x') = AuthModal.initialMode (modal x) →
  Mounted a (x' :: rest).
Proof. unfold Mounted. by intros (? & ? & ?) -> ->. Qed.

(** The submit of a filled login form puts the sign-in with a password
    in flight. *)
Lemma advance_Submit_Ready (x : Instance) (email password : string) :
  Sound x → Ready x email password →
  advance AuthModal.Submit x = Some (signingIn x email password, false).
Proof.
  intros [_ Hf] [Hmt Hmode Hmeth <- <- [He Hp] [Hl Ha] Hw].
  rewrite Hw in Hf. apply Forall2_nil_inv_r in Hf.
  unfold advance. rewrite AuthModal.step_Submit_login by done. cbn [mbind option_bind].
  unfold signingIn, AuthModal.added, AuthModal.kept.
  rewrite Hf, (AuthModal.submit_login _ Hmode Hmeth He Hp).
  do 2 f_equal. apply Nat.ltb_irrefl.
Qed.

(** The order of [onClose] and of the listener after an answer does
    not matter. *)
Lemma onClose_listen_commute (called : bool)
    (n : option (App.AuthEvent * option App.SessionUser))
    (profiles inserted : App.ProfileResult) :
  commute (listen n profiles inserted) (onClose called).
Proof.
  apply commute_when, commute_sym. destruct n as [[ev session]|]; [|apply commute_skip].
  apply Pages.close_commutes_with_listener.
Qed.

(** ** Lemmas: the worlds *)

Section WithServiceLemmas.
Context {S : Type} `{AuthService S}.

Lemma flow_Inv_mount (st : S) : Inv (mkWorld initial [] st).
Proof. split; [constructor | done]. Qed.

Lemma Inv_sync (a : AppState) (xs : list Instance) (st : S) :
  Forall Sound xs → Forall (λ y, AuthModal.isMounted (modal y) = false) (tail xs) →
  Inv (mkWorld a (sync a xs) st).
Proof. intros Hs Ht. split; cbn; [by apply sync_Sound | by apply sync_Mounted]. Qed.

Lemma step_Inv (l : Label) (w w' : World S) : Inv w → step l w = Some w' → Inv w'.
Proof.
  intros [Hs Hm%Mounted_tail]. destruct l as [m|e|i k profiles inserted]; cbn -[sync].
  - case_match; [done|]. intros [= <-]. by apply (Inv_sync _ (instances w)).
  - destruct (ownEvent e); [|done]. cbn -[sync].
    destruct (instances w) as [|x rest] eqn:Ex; [done|]. cbn -[sync].
    destruct (advance e x) as [[x' called]|] eqn:Ea; [|done]. cbn -[sync]. intros [= <-].
    apply Forall_cons in Hs as [Hx Hrest].
    apply (Inv_sync _ (x' :: rest)); [|done].
    constructor; [by eapply advance_Sound | done].
  - destruct (instances w !! i) as [x|] eqn:Ei; [|done]. cbn -[sync].
    destruct (flying x !! k) as [c|]; [|done]. cbn -[sync].
    destruct (advance _ x) as [[x' called]|] eqn:Ea; [|done]. cbn -[sync]. intros [= <-].
    apply (Inv_sync _ (<[i := x']> (instances w))).
    + apply Forall_insert; [done|]. eapply advance_Sound; [|done].
      by apply (proj1 (Forall_lookup _ _) Hs i x).
    + eapply insert_tail_unmounted; [done..|]. eapply proj1, advance_isMounted; [|done]. done.
Qed.

(** The invariant holds in every world reached. *)
Theorem flow_reachable_Inv (st : S) (w : World S) : reachable st w → Inv w.
Proof. induction 1; [apply flow_Inv_mount | by eapply step_Inv]. Qed.

Lemma flow_run_reachable (st : S) (ls : list Label) (w w' : World S) :
  reachable st w → run ls w = Some w' → reachable st w'.
Proof. apply (runs_stable (flip step)). intros ? ? ?. apply reachable_step. Qed.

(** A call in flight is a call of the email form or sends a code or a
    link: no modal waits for the check of a code. *)
Lemma flying_kinds (w : World S) (i k : nat) (x : Instance) (c : AuthModal.Call) :
  Inv w → instances w !! i = Some x → flying x !! k = Some c →
  byEmail c = true ∨ sends c = true.
Proof.
  intros [Hs _] Hi Hk.
  destruct (proj1 (Forall_lookup _ _) Hs i x Hi) as [[m Hr%AuthModal.modal_reachable_Inv] Hf].
  destruct (Forall2_lookup_l _ _ _ _ _ Hf Hk) as (p & Hp & Hfit).
  destruct (proj1 (Forall_lookup _ _) (AuthModal.inv_waiting _ Hr) k p Hp) as [Hv Hu].
  destruct c, p; try done; auto.
Qed.

Lemma currentUser_onClose (called : bool) (a : AppState) :
  currentUser (onClose called a) = currentUser a.
Proof. by destruct called. Qed.

(** C14: A user appears in [App] only when the service accepts a call of the
    email form, a sign-in with a password or a sign-up: the clicks, the
    forms and the other calls set no user, and no modal signs a user in
    by telephone. *)
Theorem user_only_by_email (st : S) (w w' : World S) (l : Label) (u : User) :
  reachable st w → step l w = Some w' →
  currentUser (app w) = None → currentUser (app w') = Some u →
  ∃ i k profiles inserted x c,
    l = Answer i k profiles inserted ∧ instances w !! i = Some x ∧ flying x !! k = Some c ∧
    byEmail c = true ∧ succeeded (outcome (reply c (service w)).2) = true.
Proof.
  intros Hr%flow_reachable_Inv E Hn Hu. destruct l as [m|e|i k profiles inserted]; cbn -[sync] in E.
  - case_match; [done|]. injection E as <-. cbn in Hu. destruct m; cbn in Hu; congruence.
  - destruct (ownEvent e); [|done]. destruct (head (instances w)) as [x|]; [|done].
    cbn -[sync] in E. destruct (advance e x) as [[x' called]|]; [|done].
    injection E as <-. cbn -[onClose] in Hu. rewrite currentUser_onClose in Hu. congruence.
  - destruct (instances w !! i) as [x|] eqn:Ei; [|done]. cbn -[sync] in E.
    destruct (flying x !! k) as [c|] eqn:Ek; [|done]. cbn -[sync] in E.
    destruct (advance _ x) as [[x' called]|]; [|done]. injection E as <-.
    cbn -[onClose listen reply] in Hu. exists i, k, profiles, inserted, x, c. split_and!; try done.
    + destruct (flying_kinds w i k x c Hr Ei Ek) as [|Hs]; [done|].
      rewrite (reply_sent c (service w) Hs) in Hu. unfold listen, skip in Hu.
      rewrite currentUser_onClose in Hu. congruence.
    + destruct (succeeded _) eqn:Hsuc; [done|].
      rewrite (reply_failed c (service w) Hsuc) in Hu. unfold listen, skip in Hu.
      rewrite currentUser_onClose in Hu. congruence.
Qed.

(** The submit of a filled login form makes the sign-in call and
    changes nothing of [App]. *)
Lemma step_Submit_Ready (w : World S) (x : Instance) (rest : list Instance)
    (email password : string) :
  Inv w → instances w = x :: rest → Ready x email password →
  step (Modal AuthModal.Submit) w =
  Some (mkWorld (app w) (signingIn x email password :: rest) (service w)).
Proof.
  intros [Hs Hm] Ex Hr. rewrite Ex in Hs, Hm. apply Forall_cons in Hs as [Hx _].
  unfold step. cbn [ownEvent negb]. rewrite Ex. cbn [head tail mbind option_bind].
  rewrite (advance_Submit_Ready x email password Hx Hr). cbn [mbind option_bind].
  unfold onClose, when. by rewrite sync_id by by apply (Mounted_head _ x).
Qed.


(** While [App] does not show the modal, no modal is mounted. *)
Lemma closed_unmounted (w : World S) :
  Inv w → isAuthModalOpen (app w) = false →
  Forall (λ y, AuthModal.isMounted (modal y) = false) (instances w).
Proof.
  intros [_ Hm] Ho. unfold Mounted in Hm. destruct (instances w) as [|x rest]; [done|].
  destruct Hm as (Hx & _ & Hrest). constructor; [congruence | done].
Qed.

(** The service accepts the sign-in in flight: the modal calls
    [onClose] and the listener is notified. *)
Lemma step_Answer_signingIn (w : World S) (x : Instance) (rest : list Instance)
    (email password : string) (profiles inserted : App.ProfileResult) :
  instances w = signingIn x email password :: rest → Ready x email password →
  let r := reply (AuthModal.SignInWithPassword (trim email) password) (service w) in
  succeeded (outcome r.2) = true →
  ∃ xs, step (Answer 0 0 profiles inserted) w =
        Some (mkWorld (listen (notified r.2) profiles inserted
                         (App.handleCloseAuthModal (app w))) xs r.1).
Proof.
  intros Ex [Hmt Hmode Hmeth <- <- [He Hp] _ Hw] r Hs. subst r.
  unfold step. rewrite Ex. cbn [lookup list_lookup mbind option_bind signingIn flying].
  destruct (outcome _) as [| |present] eqn:Eo; try done.
  unfold advance. cbn [modal].
  erewrite AuthModal.step_Settle_signed_in; [|done|].
  - cbn -[sync listen reply]. rewrite Nat.leb_refl. by eexists.
  - unfold signingIn, AuthModal.started. cbn [modal].
    rewrite (AuthModal.submit_login _ Hmode Hmeth He Hp). cbn. by rewrite Hw.
Qed.

(** C22: A sign-in with a password that the service accepts, for an account
    with a profile: the filled login form is submitted, the service
    answers, and [App] has the user with the role of the profile, on
    the page of that role, with no modal mounted. *)
Theorem password_sign_in (st : S) (w : World S) (x : Instance) (rest : list Instance)
    (email password : string) (profiles inserted : App.ProfileResult)
    (profile : App.Profile) (more : list App.Profile) :
  reachable st w → instances w = x :: rest → Ready x email password →
  succeeded (outcome (reply (AuthModal.SignInWithPassword (trim email) password)
                        (service w)).2) = true →
  App.profile_error profiles = None → App.profile_data profiles = Some (profile :: more) →
  ∃ w', run [Modal AuthModal.Submit; Answer 0 0 profiles inserted] w = Some w' ∧
    isAuthModalOpen (app w') = false ∧
    Forall (λ y, AuthModal.isMounted (modal y) = false) (instances w') ∧
    (∃ user, currentUser (app w') = Some user ∧ User.role user = App.role profile) ∧
    page (app w') = match App.role profile with
                    | Role.therapist => Page.therapist_dashboard
                    | Role.admin => Page.admin
                    | Role.patient => page (app w)
                    end.
Proof.
  intros Hr Ex Hrd Hs He Hd. pose proof (flow_reachable_Inv _ _ Hr) as Hi.
  pose proof (step_Submit_Ready w x rest email password Hi Ex Hrd) as E1.
  destruct (step_Answer_signingIn
              (mkWorld (app w) (signingIn x email password :: rest) (service w))
              x rest email password profiles inserted eq_refl Hrd Hs)
    as [xs E2]; cbn [service app] in E2.
  destruct (reply_sign_in _ _ _ Hs) as [u Hn]. rewrite Hn in E2.
  eexists. split; [cbn [run runs flip]; rewrite E1; cbn [mbind option_bind]; by rewrite E2|].
  assert (isAuthModalOpen
            (listen (Some (App.SIGNED_IN, Some u)) profiles inserted
               (App.handleCloseAuthModal (app w))) = false) as Ho.
  { unfold listen, App.onAuthStateChange. rewrite He, Hd. by destruct profile as [fn [] tid]. }
  split; [done|]. split.
  - apply closed_unmounted; [|done]. apply (flow_reachable_Inv st).
    eapply reachable_step; [eapply reachable_step; [exact Hr | exact E1] | exact E2].
  - cbn [app]. unfold listen, App.onAuthStateChange. rewrite He, Hd.
    destruct profile as [fn [] tid]; cbn; split; try done; by eexists.
Qed.


End WithServiceLemmas.


End AuthFlow.
