(* ===== verification/AppLayers.v ===== *)
(** * AppLayers: which modal is in front
    ([src/App.tsx], the modals at the end of the JSX; the [className] of
    the outer element of each modal)

    Every modal of [App] is a [fixed inset-0] element that covers the
    viewport.  The payment modal has [z-[60]], the others [z-50]; the
    header is [sticky z-50] and the mobile bar [z-40], both before the
    modals in the document.  Of two elements the one with the greater
    z-index is painted in front and, at equal z-index, the later one of
    the document.  [front] is the modal in front in a state; [onTop] says
    that the control of an event is not covered: it belongs to the modal
    in front, or to the page when no modal is mounted.  A pointer reaches
    only such controls; the keyboard reaches the others as well, since no
    modal traps the focus. *)

From Stdlib Require Import ZArith Lia.
From stdpp Require Import base tactics option list strings.
From S2P Require Import Prelude Types AppState Widgets AppView AppEvents.

#[local] Open Scope Z_scope.

Module Layers.

Import Events.

(** ** Definitions *)

(** The modals of [App], in the order of the JSX. *)
Inductive Overlay :=
| oBooking | oPayment | oAuth | oCancel | oDelete | oConfirmation | oIntake | oViewIntake.

#[global] Instance Overlay_eq_dec : EqDecision Overlay.
Proof. solve_decision. Defined.

Definition domOrder : list Overlay :=
  [oBooking; oPayment; oAuth; oCancel; oDelete; oConfirmation; oIntake; oViewIntake].

(** The z-index of the outer element. *)
Definition zIndex (o : Overlay) : Z :=
  match o with
  | oPayment => 60
  | _ => 50
  end.

(** The guard of each modal in the JSX of [App]; the confirmation modal
    is always an element and returns [null] unless it is open with a
    therapist. *)
Definition mounted (s : AppState) (o : Overlay) : bool :=
  match o with
  | oBooking => is_some (AppView.bookingModalProps s)
  | oPayment => is_some (AppView.paymentModalGuard s)
  | oAuth => isAuthModalOpen s
  | oCancel => is_some (AppView.cancelModalProps s)
  | oDelete => is_some (AppView.deleteModalProps s)
  | oConfirmation =>
      is_some (ConfirmationModal.render (isConfirmModalOpen s) (therapistToBook s)
                 (lastBookingPaid s))
  | oIntake => is_some (AppView.intakeModalProps s)
  | oViewIntake => is_some (AppView.viewIntakeModalProps s)
  end.

(** The element painted in front of those for which [m] holds: a later
    element replaces the best so far unless its z-index is smaller. *)
Definition frontOf (m : Overlay → bool) : option Overlay :=
  foldl (λ best o,
           if m o && from_option (λ b, zIndex b <=? zIndex o) true best
           then Some o else best)
        None domOrder.

Definition front (s : AppState) : option Overlay := frontOf (mounted s).

(** The modal whose control raises the event; [None] for the header,
    the pages, the footer and the mobile bar. *)
Definition source (e : Event) : option Overlay :=
  match e with
  | BookingClose | BookingConfirm _ _ => Some oBooking
  | PaymentClose => Some oPayment
  | AuthClose => Some oAuth
  | CancelClose | CancelConfirm => Some oCancel
  | DeleteClose | DeleteConfirm => Some oDelete
  | ConfirmationClose | ConfirmationGoToProfile => Some oConfirmation
  | IntakeClose | IntakeSubmit _ => Some oIntake
  | ViewIntakeClose => Some oViewIntake
  | _ => None
  end.

(** The control of the event is not covered. *)
Definition onTop (s : AppState) (e : Event) : bool :=
  bool_decide (source e = front s).

(** The position in front: the z-index first, then the place in the
    document. *)
Definition rank (o : Overlay) : Z :=
  zIndex o * 8 +
  match o with
  | oBooking => 0 | oPayment => 1 | oAuth => 2 | oCancel => 3 | oDelete => 4
  | oConfirmation => 5 | oIntake => 6 | oViewIntake => 7
  end.

(** The function on the overlays with the given values. *)
Definition tab (b1 b2 b3 b4 b5 b6 b7 b8 : bool) (o : Overlay) : bool :=
  match o with
  | oBooking => b1 | oPayment => b2 | oAuth => b3 | oCancel => b4 | oDelete => b5
  | oConfirmation => b6 | oIntake => b7 | oViewIntake => b8
  end.

(** ** Lemmas *)
Lemma tab_eta (m : Overlay → bool) (o : Overlay) :
  m o = tab (m oBooking) (m oPayment) (m oAuth) (m oCancel) (m oDelete)
            (m oConfirmation) (m oIntake) (m oViewIntake) o.
Proof. by destruct o. Qed.

Lemma frontOf_tab (m : Overlay → bool) :
  frontOf m = frontOf (tab (m oBooking) (m oPayment) (m oAuth) (m oCancel) (m oDelete)
                           (m oConfirmation) (m oIntake) (m oViewIntake)).
Proof. reflexivity. Qed.

Lemma frontOf_tab_spec (b1 b2 b3 b4 b5 b6 b7 b8 : bool) (o : Overlay) :
  frontOf (tab b1 b2 b3 b4 b5 b6 b7 b8) = Some o →
  tab b1 b2 b3 b4 b5 b6 b7 b8 o = true ∧
  ∀ o', tab b1 b2 b3 b4 b5 b6 b7 b8 o' = true → rank o' ≤ rank o.
Proof.
  destruct b1, b2, b3, b4, b5, b6, b7, b8; (intros [= <-] || discriminate);
    (split; [reflexivity | intros []; cbn; (discriminate || (intros _; lia))]).
Qed.

(** The modal in front is mounted, and no mounted modal is in front of
    it. *)
Theorem frontOf_spec (m : Overlay → bool) (o : Overlay) :
  frontOf m = Some o → m o = true ∧ ∀ o', m o' = true → rank o' ≤ rank o.
Proof.
  rewrite frontOf_tab. intros [H1 H2]%frontOf_tab_spec. rewrite tab_eta. split; [done|].
  intros o'. rewrite (tab_eta m o'). apply H2.
Qed.

(** No modal is in front only when none is mounted. *)
Theorem frontOf_None (m : Overlay → bool) (o : Overlay) : frontOf m = None → m o = false.
Proof.
  rewrite frontOf_tab, (tab_eta m o).
  destruct (m oBooking), (m oPayment), (m oAuth), (m oCancel), (m oDelete),
    (m oConfirmation), (m oIntake), (m oViewIntake); (discriminate || by destruct o).
Qed.

(** Some modal is in front when one is mounted. *)
Lemma frontOf_is_Some (m : Overlay → bool) (o : Overlay) :
  m o = true → is_Some (frontOf m).
Proof.
  intros Ho. destruct (frontOf m) eqn:E; [done|].
  by rewrite (frontOf_None m o E) in Ho.
Qed.

Lemma rank_inj (o o' : Overlay) : rank o = rank o' → o = o'.
Proof. destruct o, o'; cbn; (done || lia). Qed.

(** A mounted modal that no mounted modal is in front of is the one in
    front. *)
Theorem frontOf_max (m : Overlay → bool) (o : Overlay) :
  m o = true → (∀ o', m o' = true → rank o' ≤ rank o) → frontOf m = Some o.
Proof.
  intros Ho Hmax. destruct (frontOf m) as [o2|] eqn:E.
  - destruct (frontOf_spec _ _ E) as [H2 Hmax2]. f_equal. apply rank_inj.
    specialize (Hmax _ H2). specialize (Hmax2 _ Ho). lia.
  - by rewrite (frontOf_None m o E) in Ho.
Qed.

(** The payment modal, when mounted, is in front of every other. *)
Theorem front_payment (s : AppState) :
  mounted s oPayment = true → front s = Some oPayment.
Proof.
  intros Hp. destruct (frontOf_is_Some _ _ Hp) as [o Ho]. unfold front. rewrite Ho.
  destruct (frontOf_spec _ _ Ho) as [_ Hmax]. specialize (Hmax _ Hp).
  destruct o; cbn in Hmax; (done || lia).
Qed.

(** The modal in front in a state is the mounted modal with the greatest
    z-index and, among those, the last one of the JSX. *)
Theorem front_iff (s : AppState) (o : Overlay) :
  front s = Some o ↔
  mounted s o = true ∧ ∀ o', mounted s o' = true → rank o' ≤ rank o.
Proof. split; [apply frontOf_spec | intros [? ?]; by apply frontOf_max]. Qed.

(** A control of the page is on top only when no modal is mounted. *)
Lemma onTop_page (s : AppState) (e : Event) (o : Overlay) :
  source e = None → onTop s e = true → mounted s o = false.
Proof.
  unfold onTop. intros -> Hf%bool_decide_eq_true. by apply frontOf_None.
Qed.

(** A control of a modal is on top only when its modal is mounted and no
    modal later in front is. *)
Lemma onTop_modal (s : AppState) (e : Event) (o o' : Overlay) :
  source e = Some o → onTop s e = true →
  mounted s o = true ∧ (rank o < rank o' → mounted s o' = false).
Proof.
  unfold onTop. intros -> Hf%bool_decide_eq_true. symmetry in Hf.
  destruct (frontOf_spec _ _ Hf) as [Hm Hmax]. split; [done|]. intros Hlt.
  destruct (mounted s o') eqn:E; [|done]. specialize (Hmax _ E). lia.
Qed.

End Layers.
