(* ===== verification/AppFlow.v ===== *)
(** * AppFlow: the application as a transition system

    A [World] is the state of [App] together with the state of the two
    stateful modals it mounts, the payment sessions under way and the
    timers and requests that have not answered yet.  A payment session
    is a run of [initiatePayment]: it keeps the props and the [onSuccess]
    of the render that started it, so it carries the state of [App] at
    that render ([closure]); when the modal is unmounted the session
    goes on, and its state updates are lost ([live] is false).

    [step] runs one event to completion: the handler of [AppHandlers.v]
    or of a modal, then the render that follows, which mounts and
    unmounts the modals by the guards of [AppView.v].  [reachable] is
    the set of worlds reached from the mount of [App]; the theorems are
    invariants of it. *)

From Stdlib Require Import ZArith Lia.
From stdpp Require Import base tactics option list strings.
From S2P Require Import Prelude Types JsArray JsTime BookingList ProfilePage.
From S2P Require Import BookingModal PaymentModal AppState AppHandlers AppView AppEvents.

#[local] Open Scope Z_scope.

Module Flow.

Import Events.

#[local] Set Primitive Projections.

(** ** Definitions *)

(** A run of [initiatePayment]. *)
Record Session := mkSession {
  props : PaymentModal.Props;
  closure : AppState;
  phase : PaymentModal.Phase;
  live : bool;
}.

Record World := mkWorld {
  app : AppState;
  bookingForm : option BookingModal.State;
  paymentView : option PaymentModal.State;
  sessions : list Session;
  timersFired : nat;
  loadsFired : nat;
  signOutsResolved : nat;
  crashed : bool;
}.

(** What happens next. *)
Inductive Label :=
| User (today : Z) (e : Event)
| Form (e : BookingModal.Event) (now : Z)
| Retry
| Pay (k : nat) (i : PaymentModal.Input) (now : Z)
| PaymentTimer
| LoadTimer
| SignOutResolved
| AuthChange (ev : App.AuthEvent) (session : option App.SessionUser)
             (profiles inserted : App.ProfileResult).

(** The number of effects of a kind issued so far. *)
Definition issued (e : Effect) (s : AppState) : nat :=
  length (List.filter (λ x, bool_decide (x = e)) (effects s)).

Definition setPhase (ph : PaymentModal.Phase) (x : Session) : Session :=
  mkSession (props x) (closure x) ph (live x).

(** The component of the session is unmounted. *)
Definition detach (x : Session) : Session :=
  mkSession (props x) (closure x) (phase x) false.

(** The events of the booking form reach [App] through the form. *)
Definition fromForm (e : Event) : bool :=
  match e with
  | BookingClose | BookingConfirm _ _ => true
  | _ => false
  end.

Section WithSort.
Context `{JS : JsSort} `{LT : LocalTime}.
Context (MOCK_THERAPISTS : list Therapist).

(** The world after [App] has rendered the state [a]: the booking form
    keeps its state while it stays mounted and starts from its initial
    state when it mounts; the payment modal starts a session when it
    mounts; its sessions are detached when it unmounts. *)
Definition settle (w : World) (a : AppState) : World :=
  let form :=
    match AppView.bookingModalProps a with
    | Some p => Some (default (BookingModal.init p) (bookingForm w))
    | None => None
    end in
  match AppView.paymentModalProps a, paymentView w with
  | Some None, _ =>
      mkWorld a form None (detach <$> sessions w)
              (timersFired w) (loadsFired w) (signOutsResolved w) true
  | Some (Some p), None =>
      mkWorld a form (Some (PaymentModal.start PaymentModal.init))
              (sessions w ++ [mkSession p a PaymentModal.LoadingScript true])
              (timersFired w) (loadsFired w) (signOutsResolved w) (crashed w)
  | Some (Some _), Some st =>
      mkWorld a form (Some st) (sessions w)
              (timersFired w) (loadsFired w) (signOutsResolved w) (crashed w)
  | None, _ =>
      mkWorld a form None (detach <$> sessions w)
              (timersFired w) (loadsFired w) (signOutsResolved w) (crashed w)
  end.

(** The mount of [App]. *)
Definition init : World :=
  settle (mkWorld initial None None [] 0 0 0 false) (App.mountEffect initial).

(** The calls a session makes, on the state of [App]: [onSuccess] runs
    [handlePaymentSuccess] from the closure of the session. *)
Definition perform (x : Session) (now : Z) (cmd : PaymentModal.Cmd) : Action AppState :=
  match cmd with
  | PaymentModal.OnSuccess paymentId => App.handlePaymentSuccess (closure x) now paymentId
  | _ => skip
  end.

Definition performAll (x : Session) (now : Z) (cmds : list PaymentModal.Cmd)
    : Action AppState :=
  λ s, foldl (λ s cmd, perform x now cmd s) s cmds.

Definition withForm (st : BookingModal.State) (w : World) : World :=
  mkWorld (app w) (Some st) (paymentView w) (sessions w)
          (timersFired w) (loadsFired w) (signOutsResolved w) (crashed w).

Definition withPayment (st : option PaymentModal.State) (xs : list Session) (w : World)
    : World :=
  mkWorld (app w) (bookingForm w) st xs
          (timersFired w) (loadsFired w) (signOutsResolved w) (crashed w).

Definition withCounters (t l o : nat) (w : World) : World :=
  mkWorld (app w) (bookingForm w) (paymentView w) (sessions w) t l o (crashed w).

(** One event, run to completion; [None] when it cannot happen. *)
Definition step (w : World) (l : Label) : option World :=
  if crashed w then None else
  match l with
  | User today e =>
      if Events.offered today (app w) e && negb (fromForm e)
      then Some (settle w (Events.dispatch e (app w) (app w)))
      else None
  | Form e now =>
      match bookingForm w, AppView.bookingModalProps (app w) with
      | Some st, Some p =>
          if BookingModal.offered p e then
            let '(st', out) := BookingModal.update e st in
            let a :=
              match out with
              | Some (BookingModal.OnConfirm details) =>
                  Events.dispatch (BookingConfirm now details) (app w) (app w)
              | Some BookingModal.OnClose => Events.dispatch BookingClose (app w) (app w)
              | None => app w
              end in
            Some (settle (withForm st' w) a)
          else None
      | _, _ => None
      end
  | Retry =>
      match paymentView w, AppView.paymentModalProps (app w) with
      | Some st, Some (Some p) =>
          if PaymentModal.offered p st PaymentModal.ClickRetry
          then Some (withPayment (Some (PaymentModal.start st))
                       (sessions w ++ [mkSession p (app w) PaymentModal.LoadingScript true]) w)
          else None
      | _, _ => None
      end
  | Pay k i now =>
      x ← sessions w !! k;
      '(ph, update, cmds) ← PaymentModal.react (props x) (phase x) i;
      let view := if live x then update <$> paymentView w else paymentView w in
      Some (settle (withPayment view (<[k := setPhase ph x]> (sessions w)) w)
                   (performAll x now cmds (app w)))
  | PaymentTimer =>
      if decide (timersFired w < issued StartPaymentTimer (app w))%nat
      then Some (settle (withCounters (S (timersFired w)) (loadsFired w) (signOutsResolved w) w)
                        (App.paymentTimerFired (app w)))
      else None
  | LoadTimer =>
      if decide (loadsFired w < issued StartLoadTimer (app w))%nat
      then Some (settle (withCounters (timersFired w) (S (loadsFired w)) (signOutsResolved w) w)
                        (App.therapistsLoaded MOCK_THERAPISTS (app w)))
      else None
  | SignOutResolved =>
      if decide (signOutsResolved w < issued SignOut (app w))%nat
      then Some (settle (withCounters (timersFired w) (loadsFired w) (S (signOutsResolved w)) w)
                        (App.handleLogout_resumed (app w)))
      else None
  | AuthChange ev session profiles inserted =>
      Some (settle w (App.onAuthStateChange ev session profiles inserted (app w)))
  end.

(** A sequence of events; [None] when one of them cannot happen. *)
Definition steps (w : World) (ls : list Label) : option World := runs step w ls.

(** The worlds reached from the mount of [App]. *)
Inductive reachable : World → Prop :=
| reachable_init : reachable init
| reachable_step w l w' : reachable w → step w l = Some w' → reachable w'.

(** The dates a label brings into the application are valid: a booking
    form hands over only what it has validated, so this holds of every
    label but a direct [BookingConfirm]. *)
Definition sessionOk (x : Session) : Prop :=
  AppView.pendingValid (closure x) ∧
  is_Some (therapistToBook (closure x)) ∧ is_Some (currentUser (closure x)) ∧
  is_Some (pendingBookingDetails (closure x)).

(** The invariant of the reachable worlds. *)
Record WInv (w : World) : Prop := {
  inv_app : Events.Inv (app w);
  inv_sessions : Forall sessionOk (sessions w);
  inv_crashed : crashed w = false;
  inv_logged : Events.logged (app w) = length (bookings (app w));
  inv_form : is_Some (bookingForm w) ↔ is_Some (AppView.bookingModalProps (app w));
}.

End WithSort.

(** The result of a step that happened. *)
Ltac some_inv :=
  let H := fresh in intros H; apply (inj Some) in H; subst.

(** ** Lemmas: the invariant *)

Section WithSortLemmas.
Context `{JS : JsSort} `{LT : LocalTime}.
Context (MOCK_THERAPISTS : list Therapist).

Lemma sessionOk_mount (a : AppState) (p : PaymentModal.Props) (ph : PaymentModal.Phase)
    (b : bool) :
  AppView.pendingValid a → AppView.paymentModalProps a = Some (Some p) →
  sessionOk (mkSession p a ph b).
Proof.
  intros Hv (d & (_ & Ht & Hu & Hd)%AppView.paymentModalGuard_Some & _)%AppView.paymentModalProps_Some.
  split_and!; cbn; eauto.
Qed.

Lemma Forall_sessionOk_detach (xs : list Session) :
  Forall sessionOk xs → Forall sessionOk (detach <$> xs).
Proof. intros H. apply Forall_fmap. by eapply Forall_impl. Qed.

(** The render that follows a handler keeps the invariant. *)
Lemma settle_WInv (w : World) (a : AppState) :
  Events.AInv a → Forall sessionOk (sessions w) → crashed w = false → WInv (settle w a).
Proof.
  intros [[Hwf Hpv] HL] Hs Hc. pose proof (AppView.paymentModalProps_total a Hpv) as Ht.
  pose proof (Forall_sessionOk_detach _ Hs) as Hd. unfold settle.
  destruct (AppView.paymentModalProps a) as [[p|]|] eqn:Ep; [|done|];
    [destruct (paymentView w)|]; split; cbn; try done;
    try (by destruct (AppView.bookingModalProps a); split; intros [? ?]; eauto).
  apply Forall_app. split; [done|]. apply Forall_singleton. by apply sessionOk_mount.
Qed.

Lemma AInv_performAll (x : Session) (now : Z) (cmds : list PaymentModal.Cmd) (a : AppState) :
  sessionOk x → Events.AInv a → Events.AInv (performAll x now cmds a).
Proof.
  intros (Hv & _ & _ & Hd). unfold performAll. revert a.
  induction cmds as [|cmd cmds IH]; intros a Ha; [done|]. cbn. apply IH.
  destruct cmd; try done. by apply Events.AInv_handlePaymentSuccess.
Qed.

Lemma WInv_init : WInv init.
Proof.
  apply settle_WInv; [|done..]. eapply Events.AInv_frame; [|apply Events.AInv_initial].
  Events.frame.
Qed.

(** The state of [App] after the handler of a label keeps the
    invariant of the application. *)
Lemma step_form_AInv (w : World) (st st' : BookingModal.State) (e : BookingModal.Event)
    (now : Z) (out : option BookingModal.Out) :
  BookingModal.update e st = (st', out) → Events.AInv (app w) →
  Events.AInv
    match out with
    | Some (BookingModal.OnConfirm details) =>
        Events.dispatch (BookingConfirm now details) (app w) (app w)
    | Some BookingModal.OnClose => Events.dispatch BookingClose (app w) (app w)
    | None => app w
    end.
Proof.
  intros Hu Ha. destruct out as [[details|]|]; [| |done].
  - apply BookingModal.update_OnConfirm in Hu as (_ & _ & _ & Hd).
    by apply Events.dispatch_AInv.
  - by apply Events.dispatch_AInv.
Qed.

(** Every step keeps the invariant. *)
Lemma step_WInv (w w' : World) (l : Label) :
  WInv w → step MOCK_THERAPISTS w l = Some w' → WInv w'.
Proof.
  intros [[Hwf Hpv] Hs Hc HL Hf]. assert (Events.AInv (app w)) as Ha by done.
  unfold step. rewrite Hc. destruct l.
  - destruct (_ && _) eqn:E; [|done]. some_inv.
    apply andb_true_iff in E as [_ E%negb_true_iff].
    apply settle_WInv; [|done..]. apply Events.dispatch_AInv; [|done]. by destruct e.
  - destruct (bookingForm w) as [st|]; [|done].
    destruct (AppView.bookingModalProps (app w)) as [p|]; [|done].
    destruct (BookingModal.offered p e); [|done].
    destruct (BookingModal.update e st) as [st' out] eqn:Eu. some_inv.
    apply settle_WInv; [|done..]. by eapply step_form_AInv.
  - destruct (paymentView w) as [st|]; [|done].
    destruct (AppView.paymentModalProps (app w)) as [[p|]|] eqn:Ep; try done.
    destruct (PaymentModal.offered _ _ _); [|done]. some_inv.
    split; cbn; try done. apply Forall_app. split; [done|].
    apply Forall_singleton. by apply sessionOk_mount.
  - destruct (sessions w !! k) as [x|] eqn:Ex; [|done]. cbn.
    destruct (PaymentModal.react _ _ _) as [[[ph update] cmds]|]; [|done]. cbn.
    some_inv. pose proof (Forall_lookup_1 _ _ _ _ Hs Ex) as Hx.
    apply settle_WInv; cbn; [by apply AInv_performAll| |done].
    by apply Forall_insert.
  - case_decide; [|done]. some_inv. apply settle_WInv; [|done..].
    eapply Events.AInv_frame; [|done]. Events.frame.
  - case_decide; [|done]. some_inv. apply settle_WInv; [|done..].
    eapply Events.AInv_frame; [|done]. Events.frame.
  - case_decide; [|done]. some_inv. apply settle_WInv; [|done..].
    eapply Events.AInv_frame; [|done]. Events.frame.
  - some_inv. apply settle_WInv; [|done..].
    eapply Events.AInv_frame; [|done]. apply Events.onAuthStateChange_Frame.
Qed.

Lemma reachable_WInv (w : World) : reachable MOCK_THERAPISTS w → WInv w.
Proof. induction 1; [apply WInv_init | by eapply step_WInv]. Qed.

Lemma steps_reachable (w w' : World) (ls : list Label) :
  reachable MOCK_THERAPISTS w → steps MOCK_THERAPISTS w ls = Some w' →
  reachable MOCK_THERAPISTS w'.
Proof. apply runs_stable. intros ? ? ?. apply reachable_step. Qed.

(** ** Lemmas: what a step does to the bookings *)
Lemma app_settle (w : World) (a : AppState) : app (settle w a) = a.
Proof. unfold settle. by repeat case_match. Qed.

(** Calls other than [onSuccess] leave the application alone. *)
Lemma performAll_no_success (x : Session) (now : Z) (cmds : list PaymentModal.Cmd)
    (a : AppState) :
  (∀ pid, PaymentModal.OnSuccess pid ∉ cmds) → performAll x now cmds a = a.
Proof.
  unfold performAll. revert a. induction cmds as [|cmd cmds IH]; intros a Hno; [done|].
  cbn. rewrite IH by (intros pid Hin; apply (Hno pid); by right).
  destruct cmd; try done. destruct (Hno paymentId). by left.
Qed.

(** C6: in every world reached from the mount of [App] the bookings are in
    ascending order of date with valid dates, every booking has been
    logged to the sheet once, every payment session holds the details,
    the therapist and the user it needs, and [App] evaluates its JSX
    without throwing (a child can still throw when it renders). *)
Theorem reachable_safe (w : World) :
  reachable MOCK_THERAPISTS w →
  wf_bookings (bookings (app w)) ∧
  Events.logged (app w) = length (bookings (app w)) ∧
  Forall sessionOk (sessions w) ∧
  crashed w = false ∧ is_Some (AppView.render (app w)).
Proof.
  intros [[Hwf Hpv] Hs Hc HL Hf]%reachable_WInv. split_and!; try done.
  by apply AppView.render_total.
Qed.

(** C8: once a payment has been verified, the booking is made: in a
    reachable world, the answer of a verification that did not fail to a
    session that waits for it adds the paid booking of the user and the
    therapist of the render that started the session, whatever the
    state of the application has become since. *)
Theorem verified_payment_books (w : World) (k : nat) (x : Session) (oid : string)
    (response : PaymentModal.PaymentResponse) (r : PaymentModal.VerifyResult) (now : Z) :
  reachable MOCK_THERAPISTS w → sessions w !! k = Some x →
  phase x = PaymentModal.Verifying oid response → PaymentModal.verifyFailed r = false →
  ∃ w' t u d,
    step MOCK_THERAPISTS w (Pay k (PaymentModal.Verified r) now) = Some w' ∧
    therapistToBook (closure x) = Some t ∧ currentUser (closure x) = Some u ∧
    pendingBookingDetails (closure x) = Some d ∧
    bookings (app w') ≡ₚ newBooking now t u d true :: bookings (app w) ∧
    isConfirmModalOpen (app w') = true ∧ lastBookingPaid (app w') = true.
Proof.
  intros [[Hwf Hpv] Hs Hc HL Hf]%reachable_WInv Hx Hph Hr.
  destruct (Forall_lookup_1 _ _ _ _ Hs Hx) as (_ & [t Ht] & [u Hu] & [d Hd]).
  eexists _, t, u, d. unfold step. rewrite Hc, Hx. cbn. rewrite Hph. cbn. rewrite Hr. cbn.
  split; [done|]. rewrite app_settle. unfold performAll. cbn.
  rewrite (App.handlePaymentSuccess_eq _ _ _ _ _ _ Hd Ht Hu).
  split_and!; try done. apply addBooking_perm.
Qed.

(** The state of [App] after a payment session has reacted. *)
Lemma pay_length (w : World) (x : Session) (i : PaymentModal.Input) (now : Z) ph update cmds :
  WInv w → x ∈ sessions w →
  PaymentModal.react (props x) (phase x) i = Some (ph, update, cmds) →
  let n := length (bookings (performAll x now cmds (app w))) in
  n = length (bookings (app w)) ∨
  n = S (length (bookings (app w))) ∧
    ∃ oid response r, phase x = PaymentModal.Verifying oid response ∧
      i = PaymentModal.Verified r ∧ PaymentModal.verifyFailed r = false.
Proof.
  intros [_ Hs _ _ _] Hx Hr n. subst n.
  destruct (PaymentModal.react_success_or_not _ _ _ _ _ _ Hr)
    as [Hno | (oid & response & r & Hph & -> & Hv & ->)].
  - left. by rewrite performAll_no_success.
  - right.
    destruct (proj1 (Forall_forall _ _) Hs x Hx) as (_ & [t Ht] & [u Hu] & [d Hd]).
    unfold performAll. cbn. rewrite (App.handlePaymentSuccess_eq _ _ _ _ _ _ Hd Ht Hu).
    cbn. rewrite addBooking_length. eauto 10.
Qed.

Lemma form_length (w : World) (st st' : BookingModal.State) (e : BookingModal.Event)
    (now : Z) (out : option BookingModal.Out) :
  BookingModal.update e st = (st', out) →
  let a := match out with
           | Some (BookingModal.OnConfirm details) =>
               Events.dispatch (BookingConfirm now details) (app w) (app w)
           | Some BookingModal.OnClose => Events.dispatch BookingClose (app w) (app w)
           | None => app w
           end in
  length (bookings a) = length (bookings (app w)) ∨
  length (bookings a) = S (length (bookings (app w))) ∧ e = BookingModal.ClickConfirm ∧
    bookingToReschedule (app w) = None ∧
    ∃ t, therapistToBook (app w) = Some t ∧ App.onlinePaymentAvailable t = false.
Proof.
  intros Hu. destruct out as [[details|]|]; cbn; [|by left..].
  apply BookingModal.update_OnConfirm in Hu as (-> & _).
  destruct (App.handleBookingConfirm_length (app w) now details (app w) eq_refl)
    as [H | (H & ? & ?)]; [by left | by right].
Qed.

(** C10: nothing removes a booking, and a step adds one only when the
    booking form is confirmed, not rescheduling, for a therapist without
    online payment, or when a verification that did not fail answers a
    payment session that waits for it. *)
Theorem step_adds_booking (w w' : World) (l : Label) :
  reachable MOCK_THERAPISTS w → step MOCK_THERAPISTS w l = Some w' →
  length (bookings (app w')) = length (bookings (app w)) ∨
  length (bookings (app w')) = S (length (bookings (app w))) ∧
  ((∃ now t, l = Form BookingModal.ClickConfirm now ∧
             bookingToReschedule (app w) = None ∧ therapistToBook (app w) = Some t ∧
             App.onlinePaymentAvailable t = false) ∨
   (∃ k x oid response r now,
       l = Pay k (PaymentModal.Verified r) now ∧ sessions w !! k = Some x ∧
       phase x = PaymentModal.Verifying oid response ∧
       PaymentModal.verifyFailed r = false)).
Proof.
  intros HW%reachable_WInv. unfold step. rewrite (inv_crashed _ HW). destruct l.
  - destruct (_ && _) eqn:E; [|done]. some_inv. left. rewrite app_settle.
    apply andb_true_iff in E as [_ E%negb_true_iff].
    apply Events.dispatch_length. intros ?? ->. done.
  - destruct (bookingForm w) as [st|]; [|done].
    destruct (AppView.bookingModalProps (app w)) as [p|]; [|done].
    destruct (BookingModal.offered p e); [|done].
    destruct (BookingModal.update e st) as [st' out] eqn:Eu. some_inv. rewrite app_settle.
    destruct (form_length w st st' e now out Eu) as [H | (H & -> & Hr & t & Ht & Hg)];
      [by left|]. right. split; [done|]. left. by exists now, t.
  - destruct (paymentView w) as [st|]; [|done].
    destruct (AppView.paymentModalProps (app w)) as [[p|]|]; try done.
    destruct (PaymentModal.offered _ _ _); [|done]. some_inv. by left.
  - destruct (sessions w !! k) as [x|] eqn:Ex; [|done]. cbn.
    destruct (PaymentModal.react _ _ _) as [[[ph update] cmds]|] eqn:Er; [|done]. cbn.
    some_inv. rewrite app_settle.
    destruct (pay_length w x i now ph update cmds HW (list_elem_of_lookup_2 _ _ _ Ex) Er)
      as [H | (H & oid & response & r & Hph & -> & Hv)]; [by left|].
    right. split; [done|]. right. by exists k, x, oid, response, r, now.
  - case_decide; [|done]. some_inv. left. by rewrite app_settle.
  - case_decide; [|done]. some_inv. left. by rewrite app_settle.
  - case_decide; [|done]. some_inv. left. by rewrite app_settle.
  - some_inv. left. by rewrite app_settle, App.onAuthStateChange_bookings.
Qed.

End WithSortLemmas.

End Flow.
