(* ===== verification/BookingSpec.v ===== *)
(** * BookingSpec: the booking flow as a state machine

    The abstract machine the application is compared with in
    [AppRefinement.v].  Its stages are those the specification names:
    nothing under way, an intent captured by the booking form, a payment
    pending, a payment being verified, a booking finalized and shown.
    Its actions are the edges between them; the state also counts the
    bookings made.  Two readings of the code are built in: a failed
    verification returns to the pending payment, where the error is
    shown and the intent is kept until the user closes the modal, and a
    reschedule reaches the confirmation without passing the payment gate
    or making a booking. *)

From Stdlib Require Import Lia.
From stdpp Require Import base tactics option list.
From S2P Require Import Prelude.

Module Spec.

(** ** Definitions *)

Inductive Stage := Idle | IntentCaptured | PaymentPending | PaymentVerifying | Finalized.

Inductive Act :=
| Capture      (* the form hands over an intent *)
| OpenGate     (* the payment gate is open: the payment starts *)
| Finalize     (* the payment gate is closed: the booking is made unpaid *)
| Reschedule   (* the form hands over the new date of a booking *)
| Paid         (* the gateway reports the payment *)
| Verified     (* the verification succeeds: the booking is made paid *)
| Failed       (* the verification fails *)
| Cancel       (* the user closes the payment *)
| Dismiss.     (* the user closes the confirmation *)

#[global] Instance Stage_eq_dec : EqDecision Stage.
Proof. solve_decision. Defined.
#[global] Instance Act_eq_dec : EqDecision Act.
Proof. solve_decision. Defined.

Record State := mkState {
  stage : Stage;
  booked : nat;
}.

#[global] Instance State_eq_dec : EqDecision State.
Proof. solve_decision. Defined.

Definition init : State := {| stage := Idle; booked := 0 |}.

(** The stage an action leads to; [None] when the stage has no such
    edge. *)
Definition target (s : Stage) (a : Act) : option Stage :=
  match s, a with
  | Idle, Capture => Some IntentCaptured
  | Idle, Reschedule => Some Finalized
  | IntentCaptured, OpenGate => Some PaymentPending
  | IntentCaptured, Finalize => Some Finalized
  | PaymentPending, Paid => Some PaymentVerifying
  | PaymentVerifying, Verified => Some Finalized
  | PaymentVerifying, Failed => Some PaymentPending
  | PaymentPending, Cancel | PaymentVerifying, Cancel => Some Idle
  | Finalized, Dismiss => Some Idle
  | _, _ => None
  end.

(** The actions that make a booking. *)
Definition books (a : Act) : bool :=
  match a with
  | Finalize | Verified => true
  | _ => false
  end.

Definition next (s : State) (a : Act) : option State :=
  s' ← target (stage s) a;
  Some {| stage := s'; booked := if books a then S (booked s) else booked s |}.

Definition run (s : State) (acts : list Act) : option State := runs next s acts.

(** The number of actions of a list that satisfy [f]. *)
Definition count (f : Act → bool) (acts : list Act) : nat := length (List.filter f acts).

(** The stage a run is in tells whether an intent is held: the payment
    stages are entered only through the gate, and the gate only from a
    captured intent. *)
Definition holdsIntent (s : Stage) : bool :=
  match s with
  | IntentCaptured | PaymentPending | PaymentVerifying => true
  | _ => false
  end.

(** The actions that take up an intent and those that let go of it. *)
Definition takes (a : Act) : bool := bool_decide (a = Capture).
Definition releases (a : Act) : bool :=
  match a with
  | Finalize | Verified | Cancel => true
  | _ => false
  end.

(** ** Lemmas *)
Lemma run_app (s : State) (xs ys : list Act) :
  run s (xs ++ ys) = s' ← run s xs; run s' ys.
Proof. apply runs_app. Qed.

Lemma run_snoc (s s1 s2 : State) (xs : list Act) (a : Act) :
  run s xs = Some s1 → next s1 a = Some s2 → run s (xs ++ [a]) = Some s2.
Proof. intros H1 H2. rewrite run_app, H1. cbn. by rewrite H2. Qed.

Lemma count_app (f : Act → bool) (xs ys : list Act) :
  count f (xs ++ ys) = count f xs + count f ys.
Proof. unfold count. by rewrite List.filter_app, length_app. Qed.

(** A run makes one booking for each action that books. *)
Theorem run_booked (s s' : State) (acts : list Act) :
  run s acts = Some s' → booked s' = booked s + count books acts.
Proof.
  revert s. induction acts as [|a acts IH]; intros s; cbn.
  - intros [= <-]. unfold count. cbn. lia.
  - unfold next. destruct (target (stage s) a) as [st|]; [|done]. cbn.
    intros ->%IH. unfold count. cbn. destruct (books a); cbn; lia.
Qed.

(** Where the actions of the user and of the timer lead. *)
Lemma target_to (s s' : Stage) (a : Act) :
  target s a = Some s' →
  match a with
  | Cancel | Dismiss => s' = Idle
  | OpenGate => s' = PaymentPending
  | _ => True
  end.
Proof. destruct s, a; cbn; try done; by intros [= <-]. Qed.

(** The last action of a run that ends with a finalized booking. *)
Lemma run_Finalized_last (s s' : State) (acts : list Act) (a : Act) :
  run s (acts ++ [a]) = Some s' → stage s' = Finalized →
  a = Finalize ∨ a = Verified ∨ a = Reschedule.
Proof.
  rewrite run_app. destruct (run s acts) as [s1|]; [|done]. cbn. unfold next.
  destruct (stage s1), a; cbn; try done; intros [= <-]; cbn; try done; auto.
Qed.

Lemma next_intent (s s' : State) (a : Act) :
  next s a = Some s' →
  (if holdsIntent (stage s') then 1 else 0) + (if releases a then 1 else 0) =
  (if holdsIntent (stage s) then 1 else 0) + (if takes a then 1 else 0).
Proof.
  unfold next. destruct (stage s), a; cbn; try done; by intros [= <-].
Qed.

(** Every intent captured is finalized, cancelled or still held: no run
    loses an intent and none finalizes one that was not captured. *)
Theorem run_intents (s s' : State) (acts : list Act) :
  run s acts = Some s' →
  (if holdsIntent (stage s') then 1 else 0) + count releases acts =
  (if holdsIntent (stage s) then 1 else 0) + count takes acts.
Proof.
  revert s. induction acts as [|a acts IH]; intros s; cbn.
  - by intros [= <-].
  - destruct (next s a) as [s1|] eqn:E; [|done]. cbn. intros H%IH.
    apply next_intent in E. unfold count in *. cbn.
    destruct (releases a), (takes a); cbn; lia.
Qed.

(** A verification is the verification of a payment the gateway reported
    since the last capture: a paid booking is never made without. *)
Theorem verified_after_paid (s s' : State) (acts : list Act) :
  run s (acts ++ [Verified]) = Some s' →
  ∃ s1, run s acts = Some s1 ∧ stage s1 = PaymentVerifying ∧
        (acts = [] ∨ ∃ pre a, acts = pre ++ [a] ∧ a = Paid).
Proof.
  rewrite run_app. destruct (run s acts) as [s1|] eqn:E; [|done]. cbn. unfold next.
  destruct (stage s1) eqn:Es; try done. intros _. exists s1. split_and!; try done.
  destruct (decide (acts = [])) as [->|Hne]; [by left|]. right.
  destruct (exists_last Hne) as (pre & a & ->). exists pre, a. split; [done|].
  rewrite run_app in E. destruct (run s pre) as [s0|]; [|done]. cbn in E.
  unfold next in E. destruct (stage s0), a; cbn in E; try done;
    injection E as <-; by cbn in Es.
Qed.

End Spec.
