(* ===== verification/AppRefinement.v ===== *)
(** * AppRefinement: the application implements the booking state machine

    [stage] reads the stage of the booking flow off a world of
    [AppFlow.v]: the confirmation is open; the payment modal is mounted,
    with or without a session that waits for the verification; details
    are pending while the timer that opens the payment modal runs;
    nothing is under way.  [acts] reads the actions of [BookingSpec.v]
    off a label.

    The application follows the machine on the runs in which one thing
    happens at a time ([calm]): the user acts on the control in front
    and not while the timer runs, a payment session answers only while
    its modal is mounted, the payment is retried only once the session
    before has ended, and the session of the auth provider changes only
    while no details are pending.  [Scenarios.v] has a run off the
    machine for each of these conditions left out. *)

From Stdlib Require Import ZArith Lia.
From stdpp Require Import base tactics option list strings.
From S2P Require Import Prelude Types JsArray JsTime BookingList ProfilePage BookingModal PaymentModal.
From S2P Require Import AppState Widgets AppHandlers AppView AppEvents AppLayers AppFlow BookingSpec.

#[local] Open Scope Z_scope.

Module Refinement.

Import Events Layers Flow.

#[local] Set Primitive Projections.

(** ** Definitions: the abstraction *)

(** What the stage depends on in the state of [App]. *)
Record Flags := mkFlags {
  confirmOpen : bool;
  paymentOpen : bool;
  pending : bool;
  therapist : bool;
  user : bool;
}.

Definition flags (a : AppState) : Flags :=
  {| confirmOpen := isConfirmModalOpen a;
     paymentOpen := isPaymentModalOpen a;
     pending := is_some (pendingBookingDetails a);
     therapist := is_some (therapistToBook a);
     user := is_some (currentUser a) |}.

(** The guard of the payment modal. *)
Definition gate (f : Flags) : bool := paymentOpen f && therapist f && user f && pending f.

Definition stageOf (f : Flags) (verifying : bool) : Spec.Stage :=
  if confirmOpen f then Spec.Finalized
  else if gate f then (if verifying then Spec.PaymentVerifying else Spec.PaymentPending)
  else if pending f then Spec.IntentCaptured
  else Spec.Idle.

Definition isVerifying (ph : PaymentModal.Phase) : bool :=
  match ph with
  | PaymentModal.Verifying _ _ => true
  | _ => false
  end.

Definition isEnded (ph : PaymentModal.Phase) : bool :=
  match ph with
  | PaymentModal.Ended => true
  | _ => false
  end.

(** The session waits for an outcome and its modal is mounted. *)
Definition active (x : Session) : bool := live x && negb (isEnded (phase x)).

(** A session of the mounted modal waits for the verification. *)
Definition verifying (w : World) : bool :=
  existsb (λ x, live x && isVerifying (phase x)) (sessions w).

Definition stage (w : World) : Spec.Stage := stageOf (flags (app w)) (verifying w).

Definition abs (w : World) : Spec.State :=
  {| Spec.stage := stage w; Spec.booked := length (bookings (app w)) |}.

(** The timer that opens the payment modal runs. *)
Definition waiting (w : World) : bool := bool_decide (stage w = Spec.IntentCaptured).

(** The actions of a confirmed booking form. *)
Definition confirmActs (a : AppState) : list Spec.Act :=
  if is_some (bookingToReschedule a) then [Spec.Reschedule]
  else match therapistToBook a with
       | Some t => if App.onlinePaymentAvailable t then [Spec.Capture]
                   else [Spec.Capture; Spec.Finalize]
       | None => []
       end.

(** The actions of an outcome of a payment session. *)
Definition payActs (ph : PaymentModal.Phase) (i : PaymentModal.Input) : list Spec.Act :=
  match ph, i with
  | PaymentModal.CheckoutOpen _, PaymentModal.PaymentSucceeded _ => [Spec.Paid]
  | PaymentModal.Verifying _ _, PaymentModal.Verified r =>
      if PaymentModal.verifyFailed r then [Spec.Failed] else [Spec.Verified]
  | _, _ => []
  end.

(** One thing happens at a time. *)
Definition calm (w : World) (l : Label) : bool :=
  match l with
  | User _ e => onTop (app w) e && negb (waiting w)
  | Form _ _ => bool_decide (front (app w) = Some oBooking) && negb (waiting w)
  | Retry => forallb (λ x, negb (active x)) (sessions w)
  | Pay k _ _ => from_option live false (sessions w !! k)
  | PaymentTimer | LoadTimer | SignOutResolved => true
  | AuthChange _ _ _ _ => negb (is_some (pendingBookingDetails (app w)))
  end.

(** ** Definitions: the invariant of the calm runs *)

(** The flags fit together: [issued] timers have been started and
    [fired] of them have fired. *)
Definition shape (f : Flags) (issued fired : nat) : bool :=
  if confirmOpen f
  then negb (pending f) && negb (paymentOpen f) && therapist f && (issued =? fired)%nat
  else if pending f
  then therapist f && user f &&
       (if paymentOpen f then (issued =? fired)%nat else (issued =? S fired)%nat)
  else negb (paymentOpen f) && (issued =? fired)%nat.

(** At most one session is active. *)
Definition uniqueActive (xs : list Session) : Prop :=
  ∀ i j x y, xs !! i = Some x → xs !! j = Some y →
             active x = true → active y = true → i = j.

Definition allDetached (xs : list Session) : Prop := Forall (λ x, live x = false) xs.

(** The handler leaves the flow alone: the confirmation, the payment
    modal, the pending details and the timers. *)
Definition Keeps (s s' : AppState) : Prop :=
  isConfirmModalOpen s' = isConfirmModalOpen s ∧
  isPaymentModalOpen s' = isPaymentModalOpen s ∧
  pendingBookingDetails s' = pendingBookingDetails s ∧
  ∃ es, effects s' = effects s ++ es ∧ Forall (λ e, e ≠ StartPaymentTimer) es.

(** The events whose handlers are part of the booking flow. *)
Definition flowEvent (e : Event) : bool :=
  match e with
  | BookNow _ | CardClick BookingCard.Reschedule _ | BookingClose | BookingConfirm _ _
  | PaymentClose | ConfirmationClose => true
  | _ => false
  end.

(** What the invariant says of the sessions of a world. *)
Definition SessOk (w : World) : Prop :=
  Forall sessionOk (sessions w) ∧ crashed w = false ∧
  (paymentView w = None → allDetached (sessions w)) ∧ uniqueActive (sessions w).

(** A handler takes the state [a] of [App] to [a'] as the actions take
    the machine: [fired] and [v] are the timers fired and whether a
    session waits for the verification before, [fired'] and [v'] after. *)
Definition Sim (a a' : AppState) (fired fired' : nat) (v v' : bool) (acts : list Spec.Act)
    : Prop :=
  shape (flags a') (issued StartPaymentTimer a') fired' = true ∧
  Spec.run {| Spec.stage := stageOf (flags a) v; Spec.booked := length (bookings a) |} acts =
    Some {| Spec.stage := stageOf (flags a') v'; Spec.booked := length (bookings a') |}.

Section WithSort.
Context `{JS : JsSort} `{LT : LocalTime}.
Context (MOCK_THERAPISTS : list Therapist).

(** The actions of the machine a label stands for. *)
Definition acts (w : World) (l : Label) : list Spec.Act :=
  match l with
  | User _ PaymentClose => [Spec.Cancel]
  | User _ ConfirmationClose => [Spec.Dismiss]
  | Form e _ =>
      match bookingForm w with
      | Some st =>
          match (BookingModal.update e st).2 with
          | Some (BookingModal.OnConfirm _) => confirmActs (app w)
          | _ => []
          end
      | None => []
      end
  | Pay k i _ =>
      match sessions w !! k with
      | Some x => payActs (phase x) i
      | None => []
      end
  | PaymentTimer => [Spec.OpenGate]
  | _ => []
  end.

(** The part of the invariant that is about the payment sessions. *)
Record SInv (w : World) : Prop := {
  s_view : paymentView w = None ↔ gate (flags (app w)) = false;
  s_detached : gate (flags (app w)) = false → allDetached (sessions w);
  s_active : uniqueActive (sessions w);
}.

Record CInv (w : World) : Prop := {
  c_winv : WInv w;
  c_shape : shape (flags (app w)) (issued StartPaymentTimer (app w)) (timersFired w) = true;
  c_sessions : SInv w;
}.

(** A calm step. *)
Definition cstep (w : World) (l : Label) : option World :=
  if calm w l then step MOCK_THERAPISTS w l else None.

(** A calm run and the actions it stands for. *)
Definition csteps (w : World) (ls : list Label) : option World := runs cstep w ls.

Fixpoint trace (w : World) (ls : list Label) : list Spec.Act :=
  match ls with
  | [] => []
  | l :: rest => acts w l ++ from_option (λ w', trace w' rest) [] (cstep w l)
  end.

(** Every step of the run happens and is a run of the machine on the
    actions of its label, calm or not. *)
Fixpoint followsFrom (w : World) (ls : list Label) : bool :=
  match ls with
  | [] => true
  | l :: rest =>
      match step MOCK_THERAPISTS w l with
      | Some w' =>
          bool_decide (Spec.run (abs w) (acts w l) = Some (abs w')) && followsFrom w' rest
      | None => false
      end
  end.

Definition follows (ls : list Label) : bool := followsFrom init ls.

(** A way back to where nothing is under way: the timer fires, the
    payment modal is closed, or the modals in front of the confirmation
    and the confirmation are closed. *)
Definition escape (w : World) : list Label :=
  match stage w with
  | Spec.Idle => []
  | Spec.IntentCaptured => [PaymentTimer; User 0 PaymentClose]
  | Spec.PaymentPending | Spec.PaymentVerifying => [User 0 PaymentClose]
  | Spec.Finalized =>
      (if mounted (app w) oViewIntake then [User 0 ViewIntakeClose] else []) ++
      (if mounted (app w) oIntake then [User 0 IntakeClose] else []) ++
      [User 0 ConfirmationClose]
  end.

(** The worlds of the calm runs. *)
Inductive creachable : World → Prop :=
| creachable_init : creachable init
| creachable_step w l w' : creachable w → cstep w l = Some w' → creachable w'.

End WithSort.

(** Solves [Keeps s (h s)] for a handler [h] that is unfolded. *)
Ltac keeps_goal :=
  unfold Keeps;
  split_and!;
    [ done | done | done
    | first [ by (exists []; split; [rewrite app_nil_r; reflexivity | constructor])
            | by (eexists [_]; split; [reflexivity | repeat constructor])
            | by (eexists [_; _]; split;
                    [ etrans; [|symmetry; apply (app_assoc _ [_] [_])]; reflexivity
                    | repeat constructor ]) ] ].

Ltac keeps := repeat case_match; keeps_goal.

(** The condition of the [if] of the goal holds by [H]. *)
Ltac if_true H :=
  match goal with
  | |- context [if ?b then _ else _] =>
      let Hb := fresh in assert (b = true) as Hb by exact H; rewrite Hb; clear Hb
  end.

(** Case analysis on the flags [f] and on whether a session waits for
    the verification. *)
Ltac flag_cases f v :=
  destruct f as [[] [] [] [] []], v; cbn in *; try done.

(** ** Lemmas: the sessions *)
Lemma gate_guard (a : AppState) :
  gate (flags a) = is_some (AppView.paymentModalGuard a).
Proof.
  unfold gate, flags, AppView.paymentModalGuard. cbn.
  by destruct (isPaymentModalOpen a), (therapistToBook a), (currentUser a),
    (pendingBookingDetails a).
Qed.

Lemma allDetached_not_verifying (xs : list Session) :
  allDetached xs → existsb (λ x, live x && isVerifying (phase x)) xs = false.
Proof. induction 1 as [|x xs Hx _ IH]; [done|]. cbn. by rewrite Hx. Qed.

Lemma allDetached_detach (xs : list Session) : allDetached (detach <$> xs).
Proof. apply Forall_fmap, Forall_true. done. Qed.

Lemma allDetached_uniqueActive (xs : list Session) : allDetached xs → uniqueActive xs.
Proof.
  intros Hd i j x y Hx _ Ha _. apply list_elem_of_lookup_2 in Hx. unfold active in Ha.
  rewrite (proj1 (Forall_forall _ _) Hd x Hx) in Ha. done.
Qed.

(** A session that starts while the others are detached is the only
    active one. *)
Lemma uniqueActive_snoc (xs : list Session) (x : Session) :
  Forall (λ y, active y = false) xs → uniqueActive (xs ++ [x]).
Proof.
  intros Hd i j y z Hy Hz Ay Az.
  assert (∀ n v, (xs ++ [x]) !! n = Some v → active v = true → n = length xs) as Hn.
  { intros n v Hv Av. apply lookup_app_Some in Hv as [Hv | [Hge Hv]].
    - apply list_elem_of_lookup_2 in Hv.
      by rewrite (proj1 (Forall_forall _ _) Hd v Hv) in Av.
    - apply list_lookup_singleton_Some in Hv as [Hv _]. lia. }
  by rewrite (Hn i y), (Hn j z).
Qed.

Lemma existsb_snoc {A} (f : A → bool) (xs : list A) (x : A) :
  existsb f (xs ++ [x]) = existsb f xs || f x.
Proof. rewrite existsb_app. cbn. by rewrite orb_false_r. Qed.

(** With one active session, a session waits for the verification
    exactly when the active one does, also after it has reacted. *)
Lemma verifying_insert (xs : list Session) (k : nat) (x x' : Session) :
  uniqueActive xs → xs !! k = Some x → active x = true →
  existsb (λ y, live y && isVerifying (phase y)) (<[k:=x']> xs) =
    live x' && isVerifying (phase x').
Proof.
  intros Hu Hx Ha. apply Bool.eq_iff_eq_true. rewrite existsb_exists. split.
  - intros (y & [j Hj]%list_elem_of_In%list_elem_of_lookup & Hy).
    apply list_lookup_insert_Some in Hj as [(-> & -> & _) | [Hne Hj]]; [done|].
    destruct (Hne (Hu k j x y Hx Hj Ha ltac:(unfold active;
      destruct (live y), (phase y); done))).
  - intros Hv. exists x'. split; [|done]. apply list_elem_of_In, list_elem_of_lookup.
    exists k. apply list_lookup_insert_eq. by eapply lookup_lt_Some.
Qed.

Lemma uniqueActive_insert (xs : list Session) (k : nat) (x x' : Session) :
  uniqueActive xs → xs !! k = Some x → active x = true → uniqueActive (<[k:=x']> xs).
Proof.
  intros Hu Hx Ha.
  assert (∀ j y, <[k:=x']> xs !! j = Some y → active y = true → j = k) as Hk.
  { intros j y [(-> & _) | [Hne Hj]]%list_lookup_insert_Some Hy; [done|].
    symmetry. by apply (Hu k j x y). }
  intros i j y z Hy Hz Ay Az. by rewrite (Hk i y), (Hk j z).
Qed.

Lemma stageOf_gate (f : Flags) (v : bool) : stageOf f (gate f && v) = stageOf f v.
Proof. unfold stageOf. by destruct (confirmOpen f), (gate f). Qed.

(** ** Lemmas: the render that follows a handler *)

Section WithSortLemmas.
Context `{JS : JsSort} `{LT : LocalTime}.
Context (MOCK_THERAPISTS : list Therapist).

(** What [settle] leaves of the modal and its sessions. *)
Lemma settle_cases (w : World) (a : AppState) :
  AppView.pendingValid a →
  timersFired (settle w a) = timersFired w ∧
  if gate (flags a)
  then is_Some (paymentView (settle w a)) ∧
       (is_Some (paymentView w) → sessions (settle w a) = sessions w) ∧
       (paymentView w = None →
        ∃ p, sessions (settle w a) =
             sessions w ++ [mkSession p a PaymentModal.LoadingScript true])
  else paymentView (settle w a) = None ∧ sessions (settle w a) = detach <$> sessions w.
Proof.
  intros Hv. pose proof (AppView.paymentModalProps_total a Hv) as Ht.
  rewrite gate_guard. unfold settle, AppView.paymentModalProps in *.
  destruct (AppView.paymentModalGuard a) as [[[t u] d]|]; cbn in *; [|done].
  destruct (toISOString (BookingDetails.date d)) as [iso|]; cbn in *; [|done].
  destruct (paymentView w) as [st|]; cbn; split_and!; eauto; done.
Qed.

Lemma verifying_settle (w : World) (a : AppState) :
  AppView.pendingValid a → verifying (settle w a) = gate (flags a) && verifying w.
Proof.
  intros Hv. destruct (settle_cases w a Hv) as [_ H]. unfold verifying.
  destruct (gate (flags a)); cbn.
  - destruct H as (_ & Hs & Hn). destruct (paymentView w) as [st|].
    + by rewrite Hs.
    + destruct (Hn eq_refl) as [p ->]. rewrite existsb_snoc. cbn. by rewrite orb_false_r.
  - destruct H as [_ ->]. apply allDetached_not_verifying, allDetached_detach.
Qed.

Lemma stage_settle (w : World) (a : AppState) :
  AppView.pendingValid a → stage (settle w a) = stageOf (flags a) (verifying w).
Proof.
  intros Hv. unfold stage. by rewrite app_settle, verifying_settle, stageOf_gate.
Qed.

Lemma abs_settle (w : World) (a : AppState) :
  AppView.pendingValid a →
  abs (settle w a) =
    {| Spec.stage := stageOf (flags a) (verifying w); Spec.booked := length (bookings a) |}.
Proof. intros Hv. unfold abs. by rewrite stage_settle, app_settle. Qed.

Lemma SInv_settle (w : World) (a : AppState) :
  AppView.pendingValid a →
  (paymentView w = None → allDetached (sessions w)) → uniqueActive (sessions w) →
  SInv (settle w a).
Proof.
  intros Hv Hd Hu. destruct (settle_cases w a Hv) as [_ H].
  split; rewrite ?app_settle; destruct (gate (flags a)).
  - destruct H as [[st ->] _]. done.
  - by destruct H as [-> _].
  - done.
  - intros _. destruct H as [_ ->]. apply allDetached_detach.
  - destruct H as (_ & Hs & Hn). destruct (paymentView w) as [st|].
    + by rewrite Hs.
    + destruct (Hn eq_refl) as [p ->]. apply uniqueActive_snoc.
      eapply Forall_impl; [by apply Hd|]. intros x Hx. unfold active. by rewrite Hx.
  - destruct H as [_ ->]. apply allDetached_uniqueActive, allDetached_detach.
Qed.

(** The render that follows a handler keeps the invariant of the calm
    runs when the state of [App] has the shape. *)
Lemma CInv_settle (w : World) (a : AppState) :
  AInv a → Forall sessionOk (sessions w) → crashed w = false →
  shape (flags a) (issued StartPaymentTimer a) (timersFired w) = true →
  (paymentView w = None → allDetached (sessions w)) → uniqueActive (sessions w) →
  CInv (settle w a).
Proof.
  intros Ha Hs Hc Hsh Hd Hu. pose proof (proj2 (proj1 Ha)) as Hv. split.
  - by apply settle_WInv.
  - rewrite app_settle. by rewrite (proj1 (settle_cases w a Hv)).
  - by apply SInv_settle.
Qed.

End WithSortLemmas.

(** ** Lemmas: the handlers and the flags *)

Section Handlers.
Context `{JS : JsSort} `{LT : LocalTime}.

Lemma Keeps_refl (s : AppState) : Keeps s s.
Proof. keeps. Qed.

Lemma issued_app (e : Effect) (s s' : AppState) (es : list Effect) :
  effects s' = effects s ++ es → Forall (λ x, x ≠ e) es → issued e s' = issued e s.
Proof.
  intros Heq Hes. unfold issued. rewrite Heq, List.filter_app, length_app. clear Heq.
  replace (List.filter _ es) with (@nil Effect); [cbn; lia|].
  induction Hes as [|x es Hx _ IH]; [done|]. cbn. by rewrite bool_decide_eq_false_2.
Qed.

Lemma Keeps_issued (s s' : AppState) :
  Keeps s s' → issued StartPaymentTimer s' = issued StartPaymentTimer s.
Proof. intros (_ & _ & _ & es & Heq & Hes). by eapply issued_app. Qed.

Lemma Keeps_flags (s s' : AppState) :
  Keeps s s' → therapistToBook s' = therapistToBook s → currentUser s' = currentUser s →
  flags s' = flags s.
Proof. intros (Hc & Hp & Hd & _) Ht Hu. unfold flags. by rewrite Hc, Hp, Hd, Ht, Hu. Qed.

(** The handlers outside the booking flow leave it alone. *)
Lemma dispatch_Keeps (e : Event) (c s : AppState) :
  flowEvent e = false →
  Keeps s (dispatch e c s) ∧ therapistToBook (dispatch e c s) = therapistToBook s ∧
  currentUser (dispatch e c s) = currentUser s.
Proof.
  destruct e as [| | | | | | | | | | | | | | | | [] ?| | | | | | | | | | | | | | | | | | | | |];
    try done; intros _; cbn;
    unfold App.handleShowProfile, App.handleMobileProfileClick, App.handleShowProfile,
      App.handleOpenCancelModal, App.handleOpenIntakeForm, App.handleViewIntakeForm,
      App.handleConfirmDelete, App.handleConfirmCancelBooking, editOwnProfile, when;
    repeat case_match; (split; [keeps_goal | done]).
Qed.

(** Opening the booking form changes the therapist to book at most. *)
Lemma open_Keeps (e : Event) (c s : AppState) :
  (∃ t, e = BookNow t) ∨ (∃ i, e = CardClick BookingCard.Reschedule i) →
  Keeps s (dispatch e c s) ∧ currentUser (dispatch e c s) = currentUser s ∧
  (therapistToBook (dispatch e c s) = therapistToBook s ∨
   is_Some (therapistToBook (dispatch e c s))).
Proof.
  intros [[t ->] | [i ->]]; cbn;
    unfold App.handleOpenBookingModal, App.handleOpenRescheduleModal;
    repeat case_match; (split; [keeps_goal | split; [done | by eauto]]).
Qed.

Lemma onAuthStateChange_Keeps ev session profiles inserted (s : AppState) :
  Keeps s (App.onAuthStateChange ev session profiles inserted s) ∧
  therapistToBook (App.onAuthStateChange ev session profiles inserted s) = therapistToBook s.
Proof.
  unfold App.onAuthStateChange, App.closeOnSignIn. destruct ev; cbn;
    repeat case_match; (split; [keeps_goal | done]).
Qed.

End Handlers.

(** ** Lemmas: the steps of the machine *)

Section Simulation.
Context `{JS : JsSort} `{LT : LocalTime}.
Context (MOCK_THERAPISTS : list Therapist).

Lemma CInv_SessOk (w : World) : CInv w → SessOk w.
Proof.
  intros [HW _ [Hv Hd Hu]]. split_and!; try done; [apply HW.. |].
  intros Hn. by apply Hd, Hv.
Qed.

(** A handler that takes the state of [App] as the machine goes, followed
    by the render, is a step of the machine and keeps the invariant. *)
Lemma sim_settle (w w1 : World) (a' : AppState) (acts : list Spec.Act) :
  AInv a' → SessOk w1 →
  Sim (app w) a' (timersFired w) (timersFired w1) (verifying w) (verifying w1) acts →
  Spec.run (abs w) acts = Some (abs (settle w1 a')) ∧ CInv (settle w1 a').
Proof.
  intros Ha (Hs & Hc & Hd & Hu) [Hsh Hrun]. pose proof (proj2 (proj1 Ha)) as Hv.
  split; [by rewrite abs_settle | by apply CInv_settle].
Qed.

(** A handler that leaves the flow alone is no step of the machine. *)
Lemma Sim_quiet (a a' : AppState) (fired : nat) (v : bool) :
  shape (flags a) (issued StartPaymentTimer a) fired = true →
  Keeps a a' → therapistToBook a' = therapistToBook a → currentUser a' = currentUser a →
  length (bookings a') = length (bookings a) →
  Sim a a' fired fired v v [].
Proof.
  intros Hsh HK Ht Hu Hb. unfold Sim.
  by rewrite (Keeps_flags _ _ HK Ht Hu), (Keeps_issued _ _ HK), Hb.
Qed.

(** The flags after a handler that changes the therapist to book at
    most. *)
Lemma flags_therapist (a a' : AppState) :
  Keeps a a' → currentUser a' = currentUser a →
  flags a' = mkFlags (confirmOpen (flags a)) (paymentOpen (flags a)) (pending (flags a))
                     (is_some (therapistToBook a')) (user (flags a)).
Proof. intros (Hc & Hp & Hd & _) Hu. unfold flags. cbn. by rewrite Hc, Hp, Hd, Hu. Qed.

(** Opening the booking form from the page is no step of the machine. *)
Lemma Sim_open (a a' : AppState) (fired : nat) (v : bool) :
  shape (flags a) (issued StartPaymentTimer a) fired = true →
  Keeps a a' → currentUser a' = currentUser a →
  length (bookings a') = length (bookings a) →
  gate (flags a) = false → confirmOpen (flags a) && therapist (flags a) = false →
  stageOf (flags a) v ≠ Spec.IntentCaptured →
  Sim a a' fired fired v v [].
Proof.
  intros Hsh HK Hu Hb Hg Hc Hw. unfold Sim.
  rewrite (flags_therapist _ _ HK Hu), (Keeps_issued _ _ HK), Hb.
  destruct (is_some (therapistToBook a')); revert Hsh Hg Hc Hw;
    unfold shape, stageOf, gate; generalize (flags a); intros f; flag_cases f v.
Qed.

(** Closing the payment modal cancels. *)
Lemma Sim_cancel (a : AppState) (fired : nat) (v : bool) :
  shape (flags a) (issued StartPaymentTimer a) fired = true → gate (flags a) = true →
  Sim a (App.handlePaymentModalClose a) fired fired v v [Spec.Cancel].
Proof.
  unfold Sim. change (flags (App.handlePaymentModalClose a))
    with (mkFlags (confirmOpen (flags a)) false false false (user (flags a))).
  change (issued StartPaymentTimer (App.handlePaymentModalClose a))
    with (issued StartPaymentTimer a).
  change (bookings (App.handlePaymentModalClose a)) with (bookings a).
  unfold shape, stageOf, gate, Spec.run, runs, Spec.next. generalize (flags a). intros f.
  flag_cases f v.
Qed.

(** Closing the confirmation dismisses it. *)
Lemma Sim_dismiss (a : AppState) (fired : nat) (v : bool) :
  shape (flags a) (issued StartPaymentTimer a) fired = true →
  confirmOpen (flags a) && therapist (flags a) = true →
  Sim a (App.handleConfirmModalClose a) fired fired v v [Spec.Dismiss].
Proof.
  unfold Sim. change (flags (App.handleConfirmModalClose a))
    with (mkFlags false (paymentOpen (flags a)) (pending (flags a)) false (user (flags a))).
  change (issued StartPaymentTimer (App.handleConfirmModalClose a))
    with (issued StartPaymentTimer a).
  change (bookings (App.handleConfirmModalClose a)) with (bookings a).
  unfold shape, stageOf, gate, Spec.run, runs, Spec.next. generalize (flags a). intros f.
  flag_cases f v.
Qed.

(** What a control of the page on top says of the flags. *)
Lemma page_onTop (a : AppState) (e : Event) :
  source e = None → onTop a e = true →
  gate (flags a) = false ∧ confirmOpen (flags a) && therapist (flags a) = false.
Proof.
  intros Hs Ht. split.
  - rewrite gate_guard. apply (onTop_page a e oPayment Hs Ht).
  - pose proof (onTop_page a e oConfirmation Hs Ht) as H. cbn in H.
    by rewrite ConfirmationModal.render_Some in H.
Qed.

Lemma not_waiting (w : World) :
  waiting w = false → stageOf (flags (app w)) (verifying w) ≠ Spec.IntentCaptured.
Proof. by intros H%bool_decide_eq_false. Qed.

(** Opening the booking form from the page. *)
Lemma sim_open (w : World) (e : Event) :
  CInv w → (∃ t, e = BookNow t) ∨ (∃ i, e = CardClick BookingCard.Reschedule i) →
  onTop (app w) e = true → waiting w = false →
  Sim (app w) (dispatch e (app w) (app w)) (timersFired w) (timersFired w)
      (verifying w) (verifying w) [].
Proof.
  intros HC He Htop Hw%not_waiting.
  assert (source e = None) as Hs by (by destruct He as [[? ->]|[? ->]]).
  destruct (page_onTop _ _ Hs Htop) as [Hg Hc].
  destruct (open_Keeps e (app w) (app w) He) as (HK & Hu & _).
  apply Sim_open; try done; [apply HC|]. apply dispatch_length.
  by destruct He as [[? ->]|[? ->]].
Qed.

(** The state of [App] after an event of the page or of a modal other
    than the booking form. *)
Lemma sim_dispatch (w : World) (today : Z) (e : Event) :
  CInv w → fromForm e = false → offered today (app w) e = true →
  onTop (app w) e = true → waiting w = false →
  Sim (app w) (dispatch e (app w) (app w)) (timersFired w) (timersFired w)
      (verifying w) (verifying w) (acts w (User today e)).
Proof.
  intros HC Hff Hoff Htop Hw. pose proof (c_shape _ HC) as Hsh.
  destruct (flowEvent e) eqn:Ef.
  - destruct e as [| | | | | | | | | | | | | | | | [] ?| | | | | | | | | | | | | | | | | | | | |];
      try done.
    + apply sim_open; eauto.
    + apply sim_open; eauto.
    + apply Sim_cancel; [done|]. by rewrite gate_guard.
    + apply Sim_dismiss; [done|].
      destruct (onTop_modal (app w) ConfirmationClose oConfirmation oConfirmation eq_refl Htop)
        as [Hm _]. cbn in Hm.
      by rewrite ConfirmationModal.render_Some in Hm.
  - destruct (dispatch_Keeps e (app w) (app w) Ef) as (HK & Ht & Hu).
    replace (acts w (User today e)) with (@nil Spec.Act) by (by destruct e).
    apply Sim_quiet; try done. apply dispatch_length. intros ?? ->. done.
Qed.

(** An event of the page or of a modal other than the booking form. *)
Lemma sim_User (w w' : World) (today : Z) (e : Event) :
  CInv w → calm w (User today e) = true →
  step MOCK_THERAPISTS w (User today e) = Some w' →
  Spec.run (abs w) (acts w (User today e)) = Some (abs w') ∧ CInv w'.
Proof.
  intros HC [Htop Hw%negb_true_iff]%andb_true_iff. pose proof (c_winv _ HC) as HW.
  unfold step. rewrite (inv_crashed _ HW).
  destruct (_ && _) eqn:E; [|done]. some_inv.
  apply andb_true_iff in E as [Hoff Hff%negb_true_iff].
  apply sim_settle; [|by apply CInv_SessOk|by apply sim_dispatch].
  apply dispatch_AInv; [by destruct e | split; [split|]; apply HW].
Qed.

(** What the booking form in front says of the flags. *)
Lemma form_front (a : AppState) :
  front a = Some oBooking →
  gate (flags a) = false ∧ confirmOpen (flags a) = false ∧
  is_Some (therapistToBook a) ∧ is_Some (currentUser a).
Proof.
  intros [Hm Hmax]%frontOf_spec. cbn in Hm.
  assert (mounted a oPayment = false ∧ mounted a oConfirmation = false) as [Hp Hc].
  { split; apply not_true_is_false; intros H%Hmax; unfold rank, zIndex in H; lia. }
  cbn in Hp, Hc. rewrite ConfirmationModal.render_Some in Hc.
  rewrite gate_guard. unfold AppView.bookingModalProps in Hm.
  destruct (isBookingModalOpen a), (therapistToBook a), (currentUser a); try done.
  cbn in *. by rewrite andb_true_r in Hc.
Qed.

(** Closing the booking form with nothing under way is no step of the
    machine. *)
Lemma Sim_close (a : AppState) (fired : nat) (v : bool) :
  shape (flags a) (issued StartPaymentTimer a) fired = true →
  gate (flags a) = false → confirmOpen (flags a) = false →
  stageOf (flags a) v ≠ Spec.IntentCaptured →
  Sim a (App.handleCloseBookingModal a) fired fired v v [].
Proof.
  unfold Sim. change (flags (App.handleCloseBookingModal a))
    with (mkFlags (confirmOpen (flags a)) (paymentOpen (flags a)) false false (user (flags a))).
  change (issued StartPaymentTimer (App.handleCloseBookingModal a))
    with (issued StartPaymentTimer a).
  change (bookings (App.handleCloseBookingModal a)) with (bookings a).
  unfold shape, stageOf, gate, Spec.run, runs, Spec.next. generalize (flags a). intros f.
  flag_cases f v.
Qed.

Lemma issued_emit (e : Effect) (a : AppState) :
  issued e (emit e a) = S (issued e a).
Proof.
  unfold issued. change (effects (emit e a)) with (effects a ++ [e]).
  rewrite List.filter_app, length_app. cbn. rewrite bool_decide_eq_true_2 by done. cbn. lia.
Qed.

(** The flags, the timers and the number of bookings after
    [handleBookingConfirm], on each of its branches. *)
Lemma confirm_reschedule (a : AppState) (now : Z) (d : BookingDetails) (r : Booking) :
  bookingToReschedule a = Some r →
  let a' := App.handleBookingConfirm a now d a in
  flags a' = mkFlags true (paymentOpen (flags a)) (pending (flags a)) (therapist (flags a))
                     (user (flags a)) ∧
  issued StartPaymentTimer a' = issued StartPaymentTimer a ∧
  length (bookings a') = length (bookings a).
Proof.
  intros Hr a'. subst a'. unfold App.handleBookingConfirm. rewrite Hr.
  split_and!; [done..|]. apply rescheduleBookings_length.
Qed.

Lemma confirm_online (a : AppState) (now : Z) (d : BookingDetails) (t : Therapist) (u : Types.User) :
  bookingToReschedule a = None → therapistToBook a = Some t → currentUser a = Some u →
  App.onlinePaymentAvailable t = true →
  let a' := App.handleBookingConfirm a now d a in
  flags a' = mkFlags (confirmOpen (flags a)) (paymentOpen (flags a)) true true true ∧
  issued StartPaymentTimer a' = S (issued StartPaymentTimer a) ∧
  length (bookings a') = length (bookings a).
Proof.
  intros Hr Ht Hu Hg a'. subst a'. unfold App.handleBookingConfirm. rewrite Hr, Ht, Hu, Hg.
  split_and!; [| |done];
    [exact (f_equal2 (mkFlags _ _ true) (f_equal is_some Ht) (f_equal is_some Hu))|].
  exact (issued_emit StartPaymentTimer
           (setIsBookingModalOpen false (setPendingBookingDetails (Some d) a))).
Qed.

Lemma confirm_pay_later (a : AppState) (now : Z) (d : BookingDetails) (t : Therapist)
    (u : Types.User) :
  bookingToReschedule a = None → therapistToBook a = Some t → currentUser a = Some u →
  App.onlinePaymentAvailable t = false →
  let a' := App.handleBookingConfirm a now d a in
  flags a' = mkFlags true (paymentOpen (flags a)) false true true ∧
  issued StartPaymentTimer a' = issued StartPaymentTimer a ∧
  length (bookings a') = S (length (bookings a)).
Proof.
  intros Hr Ht Hu Hg a'. subst a'. unfold App.handleBookingConfirm.
  rewrite Hr, Ht, Hu, Hg, (App.finalizeBooking_eq _ _ _ _ _ _ Ht Hu).
  split_and!; [| |apply addBooking_length];
    [|by eapply (issued_app _ _ _ [_]); [reflexivity|repeat constructor]].
  exact (f_equal (mkFlags true _ false true) (f_equal is_some Hu)).
Qed.

(** Confirming the booking form with nothing under way reschedules,
    captures the intent, or captures and finalizes it. *)
Lemma Sim_confirm (a : AppState) (now : Z) (d : BookingDetails) (fired : nat) (v : bool) :
  shape (flags a) (issued StartPaymentTimer a) fired = true →
  gate (flags a) = false → confirmOpen (flags a) = false →
  stageOf (flags a) v ≠ Spec.IntentCaptured →
  is_Some (therapistToBook a) → is_Some (currentUser a) →
  Sim a (App.handleBookingConfirm a now d a) fired fired v v (confirmActs a).
Proof.
  intros Hsh Hg Hc Hw [t Ht] [u Hu]. unfold Sim, confirmActs. rewrite Ht.
  assert (therapist (flags a) = true ∧ user (flags a) = true) as [Hft Hfu]
    by (unfold flags; cbn; by rewrite Ht, Hu).
  destruct (bookingToReschedule a) as [r|] eqn:Er; cbn [is_some];
    [destruct (confirm_reschedule a now d r Er) as (-> & -> & ->)
    |destruct (App.onlinePaymentAvailable t) eqn:Eg;
      [destruct (confirm_online a now d t u Er Ht Hu Eg) as (-> & -> & ->)
      |destruct (confirm_pay_later a now d t u Er Ht Hu Eg) as (-> & -> & ->)]];
    revert Hsh Hg Hc Hw Hft Hfu; unfold shape, stageOf, gate, Spec.run, runs, Spec.next;
    generalize (flags a); intros f; flag_cases f v.
Qed.

(** An event of the booking form. *)
Lemma sim_Form (w w' : World) (e : BookingModal.Event) (now : Z) :
  CInv w → calm w (Form e now) = true →
  step MOCK_THERAPISTS w (Form e now) = Some w' →
  Spec.run (abs w) (acts w (Form e now)) = Some (abs w') ∧ CInv w'.
Proof.
  intros HC [Hf%bool_decide_eq_true Hw%negb_true_iff%not_waiting]%andb_true_iff.
  pose proof (c_winv _ HC) as HW. pose proof (c_shape _ HC) as Hsh.
  unfold step, acts. rewrite (inv_crashed _ HW).
  destruct (bookingForm w) as [st|]; [|done].
  destruct (AppView.bookingModalProps (app w)) as [p|]; [|done].
  destruct (BookingModal.offered p e); [|done].
  destruct (BookingModal.update e st) as [st' out] eqn:Eu. some_inv. cbn [snd].
  destruct (form_front _ Hf) as (Hg & Hc & Ht & Hu).
  apply (sim_settle w (withForm st' w));
    [eapply step_form_AInv; [done | split; [split|]; apply HW]
    |exact (CInv_SessOk w HC)|].
  change (timersFired (withForm st' w)) with (timersFired w).
  change (verifying (withForm st' w)) with (verifying w).
  destruct out as [[d|]|].
  - by apply Sim_confirm.
  - by apply Sim_close.
  - apply Sim_quiet; try done. apply Keeps_refl.
Qed.

(** The payment is retried once the session before has ended: the
    machine stays where it is. *)
Lemma sim_Retry (w w' : World) :
  CInv w → calm w Retry = true → step MOCK_THERAPISTS w Retry = Some w' →
  Spec.run (abs w) (acts w Retry) = Some (abs w') ∧ CInv w'.
Proof.
  intros HC Hcalm Hstep. pose proof (c_winv _ HC) as HW.
  pose proof (step_WInv MOCK_THERAPISTS _ _ _ HW Hstep) as HW'. revert Hstep.
  unfold step. rewrite (inv_crashed _ HW).
  destruct (paymentView w) as [st|]; [|done].
  destruct (AppView.paymentModalProps (app w)) as [[p|]|] eqn:Ep; try done.
  destruct (PaymentModal.offered _ _ _); [|done]. some_inv.
  assert (gate (flags (app w)) = true) as Hg.
  { rewrite gate_guard. unfold AppView.paymentModalProps in Ep.
    by destruct (AppView.paymentModalGuard (app w)). }
  split; [|split; [done|apply HC|split; cbn]].
  - unfold abs, stage, verifying. cbn. rewrite existsb_snoc. cbn. by rewrite orb_false_r.
  - by rewrite Hg.
  - by rewrite Hg.
  - apply uniqueActive_snoc, Forall_forall. intros x Hx%list_elem_of_In.
    apply negb_true_iff. exact (proj1 (forallb_forall _ _) Hcalm x Hx).
Qed.

(** The timer fires while it runs: the gate opens. *)
Lemma Sim_timer (a : AppState) (fired : nat) :
  shape (flags a) (issued StartPaymentTimer a) fired = true →
  (fired < issued StartPaymentTimer a)%nat →
  gate (flags a) = false ∧
  Sim a (App.paymentTimerFired a) fired (S fired) false false [Spec.OpenGate].
Proof.
  unfold Sim. change (flags (App.paymentTimerFired a))
    with (mkFlags (confirmOpen (flags a)) true (pending (flags a)) (therapist (flags a))
                  (user (flags a))).
  change (issued StartPaymentTimer (App.paymentTimerFired a))
    with (issued StartPaymentTimer a).
  change (bookings (App.paymentTimerFired a)) with (bookings a).
  unfold shape, stageOf, gate, Spec.run, runs, Spec.next. generalize (flags a). intros f.
  destruct f as [[] [] [] [] []]; cbn; try done;
    intros H%Nat.eqb_eq; (lia || (intros _; by rewrite H, Nat.eqb_refl)).
Qed.

(** A change of the session of the auth provider while nothing is
    pending is no step of the machine. *)
Lemma Sim_auth (a a' : AppState) (fired : nat) (v : bool) :
  shape (flags a) (issued StartPaymentTimer a) fired = true →
  Keeps a a' → therapistToBook a' = therapistToBook a → bookings a' = bookings a →
  pendingBookingDetails a = None →
  Sim a a' fired fired v v [].
Proof.
  intros Hsh HK Ht Hb Hp. unfold Sim. rewrite (Keeps_issued _ _ HK), Hb.
  assert (flags a' = mkFlags (confirmOpen (flags a)) (paymentOpen (flags a)) false
                             (therapist (flags a)) (is_some (currentUser a'))) as ->.
  { destruct HK as (Hc & Ho & Hd & _). unfold flags. cbn. by rewrite Hc, Ho, Hd, Ht, Hp. }
  assert (pending (flags a) = false) as Hf by (unfold flags; cbn; by rewrite Hp).
  destruct (is_some (currentUser a')); revert Hsh Hf;
    unfold shape, stageOf, gate; generalize (flags a); intros f; flag_cases f v.
Qed.

Lemma AInv_app (w : World) : WInv w → AInv (app w).
Proof. intros HW. split; [split|]; apply HW. Qed.

(** The timer of [handleBookingConfirm] fires. *)
Lemma sim_PaymentTimer (w w' : World) :
  CInv w → step MOCK_THERAPISTS w PaymentTimer = Some w' →
  Spec.run (abs w) (acts w PaymentTimer) = Some (abs w') ∧ CInv w'.
Proof.
  intros HC. pose proof (c_winv _ HC) as HW. unfold step. rewrite (inv_crashed _ HW).
  case_decide as Hlt; [|done]. some_inv.
  destruct (Sim_timer _ _ (c_shape _ HC) Hlt) as [Hg HS].
  apply sim_settle;
    [eapply AInv_frame; [|by apply AInv_app]; frame | exact (CInv_SessOk w HC) |].
  change (verifying (withCounters _ _ _ w)) with (verifying w).
  replace (verifying w) with false; [done|]. symmetry.
  by apply allDetached_not_verifying, HC.
Qed.

(** The therapists are loaded, or the sign-out has resolved. *)
Lemma sim_background (w w' : World) (l : Label) :
  CInv w → l = LoadTimer ∨ l = SignOutResolved →
  step MOCK_THERAPISTS w l = Some w' →
  Spec.run (abs w) (acts w l) = Some (abs w') ∧ CInv w'.
Proof.
  intros HC Hl. pose proof (c_winv _ HC) as HW. unfold step. rewrite (inv_crashed _ HW).
  destruct Hl as [-> | ->]; (case_decide; [|done]); some_inv;
    (apply sim_settle;
      [eapply AInv_frame; [|by apply AInv_app]; frame | exact (CInv_SessOk w HC) |]);
    (apply Sim_quiet; [apply HC | keeps | done..]).
Qed.

(** The session of the auth provider changes while nothing is pending. *)
Lemma sim_AuthChange (w w' : World) ev session profiles inserted :
  CInv w → calm w (AuthChange ev session profiles inserted) = true →
  step MOCK_THERAPISTS w (AuthChange ev session profiles inserted) = Some w' →
  Spec.run (abs w) (acts w (AuthChange ev session profiles inserted)) = Some (abs w') ∧
  CInv w'.
Proof.
  intros HC Hp%negb_true_iff. pose proof (c_winv _ HC) as HW.
  unfold step. rewrite (inv_crashed _ HW). some_inv.
  destruct (onAuthStateChange_Keeps ev session profiles inserted (app w)) as [HK Ht].
  apply sim_settle;
    [eapply AInv_frame; [apply onAuthStateChange_Frame | by apply AInv_app]
    |by apply CInv_SessOk|].
  apply Sim_auth; try done; [apply HC | apply App.onAuthStateChange_bookings |].
  by destruct (pendingBookingDetails (app w)).
Qed.

(** The gateway reports the payment, or the verification fails: the
    state of [App] stays and the machine moves between the two stages
    of the payment. *)
Lemma Sim_payment (a : AppState) (fired : nat) (v v' : bool) (xs : list Spec.Act) :
  shape (flags a) (issued StartPaymentTimer a) fired = true → gate (flags a) = true →
  (v, v', xs) = (false, true, [Spec.Paid]) ∨ (v, v', xs) = (true, false, [Spec.Failed]) ∨
  (v = v' ∧ xs = []) →
  Sim a a fired fired v v' xs.
Proof.
  intros Hsh Hg Hx. unfold Sim. split; [done|]. revert Hsh Hg.
  unfold shape, stageOf, gate, Spec.run, runs, Spec.next. generalize (flags a). intros f.
  destruct Hx as [[= -> -> ->] | [[= -> -> ->] | [-> ->]]];
    destruct f as [[] [] [] [] []]; cbn in *; try done; by destruct v'.
Qed.

(** The verification succeeds: the booking of the closure is made and
    the confirmation opens. *)
Lemma Sim_verified (a c : AppState) (now : Z) (paymentId : string) (fired : nat) (v' : bool) :
  shape (flags a) (issued StartPaymentTimer a) fired = true → gate (flags a) = true →
  is_Some (pendingBookingDetails c) → is_Some (therapistToBook c) →
  is_Some (currentUser c) →
  Sim a (App.handlePaymentSuccess c now paymentId a) fired fired true v' [Spec.Verified].
Proof.
  intros Hsh Hg [d Hd] [t Ht] [u Hu]. unfold Sim.
  rewrite (App.handlePaymentSuccess_eq _ _ _ _ _ _ Hd Ht Hu).
  match goal with
  | |- context [flags ?s] =>
      change (flags s) with (mkFlags true false false true (user (flags a)));
      assert (issued StartPaymentTimer s = issued StartPaymentTimer a) as ->
        by (by eapply (issued_app _ _ _ [_]); [reflexivity|repeat constructor]);
      assert (length (bookings s) = S (length (bookings a))) as ->
        by apply addBooking_length
  end.
  revert Hsh Hg. unfold shape, stageOf, gate, Spec.run, runs, Spec.next.
  generalize (flags a). intros f. flag_cases f v'.
Qed.

(** The state of [App] after a payment session has reacted. *)
Lemma Sim_pay (a : AppState) (x : Session) (i : PaymentModal.Input) (now : Z) ph update cmds
    (fired : nat) :
  shape (flags a) (issued StartPaymentTimer a) fired = true → gate (flags a) = true →
  sessionOk x → PaymentModal.react (props x) (phase x) i = Some (ph, update, cmds) →
  Sim a (performAll x now cmds a) fired fired (isVerifying (phase x)) (isVerifying ph)
      (payActs (phase x) i).
Proof.
  intros Hsh Hg (_ & Ht & Hu & Hd) Hr. unfold performAll.
  destruct (phase x), i as [[] ?|r| | | |r]; cbn in Hr; try done;
    try destruct (PaymentModal.checkOrder r) as [[??]|?];
    try destruct (PaymentModal.verifyFailed r) eqn:Ev;
    injection Hr as <- <- <-; cbn; rewrite ?Ev;
    first [by apply Sim_verified | apply Sim_payment; auto].
Qed.

(** A live session is the active one of a mounted modal. *)
Lemma live_session (w : World) (k : nat) (x : Session) ph update cmds i :
  CInv w → sessions w !! k = Some x → live x = true →
  PaymentModal.react (props x) (phase x) i = Some (ph, update, cmds) →
  gate (flags (app w)) = true ∧ active x = true ∧ sessionOk x ∧
  verifying w = isVerifying (phase x).
Proof.
  intros HC Hx Hl Hr. pose proof (c_sessions _ HC) as [Hv Hd Hu].
  assert (active x = true) as Ha.
  { unfold active. rewrite Hl. by destruct (phase x). }
  split_and!; try done.
  - destruct (gate (flags (app w))); [done|].
    pose proof (proj1 (Forall_forall _ _) (Hd eq_refl) x (list_elem_of_lookup_2 _ _ _ Hx)).
    congruence.
  - exact (Forall_lookup_1 _ _ _ _ (inv_sessions _ (c_winv _ HC)) Hx).
  - unfold verifying. rewrite <- (list_insert_id _ _ _ Hx) at 1.
    by rewrite (verifying_insert _ _ x x Hu Hx Ha), Hl.
Qed.

(** An outcome reaches a session of the mounted modal. *)
Lemma sim_Pay (w w' : World) (k : nat) (i : PaymentModal.Input) (now : Z) :
  CInv w → calm w (Pay k i now) = true →
  step MOCK_THERAPISTS w (Pay k i now) = Some w' →
  Spec.run (abs w) (acts w (Pay k i now)) = Some (abs w') ∧ CInv w'.
Proof.
  intros HC Hl. pose proof (c_winv _ HC) as HW. unfold step, acts, calm in *.
  rewrite (inv_crashed _ HW). destruct (sessions w !! k) as [x|] eqn:Ex; [|done]. cbn in *.
  destruct (PaymentModal.react _ _ _) as [[[ph update] cmds]|] eqn:Er; [|done]. cbn.
  some_inv. if_true Hl.
  destruct (live_session w k x ph update cmds i HC Ex Hl Er) as (Hg & Ha & Hx & Hv).
  destruct (CInv_SessOk w HC) as (Hs & Hc & Hd & Hu).
  apply sim_settle; [by apply AInv_performAll, AInv_app | split_and!; cbn |].
  - by apply Forall_insert.
  - done.
  - intros Hn. destruct (paymentView w) eqn:Ev; [done|].
    apply (c_sessions _ HC) in Ev. congruence.
  - by eapply uniqueActive_insert.
  - unfold verifying at 2. cbn.
    rewrite (verifying_insert _ _ x _ Hu Ex Ha), Hv. cbn. unfold andb. if_true Hl.
    eapply Sim_pay; try done. apply HC.
Qed.

Lemma CInv_init : CInv init.
Proof.
  apply CInv_settle; [|done..| |].
  - eapply AInv_frame; [|apply AInv_initial]. frame.
  - intros _. constructor.
  - apply allDetached_uniqueActive. constructor.
Qed.

(** A calm step is a run of the machine on the actions of its label,
    and keeps the invariant. *)
Lemma cstep_sim (w w' : World) (l : Label) :
  CInv w → cstep MOCK_THERAPISTS w l = Some w' →
  Spec.run (abs w) (acts w l) = Some (abs w') ∧ CInv w'.
Proof.
  intros HC. unfold cstep. destruct (calm w l) eqn:Hcalm; [|done]. destruct l.
  - by apply sim_User.
  - by apply sim_Form.
  - by apply sim_Retry.
  - by apply sim_Pay.
  - by apply sim_PaymentTimer.
  - apply sim_background; auto.
  - apply sim_background; auto.
  - by apply sim_AuthChange.
Qed.

Lemma csteps_sim (w w' : World) (ls : list Label) :
  CInv w → csteps MOCK_THERAPISTS w ls = Some w' →
  Spec.run (abs w) (trace MOCK_THERAPISTS w ls) = Some (abs w') ∧ CInv w'.
Proof.
  revert w. induction ls as [|l ls IH]; intros w HC; cbn; [by intros [= <-]|].
  destruct (cstep _ w l) as [w1|] eqn:E; [|done]. cbn. intros Hrest.
  destruct (cstep_sim _ _ _ HC E) as [H1 HC1]. destruct (IH _ HC1 Hrest) as [H2 HC2].
  split; [|done]. by rewrite Spec.run_app, H1.
Qed.

Lemma creachable_CInv (w : World) : creachable MOCK_THERAPISTS w → CInv w.
Proof. induction 1 as [|w l w' _ IH E]; [apply CInv_init | by eapply cstep_sim]. Qed.

Lemma cstep_step (w w' : World) (l : Label) :
  cstep MOCK_THERAPISTS w l = Some w' → step MOCK_THERAPISTS w l = Some w'.
Proof. unfold cstep. by destruct (calm w l). Qed.

(** The worlds of the calm runs are worlds of the application. *)
Lemma creachable_reachable (w : World) :
  creachable MOCK_THERAPISTS w → reachable MOCK_THERAPISTS w.
Proof.
  induction 1 as [|w l w' _ IH E]; [constructor|].
  eapply reachable_step; [done | by apply cstep_step].
Qed.

Lemma csteps_creachable (w w' : World) (ls : list Label) :
  creachable MOCK_THERAPISTS w → csteps MOCK_THERAPISTS w ls = Some w' →
  creachable MOCK_THERAPISTS w'.
Proof. apply runs_stable. intros ? ? ?. apply creachable_step. Qed.
(** C7: The application follows the booking state machine: a calm step
    from a world of the calm runs takes the stage and the number of
    bookings as the actions of its label take the machine, so it is an
    edge of the machine, two edges for a form confirmed without
    payment, or none. *)
Theorem calm_step_refines (w w' : World) (l : Label) :
  creachable MOCK_THERAPISTS w → cstep MOCK_THERAPISTS w l = Some w' →
  Spec.run (abs w) (acts w l) = Some (abs w').
Proof. intros HC%creachable_CInv E. by destruct (cstep_sim _ _ _ HC E). Qed.

(** A calm run from the mount of [App] is a run of the machine from its
    initial state, on the actions of its labels. *)
Theorem calm_run_refines (w' : World) (ls : list Label) :
  csteps MOCK_THERAPISTS init ls = Some w' →
  Spec.run Spec.init (trace MOCK_THERAPISTS init ls) = Some (abs w').
Proof. intros E. by destruct (csteps_sim _ _ _ CInv_init E). Qed.

(** On a calm run the bookings made are the intents finalized and the
    payments verified: the list has one booking for each. *)
Theorem calm_run_bookings (w' : World) (ls : list Label) :
  csteps MOCK_THERAPISTS init ls = Some w' →
  length (bookings (app w')) = Spec.count Spec.books (trace MOCK_THERAPISTS init ls).
Proof.
  intros E. destruct (csteps_sim _ _ _ CInv_init E) as [Hrun _].
  by apply Spec.run_booked in Hrun.
Qed.

(** On a calm run no intent is lost: the intents captured are those
    finalized, verified or cancelled and the one still held. *)
Theorem calm_run_intents (w' : World) (ls : list Label) :
  csteps MOCK_THERAPISTS init ls = Some w' →
  ((if Spec.holdsIntent (stage w') then 1 else 0) +
     Spec.count Spec.releases (trace MOCK_THERAPISTS init ls) =
   Spec.count Spec.takes (trace MOCK_THERAPISTS init ls))%nat.
Proof.
  intros E. destruct (csteps_sim _ _ _ CInv_init E) as [Hrun _].
  by apply Spec.run_intents in Hrun.
Qed.

(** A calm run is a run of the application. *)
Lemma csteps_steps (w w' : World) (ls : list Label) :
  csteps MOCK_THERAPISTS w ls = Some w' → steps MOCK_THERAPISTS w ls = Some w'.
Proof. apply runs_mono. intros ? ? ?. apply cstep_step. Qed.

Lemma csteps_followsFrom (w w' : World) (ls : list Label) :
  CInv w → csteps MOCK_THERAPISTS w ls = Some w' → followsFrom MOCK_THERAPISTS w ls = true.
Proof.
  revert w. induction ls as [|l ls IH]; intros w HC; cbn; [done|].
  destruct (cstep _ w l) as [w1|] eqn:E; [|done]. cbn. intros Hrest.
  destruct (cstep_sim _ _ _ HC E) as [H1 HC1]. rewrite (cstep_step _ _ _ E).
  apply andb_true_iff. split; [by apply bool_decide_eq_true | by apply IH].
Qed.

(** The calm runs follow the machine step by step. *)
Theorem calm_run_follows (w' : World) (ls : list Label) :
  csteps MOCK_THERAPISTS init ls = Some w' → follows MOCK_THERAPISTS ls = true.
Proof. apply csteps_followsFrom, CInv_init. Qed.

(** ** Lemmas: the way back *)

(** A calm step with one action is an edge of the machine. *)
Lemma cstep_edge (w w' : World) (l : Label) (a : Spec.Act) :
  CInv w → cstep MOCK_THERAPISTS w l = Some w' → acts w l = [a] →
  Spec.target (stage w) a = Some (stage w') ∧ CInv w'.
Proof.
  intros HC E Ha. destruct (cstep_sim _ _ _ HC E) as [Hrun HC']. split; [|done].
  rewrite Ha in Hrun. cbn in Hrun. unfold Spec.next in Hrun. cbn in Hrun.
  destruct (Spec.target (stage w) a) as [s'|]; [|done]. by injection Hrun as ->.
Qed.

(** An event that is offered on top while no timer runs is a calm
    step. *)
Lemma cstep_User (w : World) (e : Event) :
  CInv w → fromForm e = false → offered 0 (app w) e = true → onTop (app w) e = true →
  waiting w = false →
  cstep MOCK_THERAPISTS w (User 0 e) = Some (settle w (dispatch e (app w) (app w))).
Proof.
  intros HC Hf Ho Ht Hw. unfold cstep, calm, step.
  by rewrite Ht, Hw, (inv_crashed _ (c_winv _ HC)), Ho, Hf.
Qed.

(** The stage in terms of the flags, under the invariant. *)
Lemma stage_flags (w : World) :
  CInv w →
  match stage w with
  | Spec.Idle =>
      confirmOpen (flags (app w)) = false ∧ pending (flags (app w)) = false
  | Spec.IntentCaptured =>
      gate (flags (app w)) = false ∧
      (timersFired w < issued StartPaymentTimer (app w))%nat
  | Spec.PaymentPending | Spec.PaymentVerifying => gate (flags (app w)) = true
  | Spec.Finalized =>
      gate (flags (app w)) = false ∧
      confirmOpen (flags (app w)) && therapist (flags (app w)) = true
  end.
Proof.
  intros HC. pose proof (c_shape _ HC) as Hsh. revert Hsh.
  unfold stage, stageOf, shape, gate. generalize (flags (app w)) (verifying w).
  intros [[] [] [] [] []] []; cbn; try done; intros H%Nat.eqb_eq; split; (done || lia).
Qed.

(** The payment modal can be closed, which cancels. *)
Lemma escape_payment (w : World) :
  CInv w → gate (flags (app w)) = true →
  ∃ w', cstep MOCK_THERAPISTS w (User 0 PaymentClose) = Some w' ∧ stage w' = Spec.Idle.
Proof.
  intros HC Hg. pose proof (stage_flags w HC) as Hs. eexists. split.
  - apply cstep_User; try done; [cbn; by rewrite <- gate_guard| |].
    + unfold onTop. rewrite front_payment; [done|]. cbn. by rewrite <- gate_guard.
    + apply bool_decide_eq_false. intros E. rewrite E in Hs. destruct Hs. congruence.
  - rewrite stage_settle by (apply dispatch_AInv; [done | by apply AInv_app, HC]).
    pose proof (c_shape _ HC) as Hsh. revert Hsh Hg. cbn.
    change (flags (App.handlePaymentModalClose (app w)))
      with (mkFlags (confirmOpen (flags (app w))) false false false (user (flags (app w)))).
    unfold shape, stageOf, gate. generalize (flags (app w)). intros f.
    flag_cases f (verifying w).
Qed.

(** While the timer runs it can fire, which mounts the payment modal. *)
Lemma escape_timer (w : World) :
  CInv w → stage w = Spec.IntentCaptured →
  ∃ w', cstep MOCK_THERAPISTS w PaymentTimer = Some w' ∧ CInv w' ∧
        gate (flags (app w')) = true.
Proof.
  intros HC Hs. pose proof (stage_flags w HC) as Hf. rewrite Hs in Hf. destruct Hf as [_ Hlt].
  destruct (cstep MOCK_THERAPISTS w PaymentTimer) as [w'|] eqn:E.
  - exists w'. destruct (cstep_edge _ _ _ _ HC E eq_refl) as [Ht HC']. split_and!; try done.
    apply Spec.target_to in Ht. pose proof (stage_flags w' HC') as Hf'. by rewrite Ht in Hf'.
  - unfold cstep, calm, step in E. rewrite (inv_crashed _ (c_winv _ HC)) in E.
    by rewrite decide_True in E.
Qed.

(** The modal in front while the confirmation is open and the payment
    modal is not mounted. *)
Lemma front_confirmation (a : AppState) :
  mounted a oPayment = false → mounted a oConfirmation = true →
  front a = Some (if mounted a oViewIntake then oViewIntake
                  else if mounted a oIntake then oIntake else oConfirmation).
Proof.
  intros Hp Hc. apply frontOf_max.
  - by destruct (mounted a oViewIntake) eqn:E1, (mounted a oIntake) eqn:E2.
  - intros o' Ho'. destruct (mounted a oViewIntake) eqn:E1, (mounted a oIntake) eqn:E2, o';
      unfold rank, zIndex; try lia; congruence.
Qed.

(** The modal in front of the confirmation can be closed, which leaves
    the others as they are. *)
Lemma escape_close (w : World) (e : Event) (o : Overlay) :
  (e, o) = (ViewIntakeClose, oViewIntake) ∨ (e, o) = (IntakeClose, oIntake) →
  CInv w → stage w = Spec.Finalized → front (app w) = Some o →
  ∃ w', cstep MOCK_THERAPISTS w (User 0 e) = Some w' ∧ CInv w' ∧
        stage w' = Spec.Finalized ∧ mounted (app w') o = false ∧
        ∀ o', o' ≠ o → mounted (app w') o' = mounted (app w) o'.
Proof.
  intros Heo HC Hs Hf. destruct (frontOf_spec _ _ Hf) as [Hm _].
  assert (cstep MOCK_THERAPISTS w (User 0 e) =
          Some (settle w (dispatch e (app w) (app w)))) as E.
  { apply cstep_User; try done.
    - by destruct Heo as [[= -> ->] | [= -> ->]].
    - by destruct Heo as [[= -> ->] | [= -> ->]].
    - unfold onTop. rewrite Hf. by destruct Heo as [[= -> ->] | [= -> ->]].
    - apply bool_decide_eq_false. by rewrite Hs. }
  eexists. split; [exact E|]. destruct (cstep_sim _ _ _ HC E) as [Hrun HC'].
  assert (acts w (User 0 e) = []) as Ha by (by destruct Heo as [[= -> ->] | [= -> ->]]).
  rewrite Ha in Hrun. injection Hrun as Hst _. rewrite app_settle in *.
  split_and!; [done | congruence | |];
    destruct Heo as [[= -> ->] | [= -> ->]]; try done; by intros [].
Qed.

(** The confirmation in front can be closed, which dismisses it. *)
Lemma escape_confirmation (w : World) :
  CInv w → stage w = Spec.Finalized → front (app w) = Some oConfirmation →
  ∃ w', cstep MOCK_THERAPISTS w (User 0 ConfirmationClose) = Some w' ∧
        stage w' = Spec.Idle.
Proof.
  intros HC Hs Hf. destruct (frontOf_spec _ _ Hf) as [Hm _].
  assert (cstep MOCK_THERAPISTS w (User 0 ConfirmationClose) =
          Some (settle w (dispatch ConfirmationClose (app w) (app w)))) as E.
  { apply cstep_User; try done.
    - unfold onTop. by rewrite Hf.
    - apply bool_decide_eq_false. by rewrite Hs. }
  eexists. split; [exact E|].
  destruct (cstep_edge _ _ _ _ HC E eq_refl) as [Ht _]. by apply Spec.target_to in Ht.
Qed.

(** From a payment, pending or being verified. *)
Lemma escape_gate (w : World) :
  CInv w → gate (flags (app w)) = true →
  ∃ w', csteps MOCK_THERAPISTS w (escape w) = Some w' ∧ stage w' = Spec.Idle.
Proof.
  intros HC Hg. destruct (escape_payment w HC Hg) as (w1 & E1 & Hs1). exists w1.
  pose proof (stage_flags w HC) as Hf. unfold escape.
  destruct (stage w); cbn; rewrite ?E1; try done; exfalso; destruct Hf as [H1 H2];
    first [congruence
          |revert H2 Hg; unfold gate; generalize (flags (app w));
           intros [[] [] [] [] []]; by cbn].
Qed.

(** What is mounted while the confirmation is open. *)
Lemma mounted_Finalized (w : World) :
  CInv w → stage w = Spec.Finalized →
  mounted (app w) oPayment = false ∧ mounted (app w) oConfirmation = true.
Proof.
  intros HC Hs. pose proof (stage_flags w HC) as Hf. rewrite Hs in Hf.
  destruct Hf as [Hg Hc]. cbn. by rewrite <- gate_guard, ConfirmationModal.render_Some.
Qed.

(** From the confirmation, with the form of the intake closed or not. *)
Lemma escape_intake (w : World) :
  CInv w → stage w = Spec.Finalized → mounted (app w) oViewIntake = false →
  ∃ w', csteps MOCK_THERAPISTS w
          ((if mounted (app w) oIntake then [User 0 IntakeClose] else []) ++
           [User 0 ConfirmationClose]) = Some w' ∧
        stage w' = Spec.Idle.
Proof.
  intros HC Hs Hv. destruct (mounted_Finalized w HC Hs) as [Hp Hc].
  pose proof (front_confirmation _ Hp Hc) as Hf. rewrite Hv in Hf.
  destruct (mounted (app w) oIntake) eqn:Hi; cbn.
  - destruct (escape_close w IntakeClose oIntake (or_intror eq_refl) HC Hs Hf)
      as (w1 & -> & HC1 & Hs1 & Hi1 & Hrest). cbn.
    destruct (mounted_Finalized w1 HC1 Hs1) as [Hp1 Hc1].
    pose proof (front_confirmation _ Hp1 Hc1) as Hf1.
    rewrite Hi1, (Hrest oViewIntake), Hv in Hf1 by done.
    destruct (escape_confirmation w1 HC1 Hs1 Hf1) as (w2 & -> & Hs2). by exists w2.
  - destruct (escape_confirmation w HC Hs Hf) as (w1 & -> & Hs1). by exists w1.
Qed.

(** From the confirmation. *)
Lemma escape_Finalized (w : World) :
  CInv w → stage w = Spec.Finalized →
  ∃ w', csteps MOCK_THERAPISTS w (escape w) = Some w' ∧ stage w' = Spec.Idle.
Proof.
  intros HC Hs. unfold escape. rewrite Hs.
  destruct (mounted (app w) oViewIntake) eqn:Hv; [|by apply escape_intake].
  destruct (mounted_Finalized w HC Hs) as [Hp Hc].
  pose proof (front_confirmation _ Hp Hc) as Hf. rewrite Hv in Hf.
  destruct (escape_close w ViewIntakeClose oViewIntake (or_introl eq_refl) HC Hs Hf)
    as (w1 & E1 & HC1 & Hs1 & Hv1 & Hrest).
  cbn [List.app csteps runs]. rewrite E1. cbn [mbind option_bind].
  rewrite <- (Hrest oIntake) by done. by apply escape_intake.
Qed.

(** C12: The user is never stuck: from every world of the calm runs a calm
    run of three steps at most leads back to where nothing is under
    way. *)
Theorem calm_never_stuck (w : World) :
  creachable MOCK_THERAPISTS w →
  ∃ w', csteps MOCK_THERAPISTS w (escape w) = Some w' ∧ stage w' = Spec.Idle ∧
        (length (escape w) ≤ 3)%nat.
Proof.
  intros HC%creachable_CInv.
  assert (length (escape w) ≤ 3)%nat as Hlen
    by (unfold escape; repeat case_match; cbn; lia).
  cut (∃ w', csteps MOCK_THERAPISTS w (escape w) = Some w' ∧ stage w' = Spec.Idle);
    [intros (w' & ? & ?); by exists w'|].
  pose proof (stage_flags w HC) as Hf. destruct (stage w) eqn:Hs;
    [exists w; unfold escape; by rewrite Hs| |by apply escape_gate..|by apply escape_Finalized].
  destruct (escape_timer w HC Hs) as (w1 & E1 & HC1 & Hg1).
  destruct (escape_payment w1 HC1 Hg1) as (w2 & E2 & Hs2).
  exists w2. unfold escape. rewrite Hs. cbn [csteps runs]. rewrite E1. cbn [mbind option_bind].
  by rewrite E2.
Qed.

End Simulation.

End Refinement.
