(* ===== verification/Scenarios.v ===== *)
(** * Scenarios: the application run on concrete inputs

    The end-to-end scenarios of the specification and the runs behind the
    findings, evaluated with the insertion sort as the engine's sort and
    UTC as the local time zone.  A scenario is a list of labels of
    [AppFlow.v] run from the mount of [App]; its theorem states what the
    run leaves in the state. *)

From Stdlib Require Import ZArith Lia QArith.
From stdpp Require Import base tactics option list strings.
From S2P Require Import Prelude Types JsArray JsString JsTime BookingList ProfilePage TherapistViews IntakeWizard.
From S2P Require Import BookingModal PaymentModal AppState AppHandlers AppView AppEvents AppFlow.
From S2P Require Import AppLayers BookingSpec AppRefinement.

#[local] Open Scope Z_scope.

Module Scenarios.

Import Flow Refinement.

(** ** Definitions: sample data *)

Definition clinic (online : option bool) : Clinic :=
  {| Clinic.name := "City Physio"; Clinic.address := "12 Main Road"; Clinic.rating := 0%Q;
     Clinic.timings := Clinic.mkTimings "Mon - Sat" ["10:00 AM - 07:00 PM"];
     Clinic.isOnlinePaymentAvailable := online; Clinic.isPrime := false;
     Clinic.maxWaitTime := 15; Clinic.isVerified := true; Clinic.phone := None |}.

Definition therapist (id fee : Z) (name : string) (clinic : option Clinic) : Therapist :=
  {| Therapist.id := id; Therapist.name := name; Therapist.email := None;
     Therapist.title := "Physiotherapist"; Therapist.location := "Mumbai";
     Therapist.rating := 0%Q; Therapist.reviewCount := 0;
     Therapist.specialties := ["Sports Injury"]; Therapist.description := "";
     Therapist.qualifications := []; Therapist.clinicPhotos := []; Therapist.reviews := [];
     Therapist.fee := fee; Therapist.isProfileClaimed := true; Therapist.experience := 5;
     Therapist.specialistExperience := 5; Therapist.patientSatisfaction := 90;
     Therapist.clinic := clinic |}.

(** The therapist of scenario A: fee 500, no online payment. *)
Definition therapistA : Therapist := therapist 2 500 "Dr. A" (Some (clinic (Some false))).

(** The therapist of scenarios B and C: fee 800, online payment. *)
Definition therapistB : Therapist := therapist 13 800 "Dr. B" (Some (clinic (Some true))).

Definition mock : list Therapist := [therapistA; therapistB].

Definition sessionOf (id name : string) : App.SessionUser :=
  {| App.su_id := id; App.su_email := Some (name +:+ "@example.com");
     App.su_phone := None; App.su_full_name := Some name |}.

Definition profileOf (name : string) (r : Role) : App.ProfileResult :=
  {| App.profile_data :=
       Some [{| App.full_name := Some name; App.role := r; App.therapist_id := None |}];
     App.profile_error := None |}.

Definition noResult : App.ProfileResult :=
  {| App.profile_data := None; App.profile_error := None |}.

Definition signIn (id name : string) : Label :=
  AuthChange App.SIGNED_IN (Some (sessionOf id name)) (profileOf name Role.patient) noResult.

Definition signedOut : Label := AuthChange App.SIGNED_OUT None noResult noResult.

(** Local midnight of 2025-03-01. *)
Definition today : Z := 1740787200000.

(** The user fills in the booking form. *)
Definition fill (date time : string) : list Label :=
  [Form (BookingModal.ChangePhoneNo "9999999999") 0;
   Form (BookingModal.ChangeDate date) 0;
   Form (BookingModal.SelectTime time) 0].

(** Sign in, open the form of a therapist, fill it in and confirm. *)
Definition book (t : Therapist) (date time : string) (now : Z) : list Label :=
  [User today (Events.BookNow t)] ++ fill date time ++ [Form BookingModal.ClickConfirm now].

Definition start : list Label := [LoadTimer; signIn "u-alice" "alice"].

Definition orderOk : PaymentModal.OrderResult :=
  {| PaymentModal.order_data :=
       Some {| PaymentModal.order_id := Some "order_1"; PaymentModal.order_amount := 80000;
               PaymentModal.order_currency := "INR"; PaymentModal.order_error := None |};
     PaymentModal.order_invoke_error := None |}.

Definition paid (paymentId : string) : PaymentModal.PaymentResponse :=
  {| PaymentModal.razorpay_payment_id := paymentId;
     PaymentModal.razorpay_signature := "sig" |}.

Definition verifiedOk : PaymentModal.VerifyResult :=
  {| PaymentModal.verify_data :=
       Some {| PaymentModal.verify_success := true; PaymentModal.verify_message := None |};
     PaymentModal.verify_invoke_error := None |}.

(** The checkout of session [k] opens. *)
Definition openCheckout (k : nat) : list Label :=
  [Pay k (PaymentModal.ScriptLoaded true 1741000000200) 0;
   Pay k (PaymentModal.OrderCreated orderOk) 0].

(** The traces of the scenarios. *)
Definition traceA : list Label := start ++ book therapistA "2025-03-10" "10:00 AM" 1741000000123.

Definition toPayment : list Label :=
  start ++ book therapistB "2025-03-10" "10:00 AM" 1741000000123 ++ [PaymentTimer] ++
  openCheckout 0.

Definition traceB : list Label :=
  toPayment ++ [Pay 0 (PaymentModal.PaymentSucceeded (paid "pay_123")) 0;
                Pay 0 (PaymentModal.Verified verifiedOk) 1741000000999].

Definition traceC : list Label :=
  toPayment ++ [Pay 0 (PaymentModal.PaymentFailed (Some "Card declined")) 0].

Definition traceD : list Label :=
  start ++ book therapistA "2025-03-10" "10:00 AM" 1741000000123 ++
  [User today Events.ConfirmationClose] ++
  book therapistA "2025-03-11" "11:00 AM" 1741000000456 ++
  [User today Events.ConfirmationGoToProfile;
   User today (Events.CardClick BookingCard.Reschedule "1741000000123-2")] ++
  fill "2025-03-12" "02:00 PM" ++ [Form BookingModal.ClickConfirm 1741000000789].




(** What the scenarios look at in a booking. *)
Definition summary (b : Booking)
    : string * string * string * option string * string * option Status * option bool :=
  (Booking.id b, Booking.userId b, Booking.patientName b, toISOString (Booking.date b),
   Booking.time b, Booking.status b, Booking.isPaid b).

Definition run (trace : list Label) : option World := steps mock init trace.

(** The bookings after a run. *)
Definition bookingsAfter (trace : list Label) : option (list Booking) :=
  w ← run trace; Some (bookings (app w)).

(** ** Definitions: the inputs of the witnesses *)

Definition alice : User.t :=
  {| User.id := "u-alice"; User.name := "alice"; User.email := Some "alice@example.com";
     User.role := Role.patient; User.therapistId := None |}.

(** 2025-03-10, 10:00 AM. *)
Definition detailsA : BookingDetails :=
  {| BookingDetails.date := newDate (Some 2025) (Some 2) (Some 10);
     BookingDetails.time := "10:00 AM"; BookingDetails.patientName := "alice";
     BookingDetails.phoneNo := "9999999999"; BookingDetails.service := "Sports Injury" |}.

(** 2025-03-12, 02:00 PM. *)
Definition detailsD : BookingDetails :=
  {| BookingDetails.date := newDate (Some 2025) (Some 2) (Some 12);
     BookingDetails.time := "02:00 PM"; BookingDetails.patientName := "alice";
     BookingDetails.phoneNo := "8888888888"; BookingDetails.service := "Sports Injury" |}.

(** Alice has opened the booking form of a therapist. *)
Definition booking (t : Therapist) : AppState :=
  (setCurrentUser (Some alice) ;; setTherapistToBook (Some t) ;;
   setIsBookingModalOpen true)%js initial.

(** The payment modal is open on pending details. *)
Definition paying : AppState :=
  (setIsBookingModalOpen false ;; setPendingBookingDetails (Some detailsA) ;;
   setIsPaymentModalOpen true)%js (booking therapistB).

Definition bookingX : Booking := newBooking 1741000000123 therapistA alice detailsA false.

Definition bookingY : Booking := newBooking 1741000000456 therapistA alice detailsD false.

(** The form of [booking therapistA], filled in. *)
Definition formFilled : BookingModal.State :=
  {| BookingModal.patientName := "alice"; BookingModal.phoneNo := "9999999999";
     BookingModal.service := "Sports Injury";
     BookingModal.selectedDate := Some (newDate (Some 2025) (Some 2) (Some 10));
     BookingModal.selectedTime := "10:00 AM"; BookingModal.error := "" |}.

(** The intake form filled in step by step. *)
Definition intakeTrace : list PatientIntakeForm.Event :=
  [PatientIntakeForm.Edit (PatientIntakeForm.Dob "1990-05-17"); PatientIntakeForm.Next;
   PatientIntakeForm.Next;
   PatientIntakeForm.Edit (PatientIntakeForm.PrimaryComplaint "Knee pain");
   PatientIntakeForm.Edit (PatientIntakeForm.PainLevel 7); PatientIntakeForm.Next;
   PatientIntakeForm.Edit (PatientIntakeForm.PatientGoals "Run again")].

Definition intakeFilled : PatientIntakeForm.State :=
  Eval vm_compute in
    default PatientIntakeForm.initial (PatientIntakeForm.run "alice" intakeTrace).

(** The booking of scenario A, cancelled. *)
Definition bookingCancelled : Booking := cancelled bookingX.

(** The worlds the scenarios reach. *)
Definition worldA : World := Eval vm_compute in default init (run traceA).

Definition worldVerifying : World :=
  Eval vm_compute in
    default init (run (toPayment ++ [Pay 0 (PaymentModal.PaymentSucceeded (paid "pay_123")) 0])).

(** The payment session of [worldVerifying]. *)
Definition sessionVerifying : Session :=
  Eval vm_compute in
    default (mkSession (PaymentModal.mkProps 0 therapistB alice "") initial
               PaymentModal.Ended false) (sessions worldVerifying !! 0%nat).

(** ** Definitions: runs on and off the booking state machine *)

Definition verifiedFail : PaymentModal.VerifyResult :=
  {| PaymentModal.verify_data :=
       Some {| PaymentModal.verify_success := false;
               PaymentModal.verify_message := Some "bad signature" |};
     PaymentModal.verify_invoke_error := None |}.

(** Scenario C, then the user closes the payment modal. *)
Definition traceCancel : list Label := traceC ++ [User today Events.PaymentClose].

(** A booking is made, the confirmation closed, and the booking
    rescheduled from the profile page. *)
Definition traceReschedule : list Label :=
  traceA ++
  [User today Events.ConfirmationClose; User today Events.ProfileClick;
   User today (Events.CardClick BookingCard.Reschedule "1741000000123-2")] ++
  fill "2025-03-12" "02:00 PM" ++ [Form BookingModal.ClickConfirm 1741000000789].

(** With the confirmation of a booking open, the user reaches the card
    beneath it with the keyboard and books again. *)
Definition traceCovered : list Label :=
  traceA ++ book therapistB "2025-03-11" "11:00 AM" 1741000000456.





(** The world of scenario B. *)
Definition worldPaid : World := Eval vm_compute in default init (run traceB).

(** The state of [App] with the booking form and the confirmation open. *)
Definition bothOpen : AppState := setIsConfirmModalOpen true (booking therapistA).

(** ** Theorems: the scenarios of the specification *)


(** Scenario B.  With a therapist whose clinic takes online payment,
    confirming the form opens the payment modal and books nothing; when
    the payment "pay_123" has been verified the booking is made, paid. *)
Example scenario_B :
  (∃ w, run toPayment = Some w ∧ bookings (app w) = [] ∧ is_Some (paymentView w) ∧
        is_Some (pendingBookingDetails (app w))) ∧
  ∃ w, run traceB = Some w ∧
    map summary (bookings (app w)) =
      [("1741000000999-13", "u-alice", "alice", Some "2025-03-10T00:00:00.000Z",
        "10:00 AM", Some Status.confirmed, Some true)] ∧
    lastBookingPaid (app w) = true ∧ isConfirmModalOpen (app w) = true ∧
    paymentView w = None ∧ pendingBookingDetails (app w) = None.
Proof.
  split; eexists; (split; [vm_compute; reflexivity|]); vm_compute; split_and!; eauto.
Qed.


(** Scenario D.  A booking for 2025-03-10 at 10:00 AM rescheduled to
    2025-03-12 at 02:00 PM keeps its id, shows the new date and time, and
    moves behind the booking of 2025-03-11. *)
Example scenario_D :
  ∃ w, run traceD = Some w ∧
    map summary (bookings (app w)) =
      [("1741000000456-2", "u-alice", "alice", Some "2025-03-11T00:00:00.000Z",
        "11:00 AM", Some Status.confirmed, Some false);
       ("1741000000123-2", "u-alice", "alice", Some "2025-03-12T00:00:00.000Z",
        "02:00 PM", Some Status.confirmed, Some false)] ∧
    Events.logged (app w) = 2%nat.
Proof. eexists. split; [vm_compute; reflexivity|]. by vm_compute. Qed.

(** ** Theorems: runs the specification does not expect *)




(** "View My Bookings" on the confirmation goes to the profile page
    and leaves the confirmation open on top of it. *)
Example confirmation_stays_open :
  ∃ w, run (traceA ++ [User today Events.ConfirmationGoToProfile]) = Some w ∧
       page (app w) = Page.profile ∧ isConfirmModalOpen (app w) = true ∧
       is_Some (therapistToBook (app w)).
Proof. eexists. split; [vm_compute; reflexivity|]. vm_compute. split_and!; eauto. Qed.

(** ** Theorems: runs on and off the booking state machine *)

(** The scenarios A, B and C, the cancelled payment and a reschedule
    are calm runs, and these are their actions on the machine. *)
Example scenarios_follow_machine :
  map (λ ls, (is_some (csteps mock init ls), trace mock init ls))
      [traceA; traceB; traceC; traceCancel; traceReschedule] =
  [(true, [Spec.Capture; Spec.Finalize]);
   (true, [Spec.Capture; Spec.OpenGate; Spec.Paid; Spec.Verified]);
   (true, [Spec.Capture; Spec.OpenGate]);
   (true, [Spec.Capture; Spec.OpenGate; Spec.Cancel]);
   (true, [Spec.Capture; Spec.Finalize; Spec.Dismiss; Spec.Reschedule])].
Proof. by vm_compute. Qed.

(** A control covered by a modal is still reached with the keyboard:
    with the confirmation of a booking open, a second form is opened and
    confirmed for a therapist with online payment, and the details are
    pending beneath the confirmation, which the machine does not
    allow. *)
Example covered_control_leaves_machine :
  ∃ w, run traceCovered = Some w ∧ follows mock traceCovered = false ∧
       isConfirmModalOpen (app w) = true ∧ is_Some (pendingBookingDetails (app w)).
Proof. eexists. split; [vm_compute; reflexivity|]. vm_compute. split_and!; eauto. Qed.




(** A sign-out while the payment is pending unmounts the payment modal
    and keeps the details: the application is back where the timer runs,
    without a timer. *)
Example sign_out_leaves_machine :
  ∃ w, run (toPayment ++ [signedOut]) = Some w ∧
       follows mock (toPayment ++ [signedOut]) = false ∧
       stage w = Spec.IntentCaptured ∧ paymentView w = None ∧
       timersFired w = issued StartPaymentTimer (app w).
Proof. eexists. split; [vm_compute; reflexivity|]. by vm_compute. Qed.

(** ** Witnesses: the theorems of the development at the sample data *)
Lemma reachable_worldA : reachable mock worldA.
Proof. by apply (steps_reachable mock init worldA traceA); [constructor | vm_compute]. Qed.

Lemma reachable_worldVerifying : reachable mock worldVerifying.
Proof.
  by apply (steps_reachable mock init worldVerifying
              (toPayment ++ [Pay 0 (PaymentModal.PaymentSucceeded (paid "pay_123")) 0]));
    [constructor | vm_compute].
Qed.

Lemma detailsA_valid : JsDate.valid (BookingDetails.date detailsA).
Proof. vm_compute. eauto. Qed.

Lemma detailsD_valid : JsDate.valid (BookingDetails.date detailsD).
Proof. vm_compute. eauto. Qed.

Lemma finalizeBooking_books_witness :
  bookings (App.finalizeBooking (booking therapistA) 1741000000123 (Some detailsA) false
              (booking therapistA)) ≡ₚ [bookingX].
Proof.
  exact (proj1 (App.finalizeBooking_books (booking therapistA) 1741000000123 detailsA false
                  therapistA alice (booking therapistA) eq_refl eq_refl)).
Defined.

Lemma rescheduleBookings_correct_witness :
  wf_bookings (rescheduleBookings "1741000000123-2" detailsD [bookingX]).
Proof.
  refine (proj1 (rescheduleBookings_correct "1741000000123-2" detailsD [bookingX] _ _)).
  - exact detailsD_valid.
  - repeat constructor. exact detailsA_valid.
Defined.

Lemma handleConfirmClick_rejects_witness :
  ∃ e, BookingModal.handleConfirmClick (BookingModal.setPhoneNo "" formFilled) =
         (BookingModal.setError e (BookingModal.setPhoneNo "" formFilled), None).
Proof.
  destruct (BookingModal.handleConfirmClick_rejects (BookingModal.setPhoneNo "" formFilled))
    as (e & He & _); [by intros (_ & H & _) | by exists e].
Defined.

Lemma handleConfirmClick_accepts_witness :
  ∃ d, (BookingModal.handleConfirmClick formFilled).2 = Some (BookingModal.OnConfirm d).
Proof.
  destruct (BookingModal.handleConfirmClick_accepts formFilled) as (d & _ & ->).
  - split_and!; try done. eexists. split; [done|]. vm_compute. eauto.
  - eauto.
Defined.

Lemma reachable_safe_witness : wf_bookings (bookings (app worldA)).
Proof. exact (proj1 (reachable_safe mock worldA reachable_worldA)). Defined.

Lemma verified_payment_books_witness :
  ∃ w', step mock worldVerifying (Pay 0 (PaymentModal.Verified verifiedOk) 1741000000999) =
          Some w' ∧ length (bookings (app w')) = 1%nat.
Proof.
  destruct (verified_payment_books mock worldVerifying 0 sessionVerifying
              "order_1" (paid "pay_123") verifiedOk 1741000000999 reachable_worldVerifying)
    as (w' & t & u & d & Hstep & _ & _ & _ & Hb & _); [by vm_compute..|].
  exists w'. split; [done|]. by rewrite Hb.
Defined.

Lemma step_adds_booking_witness :
  ∃ w', step mock worldVerifying (Pay 0 (PaymentModal.Verified verifiedOk) 1741000000999) =
          Some w' ∧
        (length (bookings (app w')) = 0%nat ∨ length (bookings (app w')) = 1%nat).
Proof.
  destruct (step mock worldVerifying (Pay 0 (PaymentModal.Verified verifiedOk) 1741000000999))
    as [w'|] eqn:E; [|by vm_compute in E].
  exists w'. split; [done|].
  destruct (step_adds_booking mock worldVerifying w' _ reachable_worldVerifying E)
    as [-> | [-> _]]; auto.
Defined.

Lemma session_success_only_after_verification_witness :
  ∃ oid signature,
    PaymentModal.VerifyPayment oid "pay_123" signature ∈
      PaymentModal.cmds_of (PaymentModal.mkProps 800 therapistB alice "2025-03-10T00:00:00.000Z")
        PaymentModal.LoadingScript
        [PaymentModal.ScriptLoaded true 5; PaymentModal.OrderCreated orderOk;
         PaymentModal.PaymentSucceeded (paid "pay_123"); PaymentModal.Verified verifiedOk].
Proof.
  destruct (PaymentModal.session_success_only_after_verification
              (PaymentModal.mkProps 800 therapistB alice "2025-03-10T00:00:00.000Z")
              [PaymentModal.ScriptLoaded true 5; PaymentModal.OrderCreated orderOk;
               PaymentModal.PaymentSucceeded (paid "pay_123"); PaymentModal.Verified verifiedOk]
              "pay_123")
    as (now & r & order & oid & response & vr & _ & _ & _ & _ & Hin).
  - vm_compute. repeat constructor.
  - by exists oid, (PaymentModal.razorpay_signature response).
Defined.

Lemma payment_gate_agrees_witness :
  effects (App.handleBookingConfirm (booking therapistB) 5 detailsA (booking therapistB)) =
  [StartPaymentTimer].
Proof.
  exact (proj1 (AppView.payment_gate_agrees (booking therapistB)
                  (BookingModal.mkProps therapistB (Some alice) false) 5 detailsA eq_refl)).
Defined.

Lemma handlePaymentSuccess_books_witness :
  bookings (App.handlePaymentSuccess paying 1741000000999 "pay_123" initial) ≡ₚ
  [newBooking 1741000000999 therapistB alice detailsA true].
Proof.
  exact (proj1 (App.handlePaymentSuccess_books paying 1741000000999 "pay_123" detailsA
                  therapistB alice initial eq_refl eq_refl eq_refl)).
Defined.

Lemma react_failure_shows_error_witness :
  PaymentModal.error
    ((PaymentModal.setLoading false ;; PaymentModal.setError PaymentModal.msgCancelled)%js
       PaymentModal.init) ≠ "".
Proof.
  refine (proj1 (PaymentModal.react_failure_shows_error
                   (PaymentModal.mkProps 800 therapistB alice "")
                   (PaymentModal.CheckoutOpen "order_1") PaymentModal.Dismissed _ []
                   PaymentModal.init eq_refl _)).
  intros pid Hin. by apply elem_of_nil in Hin.
Defined.

Lemma addBooking_keeps_order_witness : sublist [bookingX] (addBooking bookingY [bookingX]).
Proof.
  apply addBooking_keeps_order.
  - exact detailsD_valid.
  - apply (bool_decide_unpack (wf_bookings [bookingX])). by vm_compute.
Defined.

Lemma onAuthStateChange_routes_witness :
  page (App.onAuthStateChange App.SIGNED_IN (Some (sessionOf "u-t" "tina"))
          (profileOf "tina" Role.therapist) noResult initial) = Page.therapist_dashboard.
Proof.
  exact (proj2 (proj2 (App.onAuthStateChange_routes (profileOf "tina" Role.therapist) noResult
                         initial (sessionOf "u-t" "tina")
                         {| App.full_name := Some "tina"; App.role := Role.therapist;
                            App.therapist_id := None |} [] eq_refl eq_refl))).
Defined.

Lemma page_partition_witness :
  ProfilePage.upcomingBookings today [bookingX; bookingY] ++
  ProfilePage.pastBookings today [bookingX; bookingY] ≡ₚ [bookingX; bookingY].
Proof.
  apply ProfilePage.page_partition. repeat constructor; [exact detailsA_valid | exact detailsD_valid].
Defined.

Lemma submitted_complete_witness :
  PatientIntakeForm.complete (PatientIntakeForm.formData intakeFilled).
Proof.
  destruct (PatientIntakeForm.submitted_complete "alice" intakeFilled
              (PatientIntakeForm.setError "" intakeFilled)
              (PatientIntakeForm.formData intakeFilled)) as [H _]; [| reflexivity | reflexivity | exact H].
  apply (PatientIntakeForm.run_reachable "alice" intakeTrace). reflexivity.
Defined.

Lemma render_rated_witness :
  ∃ v, TherapistCard.render therapistA = Some v ∧ length (TherapistCard.stars v) = 5%nat.
Proof.
  destruct (TherapistCard.render_rated therapistA) as (v & Hv & Hl & _);
    [by vm_compute | by vm_compute |].
  by exists v.
Defined.

Lemma render_off_scale_witness : StarRating.render (11 # 2) 5 = None.
Proof. apply StarRating.render_off_scale. right. by vm_compute. Defined.

Lemma upcomingBookings_keeps_cancelled_witness :
  bookingCancelled ∈ TherapistDashboard.upcomingBookings today [bookingCancelled; bookingY] ∧
  bookingCancelled ∉ ProfilePage.upcomingBookings today [bookingCancelled; bookingY].
Proof.
  apply TherapistDashboard.upcomingBookings_keeps_cancelled;
    [rewrite elem_of_cons; by left | by vm_compute | reflexivity].
Defined.

Lemma bookingId_inj_witness :
  1741000000123 = 1741000000123 ∧ Therapist.id therapistA = Therapist.id therapistA.
Proof.
  apply (bookingId_inj 1741000000123 1741000000123 therapistA therapistA); [lia | lia | reflexivity].
Defined.

Lemma upcomingBookings_sorted_witness :
  ProfilePage.upcomingBookings today [bookingX; bookingY] =
    List.filter (ProfilePage.isUpcoming today) [bookingX; bookingY] ∧
  sorted byDate (ProfilePage.upcomingBookings today [bookingX; bookingY]).
Proof.
  apply ProfilePage.upcomingBookings_sorted.
  apply (bool_decide_unpack (wf_bookings [bookingX; bookingY])). by vm_compute.
Defined.

Lemma offers_only_upcoming_witness :
  ∃ b, b ∈ [bookingX] ∧ Booking.id b = "1741000000123-2" ∧
       Booking.status b ≠ Some Status.cancelled.
Proof.
  destruct (ProfilePage.offers_only_upcoming today [bookingX] BookingCard.Cancel
              "1741000000123-2") as (b & t & Hb & Hi & _ & _ & Hs); [by vm_compute|].
  by exists b.
Defined.

Lemma profileSection_own_bookings_witness :
  sublist [bookingX] (bookings (setBookings [bookingX] (setPage Page.profile (booking therapistA)))).
Proof.
  exact (proj1 (proj2 (proj2 (proj2
           (AppView.profileSection_own_bookings
              (setBookings [bookingX] (setPage Page.profile (booking therapistA)))
              (AppView.mkProfileProps alice [bookingX]) eq_refl))))).
Defined.

Lemma handleConfirmDelete_spec_witness :
  isDeleteModalOpen (App.handleConfirmDelete (setTherapistToDelete (Some therapistA) initial)
                       (setTherapists mock initial)) = false.
Proof.
  exact (proj1 (proj2 (proj2 (proj2
           (App.handleConfirmDelete_spec (setTherapistToDelete (Some therapistA) initial)
              (setTherapists mock initial) therapistA eq_refl))))).
Defined.

Lemma handleOpenBookingModal_signed_out_witness :
  isAuthModalOpen (App.handleOpenBookingModal initial therapistA initial) = true.
Proof.
  exact (proj1 (App.handleOpenBookingModal_signed_out initial initial therapistA eq_refl)).
Defined.

Lemma handleDateChange_local_date_witness :
  ∃ date ms,
    BookingModal.selectedDate (BookingModal.handleDateChange "2025-03-10" formFilled) =
      Some date ∧
    JsDate.getTime date = Some ms ∧ civilFromDays (localDay ms) = (2025, 3, 10).
Proof.
  apply (BookingModal.handleDateChange_local_date (LT := utcTime) "2025-03-10" formFilled
           2025 3 10); [done | by vm_compute | by vm_compute | lia | reflexivity].
Defined.

Lemma dashboardSection_own_bookings_witness :
  ∃ u, currentUser
         ((setCurrentUser (Some (User.mk "u-t" "tina" None Role.therapist (Some 2))) ;;
           setPage Page.therapist_dashboard ;; setBookings [bookingX] ;;
           setTherapists mock)%js initial) = Some u ∧
       User.role u = Role.therapist.
Proof.
  destruct (AppView.dashboardSection_own_bookings
              ((setCurrentUser (Some (User.mk "u-t" "tina" None Role.therapist (Some 2))) ;;
                setPage Page.therapist_dashboard ;; setBookings [bookingX] ;;
                setTherapists mock)%js initial)
              (AppView.mkDashboardProps (Some therapistA) [bookingX]))
    as (u & Hu & Hr & _); [by vm_compute|]. by exists u.
Defined.

Lemma creachable_worldVerifying : creachable mock worldVerifying.
Proof.
  by apply (csteps_creachable mock init worldVerifying
              (toPayment ++ [Pay 0 (PaymentModal.PaymentSucceeded (paid "pay_123")) 0]));
    [constructor | vm_compute].
Qed.

Lemma calm_step_refines_witness :
  Spec.run (abs worldVerifying)
    (acts worldVerifying (Pay 0 (PaymentModal.Verified verifiedOk) 1741000000999)) =
  Some (abs worldPaid).
Proof.
  apply (calm_step_refines mock worldVerifying worldPaid
           (Pay 0 (PaymentModal.Verified verifiedOk) 1741000000999)
           creachable_worldVerifying).
  by vm_compute.
Defined.

Lemma calm_run_refines_witness :
  Spec.run Spec.init (trace mock init traceB) = Some (abs worldPaid).
Proof. apply (calm_run_refines mock worldPaid traceB). by vm_compute. Defined.

Lemma calm_run_bookings_witness :
  length (bookings (app worldPaid)) = Spec.count Spec.books (trace mock init traceB).
Proof. apply (calm_run_bookings mock worldPaid traceB). by vm_compute. Defined.

Lemma calm_run_intents_witness :
  ((if Spec.holdsIntent (stage worldPaid) then 1 else 0) +
     Spec.count Spec.releases (trace mock init traceB) =
   Spec.count Spec.takes (trace mock init traceB))%nat.
Proof. apply (calm_run_intents mock worldPaid traceB). by vm_compute. Defined.

Lemma calm_run_follows_witness : follows mock traceB = true.
Proof. apply (calm_run_follows mock worldPaid traceB). by vm_compute. Defined.

Lemma frontOf_spec_witness :
  Layers.mounted bothOpen Layers.oConfirmation = true ∧
  Layers.rank Layers.oBooking ≤ Layers.rank Layers.oConfirmation.
Proof.
  destruct (Layers.frontOf_spec (Layers.mounted bothOpen) Layers.oConfirmation)
    as [Hm Hmax]; [by vm_compute|].
  split; [done|]. apply Hmax. by vm_compute.
Defined.

Lemma calm_never_stuck_witness :
  ∃ w', csteps mock worldVerifying [User 0 Events.PaymentClose] = Some w' ∧
        stage w' = Spec.Idle.
Proof.
  destruct (calm_never_stuck mock worldVerifying creachable_worldVerifying)
    as (w' & Hrun & Hs & _).
  by exists w'.
Defined.

End Scenarios.
