(* ===== verification/PageScenarios.v ===== *)
(** * PageScenarios: the pages run on concrete inputs

    Sample runs of the registration page, of the authentication modal,
    of the order function and of the pages under [App], and the
    theorems of those components applied to them. *)

From Stdlib Require Import ZArith Lia QArith.
From stdpp Require Import base tactics option list strings.
From S2P Require Import Prelude Types JsArray JsString JsTime BookingList ProfilePage.
From S2P Require Import TherapistViews IntakeWizard DirectoryPages TherapistRegistration.
From S2P Require Import BookingModal PaymentModal OrderFunction OrderCall AppState AuthForms.
From S2P Require Import AppHandlers AppView AppEvents AppPages AuthFlow Scenarios.

#[local] Open Scope Z_scope.

Module PageScenarios.

(** ** Definitions: the registration page *)

Definition SPECIALTIES : list string := ["Orthopedic"; "Neurological"; "Sports Injury"].

Definition createObjectURL (f : TherapistRegistrationPage.File) : string := "blob:" +:+ f.

Definition createProps : TherapistRegistrationPage.Props :=
  TherapistRegistrationPage.mkProps None true.

Definition mounted : TherapistRegistrationPage.World :=
  TherapistRegistrationPage.mkWorld TherapistRegistrationPage.initial None.

(** A new therapist fills in the form and submits it. *)
Definition fillIn : list TherapistRegistrationPage.Event :=
  [TherapistRegistrationPage.Input TherapistRegistrationPage.Name "Dr. Asha Rao";
   TherapistRegistrationPage.Input TherapistRegistrationPage.Email "asha@example.com";
   TherapistRegistrationPage.Input TherapistRegistrationPage.Password "secret";
   TherapistRegistrationPage.Input TherapistRegistrationPage.Title "Physiotherapist";
   TherapistRegistrationPage.Input TherapistRegistrationPage.Location "Pune";
   TherapistRegistrationPage.Input TherapistRegistrationPage.Description "Ten years of practice.";
   TherapistRegistrationPage.Input TherapistRegistrationPage.Qualifications "BPT, MPT";
   TherapistRegistrationPage.Input TherapistRegistrationPage.Experience "0";
   TherapistRegistrationPage.Input TherapistRegistrationPage.ClinicName "Rao Physio";
   TherapistRegistrationPage.Input TherapistRegistrationPage.ClinicAddress "4 Hill Road";
   TherapistRegistrationPage.Input TherapistRegistrationPage.Phone "9876543210";
   TherapistRegistrationPage.SpecialtyChange "Orthopedic";
   TherapistRegistrationPage.PhotoChange ["front.png"];
   TherapistRegistrationPage.Submit].

Definition runPage (props : TherapistRegistrationPage.Props)
    (es : list TherapistRegistrationPage.Event) (w : TherapistRegistrationPage.World)
    : TherapistRegistrationPage.World * list TherapistRegistrationPage.Callback :=
  default (w, []) (TherapistRegistrationPage.run SPECIALTIES createObjectURL props es w).

(** The page while the photo of the submission is read. *)
Definition submitting : TherapistRegistrationPage.World :=
  Eval vm_compute in (runPage createProps fillIn mounted).1.

(** The submission that waits. *)
Definition submission : TherapistRegistrationPage.Submission :=
  Eval vm_compute in
    default (TherapistRegistrationPage.mkSubmission TherapistRegistrationPage.emptyForm [] [])
      (TherapistRegistrationPage.waiting submitting).

Definition photosRead : TherapistRegistrationPage.Event :=
  TherapistRegistrationPage.PhotosRead 1741000000000 (Some ["data:image/png;base64,AAAA"]).

(** The page and the callback after the photo is read. *)
Definition settled : TherapistRegistrationPage.World * list TherapistRegistrationPage.Callback :=
  Eval vm_compute in runPage createProps [photosRead] submitting.

(** The therapist handed over. *)
Definition asha : Therapist :=
  Eval vm_compute in
    match settled.2 with
    | [TherapistRegistrationPage.onProfileCreate t] => t
    | _ => Therapist.mk 0 "" None "" "" 0 0 [] "" [] [] [] 0 false 0 0 0 None
    end.

(** The page that edits that therapist. *)
Definition editProps : TherapistRegistrationPage.Props :=
  TherapistRegistrationPage.mkProps (Some asha) true.

Definition ashaClinic : Clinic :=
  Eval vm_compute in default (Scenarios.clinic None) (Therapist.clinic asha).

Definition editMounted : TherapistRegistrationPage.State :=
  Eval vm_compute in
    default TherapistRegistrationPage.initial (TherapistRegistrationPage.mount editProps).

(** [App] on the registration page. *)
Definition registering : AppState :=
  App.handleShowTherapistRegistration (setTherapists Scenarios.mock initial).

(** ** Definitions: the authentication modal *)

(** A visitor asks for a code by telephone, and the code is sent. *)
Definition otpEvents : list AuthModal.Event :=
  [AuthModal.ToggleMethod; AuthModal.Type_ AuthModal.PhoneInput "9876543210";
   AuthModal.Submit; AuthModal.Settle 0 (AuthModal.Succeeded false)].

Definition otpSent : AuthModal.World :=
  Eval vm_compute in
    default (AuthModal.start AuthMode.login)
      (AuthModal.run otpEvents (AuthModal.start AuthMode.login)).

(** ** Definitions: signing in *)

Definition ashaUser : App.SessionUser :=
  {| App.su_id := "u-asha"; App.su_email := Some "asha@example.com"; App.su_phone := None;
     App.su_full_name := Some "Asha Rao" |}.

(** The accounts of the service: one, confirmed. *)
Definition accounts : list AuthFlow.Account :=
  [AuthFlow.mkAccount "asha@example.com" "secret" ashaUser true].

Definition mountedApp : AuthFlow.World (list AuthFlow.Account) :=
  AuthFlow.mkWorld initial [] accounts.

Definition runFlow (ls : list AuthFlow.Label) (w : AuthFlow.World (list AuthFlow.Account))
    : AuthFlow.World (list AuthFlow.Account) :=
  default w (AuthFlow.run ls w).

(** The visitor opens the login form and fills it in. *)
Definition loginTrace : list AuthFlow.Label :=
  [AuthFlow.Open AuthMode.login;
   AuthFlow.Modal (AuthModal.Type_ AuthModal.EmailInput "asha@example.com ");
   AuthFlow.Modal (AuthModal.Type_ AuthModal.PasswordInput "secret")].

Definition loginFilled : AuthFlow.World (list AuthFlow.Account) :=
  Eval vm_compute in runFlow loginTrace mountedApp.

Definition loginModal : AuthFlow.Instance :=
  Eval vm_compute in
    default (AuthFlow.mkInstance (AuthModal.start AuthMode.login) [])
      (head (AuthFlow.instances loginFilled)).

(** The sign-in is in flight. *)
Definition loginSent : AuthFlow.World (list AuthFlow.Account) :=
  Eval vm_compute in runFlow [AuthFlow.Modal AuthModal.Submit] loginFilled.

Definition therapistRow : App.ProfileResult := Scenarios.profileOf "Asha Rao" Role.therapist.

Definition loginAnswer : AuthFlow.Label := AuthFlow.Answer 0 0 therapistRow Scenarios.noResult.

Definition signedIn : AuthFlow.World (list AuthFlow.Account) :=
  Eval vm_compute in runFlow [loginAnswer] loginSent.

(** The visitor asks for a code by telephone and types it in. *)
Definition phoneTrace : list AuthFlow.Label :=
  [AuthFlow.Open AuthMode.login; AuthFlow.Modal AuthModal.ToggleMethod;
   AuthFlow.Modal (AuthModal.Type_ AuthModal.PhoneInput "9876543210");
   AuthFlow.Modal AuthModal.Submit;
   AuthFlow.Answer 0 0 Scenarios.noResult Scenarios.noResult;
   AuthFlow.Modal (AuthModal.Type_ AuthModal.OtpInput "123456")].

(** ** Definitions: the order function *)

Definition keys : OrderFunction.Env := OrderFunction.mkEnv (Some "rzp_test_1") (Some "secret").

Definition noKeys : OrderFunction.Env := OrderFunction.mkEnv None None.

Definition order : PaymentModal.Order :=
  {| PaymentModal.order_id := Some "order_1"; PaymentModal.order_amount := 80000;
     PaymentModal.order_currency := "INR"; PaymentModal.order_error := None |}.

Definition gateway (r : OrderFunction.OrderRequest) : OrderFunction.Answer PaymentModal.Order :=
  OrderFunction.Answered true order None.

Definition payment : PaymentModal.Props :=
  {| PaymentModal.amount := 800; PaymentModal.therapist := Scenarios.therapistB;
     PaymentModal.currentUser := Scenarios.alice;
     PaymentModal.bookingDate := "2025-03-10T00:00:00.000Z" |}.

(** ** Definitions: the intake form under [App] *)

Definition intakeOpen : AppState :=
  setBookingForIntake (Some Scenarios.bookingX) (setBookings [Scenarios.bookingX] initial).

Definition intakeForm : IntakeForm := PatientIntakeForm.formData Scenarios.intakeFilled.

(** ** Scenarios *)

(** A code is sent to the telephone of a visitor; the code typed in
    cannot be submitted, and the only call made is the one that sent
    it. *)
Example sent_code_cannot_be_checked :
  AuthModal.isOtpSent (AuthModal.state otpSent) = true ∧
  AuthModal.calls otpSent = [AuthModal.SignInWithOtp "+919876543210"] ∧
  AuthModal.run [AuthModal.Type_ AuthModal.OtpInput "123456"; AuthModal.Submit] otpSent = None ∧
  AuthModal.submitDisabled (AuthModal.state otpSent) = true.
Proof. by vm_compute. Qed.

(** A therapist registered with no years of experience has a profile
    whose line of the experience ends in a stray 0. *)
Example zero_years_profile :
  TherapistProfile.experienceLine asha = "0 Years Experience Overall0".
Proof. by vm_compute. Qed.

(** The address and the password the form requires are not in the
    therapist handed over, and its specialist years are the years typed
    in. *)
Example registered_without_account :
  settled.2 = [TherapistRegistrationPage.onProfileCreate asha] ∧
  Therapist.email asha = None ∧ Therapist.fee asha = 500 ∧
  Therapist.qualifications asha = ["BPT"; "MPT"].
Proof. by vm_compute. Qed.

(** A therapist signs in with a password: the form closes and the
    dashboard opens; the address is sent trimmed. *)
Example therapist_signs_in :
  AuthModal.calls (AuthFlow.modal loginModal) = [] ∧
  AuthFlow.flying <$> AuthFlow.instances loginSent =
    [[AuthModal.SignInWithPassword "asha@example.com" "secret"]] ∧
  User.role <$> currentUser (AuthFlow.app signedIn) = Some Role.therapist ∧
  page (AuthFlow.app signedIn) = Page.therapist_dashboard ∧
  isAuthModalOpen (AuthFlow.app signedIn) = false ∧
  AuthModal.isMounted ∘ AuthFlow.modal <$> AuthFlow.instances signedIn = [false].
Proof. by vm_compute. Qed.

(** By telephone the code is sent, typed in, and cannot be submitted:
    the visitor stays a visitor. *)
Example telephone_sign_in_stuck :
  (∃ w, AuthFlow.run phoneTrace mountedApp = Some w ∧
        currentUser (AuthFlow.app w) = None ∧
        AuthFlow.step (AuthFlow.Modal AuthModal.Submit) w = None) ∧
  AuthFlow.run (phoneTrace ++ [AuthFlow.Modal AuthModal.Submit]) mountedApp = None.
Proof. split; [eexists; split_and!|]; by vm_compute. Qed.

(** ** Witnesses *)
Lemma reachable_loginFilled : AuthFlow.reachable accounts loginFilled.
Proof.
  apply (AuthFlow.flow_run_reachable accounts loginTrace mountedApp);
    [constructor | by vm_compute].
Qed.

Lemma reachable_loginSent : AuthFlow.reachable accounts loginSent.
Proof.
  apply (AuthFlow.flow_run_reachable accounts [AuthFlow.Modal AuthModal.Submit] loginFilled);
    [apply reachable_loginFilled | by vm_compute].
Qed.

Lemma user_only_by_email_witness :
  ∃ i k profiles inserted x c,
    loginAnswer = AuthFlow.Answer i k profiles inserted ∧
    AuthFlow.instances loginSent !! i = Some x ∧ AuthFlow.flying x !! k = Some c ∧
    AuthFlow.byEmail c = true ∧
    AuthFlow.succeeded
      (AuthFlow.outcome (AuthFlow.reply c (AuthFlow.service loginSent)).2) = true.
Proof.
  apply (AuthFlow.user_only_by_email accounts loginSent signedIn loginAnswer
           (App.profileUser ashaUser "Asha Rao"
              (App.mkProfile (Some "Asha Rao") Role.therapist None))).
  - apply reachable_loginSent.
  - by vm_compute.
  - reflexivity.
  - by vm_compute.
Defined.

Lemma password_sign_in_witness :
  ∃ w', AuthFlow.run [AuthFlow.Modal AuthModal.Submit; loginAnswer] loginFilled = Some w' ∧
    isAuthModalOpen (AuthFlow.app w') = false ∧
    Forall (λ y, AuthModal.isMounted (AuthFlow.modal y) = false) (AuthFlow.instances w') ∧
    (∃ user, currentUser (AuthFlow.app w') = Some user ∧ User.role user = Role.therapist) ∧
    page (AuthFlow.app w') = Page.therapist_dashboard.
Proof.
  apply (AuthFlow.password_sign_in accounts loginFilled loginModal [] "asha@example.com "
           "secret" therapistRow Scenarios.noResult
           (App.mkProfile (Some "Asha Rao") Role.therapist None) []).
  - apply reachable_loginFilled.
  - reflexivity.
  - by split.
  - by vm_compute.
  - reflexivity.
  - reflexivity.
Defined.

Lemma reachable_submitting :
  TherapistRegistrationPage.reachable SPECIALTIES createObjectURL createProps submitting [].
Proof.
  apply (TherapistRegistrationPage.page_run_reachable SPECIALTIES createObjectURL
           createProps fillIn mounted submitting [] []); [by constructor | by vm_compute].
Qed.

Lemma reachable_settled :
  TherapistRegistrationPage.reachable SPECIALTIES createObjectURL createProps settled.1
    [TherapistRegistrationPage.onProfileCreate asha].
Proof.
  apply (TherapistRegistrationPage.page_run_reachable SPECIALTIES createObjectURL
           createProps [photosRead] submitting settled.1 []
           [TherapistRegistrationPage.onProfileCreate asha]);
    [apply reachable_submitting | by vm_compute].
Qed.

Lemma reachable_otpSent : AuthModal.reachable AuthMode.login otpSent.
Proof.
  apply (AuthModal.modal_run_reachable AuthMode.login otpEvents (AuthModal.start AuthMode.login));
    [constructor | by vm_compute].
Qed.

Lemma otp_never_verified_witness :
  Forall (λ c, AuthModal.isVerifyOtp c = false ∧ AuthModal.isUpdateUser c = false)
    (AuthModal.calls otpSent) ∧
  (AuthModal.isOtpSent (AuthModal.state otpSent) = true →
   AuthModal.mode (AuthModal.state otpSent) ≠ AuthModal.Mode.forgot →
   AuthModal.offered otpSent AuthModal.Submit = false).
Proof. apply (AuthModal.otp_never_verified AuthMode.login otpSent reachable_otpSent). Defined.

Lemma registration_creates_witness :
  ∃ t, therapists (Pages.forward 1741000000555
                     (Some (TherapistRegistrationPage.onProfileCreate asha))
                     registering registering) = therapists registering ++ [t] ∧
       page (Pages.forward 1741000000555
               (Some (TherapistRegistrationPage.onProfileCreate asha))
               registering registering) = Page.browse ∧
       Therapist.id t = 1741000000555 ∧ Therapist.fee t = 500 ∧
       BookingModal.onlinePaymentAvailable t = false ∧
       ∀ st, is_Some (TherapistProfile.render t st).
Proof.
  apply (Pages.registration_creates SPECIALTIES createObjectURL 1741000000555
           registering registering createProps submitting settled.1 photosRead
           (TherapistRegistrationPage.onProfileCreate asha)).
  - reflexivity.
  - apply (TherapistRegistrationPage.page_reachable_Inv _ _ _ _ _ reachable_submitting).
  - by vm_compute.
  - discriminate.
Defined.

Lemma reachable_Submitted_witness :
  TherapistRegistrationPage.Submitted asha ∧
  TherapistRegistrationPage.isEditMode createProps &&
    TherapistRegistrationPage.hasProfileUpdate createProps = false.
Proof.
  apply (TherapistRegistrationPage.reachable_Submitted SPECIALTIES createObjectURL
           createProps settled.1 [TherapistRegistrationPage.onProfileCreate asha]
           (TherapistRegistrationPage.onProfileCreate asha) reachable_settled).
  apply list_elem_of_singleton. reflexivity.
Defined.

Lemma submit_rejected_witness :
  ∃ m, TherapistRegistrationPage.step SPECIALTIES createObjectURL createProps
         TherapistRegistrationPage.Submit mounted =
       Some (TherapistRegistrationPage.mkWorld
               (TherapistRegistrationPage.setError m (TherapistRegistrationPage.state mounted))
               None, None) ∧
       m ≠ "" ∧
       TherapistRegistrationPage.validate createProps (TherapistRegistrationPage.state mounted) =
         Err m.
Proof.
  apply (TherapistRegistrationPage.submit_rejected SPECIALTIES createObjectURL createProps mounted).
  - reflexivity.
  - intros [_ H]. by apply H.
Defined.

Lemma edit_unchanged_witness :
  ∃ w, TherapistRegistrationPage.run SPECIALTIES createObjectURL editProps
         [TherapistRegistrationPage.Submit; TherapistRegistrationPage.PhotosRead 1741000000777 (Some [])]
         (TherapistRegistrationPage.mkWorld editMounted None) =
       Some (w, [TherapistRegistrationPage.onProfileUpdate
                   (TherapistRegistrationPage.saved asha ashaClinic)]) ∧
       TherapistRegistrationPage.isSubmitting (TherapistRegistrationPage.state w) = false ∧
       TherapistRegistrationPage.waiting w = None.
Proof.
  apply (TherapistRegistrationPage.edit_unchanged SPECIALTIES createObjectURL editProps asha
           ashaClinic editMounted 1741000000777).
  - reflexivity.
  - reflexivity.
  - split; try done. by eexists.
  - repeat constructor.
  - reflexivity.
Defined.

Lemma createOrder_opens_checkout_witness :
  ∃ r, OrderCall.asked id keys gateway payment 1741000000200 = [r] ∧
       OrderFunction.order_amount r = Some (100 * PaymentModal.amount payment) ∧
       OrderFunction.order_currency r = "INR" ∧
       ∀ order d oid,
         gateway r = OrderFunction.Answered true order d →
         PaymentModal.order_id order = Some oid → oid ≠ "" →
         opt_truthy (PaymentModal.order_error order) = false →
         ∃ update,
           PaymentModal.react payment PaymentModal.CreatingOrder
             (PaymentModal.OrderCreated
                (OrderCall.createOrder id keys gateway payment 1741000000200)) =
           Some (PaymentModal.CheckoutOpen oid, update,
                 [PaymentModal.OpenCheckout (PaymentModal.checkoutOptions payment order oid)]).
Proof.
  apply (OrderCall.createOrder_opens_checkout id keys gateway payment 1741000000200
           "rzp_test_1" "secret"); done.
Defined.

Lemma createOrder_failure_witness :
  PaymentModal.checkOrder (OrderCall.createOrder id noKeys gateway payment 1741000000200) =
    Err OrderCall.msgFunctionFailed ∧
  ∀ st ph update cmds,
    PaymentModal.react payment PaymentModal.CreatingOrder
      (PaymentModal.OrderCreated (OrderCall.createOrder id noKeys gateway payment 1741000000200)) =
      Some (ph, update, cmds) →
    ph = PaymentModal.Ended ∧ PaymentModal.error (update st) = OrderCall.msgFunctionFailed.
Proof.
  apply (OrderCall.createOrder_failure id noKeys gateway payment 1741000000200).
  by vm_compute.
Defined.

Lemma created_after_back_witness :
  TherapistRegistrationPage.step SPECIALTIES createObjectURL createProps
    TherapistRegistrationPage.Back submitting =
    Some (submitting, Some TherapistRegistrationPage.onBack) ∧
  let s1 := Pages.forward 1741000000100 (Some TherapistRegistrationPage.onBack)
              registering registering in
  Pages.registrationProps s1 = None ∧
  ∃ w' t, TherapistRegistrationPage.step SPECIALTIES createObjectURL createProps
            (TherapistRegistrationPage.PhotosRead 1741000000100
               (Some ["data:image/png;base64,AAAA"])) submitting =
            Some (w', Some (TherapistRegistrationPage.onProfileCreate t)) ∧
    Events.offered Scenarios.today s1
      (Pages.registrationEvent 1741000000200 (TherapistRegistrationPage.onProfileCreate t)) =
      false ∧
    therapists (Pages.forward 1741000000200
                  (Some (TherapistRegistrationPage.onProfileCreate t)) s1 s1) =
      therapists registering ++ [App.withId 1741000000200 t].
Proof.
  apply (Pages.created_after_back SPECIALTIES createObjectURL Scenarios.today 1741000000100
           1741000000200 registering createProps submitting
           submission ["data:image/png;base64,AAAA"]); reflexivity.
Defined.

Lemma submitted_form_shown_witness :
  let s1 := Events.dispatch (Events.IntakeSubmit intakeForm) intakeOpen intakeOpen in
  let s2 := Events.dispatch
              (Events.CardClick BookingCard.ViewForm (Booking.id Scenarios.bookingX)) s1 s1 in
  AppView.viewIntakeModalProps s2 = Some intakeForm ∧
  Pages.viewIntakeRows s2 = ViewIntakeFormModal.rows (Some intakeForm).
Proof.
  apply (Pages.submitted_form_shown intakeOpen intakeOpen Scenarios.bookingX intakeForm);
    [reflexivity | by eexists].
Defined.


End PageScenarios.
